(** * Spectrum analyser of the UV-K1 custom firmware: a shallow embedding

    This development embeds the scan engine of [App/app/spectrum.c] in Rocq
    and settles the properties that the specification states about it.

    Conventions of the embedding.
    - C integers are [Z]; every store into a [uint8_t], [uint16_t] or
      [uint32_t] object is wrapped explicitly with [u8], [u16] or [u32].
    - C arrays are lists; the globals of the translation unit are the fields
      of one record, [Session], and a C function that mutates globals is a
      function [Session -> Session].
    - Accesses to [rssiHistory] made with a computed index go through the
      checked operations [rd] and [wr]; a function that performs one returns
      an [Outcome], which is either the new session or the index of the
      first access that leaves the 128 entries of the array.
    - What the hardware returns (the RSSI sample, the squelch-tail flag, the
      500 ms time slice) is an argument of the function that asks for it.
      Register writes and text rendering are outside the model; the frame
      buffer appears only as the argument of [DrawWaterfall] and
      [DrawArrow]. *)

From Stdlib Require Import ZArith Lia Bool List Ascii.
From stdpp Require Import base option list.
Import ListNotations.

Local Open Scope Z_scope.

(** ** Machine integers *)

Definition u8 (x : Z) : Z := x mod 256.
Definition u16 (x : Z) : Z := x mod 65536.
Definition u32 (x : Z) : Z := x mod 4294967296.

(** [for (i = 0; i < n; ++i) body(i)]: the body runs for 0, 1, ..., n-1. *)
Fixpoint for_loop {S : Type} (n : nat) (body : nat -> S -> S) (s : S) : S :=
  match n with
  | O => s
  | S k => body k (for_loop k body s)
  end.
Arguments for_loop : simpl never.

(** ** Outcome of code that indexes [rssiHistory] *)

Inductive Outcome (A : Type) : Type :=
  | Done (a : A)
  | OutOfBounds (idx : Z).
Arguments Done {A} a.
Arguments OutOfBounds {A} idx.

#[global] Instance Outcome_ret : MRet Outcome := fun A a => Done a.
#[global] Instance Outcome_bind : MBind Outcome := fun A B k m =>
  match m with
  | Done a => k a
  | OutOfBounds idx => OutOfBounds idx
  end.

(** ** Build configuration and constants of headers outside this file

    The preprocessor switches of [spectrum.c] are fields of [Config], as are
    the constants that the file takes from other headers: the scan-step
    table and two of its indices, the first non-centred entry and the
    default ([spectrum.h]), the limits of the band table ([frequencies.h])
    and the calibration offset [dBmCorrTable[gRxVfo->Band]] of the band the
    receiver is on. *)

Record Config := mkConfig {
  ENABLE_SCAN_RANGES : bool;
  ENABLE_FEAT_F4HWN : bool;
  ENABLE_FEAT_F4HWN_SPECTRUM : bool;
  SPECTRUM_AUTOMATIC_SQUELCH : bool;
  scanStepValues : list Z;
  S_STEP_2_5kHz : Z;
  S_STEP_25_0kHz : Z;
  F_MIN : Z;
  F_MAX : Z;
  dBmCorr : Z
}.

Definition RSSI_MAX_VALUE : Z := 65535.
Definition SPECTRUM_PEAK_HOLD_TIME : Z := 5.
Definition SPECTRUM_SMOOTH_WINDOW : Z := 3.
Definition WATERFALL_ROWS_PIXELS : nat := 16.

(** Modelled from the spec: [enum StepsCount] of [spectrum.h]. The bin count
    is [2^(7 - selector)], which [GetStepsCount] computes as
    [128 >> settings.stepsCount]; this fixes the values of the enumerators,
    which are named after their bin count. *)
Definition STEPS_128 : Z := 0.
Definition STEPS_64 : Z := 1.
Definition STEPS_32 : Z := 2.
Definition STEPS_16 : Z := 3.

(** Modelled from the spec: [KEY_Code_t] of [driver/keyboard.h], the keys
    that [pollKey] can report. *)
Inductive KEY_Code_t :=
  | KEY_0 | KEY_1 | KEY_2 | KEY_3 | KEY_4 | KEY_5 | KEY_6 | KEY_7 | KEY_8
  | KEY_9 | KEY_MENU | KEY_UP | KEY_DOWN | KEY_EXIT | KEY_STAR | KEY_F
  | KEY_PTT | KEY_SIDE2 | KEY_SIDE1 | KEY_INVALID.

(** The enumerators in the order of the header; [UpdateFreqInput] relies on
    the digits being consecutive from [KEY_0] and on the other keys coming
    after [KEY_9]. *)
Definition key_code (k : KEY_Code_t) : Z :=
  match k with
  | KEY_0 => 0 | KEY_1 => 1 | KEY_2 => 2 | KEY_3 => 3 | KEY_4 => 4
  | KEY_5 => 5 | KEY_6 => 6 | KEY_7 => 7 | KEY_8 => 8 | KEY_9 => 9
  | KEY_MENU => 10 | KEY_UP => 11 | KEY_DOWN => 12 | KEY_EXIT => 13
  | KEY_STAR => 14 | KEY_F => 15 | KEY_PTT => 16 | KEY_SIDE2 => 17
  | KEY_SIDE1 => 18 | KEY_INVALID => 19
  end.

Definition KEY_eqb (a b : KEY_Code_t) : bool := key_code a =? key_code b.

#[global] Instance KEY_Code_t_inhabited : Inhabited KEY_Code_t :=
  populate KEY_0.

(** [enum State]. *)
Inductive State := SPECTRUM | FREQ_INPUT | STILL.

Definition State_eqb (a b : State) : bool :=
  match a, b with
  | SPECTRUM, SPECTRUM | FREQ_INPUT, FREQ_INPUT | STILL, STILL => true
  | _, _ => false
  end.

(** ** The structures *)

Record SpectrumSettings := mkSettings {
  frequencyChangeStep : Z;
  stepsCount : Z;
  scanStepIndex : Z;
  scanDelay : Z;
  rssiTriggerLevel : Z;
  bw : Z;
  listenBw : Z;
  dbMin : Z;
  dbMax : Z;
  modulationType : Z;
  backlightState : bool
}.

Definition set_frequencyChangeStep v (x : SpectrumSettings) : SpectrumSettings :=
  mkSettings v (stepsCount x) (scanStepIndex x) (scanDelay x)
    (rssiTriggerLevel x) (bw x) (listenBw x) (dbMin x) (dbMax x)
    (modulationType x) (backlightState x).
Definition set_stepsCount v (x : SpectrumSettings) : SpectrumSettings :=
  mkSettings (frequencyChangeStep x) v (scanStepIndex x) (scanDelay x)
    (rssiTriggerLevel x) (bw x) (listenBw x) (dbMin x) (dbMax x)
    (modulationType x) (backlightState x).
Definition set_scanStepIndex v (x : SpectrumSettings) : SpectrumSettings :=
  mkSettings (frequencyChangeStep x) (stepsCount x) v (scanDelay x)
    (rssiTriggerLevel x) (bw x) (listenBw x) (dbMin x) (dbMax x)
    (modulationType x) (backlightState x).
Definition set_rssiTriggerLevel v (x : SpectrumSettings) : SpectrumSettings :=
  mkSettings (frequencyChangeStep x) (stepsCount x) (scanStepIndex x)
    (scanDelay x) v (bw x) (listenBw x) (dbMin x) (dbMax x) (modulationType x)
    (backlightState x).
Definition set_listenBw v (x : SpectrumSettings) : SpectrumSettings :=
  mkSettings (frequencyChangeStep x) (stepsCount x) (scanStepIndex x)
    (scanDelay x) (rssiTriggerLevel x) (bw x) v (dbMin x) (dbMax x)
    (modulationType x) (backlightState x).
Definition set_dbMin v (x : SpectrumSettings) : SpectrumSettings :=
  mkSettings (frequencyChangeStep x) (stepsCount x) (scanStepIndex x)
    (scanDelay x) (rssiTriggerLevel x) (bw x) (listenBw x) v (dbMax x)
    (modulationType x) (backlightState x).
Definition set_modulationType v (x : SpectrumSettings) : SpectrumSettings :=
  mkSettings (frequencyChangeStep x) (stepsCount x) (scanStepIndex x)
    (scanDelay x) (rssiTriggerLevel x) (bw x) (listenBw x) (dbMin x) (dbMax x)
    v (backlightState x).

Module ScanInfo.
Record ScanInfo := mk {
  rssi : Z;
  rssiMin : Z;
  rssiMax : Z;
  i : Z;
  iPeak : Z;
  f : Z;
  fPeak : Z;
  scanStep : Z;
  measurementsCount : Z
}.

Definition set_rssi v (x : ScanInfo) : ScanInfo :=
  mk v (rssiMin x) (rssiMax x) (i x) (iPeak x) (f x) (fPeak x) (scanStep
    x) (measurementsCount x).
Definition set_rssiMin v (x : ScanInfo) : ScanInfo :=
  mk (rssi x) v (rssiMax x) (i x) (iPeak x) (f x) (fPeak x) (scanStep x)
    (measurementsCount x).
Definition set_rssiMax v (x : ScanInfo) : ScanInfo :=
  mk (rssi x) (rssiMin x) v (i x) (iPeak x) (f x) (fPeak x) (scanStep x)
    (measurementsCount x).
Definition set_i v (x : ScanInfo) : ScanInfo :=
  mk (rssi x) (rssiMin x) (rssiMax x) v (iPeak x) (f x) (fPeak x)
    (scanStep x) (measurementsCount x).
Definition set_iPeak v (x : ScanInfo) : ScanInfo :=
  mk (rssi x) (rssiMin x) (rssiMax x) (i x) v (f x) (fPeak x) (scanStep x)
    (measurementsCount x).
Definition set_f v (x : ScanInfo) : ScanInfo :=
  mk (rssi x) (rssiMin x) (rssiMax x) (i x) (iPeak x) v (fPeak x)
    (scanStep x) (measurementsCount x).
Definition set_fPeak v (x : ScanInfo) : ScanInfo :=
  mk (rssi x) (rssiMin x) (rssiMax x) (i x) (iPeak x) (f x) v (scanStep x)
    (measurementsCount x).
Definition set_scanStep v (x : ScanInfo) : ScanInfo :=
  mk (rssi x) (rssiMin x) (rssiMax x) (i x) (iPeak x) (f x) (fPeak x) v
    (measurementsCount x).
Definition set_measurementsCount v (x : ScanInfo) : ScanInfo :=
  mk (rssi x) (rssiMin x) (rssiMax x) (i x) (iPeak x) (f x) (fPeak x)
    (scanStep x) v.
End ScanInfo.

Module PeakInfo.
Record PeakInfo := mk {
  t : Z;
  rssi : Z;
  f : Z;
  i : Z
}.

Definition set_t v (x : PeakInfo) : PeakInfo :=
  mk v (rssi x) (f x) (i x).
Definition set_rssi v (x : PeakInfo) : PeakInfo :=
  mk (t x) v (f x) (i x).
Definition set_f v (x : PeakInfo) : PeakInfo :=
  mk (t x) (rssi x) v (i x).
Definition set_i v (x : PeakInfo) : PeakInfo :=
  mk (t x) (rssi x) (f x) v.
End PeakInfo.

Record KeyboardState := mkKeyboardState {
  kbd_current : KEY_Code_t;
  kbd_prev : KEY_Code_t;
  kbd_counter : Z
}.

(** ** The globals of [spectrum.c]

    [gScanRangeStart] and [gScanRangeStop] belong to [chFrScanner.h]; the
    spectrum code only reads them. *)

Record Session := mkSession {
  settings : SpectrumSettings;
  scanInfo : ScanInfo.ScanInfo;
  peak : PeakInfo.PeakInfo;
  kbd : KeyboardState;
  rssiHistory : list Z;
  spectrum_peaks : list Z;
  spectrum_peak_age : list Z;
  spectrum_smoothed : list Z;
  waterfall_rows : list (list Z);
  waterfall_phase : Z;
  waterfall_scan_count : Z;
  blacklistFreqs : list Z;
  blacklistFreqsIdx : Z;
  isListening : bool;
  monitorMode : bool;
  redrawStatus : bool;
  redrawScreen : bool;
  newScanStart : bool;
  preventKeypress : bool;
  audioState : bool;
  lockAGC : bool;
  currentState : State;
  previousState : State;
  fMeasure : Z;
  currentFreq : Z;
  tempFreq : Z;
  freqInputIndex : Z;
  freqInputDotIndex : Z;
  freqInputArr : list KEY_Code_t;
  freqInputString : list ascii;
  menuState : Z;
  listenT : Z;
  statuslineUpdateTimer : Z;
  gScanRangeStart : Z;
  gScanRangeStop : Z
}.

Definition set_settings v (s : Session) : Session :=
  mkSession v (scanInfo s) (peak s) (kbd s) (rssiHistory s) (spectrum_peaks
    s) (spectrum_peak_age s) (spectrum_smoothed s) (waterfall_rows s)
    (waterfall_phase s) (waterfall_scan_count s) (blacklistFreqs s)
    (blacklistFreqsIdx s) (isListening s) (monitorMode s) (redrawStatus s)
    (redrawScreen s) (newScanStart s) (preventKeypress s) (audioState s)
    (lockAGC s) (currentState s) (previousState s) (fMeasure s) (currentFreq
    s) (tempFreq s) (freqInputIndex s) (freqInputDotIndex s) (freqInputArr s)
    (freqInputString s) (menuState s) (listenT s) (statuslineUpdateTimer s)
    (gScanRangeStart s) (gScanRangeStop s).
Definition set_scanInfo v (s : Session) : Session :=
  mkSession (settings s) v (peak s) (kbd s) (rssiHistory s) (spectrum_peaks
    s) (spectrum_peak_age s) (spectrum_smoothed s) (waterfall_rows s)
    (waterfall_phase s) (waterfall_scan_count s) (blacklistFreqs s)
    (blacklistFreqsIdx s) (isListening s) (monitorMode s) (redrawStatus s)
    (redrawScreen s) (newScanStart s) (preventKeypress s) (audioState s)
    (lockAGC s) (currentState s) (previousState s) (fMeasure s) (currentFreq
    s) (tempFreq s) (freqInputIndex s) (freqInputDotIndex s) (freqInputArr s)
    (freqInputString s) (menuState s) (listenT s) (statuslineUpdateTimer s)
    (gScanRangeStart s) (gScanRangeStop s).
Definition set_peak v (s : Session) : Session :=
  mkSession (settings s) (scanInfo s) v (kbd s) (rssiHistory s)
    (spectrum_peaks s) (spectrum_peak_age s) (spectrum_smoothed s)
    (waterfall_rows s) (waterfall_phase s) (waterfall_scan_count s)
    (blacklistFreqs s) (blacklistFreqsIdx s) (isListening s) (monitorMode s)
    (redrawStatus s) (redrawScreen s) (newScanStart s) (preventKeypress s)
    (audioState s) (lockAGC s) (currentState s) (previousState s) (fMeasure s)
    (currentFreq s) (tempFreq s) (freqInputIndex s) (freqInputDotIndex s)
    (freqInputArr s) (freqInputString s) (menuState s) (listenT s)
    (statuslineUpdateTimer s) (gScanRangeStart s) (gScanRangeStop s).
Definition set_kbd v (s : Session) : Session :=
  mkSession (settings s) (scanInfo s) (peak s) v (rssiHistory s)
    (spectrum_peaks s) (spectrum_peak_age s) (spectrum_smoothed s)
    (waterfall_rows s) (waterfall_phase s) (waterfall_scan_count s)
    (blacklistFreqs s) (blacklistFreqsIdx s) (isListening s) (monitorMode s)
    (redrawStatus s) (redrawScreen s) (newScanStart s) (preventKeypress s)
    (audioState s) (lockAGC s) (currentState s) (previousState s) (fMeasure s)
    (currentFreq s) (tempFreq s) (freqInputIndex s) (freqInputDotIndex s)
    (freqInputArr s) (freqInputString s) (menuState s) (listenT s)
    (statuslineUpdateTimer s) (gScanRangeStart s) (gScanRangeStop s).
Definition set_rssiHistory v (s : Session) : Session :=
  mkSession (settings s) (scanInfo s) (peak s) (kbd s) v (spectrum_peaks s)
    (spectrum_peak_age s) (spectrum_smoothed s) (waterfall_rows s)
    (waterfall_phase s) (waterfall_scan_count s) (blacklistFreqs s)
    (blacklistFreqsIdx s) (isListening s) (monitorMode s) (redrawStatus s)
    (redrawScreen s) (newScanStart s) (preventKeypress s) (audioState s)
    (lockAGC s) (currentState s) (previousState s) (fMeasure s) (currentFreq
    s) (tempFreq s) (freqInputIndex s) (freqInputDotIndex s) (freqInputArr s)
    (freqInputString s) (menuState s) (listenT s) (statuslineUpdateTimer s)
    (gScanRangeStart s) (gScanRangeStop s).
Definition set_spectrum_peaks v (s : Session) : Session :=
  mkSession (settings s) (scanInfo s) (peak s) (kbd s) (rssiHistory s) v
    (spectrum_peak_age s) (spectrum_smoothed s) (waterfall_rows s)
    (waterfall_phase s) (waterfall_scan_count s) (blacklistFreqs s)
    (blacklistFreqsIdx s) (isListening s) (monitorMode s) (redrawStatus s)
    (redrawScreen s) (newScanStart s) (preventKeypress s) (audioState s)
    (lockAGC s) (currentState s) (previousState s) (fMeasure s) (currentFreq
    s) (tempFreq s) (freqInputIndex s) (freqInputDotIndex s) (freqInputArr s)
    (freqInputString s) (menuState s) (listenT s) (statuslineUpdateTimer s)
    (gScanRangeStart s) (gScanRangeStop s).
Definition set_spectrum_peak_age v (s : Session) : Session :=
  mkSession (settings s) (scanInfo s) (peak s) (kbd s) (rssiHistory s)
    (spectrum_peaks s) v (spectrum_smoothed s) (waterfall_rows s)
    (waterfall_phase s) (waterfall_scan_count s) (blacklistFreqs s)
    (blacklistFreqsIdx s) (isListening s) (monitorMode s) (redrawStatus s)
    (redrawScreen s) (newScanStart s) (preventKeypress s) (audioState s)
    (lockAGC s) (currentState s) (previousState s) (fMeasure s) (currentFreq
    s) (tempFreq s) (freqInputIndex s) (freqInputDotIndex s) (freqInputArr s)
    (freqInputString s) (menuState s) (listenT s) (statuslineUpdateTimer s)
    (gScanRangeStart s) (gScanRangeStop s).
Definition set_spectrum_smoothed v (s : Session) : Session :=
  mkSession (settings s) (scanInfo s) (peak s) (kbd s) (rssiHistory s)
    (spectrum_peaks s) (spectrum_peak_age s) v (waterfall_rows s)
    (waterfall_phase s) (waterfall_scan_count s) (blacklistFreqs s)
    (blacklistFreqsIdx s) (isListening s) (monitorMode s) (redrawStatus s)
    (redrawScreen s) (newScanStart s) (preventKeypress s) (audioState s)
    (lockAGC s) (currentState s) (previousState s) (fMeasure s) (currentFreq
    s) (tempFreq s) (freqInputIndex s) (freqInputDotIndex s) (freqInputArr s)
    (freqInputString s) (menuState s) (listenT s) (statuslineUpdateTimer s)
    (gScanRangeStart s) (gScanRangeStop s).
Definition set_waterfall_rows v (s : Session) : Session :=
  mkSession (settings s) (scanInfo s) (peak s) (kbd s) (rssiHistory s)
    (spectrum_peaks s) (spectrum_peak_age s) (spectrum_smoothed s) v
    (waterfall_phase s) (waterfall_scan_count s) (blacklistFreqs s)
    (blacklistFreqsIdx s) (isListening s) (monitorMode s) (redrawStatus s)
    (redrawScreen s) (newScanStart s) (preventKeypress s) (audioState s)
    (lockAGC s) (currentState s) (previousState s) (fMeasure s) (currentFreq
    s) (tempFreq s) (freqInputIndex s) (freqInputDotIndex s) (freqInputArr s)
    (freqInputString s) (menuState s) (listenT s) (statuslineUpdateTimer s)
    (gScanRangeStart s) (gScanRangeStop s).
Definition set_waterfall_phase v (s : Session) : Session :=
  mkSession (settings s) (scanInfo s) (peak s) (kbd s) (rssiHistory s)
    (spectrum_peaks s) (spectrum_peak_age s) (spectrum_smoothed s)
    (waterfall_rows s) v (waterfall_scan_count s) (blacklistFreqs s)
    (blacklistFreqsIdx s) (isListening s) (monitorMode s) (redrawStatus s)
    (redrawScreen s) (newScanStart s) (preventKeypress s) (audioState s)
    (lockAGC s) (currentState s) (previousState s) (fMeasure s) (currentFreq
    s) (tempFreq s) (freqInputIndex s) (freqInputDotIndex s) (freqInputArr s)
    (freqInputString s) (menuState s) (listenT s) (statuslineUpdateTimer s)
    (gScanRangeStart s) (gScanRangeStop s).
Definition set_waterfall_scan_count v (s : Session) : Session :=
  mkSession (settings s) (scanInfo s) (peak s) (kbd s) (rssiHistory s)
    (spectrum_peaks s) (spectrum_peak_age s) (spectrum_smoothed s)
    (waterfall_rows s) (waterfall_phase s) v (blacklistFreqs s)
    (blacklistFreqsIdx s) (isListening s) (monitorMode s) (redrawStatus s)
    (redrawScreen s) (newScanStart s) (preventKeypress s) (audioState s)
    (lockAGC s) (currentState s) (previousState s) (fMeasure s) (currentFreq
    s) (tempFreq s) (freqInputIndex s) (freqInputDotIndex s) (freqInputArr s)
    (freqInputString s) (menuState s) (listenT s) (statuslineUpdateTimer s)
    (gScanRangeStart s) (gScanRangeStop s).
Definition set_blacklistFreqs v (s : Session) : Session :=
  mkSession (settings s) (scanInfo s) (peak s) (kbd s) (rssiHistory s)
    (spectrum_peaks s) (spectrum_peak_age s) (spectrum_smoothed s)
    (waterfall_rows s) (waterfall_phase s) (waterfall_scan_count s) v
    (blacklistFreqsIdx s) (isListening s) (monitorMode s) (redrawStatus s)
    (redrawScreen s) (newScanStart s) (preventKeypress s) (audioState s)
    (lockAGC s) (currentState s) (previousState s) (fMeasure s) (currentFreq
    s) (tempFreq s) (freqInputIndex s) (freqInputDotIndex s) (freqInputArr s)
    (freqInputString s) (menuState s) (listenT s) (statuslineUpdateTimer s)
    (gScanRangeStart s) (gScanRangeStop s).
Definition set_blacklistFreqsIdx v (s : Session) : Session :=
  mkSession (settings s) (scanInfo s) (peak s) (kbd s) (rssiHistory s)
    (spectrum_peaks s) (spectrum_peak_age s) (spectrum_smoothed s)
    (waterfall_rows s) (waterfall_phase s) (waterfall_scan_count s)
    (blacklistFreqs s) v (isListening s) (monitorMode s) (redrawStatus s)
    (redrawScreen s) (newScanStart s) (preventKeypress s) (audioState s)
    (lockAGC s) (currentState s) (previousState s) (fMeasure s) (currentFreq
    s) (tempFreq s) (freqInputIndex s) (freqInputDotIndex s) (freqInputArr s)
    (freqInputString s) (menuState s) (listenT s) (statuslineUpdateTimer s)
    (gScanRangeStart s) (gScanRangeStop s).
Definition set_isListening v (s : Session) : Session :=
  mkSession (settings s) (scanInfo s) (peak s) (kbd s) (rssiHistory s)
    (spectrum_peaks s) (spectrum_peak_age s) (spectrum_smoothed s)
    (waterfall_rows s) (waterfall_phase s) (waterfall_scan_count s)
    (blacklistFreqs s) (blacklistFreqsIdx s) v (monitorMode s) (redrawStatus
    s) (redrawScreen s) (newScanStart s) (preventKeypress s) (audioState s)
    (lockAGC s) (currentState s) (previousState s) (fMeasure s) (currentFreq
    s) (tempFreq s) (freqInputIndex s) (freqInputDotIndex s) (freqInputArr s)
    (freqInputString s) (menuState s) (listenT s) (statuslineUpdateTimer s)
    (gScanRangeStart s) (gScanRangeStop s).
Definition set_redrawStatus v (s : Session) : Session :=
  mkSession (settings s) (scanInfo s) (peak s) (kbd s) (rssiHistory s)
    (spectrum_peaks s) (spectrum_peak_age s) (spectrum_smoothed s)
    (waterfall_rows s) (waterfall_phase s) (waterfall_scan_count s)
    (blacklistFreqs s) (blacklistFreqsIdx s) (isListening s) (monitorMode s) v
    (redrawScreen s) (newScanStart s) (preventKeypress s) (audioState s)
    (lockAGC s) (currentState s) (previousState s) (fMeasure s) (currentFreq
    s) (tempFreq s) (freqInputIndex s) (freqInputDotIndex s) (freqInputArr s)
    (freqInputString s) (menuState s) (listenT s) (statuslineUpdateTimer s)
    (gScanRangeStart s) (gScanRangeStop s).
Definition set_redrawScreen v (s : Session) : Session :=
  mkSession (settings s) (scanInfo s) (peak s) (kbd s) (rssiHistory s)
    (spectrum_peaks s) (spectrum_peak_age s) (spectrum_smoothed s)
    (waterfall_rows s) (waterfall_phase s) (waterfall_scan_count s)
    (blacklistFreqs s) (blacklistFreqsIdx s) (isListening s) (monitorMode s)
    (redrawStatus s) v (newScanStart s) (preventKeypress s) (audioState s)
    (lockAGC s) (currentState s) (previousState s) (fMeasure s) (currentFreq
    s) (tempFreq s) (freqInputIndex s) (freqInputDotIndex s) (freqInputArr s)
    (freqInputString s) (menuState s) (listenT s) (statuslineUpdateTimer s)
    (gScanRangeStart s) (gScanRangeStop s).
Definition set_newScanStart v (s : Session) : Session :=
  mkSession (settings s) (scanInfo s) (peak s) (kbd s) (rssiHistory s)
    (spectrum_peaks s) (spectrum_peak_age s) (spectrum_smoothed s)
    (waterfall_rows s) (waterfall_phase s) (waterfall_scan_count s)
    (blacklistFreqs s) (blacklistFreqsIdx s) (isListening s) (monitorMode s)
    (redrawStatus s) (redrawScreen s) v (preventKeypress s) (audioState s)
    (lockAGC s) (currentState s) (previousState s) (fMeasure s) (currentFreq
    s) (tempFreq s) (freqInputIndex s) (freqInputDotIndex s) (freqInputArr s)
    (freqInputString s) (menuState s) (listenT s) (statuslineUpdateTimer s)
    (gScanRangeStart s) (gScanRangeStop s).
Definition set_preventKeypress v (s : Session) : Session :=
  mkSession (settings s) (scanInfo s) (peak s) (kbd s) (rssiHistory s)
    (spectrum_peaks s) (spectrum_peak_age s) (spectrum_smoothed s)
    (waterfall_rows s) (waterfall_phase s) (waterfall_scan_count s)
    (blacklistFreqs s) (blacklistFreqsIdx s) (isListening s) (monitorMode s)
    (redrawStatus s) (redrawScreen s) (newScanStart s) v (audioState s)
    (lockAGC s) (currentState s) (previousState s) (fMeasure s) (currentFreq
    s) (tempFreq s) (freqInputIndex s) (freqInputDotIndex s) (freqInputArr s)
    (freqInputString s) (menuState s) (listenT s) (statuslineUpdateTimer s)
    (gScanRangeStart s) (gScanRangeStop s).
Definition set_audioState v (s : Session) : Session :=
  mkSession (settings s) (scanInfo s) (peak s) (kbd s) (rssiHistory s)
    (spectrum_peaks s) (spectrum_peak_age s) (spectrum_smoothed s)
    (waterfall_rows s) (waterfall_phase s) (waterfall_scan_count s)
    (blacklistFreqs s) (blacklistFreqsIdx s) (isListening s) (monitorMode s)
    (redrawStatus s) (redrawScreen s) (newScanStart s) (preventKeypress s) v
    (lockAGC s) (currentState s) (previousState s) (fMeasure s) (currentFreq
    s) (tempFreq s) (freqInputIndex s) (freqInputDotIndex s) (freqInputArr s)
    (freqInputString s) (menuState s) (listenT s) (statuslineUpdateTimer s)
    (gScanRangeStart s) (gScanRangeStop s).
Definition set_currentState v (s : Session) : Session :=
  mkSession (settings s) (scanInfo s) (peak s) (kbd s) (rssiHistory s)
    (spectrum_peaks s) (spectrum_peak_age s) (spectrum_smoothed s)
    (waterfall_rows s) (waterfall_phase s) (waterfall_scan_count s)
    (blacklistFreqs s) (blacklistFreqsIdx s) (isListening s) (monitorMode s)
    (redrawStatus s) (redrawScreen s) (newScanStart s) (preventKeypress s)
    (audioState s) (lockAGC s) v (previousState s) (fMeasure s) (currentFreq
    s) (tempFreq s) (freqInputIndex s) (freqInputDotIndex s) (freqInputArr s)
    (freqInputString s) (menuState s) (listenT s) (statuslineUpdateTimer s)
    (gScanRangeStart s) (gScanRangeStop s).
Definition set_previousState v (s : Session) : Session :=
  mkSession (settings s) (scanInfo s) (peak s) (kbd s) (rssiHistory s)
    (spectrum_peaks s) (spectrum_peak_age s) (spectrum_smoothed s)
    (waterfall_rows s) (waterfall_phase s) (waterfall_scan_count s)
    (blacklistFreqs s) (blacklistFreqsIdx s) (isListening s) (monitorMode s)
    (redrawStatus s) (redrawScreen s) (newScanStart s) (preventKeypress s)
    (audioState s) (lockAGC s) (currentState s) v (fMeasure s) (currentFreq s)
    (tempFreq s) (freqInputIndex s) (freqInputDotIndex s) (freqInputArr s)
    (freqInputString s) (menuState s) (listenT s) (statuslineUpdateTimer s)
    (gScanRangeStart s) (gScanRangeStop s).
Definition set_fMeasure v (s : Session) : Session :=
  mkSession (settings s) (scanInfo s) (peak s) (kbd s) (rssiHistory s)
    (spectrum_peaks s) (spectrum_peak_age s) (spectrum_smoothed s)
    (waterfall_rows s) (waterfall_phase s) (waterfall_scan_count s)
    (blacklistFreqs s) (blacklistFreqsIdx s) (isListening s) (monitorMode s)
    (redrawStatus s) (redrawScreen s) (newScanStart s) (preventKeypress s)
    (audioState s) (lockAGC s) (currentState s) (previousState s) v
    (currentFreq s) (tempFreq s) (freqInputIndex s) (freqInputDotIndex s)
    (freqInputArr s) (freqInputString s) (menuState s) (listenT s)
    (statuslineUpdateTimer s) (gScanRangeStart s) (gScanRangeStop s).
Definition set_currentFreq v (s : Session) : Session :=
  mkSession (settings s) (scanInfo s) (peak s) (kbd s) (rssiHistory s)
    (spectrum_peaks s) (spectrum_peak_age s) (spectrum_smoothed s)
    (waterfall_rows s) (waterfall_phase s) (waterfall_scan_count s)
    (blacklistFreqs s) (blacklistFreqsIdx s) (isListening s) (monitorMode s)
    (redrawStatus s) (redrawScreen s) (newScanStart s) (preventKeypress s)
    (audioState s) (lockAGC s) (currentState s) (previousState s) (fMeasure s)
    v (tempFreq s) (freqInputIndex s) (freqInputDotIndex s) (freqInputArr s)
    (freqInputString s) (menuState s) (listenT s) (statuslineUpdateTimer s)
    (gScanRangeStart s) (gScanRangeStop s).
Definition set_tempFreq v (s : Session) : Session :=
  mkSession (settings s) (scanInfo s) (peak s) (kbd s) (rssiHistory s)
    (spectrum_peaks s) (spectrum_peak_age s) (spectrum_smoothed s)
    (waterfall_rows s) (waterfall_phase s) (waterfall_scan_count s)
    (blacklistFreqs s) (blacklistFreqsIdx s) (isListening s) (monitorMode s)
    (redrawStatus s) (redrawScreen s) (newScanStart s) (preventKeypress s)
    (audioState s) (lockAGC s) (currentState s) (previousState s) (fMeasure s)
    (currentFreq s) v (freqInputIndex s) (freqInputDotIndex s) (freqInputArr
    s) (freqInputString s) (menuState s) (listenT s) (statuslineUpdateTimer s)
    (gScanRangeStart s) (gScanRangeStop s).
Definition set_freqInputIndex v (s : Session) : Session :=
  mkSession (settings s) (scanInfo s) (peak s) (kbd s) (rssiHistory s)
    (spectrum_peaks s) (spectrum_peak_age s) (spectrum_smoothed s)
    (waterfall_rows s) (waterfall_phase s) (waterfall_scan_count s)
    (blacklistFreqs s) (blacklistFreqsIdx s) (isListening s) (monitorMode s)
    (redrawStatus s) (redrawScreen s) (newScanStart s) (preventKeypress s)
    (audioState s) (lockAGC s) (currentState s) (previousState s) (fMeasure s)
    (currentFreq s) (tempFreq s) v (freqInputDotIndex s) (freqInputArr s)
    (freqInputString s) (menuState s) (listenT s) (statuslineUpdateTimer s)
    (gScanRangeStart s) (gScanRangeStop s).
Definition set_freqInputDotIndex v (s : Session) : Session :=
  mkSession (settings s) (scanInfo s) (peak s) (kbd s) (rssiHistory s)
    (spectrum_peaks s) (spectrum_peak_age s) (spectrum_smoothed s)
    (waterfall_rows s) (waterfall_phase s) (waterfall_scan_count s)
    (blacklistFreqs s) (blacklistFreqsIdx s) (isListening s) (monitorMode s)
    (redrawStatus s) (redrawScreen s) (newScanStart s) (preventKeypress s)
    (audioState s) (lockAGC s) (currentState s) (previousState s) (fMeasure s)
    (currentFreq s) (tempFreq s) (freqInputIndex s) v (freqInputArr s)
    (freqInputString s) (menuState s) (listenT s) (statuslineUpdateTimer s)
    (gScanRangeStart s) (gScanRangeStop s).
Definition set_freqInputArr v (s : Session) : Session :=
  mkSession (settings s) (scanInfo s) (peak s) (kbd s) (rssiHistory s)
    (spectrum_peaks s) (spectrum_peak_age s) (spectrum_smoothed s)
    (waterfall_rows s) (waterfall_phase s) (waterfall_scan_count s)
    (blacklistFreqs s) (blacklistFreqsIdx s) (isListening s) (monitorMode s)
    (redrawStatus s) (redrawScreen s) (newScanStart s) (preventKeypress s)
    (audioState s) (lockAGC s) (currentState s) (previousState s) (fMeasure s)
    (currentFreq s) (tempFreq s) (freqInputIndex s) (freqInputDotIndex s) v
    (freqInputString s) (menuState s) (listenT s) (statuslineUpdateTimer s)
    (gScanRangeStart s) (gScanRangeStop s).
Definition set_freqInputString v (s : Session) : Session :=
  mkSession (settings s) (scanInfo s) (peak s) (kbd s) (rssiHistory s)
    (spectrum_peaks s) (spectrum_peak_age s) (spectrum_smoothed s)
    (waterfall_rows s) (waterfall_phase s) (waterfall_scan_count s)
    (blacklistFreqs s) (blacklistFreqsIdx s) (isListening s) (monitorMode s)
    (redrawStatus s) (redrawScreen s) (newScanStart s) (preventKeypress s)
    (audioState s) (lockAGC s) (currentState s) (previousState s) (fMeasure s)
    (currentFreq s) (tempFreq s) (freqInputIndex s) (freqInputDotIndex s)
    (freqInputArr s) v (menuState s) (listenT s) (statuslineUpdateTimer s)
    (gScanRangeStart s) (gScanRangeStop s).
Definition set_listenT v (s : Session) : Session :=
  mkSession (settings s) (scanInfo s) (peak s) (kbd s) (rssiHistory s)
    (spectrum_peaks s) (spectrum_peak_age s) (spectrum_smoothed s)
    (waterfall_rows s) (waterfall_phase s) (waterfall_scan_count s)
    (blacklistFreqs s) (blacklistFreqsIdx s) (isListening s) (monitorMode s)
    (redrawStatus s) (redrawScreen s) (newScanStart s) (preventKeypress s)
    (audioState s) (lockAGC s) (currentState s) (previousState s) (fMeasure s)
    (currentFreq s) (tempFreq s) (freqInputIndex s) (freqInputDotIndex s)
    (freqInputArr s) (freqInputString s) (menuState s) v
    (statuslineUpdateTimer s) (gScanRangeStart s) (gScanRangeStop s).
Definition set_statuslineUpdateTimer v (s : Session) : Session :=
  mkSession (settings s) (scanInfo s) (peak s) (kbd s) (rssiHistory s)
    (spectrum_peaks s) (spectrum_peak_age s) (spectrum_smoothed s)
    (waterfall_rows s) (waterfall_phase s) (waterfall_scan_count s)
    (blacklistFreqs s) (blacklistFreqsIdx s) (isListening s) (monitorMode s)
    (redrawStatus s) (redrawScreen s) (newScanStart s) (preventKeypress s)
    (audioState s) (lockAGC s) (currentState s) (previousState s) (fMeasure s)
    (currentFreq s) (tempFreq s) (freqInputIndex s) (freqInputDotIndex s)
    (freqInputArr s) (freqInputString s) (menuState s) (listenT s) v
    (gScanRangeStart s) (gScanRangeStop s).

Definition upd_settings (g : SpectrumSettings -> SpectrumSettings)
    (s : Session) : Session := set_settings (g (settings s)) s.
Definition upd_scanInfo (g : ScanInfo.ScanInfo -> ScanInfo.ScanInfo)
    (s : Session) : Session := set_scanInfo (g (scanInfo s)) s.
Definition upd_peak (g : PeakInfo.PeakInfo -> PeakInfo.PeakInfo)
    (s : Session) : Session := set_peak (g (peak s)) s.

(** ** Checked access to [uint16_t rssiHistory[128]] *)

Definition rd (h : list Z) (idx : Z) : Outcome Z :=
  if (0 <=? idx) && (idx <? 128) then Done (h !!! Z.to_nat idx)
  else OutOfBounds idx.

Definition wr (h : list Z) (idx : Z) (v : Z) : Outcome (list Z) :=
  if (0 <=? idx) && (idx <? 128) then Done (<[Z.to_nat idx := v]> h)
  else OutOfBounds idx.

(** ** The functions of [spectrum.c] *)

Section Spectrum.

Variable cfg : Config.

Definition Rssi2DBm (rssi : Z) : Z := rssi / 2 - 160 + dBmCorr cfg.

Definition clamp (v min max : Z) : Z :=
  if v <=? min then min else if v >=? max then max else v.

Definition SetState (state : State) (s : Session) : Session :=
  let s := set_previousState (currentState s) s in
  let s := set_currentState state s in
  let s := set_redrawScreen true s in
  set_redrawStatus true s.

(** [SetF]: the tuned frequency is remembered in [fMeasure]; the register
    traffic that follows is not modelled. *)
Definition SetF (f : Z) (s : Session) : Session := set_fMeasure f s.

Definition IsPeakOverLevel (s : Session) : bool :=
  PeakInfo.rssi (peak s) >=? rssiTriggerLevel (settings s).

Definition ResetPeak (s : Session) : Session :=
  let s := upd_peak (PeakInfo.set_t 0) s in
  upd_peak (PeakInfo.set_rssi 0) s.

Definition IsCenterMode (s : Session) : bool :=
  scanStepIndex (settings s) <? S_STEP_2_5kHz cfg.

(** [scanStepValues[settings.scanStepIndex]]; the index is kept inside the
    table by the code that changes it. *)
Definition GetScanStep (s : Session) : Z :=
  scanStepValues cfg !!! Z.to_nat (scanStepIndex (settings s)).

Definition GetStepsCount (s : Session) : Z :=
  if ENABLE_SCAN_RANGES cfg && negb (gScanRangeStart s =? 0) then
    let range := u32 (gScanRangeStop s - gScanRangeStart s) in
    let step := GetScanStep s in
    u16 (range / step + 1)
  else
    u16 (Z.shiftr 128 (stepsCount (settings s))).

Definition GetBW (s : Session) : Z := u32 (GetStepsCount s * GetScanStep s).

Definition GetFStart (s : Session) : Z :=
  if IsCenterMode s then u32 (currentFreq s - Z.shiftr (GetBW s) 1)
  else currentFreq s.

Definition GetFEnd (s : Session) : Z :=
  if ENABLE_SCAN_RANGES cfg && negb (gScanRangeStart s =? 0) then
    gScanRangeStop s
  else
    u32 (currentFreq s + GetBW s).

Definition TuneToPeak (s : Session) : Session :=
  let s := upd_scanInfo (ScanInfo.set_f (PeakInfo.f (peak s))) s in
  let s := upd_scanInfo (ScanInfo.set_rssi (PeakInfo.rssi (peak s))) s in
  let s := upd_scanInfo (ScanInfo.set_i (PeakInfo.i (peak s))) s in
  SetF (ScanInfo.f (scanInfo s)) s.

Definition ToggleAudio (on : bool) (s : Session) : Session :=
  if Bool.eqb on (audioState s) then s
  else set_audioState on s.

Definition ToggleRX (on : bool) (s : Session) : Session :=
  if ENABLE_FEAT_F4HWN_SPECTRUM cfg && Bool.eqb (isListening s) on then s
  else
    let s := set_isListening on s in
    let s := ToggleAudio on s in
    if on then
      set_listenT (if ENABLE_FEAT_F4HWN_SPECTRUM cfg then 100 else 1000) s
    else s.

(** *** Scan info *)

Definition ResetScanStats (s : Session) : Session :=
  let s := upd_scanInfo (ScanInfo.set_rssi 0) s in
  let s := upd_scanInfo (ScanInfo.set_rssiMax 0) s in
  let s := upd_scanInfo (ScanInfo.set_iPeak 0) s in
  let s := upd_scanInfo (ScanInfo.set_fPeak 0) s in
  let s := set_spectrum_peaks (replicate 128 65535) s in
  let s := set_spectrum_peak_age (replicate 128 0) s in
  let s := set_waterfall_rows
             (replicate WATERFALL_ROWS_PIXELS (replicate 16 0)) s in
  let s := set_waterfall_phase 0 s in
  set_waterfall_scan_count 0 s.

Definition InitScan (s : Session) : Session :=
  let s := ResetScanStats s in
  let s := upd_scanInfo (ScanInfo.set_i 0) s in
  let s := upd_scanInfo (ScanInfo.set_f (GetFStart s)) s in
  let s := upd_scanInfo (ScanInfo.set_scanStep (GetScanStep s)) s in
  upd_scanInfo (ScanInfo.set_measurementsCount (GetStepsCount s)) s.

(** Body of the loop of [ResetBlacklist]. *)
Definition reset_blacklist_slot (i : nat) (s : Session) : Session :=
  if rssiHistory s !!! i =? RSSI_MAX_VALUE
  then set_rssiHistory (<[i := 0]> (rssiHistory s)) s
  else s.

Definition ResetBlacklist (s : Session) : Session :=
  let s := for_loop 128 reset_blacklist_slot s in
  if ENABLE_SCAN_RANGES cfg then
    let s := set_blacklistFreqs (replicate 15 0) s in
    set_blacklistFreqsIdx 0 s
  else s.

Definition RelaunchScan (s : Session) : Session :=
  let s := InitScan s in
  let s := ResetPeak s in
  let s := ToggleRX false s in
  let s :=
    if SPECTRUM_AUTOMATIC_SQUELCH cfg
    then upd_settings (set_rssiTriggerLevel RSSI_MAX_VALUE) s
    else s in
  let s := set_preventKeypress true s in
  upd_scanInfo (ScanInfo.set_rssiMin RSSI_MAX_VALUE) s.

Definition UpdateScanInfo (s : Session) : Session :=
  let s :=
    if ScanInfo.rssi (scanInfo s) >? ScanInfo.rssiMax (scanInfo s) then
      let s := upd_scanInfo
                 (ScanInfo.set_rssiMax (ScanInfo.rssi (scanInfo s))) s in
      let s := upd_scanInfo
                 (ScanInfo.set_fPeak (ScanInfo.f (scanInfo s))) s in
      upd_scanInfo (ScanInfo.set_iPeak (ScanInfo.i (scanInfo s))) s
    else s in
  if ScanInfo.rssi (scanInfo s) <? ScanInfo.rssiMin (scanInfo s) then
    let s := upd_scanInfo
               (ScanInfo.set_rssiMin (ScanInfo.rssi (scanInfo s))) s in
    let s := upd_settings
               (set_dbMin (Rssi2DBm (ScanInfo.rssiMin (scanInfo s)))) s in
    set_redrawStatus true s
  else s.

Definition AutoTriggerLevel (s : Session) : Session :=
  if rssiTriggerLevel (settings s) =? RSSI_MAX_VALUE then
    upd_settings
      (set_rssiTriggerLevel
         (u16 (clamp (ScanInfo.rssiMax (scanInfo s) + 8) 0 RSSI_MAX_VALUE)))
      s
  else s.

Definition UpdatePeakInfoForce (s : Session) : Session :=
  let s := upd_peak (PeakInfo.set_t 0) s in
  let s := upd_peak (PeakInfo.set_rssi (ScanInfo.rssiMax (scanInfo s))) s in
  let s := upd_peak (PeakInfo.set_f (ScanInfo.fPeak (scanInfo s))) s in
  let s := upd_peak (PeakInfo.set_i (ScanInfo.iPeak (scanInfo s))) s in
  AutoTriggerLevel s.

Definition UpdatePeakInfo (s : Session) : Session :=
  if (PeakInfo.f (peak s) =? 0)
     || (PeakInfo.t (peak s) >=? 1024)
     || (PeakInfo.rssi (peak s) <? ScanInfo.rssiMax (scanInfo s))
  then UpdatePeakInfoForce s
  else s.

(** With more than 128 measurements the index is folded onto the 128 slots
    in [uint32_t] fixed point, [128 * 1000 / measurementsCount * idx / 1000],
    and stored in a [uint8_t]. *)
Definition SetRssiHistory (idx rssi : Z) (s : Session) : Outcome Session :=
  if ENABLE_SCAN_RANGES cfg
     && (ScanInfo.measurementsCount (scanInfo s) >? 128)
  then
    let i :=
      u8 (u32 (u32 (128 * 1000 / ScanInfo.measurementsCount (scanInfo s))
               * idx) / 1000) in
    old ← rd (rssiHistory s) i;
    h ← (if (old <? rssi) || isListening s
         then wr (rssiHistory s) i rssi
         else Done (rssiHistory s));
    h ← wr h ((i + 1) mod 128) 0;
    Done (set_rssiHistory h s)
  else
    h ← wr (rssiHistory s) idx rssi;
    Done (set_rssiHistory h s).

(** [Measure]: [sample] is what [GetRssi()] returns. *)
Definition Measure (sample : Z) (s : Session) : Outcome Session :=
  let rssi := u16 sample in
  let s := upd_scanInfo (ScanInfo.set_rssi rssi) s in
  SetRssiHistory (ScanInfo.i (scanInfo s)) rssi s.

(** *** Blacklist *)

Definition IsBlacklisted (idx : Z) (s : Session) : bool :=
  if blacklistFreqsIdx s =? 0 then false
  else existsb (fun b => b =? idx) (take 15 (blacklistFreqs s)).

Definition Blacklist (s : Session) : Outcome Session :=
  let s :=
    if ENABLE_SCAN_RANGES cfg then
      let slot := Z.to_nat (blacklistFreqsIdx s mod 15) in
      let s := set_blacklistFreqs
                 (<[slot := PeakInfo.i (peak s)]> (blacklistFreqs s)) s in
      set_blacklistFreqsIdx (u8 (blacklistFreqsIdx s + 1)) s
    else s in
  s ← SetRssiHistory (PeakInfo.i (peak s)) RSSI_MAX_VALUE s;
  let s := ResetPeak s in
  let s := ToggleRX false s in
  Done (ResetScanStats s).

(** *** Key handlers *)

Definition ToggleStepsCount (s : Session) : Session :=
  let s :=
    if stepsCount (settings s) =? STEPS_128
    then upd_settings (set_stepsCount STEPS_16) s
    else upd_settings (set_stepsCount (stepsCount (settings s) - 1)) s in
  let s := upd_settings (set_frequencyChangeStep (Z.shiftr (GetBW s) 1)) s in
  let s := RelaunchScan s in
  let s := ResetBlacklist s in
  set_redrawScreen true s.

Definition ResetFreqInput (s : Session) : Session :=
  let s := set_tempFreq 0 s in
  for_loop 10 (fun i s =>
    set_freqInputString (<[i := "-"%char]> (freqInputString s)) s) s.

Definition FreqInput (s : Session) : Session :=
  let s := set_freqInputIndex 0 s in
  let s := set_freqInputDotIndex 0 s in
  let s := ResetFreqInput s in
  SetState FREQ_INPUT s.

(** The two summation loops of [UpdateFreqInput] carry [tempFreq] and
    [base]. *)
Definition freq_digit (arr : list KEY_Code_t) (i : Z) : Z :=
  key_code (arr !!! Z.to_nat i) - key_code KEY_0.

Definition UpdateFreqInput (key : KEY_Code_t) (s : Session) : Session :=
  if negb (KEY_eqb key KEY_EXIT) && (freqInputIndex s >=? 10) then s
  else if KEY_eqb key KEY_STAR
          && ((freqInputIndex s =? 0) || negb (freqInputDotIndex s =? 0))
  then s
  else
    let s :=
      if KEY_eqb key KEY_STAR
      then set_freqInputDotIndex (freqInputIndex s) s
      else s in
    let s :=
      if KEY_eqb key KEY_EXIT then
        let s := set_freqInputIndex (u8 (freqInputIndex s - 1)) s in
        if freqInputDotIndex s =? freqInputIndex s
        then set_freqInputDotIndex 0 s
        else s
      else
        let s := set_freqInputArr
                   (<[Z.to_nat (freqInputIndex s) := key]> (freqInputArr s))
                   s in
        set_freqInputIndex (u8 (freqInputIndex s + 1)) s in
    let s := ResetFreqInput s in
    let dotIndex :=
      if freqInputDotIndex s =? 0 then freqInputIndex s
      else freqInputDotIndex s in
    let s :=
      for_loop 10 (fun i s =>
        if Z.of_nat i <? freqInputIndex s then
          let digitKey := freqInputArr s !!! i in
          let c :=
            if key_code digitKey <=? key_code KEY_9
            then ascii_of_nat
                   (Z.to_nat (u8 (48 + key_code digitKey - key_code KEY_0)))
            else "."%char in
          set_freqInputString (<[i := c]> (freqInputString s)) s
        else
          set_freqInputString (<[i := "-"%char]> (freqInputString s)) s) s in
    let '(tf, _) :=
      for_loop (Z.to_nat dotIndex) (fun k '(tf, base) =>
        let i := dotIndex - 1 - Z.of_nat k in
        (u32 (tf + u32 (freq_digit (freqInputArr s) i * base)),
         u32 (base * 10))) (tempFreq s, 100000) in
    let '(tf, _) :=
      if dotIndex <? freqInputIndex s then
        for_loop (Z.to_nat (freqInputIndex s - (dotIndex + 1)))
          (fun k '(tf, base) =>
            let i := dotIndex + 1 + Z.of_nat k in
            (u32 (tf + u32 (freq_digit (freqInputArr s) i * base)),
             base / 10)) (tf, 10000)
      else (tf, 10000) in
    let s := set_tempFreq tf s in
    set_redrawScreen true s.

Definition OnKeyDownFreqInput (key : KEY_Code_t) (s : Session) : Session :=
  match key with
  | KEY_0 | KEY_1 | KEY_2 | KEY_3 | KEY_4 | KEY_5 | KEY_6 | KEY_7 | KEY_8
  | KEY_9 | KEY_STAR =>
      UpdateFreqInput key s
  | KEY_EXIT =>
      if freqInputIndex s =? 0 then SetState (previousState s) s
      else UpdateFreqInput key s
  | KEY_MENU =>
      if (tempFreq s <? F_MIN cfg) || (tempFreq s >? F_MAX cfg) then s
      else
        let s := SetState (previousState s) s in
        let s := set_currentFreq (tempFreq s) s in
        match currentState s with
        | SPECTRUM =>
            let s := ResetBlacklist s in
            RelaunchScan s
        | _ => SetF (currentFreq s) s
        end
  | _ => s
  end.

(** *** Signal conditioning *)

(** One turn of the inner loop of [SmoothSpectrum], for the offset
    [j = k - SPECTRUM_SMOOTH_WINDOW]: a valid value inside [0, bars) adds to
    the sum and to the count. *)
Definition smooth_tap (bars : Z) (smoothed : list Z) (i : Z) (k : nat)
    (acc : Z * Z) : Z * Z :=
  let '(sum, count) := acc in
  let j := Z.of_nat k - SPECTRUM_SMOOTH_WINDOW in
  let idx := i + j in
  if (idx >=? 0) && (idx <? bars) then
    let val := smoothed !!! Z.to_nat idx in
    if negb (val =? RSSI_MAX_VALUE) && (val >? 0)
    then (u32 (sum + val), u8 (count + 1))
    else (sum, count)
  else (sum, count).

(** The inner loop: [j] runs from [-SPECTRUM_SMOOTH_WINDOW] to
    [SPECTRUM_SMOOTH_WINDOW]. *)
Definition smooth_window (bars : Z) (smoothed : list Z) (i : Z) : Z * Z :=
  for_loop 7 (smooth_tap bars smoothed i) (0, 0).

(** [SmoothSpectrum(bars)]; the callers pass at most 128, the length of the
    three arrays it indexes with [i < bars]. *)
Definition SmoothSpectrum (bars : Z) (s : Session) : Session :=
  let s :=
    for_loop (Z.to_nat bars) (fun i s =>
      let src :=
        if bars >? 128
        then Z.to_nat (Z.shiftr (Z.of_nat i) (stepsCount (settings s)))
        else i in
      set_spectrum_smoothed
        (<[i := rssiHistory s !!! src]> (spectrum_smoothed s)) s) s in
  let temp :=
    for_loop (Z.to_nat bars) (fun i temp =>
      let '(sum, count) :=
        smooth_window bars (spectrum_smoothed s) (Z.of_nat i) in
      if count >? 0
      then <[i := u16 (sum / count)]> temp
      else <[i := RSSI_MAX_VALUE]> temp) (replicate 128 0) in
  for_loop (Z.to_nat bars) (fun i s =>
    set_spectrum_smoothed
      (<[i := temp !!! i]> (spectrum_smoothed s)) s) s.

Definition UpdateSpectrumPeaks (bars : Z) (s : Session) : Session :=
  for_loop (Z.to_nat bars) (fun i s =>
    let current := spectrum_smoothed s !!! i in
    let s :=
      if negb (current =? RSSI_MAX_VALUE)
         && ((spectrum_peaks s !!! i =? RSSI_MAX_VALUE)
             || (current >? spectrum_peaks s !!! i))
      then
        let s := set_spectrum_peaks
                   (<[i := current]> (spectrum_peaks s)) s in
        set_spectrum_peak_age (<[i := 0]> (spectrum_peak_age s)) s
      else s in
    if spectrum_peak_age s !!! i <? SPECTRUM_PEAK_HOLD_TIME
    then set_spectrum_peak_age
           (<[i := u8 (spectrum_peak_age s !!! i + 1)]>
              (spectrum_peak_age s)) s
    else set_spectrum_peaks
           (<[i := RSSI_MAX_VALUE]> (spectrum_peaks s)) s) s.

(** [DrawSpectrum], as far as it changes globals: the conditioning buffers
    are rebuilt; the pixels go to the frame buffer. *)
Definition DrawSpectrum (s : Session) : Session :=
  if ENABLE_FEAT_F4HWN cfg then
    let steps := GetStepsCount s in
    let bars := u8 (if steps >? 128 then 128 else steps) in
    UpdateSpectrumPeaks bars (SmoothSpectrum bars s)
  else
    UpdateSpectrumPeaks 128 (SmoothSpectrum 128 s).

(** *** Waterfall *)

Definition gBayer4x4 : list (list Z) :=
  [ [0; 8; 2; 10];
    [12; 4; 14; 6];
    [3; 11; 1; 9];
    [15; 7; 13; 5] ].

(** Body of the loop that moves row [r - 1] to row [r], for [r] from the
    last row down to 1. *)
Definition waterfall_shift_row (k : nat) (s : Session) : Session :=
  let r := (WATERFALL_ROWS_PIXELS - 1 - k)%nat in
  set_waterfall_rows
    (<[r := waterfall_rows s !!! (r - 1)%nat]> (waterfall_rows s)) s.

(** Body of the loop over the 128 columns of the new top row. *)
Definition waterfall_pixel (xn : nat) (s : Session) : Session :=
  let x := Z.of_nat xn in
  let rssi := rssiHistory s !!! xn in
  if rssi =? RSSI_MAX_VALUE then s
  else
    let dbm := Rssi2DBm rssi in
    let dbmin := dbMin (settings s) in
    let dbmax := dbMax (settings s) in
    let dbmax := if dbmax <=? dbmin then dbmin + 1 else dbmax in
    let lev := Z.quot ((dbm - dbmin) * 15) (dbmax - dbmin + 1) in
    let lev := if lev <? 0 then 0 else lev in
    let lev := if lev >? 15 then 15 else lev in
    let bx := Z.land x 3 in
    let by_ := Z.land (waterfall_phase s) 3 in
    if u8 lev >? (gBayer4x4 !!! Z.to_nat by_) !!! Z.to_nat bx then
      let row := waterfall_rows s !!! 0%nat in
      let byte := Z.to_nat (Z.shiftr x 3) in
      let row :=
        <[byte := u8 (Z.lor (row !!! byte) (Z.shiftl 1 (Z.land x 7)))]>
          row in
      set_waterfall_rows (<[0%nat := row]> (waterfall_rows s)) s
    else s.

(** The statements between the two loops: the phase advances, the scan
    counter counts, the top row is cleared. *)
Definition waterfall_advance (s : Session) : Session :=
  let s := set_waterfall_phase (Z.land (waterfall_phase s + 1) 3) s in
  let s := set_waterfall_scan_count (u16 (waterfall_scan_count s + 1)) s in
  set_waterfall_rows (<[0%nat := replicate 16 0]> (waterfall_rows s)) s.

Definition Waterfall_AddLine (s : Session) : Session :=
  let s := for_loop (WATERFALL_ROWS_PIXELS - 1) waterfall_shift_row s in
  let s := waterfall_advance s in
  for_loop 128 waterfall_pixel s.

(** *** The scan loop *)

(** [Scan]: the guard reads [rssiHistory[scanInfo.i]] before anything else. *)
Definition Scan (sample : Z) (s : Session) : Outcome Session :=
  v ← rd (rssiHistory s) (ScanInfo.i (scanInfo s));
  if negb (v =? RSSI_MAX_VALUE)
     && negb (ENABLE_SCAN_RANGES cfg
              && IsBlacklisted (ScanInfo.i (scanInfo s)) s)
  then
    let s := SetF (ScanInfo.f (scanInfo s)) s in
    s ← Measure sample s;
    Done (UpdateScanInfo s)
  else Done s.

Definition NextScanStep (s : Session) : Session :=
  let s := upd_peak (PeakInfo.set_t (u16 (PeakInfo.t (peak s) + 1))) s in
  let s := upd_scanInfo (ScanInfo.set_i (u16 (ScanInfo.i (scanInfo s) + 1)))
             s in
  upd_scanInfo
    (ScanInfo.set_f
       (u32 (ScanInfo.f (scanInfo s) + ScanInfo.scanStep (scanInfo s)))) s.

(** [memset(&rssiHistory[measurementsCount], 0,
            sizeof(rssiHistory) - measurementsCount * sizeof(rssiHistory[0]))]:
    the byte count is computed in the 32-bit [size_t]. *)
Definition clear_unused_bins (mc : Z) (h : list Z) : Outcome (list Z) :=
  let nbytes := u32 (256 - mc * 2) in
  if nbytes =? 0 then Done h
  else if mc + nbytes / 2 <=? 128 then
    Done (for_loop (Z.to_nat (nbytes / 2)) (fun k h =>
            <[(Z.to_nat mc + k)%nat := 0]> h) h)
  else OutOfBounds (Z.max mc 128).

(** The part of [UpdateScan] that runs when the pass is complete, after the
    early return. *)
Definition UpdateScan_complete (s : Session) : Outcome Session :=
  h ← clear_unused_bins (ScanInfo.measurementsCount (scanInfo s))
        (rssiHistory s);
  let s := set_rssiHistory h s in
  let s := set_redrawScreen true s in
  let s := set_preventKeypress false s in
  let s := set_spectrum_peaks (replicate 128 65535) s in
  let s := set_spectrum_peak_age (replicate 128 0) s in
  let s := UpdatePeakInfo s in
  if IsPeakOverLevel s then
    let s := ToggleRX true s in
    Done (TuneToPeak s)
  else
    let s := Waterfall_AddLine s in
    Done (set_newScanStart true s).

Definition UpdateScan (sample : Z) (s : Session) : Outcome Session :=
  s ← Scan sample s;
  if ScanInfo.i (scanInfo s) <? ScanInfo.measurementsCount (scanInfo s)
  then Done (NextScanStep s)
  else UpdateScan_complete s.

Definition UpdateStill (sample : Z) (s : Session) : Outcome Session :=
  s ← Measure sample s;
  let s := set_redrawScreen true s in
  let s := set_preventKeypress false s in
  let s := upd_peak (PeakInfo.set_rssi (ScanInfo.rssi (scanInfo s))) s in
  let s := AutoTriggerLevel s in
  if IsPeakOverLevel s || monitorMode s
  then Done (ToggleRX true s)
  else Done s.

(** [UpdateListening]: [tail] is what [checkIfTailFound()] reports. *)
Definition UpdateListening (sample : Z) (tail : bool) (s : Session)
    : Outcome Session :=
  let s := set_preventKeypress false s in
  let tailFound := ENABLE_FEAT_F4HWN_SPECTRUM cfg && tail in
  let s :=
    if (if ENABLE_FEAT_F4HWN_SPECTRUM cfg then tailFound
        else State_eqb (currentState s) STILL)
    then set_listenT 0 s
    else s in
  if negb (listenT s =? 0) then
    Done (set_listenT (u16 (listenT s - 1)) s)
  else
    s ← Measure sample s;
    let s := upd_peak (PeakInfo.set_rssi (ScanInfo.rssi (scanInfo s))) s in
    let s := set_redrawScreen true s in
    if (IsPeakOverLevel s && negb tailFound) || monitorMode s then
      Done (set_listenT
              (if ENABLE_FEAT_F4HWN_SPECTRUM cfg then 100 else 1000) s)
    else
      let s := ToggleRX false s in
      Done (ResetScanStats s).

(** *** Rendering and the tick *)

(** [Render], as far as it changes globals: only the spectrum view touches
    state of this file, through [DrawSpectrum]. The drawing itself is not
    part of it: the pixel arithmetic of [Rssi2PX], which divides by
    [dbMax - dbMin], and the arrow column, which divides by the bin count,
    are embedded on their own further down, so a [Done] of [Tick] says
    nothing about a division by zero while the screen is drawn. *)
Definition Render (s : Session) : Session :=
  match currentState s with
  | SPECTRUM => DrawSpectrum s
  | FREQ_INPUT => s
  | STILL => s
  end.

(** [HandleUserInput] on an iteration in which [GetKey()] reports
    [KEY_INVALID]: the key state is shifted, the repeat counter is cleared
    and no handler is called. *)
Definition HandleUserInput_idle (s : Session) : Session :=
  set_kbd
    (mkKeyboardState KEY_INVALID (kbd_current (kbd s)) 0) s.

Record TickInput := mkTickInput {
  in_sample : Z;
  in_tail : bool;
  in_timeslice_500ms : bool
}.

(** The first block of [Tick], compiled with [ENABLE_SCAN_RANGES]: [inl] is
    the early return, [inr] falls through to the rest of the tick. *)
Definition Tick_timeslice (inp : TickInput) (s : Session)
    : Session + Session :=
  if ENABLE_SCAN_RANGES cfg && in_timeslice_500ms inp
     && (GetStepsCount s >? 128) && negb (isListening s)
  then
    let s := UpdatePeakInfo s in
    if IsPeakOverLevel s then
      let s := ToggleRX true s in
      inl (TuneToPeak s)
    else
      let s := set_redrawScreen true s in
      inr (set_preventKeypress false s)
  else inr s.

(** The middle of [Tick]: input handling (with no key down) and the start
    of a new pass if one was requested. *)
Definition Tick_prepare (s : Session) : Session :=
  let s := if negb (preventKeypress s) then HandleUserInput_idle s else s in
  if newScanStart s then set_newScanStart false (InitScan s) else s.

(** The dispatch of [Tick] on the listening flag and the mode. *)
Definition Tick_update (inp : TickInput) (s : Session) : Outcome Session :=
  if isListening s && negb (State_eqb (currentState s) FREQ_INPUT)
  then UpdateListening (in_sample inp) (in_tail inp) s
  else match currentState s with
       | SPECTRUM => UpdateScan (in_sample inp) s
       | STILL => UpdateStill (in_sample inp) s
       | FREQ_INPUT => Done s
       end.

(** The end of [Tick]: the status line and the screen are redrawn when
    flagged, the status line also every 4096 ticks. *)
Definition Tick_redraw (s : Session) : Session :=
  let s :=
    if redrawStatus s then
      let s := set_redrawStatus false s in
      set_statuslineUpdateTimer 0 s
    else
      let s := set_statuslineUpdateTimer
                 (u16 (statuslineUpdateTimer s + 1)) s in
      if statuslineUpdateTimer s >? 4096 then
        let s := set_redrawStatus false s in
        set_statuslineUpdateTimer 0 s
      else s in
  if redrawScreen s then set_redrawScreen false (Render s) else s.

(** One iteration of the loop of [APP_RunSpectrum] with no key down. *)
Definition Tick (inp : TickInput) (s : Session) : Outcome Session :=
  match Tick_timeslice inp s with
  | inl s => Done s
  | inr s =>
      s ← Tick_update inp (Tick_prepare s);
      Done (Tick_redraw s)
  end.

(** [Tick] run once per element of [inps], stopping at the first fault. *)
Fixpoint run (inps : list TickInput) (s : Session) : Outcome Session :=
  match inps with
  | [] => Done s
  | inp :: rest => s ← Tick inp s; run rest s
  end.

(** *** Session start *)

(** Modelled from the spec: the first value of the filter bandwidth
    enumeration of [driver/bk4819.h]; no statement below depends on it. *)
Definition BK4819_FILTER_BW_WIDE : Z := 0.

(** The globals as their initialisers leave them. *)
Definition initial_session (rangeStart rangeStop : Z) : Session :=
  {| settings :=
       {| frequencyChangeStep := 80000;
          stepsCount := STEPS_64;
          scanStepIndex := S_STEP_25_0kHz cfg;
          scanDelay := 3200;
          rssiTriggerLevel := 150;
          bw := BK4819_FILTER_BW_WIDE;
          listenBw := BK4819_FILTER_BW_WIDE;
          dbMin := -130;
          dbMax := -50;
          modulationType := 0;
          backlightState := true |};
     scanInfo := ScanInfo.mk 0 0 0 0 0 0 0 0 0;
     peak := PeakInfo.mk 0 0 0 0;
     kbd := mkKeyboardState KEY_INVALID KEY_INVALID 0;
     rssiHistory := replicate 128 0;
     spectrum_peaks := replicate 128 0;
     spectrum_peak_age := replicate 128 0;
     spectrum_smoothed := replicate 128 0;
     waterfall_rows := replicate WATERFALL_ROWS_PIXELS (replicate 16 0);
     waterfall_phase := 0;
     waterfall_scan_count := 0;
     blacklistFreqs := replicate 15 0;
     blacklistFreqsIdx := 0;
     isListening := true;
     monitorMode := false;
     redrawStatus := true;
     redrawScreen := false;
     newScanStart := true;
     preventKeypress := true;
     audioState := true;
     lockAGC := false;
     currentState := SPECTRUM;
     previousState := SPECTRUM;
     fMeasure := 0;
     currentFreq := 0;
     tempFreq := 0;
     freqInputIndex := 0;
     freqInputDotIndex := 0;
     freqInputArr := replicate 10 KEY_0;
     freqInputString := replicate 11 zero;
     menuState := 0;
     listenT := 0;
     statuslineUpdateTimer := 0;
     gScanRangeStart := rangeStart;
     gScanRangeStop := rangeStop |}.

(** [LoadSettings]: [data3] is byte 3 of the settings block in flash. *)
Definition LoadSettings (data3 : Z) (s : Session) : Session :=
  let idx := Z.shiftr (Z.land data3 240) 4 in
  let s := upd_settings
             (set_scanStepIndex
                (if idx >? 14 then S_STEP_25_0kHz cfg else idx)) s in
  let cnt := Z.shiftr (Z.land (Z.land data3 15) 12) 2 in
  let s := upd_settings
             (set_stepsCount (if cnt >? 3 then STEPS_64 else cnt)) s in
  let lbw := Z.land (Z.land data3 15) 3 in
  upd_settings
    (set_listenBw (if lbw >? 2 then BK4819_FILTER_BW_WIDE else lbw)) s.

(** What the radio hands to [APP_RunSpectrum]. *)
Record Startup := mkStartup {
  rx_frequency : Z;
  step_frequency : Z;
  vfo_modulation : Z;
  flash_data3 : Z
}.

(** The first scan step that is at least the VFO step, if there is one. *)
Fixpoint first_step_index (steps : list Z) (wanted : Z) (i : Z)
    : option Z :=
  match steps with
  | [] => None
  | v :: rest =>
      if v >=? wanted then Some i else first_step_index rest wanted (i + 1)
  end.

(** [APP_RunSpectrum] up to its loop. *)
Definition APP_RunSpectrum_init (st : Startup) (s : Session) : Session :=
  let load s :=
    if ENABLE_FEAT_F4HWN_SPECTRUM cfg then LoadSettings (flash_data3 st) s
    else s in
  let s := load s in
  let s :=
    if ENABLE_SCAN_RANGES cfg && negb (gScanRangeStart s =? 0) then
      let s := set_currentFreq (gScanRangeStart s) s in
      let s :=
        match first_step_index (scanStepValues cfg) (step_frequency st) 0
        with
        | Some i => upd_settings (set_scanStepIndex i) s
        | None => s
        end in
      upd_settings (set_stepsCount STEPS_128) s
    else
      set_currentFreq
        (u32 (rx_frequency st - u32 (GetStepsCount s / 2 * GetScanStep s)))
        s in
  let s := load s in
  let s := set_isListening true s in
  let s := set_redrawStatus true s in
  let s := set_redrawScreen true s in
  let s := set_newScanStart true s in
  let s := ToggleRX true s in
  let s := ToggleRX false s in
  let s := upd_settings (set_modulationType (vfo_modulation st)) s in
  let s :=
    if ENABLE_FEAT_F4HWN_SPECTRUM cfg then s
    else upd_settings (set_listenBw BK4819_FILTER_BW_WIDE) s in
  let s := RelaunchScan s in
  let s := set_rssiHistory (replicate 128 0) s in
  let s := set_waterfall_rows
             (replicate WATERFALL_ROWS_PIXELS (replicate 16 0)) s in
  let s := set_waterfall_phase 0 s in
  set_waterfall_scan_count 0 s.

End Spectrum.

Arguments ResetBlacklist : simpl never.
Arguments Waterfall_AddLine : simpl never.
Arguments ResetFreqInput : simpl never.
Arguments UpdateFreqInput : simpl never.
Arguments smooth_window : simpl never.
Arguments SmoothSpectrum : simpl never.
Arguments UpdateSpectrumPeaks : simpl never.

(** ** A build for the examples

    All switches on, the fifteen scan steps from 0.01 kHz to 100 kHz in
    units of 10 Hz, a band from 18 MHz to 1300 MHz. *)

Definition example_config : Config :=
  {| ENABLE_SCAN_RANGES := true;
     ENABLE_FEAT_F4HWN := true;
     ENABLE_FEAT_F4HWN_SPECTRUM := true;
     SPECTRUM_AUTOMATIC_SQUELCH := true;
     scanStepValues :=
       [1; 10; 50; 100; 250; 500; 625; 833; 1000; 1250; 1500; 2000; 2500;
        5000; 10000];
     S_STEP_2_5kHz := 4;
     S_STEP_25_0kHz := 12;
     F_MIN := 1800000;
     F_MAX := 130000000;
     dBmCorr := -15 |}.

(** The session that [APP_RunSpectrum] sets up on 145.500 MHz with the
    bin-count selector at 128 bins and a 25 kHz scan step, outside any scan
    range. *)
Definition example_start : Session :=
  Eval vm_compute in
    APP_RunSpectrum_init example_config
      {| rx_frequency := 14550000; step_frequency := 2500;
         vfo_modulation := 0; flash_data3 := 192 |}
      (initial_session example_config 0 0).

(** ** Notions used in the statements *)

(** The condition under which [UpdatePeakInfo] refreshes the peak. *)
Definition peak_refresh_due (s : Session) : Prop :=
  PeakInfo.f (peak s) = 0
  \/ PeakInfo.t (peak s) >= 1024
  \/ ScanInfo.rssiMax (scanInfo s) > PeakInfo.rssi (peak s).

(** The inputs of the sweep controller. *)
Definition geometry (s : Session) : Z * Z * Z * Z * Z :=
  (stepsCount (settings s), scanStepIndex (settings s), currentFreq s,
   gScanRangeStart s, gScanRangeStop s).

(** The list-level effect of the loop of [ResetBlacklist]. *)
Definition clear_marks (n : nat) (h : list Z) : list Z :=
  for_loop n (fun i h => if h !!! i =? RSSI_MAX_VALUE then <[i := 0]> h
                         else h) h.

Definition next_stepsCount (sc : Z) : Z :=
  if sc =? STEPS_128 then STEPS_16 else sc - 1.

(** The session on which [ToggleStepsCount] relaunches the scan. *)
Definition toggled_settings (cfg : Config) (s : Session) : Session :=
  let s :=
    if stepsCount (settings s) =? STEPS_128
    then upd_settings (set_stepsCount STEPS_16) s
    else upd_settings (set_stepsCount (stepsCount (settings s) - 1)) s in
  upd_settings (set_frequencyChangeStep (Z.shiftr (GetBW cfg s) 1)) s.

(** Every invocation of [ToggleStepsCount] clears the blacklist marks and
    starts a new pass from the recomputed geometry. *)
Definition restarted (cfg : Config) (before after : Session) : Prop :=
  (forall j : nat, (j < 128)%nat ->
     rssiHistory after !!! j
     = if rssiHistory before !!! j =? RSSI_MAX_VALUE then 0
       else rssiHistory before !!! j)
  /\ (ENABLE_SCAN_RANGES cfg = true ->
      blacklistFreqs after = replicate 15 0 /\ blacklistFreqsIdx after = 0)
  /\ ScanInfo.i (scanInfo after) = 0
  /\ ScanInfo.f (scanInfo after) = GetFStart cfg after
  /\ ScanInfo.scanStep (scanInfo after) = GetScanStep cfg after
  /\ ScanInfo.measurementsCount (scanInfo after) = GetStepsCount cfg after.

(** The slot that a folded write goes to. *)
Definition folded_slot (mc idx : Z) : Z := 128000 / mc * idx / 1000.

(** The three loops of [SmoothSpectrum] at the list level, for at most 128
    bars: the copy of the history, the average of the window around bin [i],
    and the temporary array of the averages. *)
Definition smooth_copied (bars : Z) (s : Session) : list Z :=
  for_loop (Z.to_nat bars) (fun i l => <[i := rssiHistory s !!! i]> l)
    (spectrum_smoothed s).

Definition smooth_average (bars : Z) (copied : list Z) (i : nat) : Z :=
  let '(sum, count) := smooth_window bars copied (Z.of_nat i) in
  if count >? 0 then u16 (sum / count) else RSSI_MAX_VALUE.

Definition smooth_temp (bars : Z) (copied : list Z) : list Z :=
  for_loop (Z.to_nat bars) (fun i l => <[i := smooth_average bars copied i]> l)
    (replicate 128 0).

(** The part of the session that decides how the scan loop moves, and the
    waterfall. *)
Record View := mkView {
  v_state : State;
  v_listening : bool;
  v_newScanStart : bool;
  v_geometry : Z * Z * Z * Z * Z;
  v_rows : list (list Z);
  v_phase : Z;
  v_history_length : nat;
  v_i : Z;
  v_count : Z
}.

Definition view (s : Session) : View :=
  {| v_state := currentState s;
     v_listening := isListening s;
     v_newScanStart := newScanStart s;
     v_geometry := geometry s;
     v_rows := waterfall_rows s;
     v_phase := waterfall_phase s;
     v_history_length := length (rssiHistory s);
     v_i := ScanInfo.i (scanInfo s);
     v_count := ScanInfo.measurementsCount (scanInfo s) |}.

(** The session is scanning bin [k] of a 128-bin pass. *)
Definition scanning (cfg : Config) (k : Z) (s : Session) : Prop :=
  currentState s = SPECTRUM
  /\ isListening s = false
  /\ newScanStart s = false
  /\ GetStepsCount cfg s = 128
  /\ length (rssiHistory s) = 128%nat
  /\ ScanInfo.i (scanInfo s) = k
  /\ ScanInfo.measurementsCount (scanInfo s) = 128.

(** The session is about to start a 128-bin pass. *)
Definition pass_start (cfg : Config) (s : Session) : Prop :=
  currentState s = SPECTRUM
  /\ isListening s = false
  /\ newScanStart s = true
  /\ GetStepsCount cfg s = 128
  /\ length (rssiHistory s) = 128%nat.

Definition blank_row : list Z := replicate 16 0.
Definition blank_rows : list (list Z) :=
  replicate WATERFALL_ROWS_PIXELS blank_row.

(** The waterfall and the flag that requests a new pass. *)
Definition wview (s : Session) : list (list Z) * Z * bool :=
  (waterfall_rows s, waterfall_phase s, newScanStart s).

(** No row and no phase of an earlier pass is left. *)
Definition cleared (s : Session) : Prop :=
  waterfall_phase s = 0 /\ waterfall_rows s = blank_rows
  /\ newScanStart s = false.

(** Either the waterfall is blank with phase 0, or a pass has just completed:
    a new pass is requested, the phase is 1 and only the top row may be
    drawn. *)
Definition waterfall_fresh (s : Session) : Prop :=
  (waterfall_phase s = 0 /\ waterfall_rows s = blank_rows)
  \/ (newScanStart s = true /\ waterfall_phase s = 1
      /\ forall r : nat, (1 <= r < 16)%nat ->
           waterfall_rows s !!! r = blank_row).

Definition idle_tick (sample : Z) : TickInput := mkTickInput sample false false.

(** The session after the ticks [inps]; [s] itself if they fault. *)
Definition session_after (cfg : Config) (inps : list TickInput) (s : Session)
    : Session :=
  match run cfg inps s with
  | Done s' => s'
  | OutOfBounds _ => s
  end.

(** Session starts of the example build with other selector settings: 64 and
    16 bins, and centred mode (0.01 kHz steps, 128 bins). *)
Definition example_start64 : Session :=
  Eval vm_compute in
    APP_RunSpectrum_init example_config
      {| rx_frequency := 14550000; step_frequency := 2500;
         vfo_modulation := 0; flash_data3 := 196 |}
      (initial_session example_config 0 0).

Definition example_start16 : Session :=
  Eval vm_compute in
    APP_RunSpectrum_init example_config
      {| rx_frequency := 14550000; step_frequency := 2500;
         vfo_modulation := 0; flash_data3 := 204 |}
      (initial_session example_config 0 0).

Definition example_start_centred : Session :=
  Eval vm_compute in
    APP_RunSpectrum_init example_config
      {| rx_frequency := 14550000; step_frequency := 2500;
         vfo_modulation := 0; flash_data3 := 0 |}
      (initial_session example_config 0 0).

(** A session start inside the scan range 144.000 MHz to 147.200 MHz with
    25 kHz steps: 129 measurements. *)
Definition example_range_start : Session :=
  Eval vm_compute in
    APP_RunSpectrum_init example_config
      {| rx_frequency := 14550000; step_frequency := 2500;
         vfo_modulation := 0; flash_data3 := 192 |}
      (initial_session example_config 14400000 14720000).

(** A 16-bin pass over a signal around bin 5: seventeen ticks, because the
    tick that completes the pass measures once more. *)
Definition pass16 : list TickInput :=
  map idle_tick
    [100; 100; 100; 100; 240; 260; 240; 100; 100; 100; 100; 100; 100; 100;
     100; 100; 100].

(** A 128-bin session after 128 ticks: the bin index has reached the
    measurement count. *)
Definition bins128_last_tick : Session :=
  Eval vm_compute in
    session_after example_config (replicate 128 (idle_tick 100)) example_start.

(** A 16-bin session after 16 ticks of a first pass at RSSI 100. *)
Definition bins16_last_tick : Session :=
  Eval vm_compute in
    session_after example_config (replicate 16 (idle_tick 100))
      example_start16.

(** The same point of the pass that follows [pass16]. *)
Definition bins16_second_last_tick : Session :=
  Eval vm_compute in
    session_after example_config (pass16 ++ replicate 16 (idle_tick 100))
      example_start16.

(** The end of a 32-bin pass that measured zero everywhere, scanned after
    the selector was toggled at the end of [pass16]. *)
Definition quiet_pass_end : Session :=
  Eval vm_compute in
    session_after example_config (replicate 32 (idle_tick 0))
      (ToggleStepsCount example_config
         (session_after example_config pass16 example_start16)).

(** A folded scan range (129 measurements) after one tick at RSSI 300, and
    after 127 ticks at RSSI 100. *)
Definition range_after_1 : Session :=
  Eval vm_compute in
    session_after example_config [idle_tick 300] example_range_start.

Definition range_after_127 : Session :=
  Eval vm_compute in
    session_after example_config (replicate 127 (idle_tick 100))
      example_range_start.

(** The session after the two passes, in evaluated form. *)
Definition bins16_two_passes : Session :=
  Eval vm_compute in
    session_after example_config (pass16 ++ pass16) example_start16.

(** Closed arithmetic facts about concrete sessions, by evaluation. *)
Ltac by_evaluation :=
  vm_compute; repeat split;
  first [reflexivity | discriminate | intro; discriminate].

(** The session after [keys] were handled in the frequency-input state. *)
Definition typed (cfg : Config) (keys : list KEY_Code_t) (s : Session)
    : Session :=
  fold_left (fun s k => OnKeyDownFreqInput cfg k s) keys s.

(** ** The keypad, the settings block and the display helpers

    The rest of [spectrum.c]: the functions that the key handlers call, the
    handlers themselves, the settings byte kept in flash, and the helpers
    that turn a reading into a position on the screen. *)

(** Constants of headers outside this file that this part of the code uses:
    one more preprocessor switch, the last index of the scan-step table
    ([spectrum.h]), two enumerators of [ModulationMode_t] ([radio.h]), the
    last filter bandwidth ([driver/bk4819.h]), the S-meter table
    ([U8RssiMap]) and the lowest pixel row of the spectrum
    ([DrawingEndY]). *)
Record Platform := mkPlatform {
  ENABLE_NAVIG_LEFT_RIGHT : bool;
  S_STEP_100_0kHz : Z;
  MODULATION_FM : Z;
  MODULATION_UKNOWN : Z;
  BK4819_FILTER_BW_NARROWER : Z;
  U8RssiMap : list Z;
  DrawingEndY : Z
}.

Definition modulationTypeTuneSteps : list Z := [100; 50; 10].

(** Modelled from the spec: the two chip registers that the register menu
    edits, by the address in their name. *)
Definition BK4819_REG_13 : Z := 19.
Definition BK4819_REG_3D : Z := 61.

(** [RegisterSpec], without the name that is only printed. *)
Record RegisterSpec := mkRegisterSpec {
  reg_num : Z;
  reg_offset : Z;
  reg_mask : Z;
  reg_inc : Z
}.

#[global] Instance RegisterSpec_inhabited : Inhabited RegisterSpec :=
  populate (mkRegisterSpec 0 0 0 0).

Definition registerSpecs : list RegisterSpec :=
  [ mkRegisterSpec 0 0 0 0;
    mkRegisterSpec BK4819_REG_13 8 3 1;
    mkRegisterSpec BK4819_REG_13 5 7 1;
    mkRegisterSpec BK4819_REG_13 0 7 1;
    mkRegisterSpec BK4819_REG_3D 0 65535 10922 ].

Definition set_dbMax v (x : SpectrumSettings) : SpectrumSettings :=
  mkSettings (frequencyChangeStep x) (stepsCount x) (scanStepIndex x)
    (scanDelay x) (rssiTriggerLevel x) (bw x) (listenBw x) (dbMin x) v
    (modulationType x) (backlightState x).
Definition set_backlightState v (x : SpectrumSettings) : SpectrumSettings :=
  mkSettings (frequencyChangeStep x) (stepsCount x) (scanStepIndex x)
    (scanDelay x) (rssiTriggerLevel x) (bw x) (listenBw x) (dbMin x) (dbMax x)
    (modulationType x) v.

Definition set_monitorMode v (s : Session) : Session :=
  mkSession (settings s) (scanInfo s) (peak s) (kbd s) (rssiHistory s)
    (spectrum_peaks s) (spectrum_peak_age s) (spectrum_smoothed s)
    (waterfall_rows s) (waterfall_phase s) (waterfall_scan_count s)
    (blacklistFreqs s) (blacklistFreqsIdx s) (isListening s) v (redrawStatus
    s) (redrawScreen s) (newScanStart s) (preventKeypress s) (audioState s)
    (lockAGC s) (currentState s) (previousState s) (fMeasure s) (currentFreq
    s) (tempFreq s) (freqInputIndex s) (freqInputDotIndex s) (freqInputArr s)
    (freqInputString s) (menuState s) (listenT s) (statuslineUpdateTimer s)
    (gScanRangeStart s) (gScanRangeStop s).
Definition set_lockAGC v (s : Session) : Session :=
  mkSession (settings s) (scanInfo s) (peak s) (kbd s) (rssiHistory s)
    (spectrum_peaks s) (spectrum_peak_age s) (spectrum_smoothed s)
    (waterfall_rows s) (waterfall_phase s) (waterfall_scan_count s)
    (blacklistFreqs s) (blacklistFreqsIdx s) (isListening s) (monitorMode s)
    (redrawStatus s) (redrawScreen s) (newScanStart s) (preventKeypress s)
    (audioState s) v (currentState s) (previousState s) (fMeasure s)
    (currentFreq s) (tempFreq s) (freqInputIndex s) (freqInputDotIndex s)
    (freqInputArr s) (freqInputString s) (menuState s) (listenT s)
    (statuslineUpdateTimer s) (gScanRangeStart s) (gScanRangeStop s).
Definition set_menuState v (s : Session) : Session :=
  mkSession (settings s) (scanInfo s) (peak s) (kbd s) (rssiHistory s)
    (spectrum_peaks s) (spectrum_peak_age s) (spectrum_smoothed s)
    (waterfall_rows s) (waterfall_phase s) (waterfall_scan_count s)
    (blacklistFreqs s) (blacklistFreqsIdx s) (isListening s) (monitorMode s)
    (redrawStatus s) (redrawScreen s) (newScanStart s) (preventKeypress s)
    (audioState s) (lockAGC s) (currentState s) (previousState s) (fMeasure s)
    (currentFreq s) (tempFreq s) (freqInputIndex s) (freqInputDotIndex s)
    (freqInputArr s) (freqInputString s) v (listenT s) (statuslineUpdateTimer
    s) (gScanRangeStart s) (gScanRangeStop s).

(** The globals of [spectrum.c] that the scan engine itself never touches:
    the frequency to return to, the flag that keeps the loop of
    [APP_RunSpectrum] running, and byte 3 of the settings block in flash. *)
Record App := mkApp {
  session : Session;
  initialFreq : Z;
  isInitialized : bool;
  flash_byte3 : Z
}.

Definition set_session v (a : App) : App :=
  mkApp v (initialFreq a) (isInitialized a) (flash_byte3 a).
Definition set_isInitialized v (a : App) : App :=
  mkApp (session a) (initialFreq a) v (flash_byte3 a).
Definition set_flash_byte3 v (a : App) : App :=
  mkApp (session a) (initialFreq a) (isInitialized a) v.
Definition upd_session (g : Session -> Session) (a : App) : App :=
  set_session (g (session a)) a.

(** The frame buffer [gFrameBuffer] is a list of pages of 128 column bytes
    each. *)

Definition RULER_PAGE : nat := 3.
Definition WATERFALL_PAGES : nat := 2.
Definition WATERFALL_PAGE_START : nat := 4.

Section Keypad.

Variable cfg : Config.
Variable pf : Platform.

(** *** The settings byte *)

(** [SaveSettings]: the byte stored at offset 3 of the settings block; the
    other seven bytes are written back as they were read. *)
Definition SaveSettings (s : Session) : Z :=
  u8 (Z.lor (Z.lor (Z.shiftl (scanStepIndex (settings s)) 4)
                   (Z.shiftl (stepsCount (settings s)) 2))
            (listenBw (settings s))).

(** *** Readings *)

Definition dbm2rssi (dBm : Z) : Z := u16 ((dBm + 160 - dBmCorr cfg) * 2).

(** The loop of [DBm2S] from index [i] on, over the rest of the table. *)
Fixpoint DBm2S_from (table : list Z) (dbm : Z) (i : Z) : Z :=
  match table with
  | [] => i
  | v :: rest => if dbm >=? v then i else DBm2S_from rest dbm (i + 1)
  end.

Definition DBm2S (dbm : Z) : Z :=
  let dbm := dbm * -1 in
  u8 (DBm2S_from (U8RssiMap pf) dbm 0).

Definition my_abs (v : Z) : Z := u8 (if v >? 0 then v else - v).

(** [Rssi2PX]: [None] is the division by [DB_RANGE = 0]. The dB limits are
    [int]s and are doubled by a shift. *)
Definition Rssi2PX (rssi pxMin pxMax : Z) (s : Session) : option Z :=
  let DB_MIN := Z.shiftl (dbMin (settings s)) 1 in
  let DB_MAX := Z.shiftl (dbMax (settings s)) 1 in
  let DB_RANGE := DB_MAX - DB_MIN in
  let PX_RANGE := u8 (pxMax - pxMin) in
  let dbm := clamp (Z.shiftl (Rssi2DBm cfg rssi) 1) DB_MIN DB_MAX in
  if DB_RANGE =? 0 then None
  else
    Some (u8 (Z.quot ((dbm - DB_MIN) * PX_RANGE + Z.quot DB_RANGE 2) DB_RANGE
              + pxMin)).

Definition Rssi2Y (rssi : Z) (s : Session) : option Z :=
  p ← Rssi2PX rssi 0 (DrawingEndY pf) s;
  Some (u8 (DrawingEndY pf - p)).

(** *** Update things by keypress *)

Definition ClampRssiTriggerLevel (s : Session) : Session :=
  upd_settings
    (set_rssiTriggerLevel
       (u16 (clamp (rssiTriggerLevel (settings s))
               (dbm2rssi (dbMin (settings s)))
               (dbm2rssi (dbMax (settings s)))))) s.

Definition UpdateRssiTriggerLevel (inc : bool) (s : Session) : Session :=
  let s :=
    if inc
    then upd_settings
           (set_rssiTriggerLevel (u16 (rssiTriggerLevel (settings s) + 2))) s
    else upd_settings
           (set_rssiTriggerLevel (u16 (rssiTriggerLevel (settings s) - 2))) s
  in
  let s := ClampRssiTriggerLevel s in
  let s := set_redrawScreen true s in
  set_redrawStatus true s.

(** [UpdateDBMax]: the two limits are [int]s; the guards keep the sum and
    the difference far from the ends of [int]. *)
Definition UpdateDBMax (inc : bool) (s : Session) : Session :=
  let changed :=
    if inc && (dbMax (settings s) <? 10)
    then Some (upd_settings (set_dbMax (dbMax (settings s) + 1)) s)
    else if negb inc && (dbMax (settings s) >? dbMin (settings s))
    then Some (upd_settings (set_dbMax (dbMax (settings s) - 1)) s)
    else None in
  match changed with
  | None => s
  | Some s =>
      let s := ClampRssiTriggerLevel s in
      let s := set_redrawStatus true s in
      set_redrawScreen true s
  end.

(** The session on which [UpdateScanStep] relaunches the scan. *)
Definition UpdateScanStep_settings (inc : bool) (s : Session) : Session :=
  let idx := scanStepIndex (settings s) in
  let s :=
    if inc
    then upd_settings
           (set_scanStepIndex
              (if negb (idx =? S_STEP_100_0kHz pf) then idx + 1 else 0)) s
    else upd_settings
           (set_scanStepIndex
              (if negb (idx =? 0) then idx - 1 else S_STEP_100_0kHz pf)) s in
  upd_settings (set_frequencyChangeStep (Z.shiftr (GetBW cfg s) 1)) s.

Definition UpdateScanStep (inc : bool) (s : Session) : Session :=
  let s := UpdateScanStep_settings inc s in
  let s := RelaunchScan cfg s in
  let s := ResetBlacklist cfg s in
  set_redrawScreen true s.

Definition UpdateCurrentFreq (inc : bool) (s : Session) : Session :=
  let changed :=
    if inc && (currentFreq s <? F_MAX cfg)
    then Some (set_currentFreq
                 (u32 (currentFreq s + frequencyChangeStep (settings s))) s)
    else if negb inc && (currentFreq s >? F_MIN cfg)
    then Some (set_currentFreq
                 (u32 (currentFreq s - frequencyChangeStep (settings s))) s)
    else None in
  match changed with
  | None => s
  | Some s =>
      let s := RelaunchScan cfg s in
      let s := ResetBlacklist cfg s in
      set_redrawScreen true s
  end.

Definition UpdateCurrentFreqStill (inc : bool) (s : Session) : Session :=
  let offset :=
    modulationTypeTuneSteps !!! Z.to_nat (modulationType (settings s)) in
  let f := fMeasure s in
  let f :=
    if inc && (f <? F_MAX cfg) then u32 (f + offset)
    else if negb inc && (f >? F_MIN cfg) then u32 (f - offset)
    else f in
  let s := SetF f s in
  set_redrawScreen true s.

Definition UpdateFreqChangeStep (inc : bool) (s : Session) : Session :=
  let diff := u16 (GetScanStep cfg s * 4) in
  let s :=
    if inc && (frequencyChangeStep (settings s) <? 200000)
    then upd_settings
           (set_frequencyChangeStep
              (u32 (frequencyChangeStep (settings s) + diff))) s
    else if negb inc && (frequencyChangeStep (settings s) >? 10000)
    then upd_settings
           (set_frequencyChangeStep
              (u32 (frequencyChangeStep (settings s) - diff))) s
    else s in
  set_redrawScreen true s.

Definition ToggleModulation (s : Session) : Session :=
  let s :=
    if modulationType (settings s) <? MODULATION_UKNOWN pf - 1
    then upd_settings
           (set_modulationType (modulationType (settings s) + 1)) s
    else upd_settings (set_modulationType (MODULATION_FM pf)) s in
  let s := RelaunchScan cfg s in
  set_redrawScreen true s.

Definition ToggleListeningBW (s : Session) : Session :=
  let s :=
    if listenBw (settings s) =? BK4819_FILTER_BW_NARROWER pf
    then upd_settings (set_listenBw BK4819_FILTER_BW_WIDE) s
    else upd_settings (set_listenBw (listenBw (settings s) + 1)) s in
  set_redrawScreen true s.

Definition ToggleBacklight (s : Session) : Session :=
  upd_settings (set_backlightState (negb (backlightState (settings s)))) s.

(** *** The register menu *)

Definition LockAGC (s : Session) : Session := set_lockAGC true s.

(** [GetRegMenuValue]: [reg] is what [BK4819_ReadRegister(s.num)] returns. *)
Definition GetRegMenuValue (st : Z) (reg : Z) : Z :=
  let s := registerSpecs !!! Z.to_nat st in
  u16 (Z.land (Z.shiftr reg (reg_offset s)) (reg_mask s)).

(** The value that [SetRegMenuValue] writes back to the register: [read1] is
    the read behind [GetRegMenuValue], [read2] the read made after
    [LockAGC]. *)
Definition SetRegMenuValue_write (st : Z) (add : bool) (read1 read2 : Z)
    : Z :=
  let v := GetRegMenuValue st read1 in
  let s := registerSpecs !!! Z.to_nat st in
  let reg := read2 in
  let v :=
    if add && (v <=? reg_mask s - reg_inc s) then u16 (v + reg_inc s)
    else if negb add && (v >=? 0 + reg_inc s) then u16 (v - reg_inc s)
    else v in
  let reg := u16 (Z.land reg (Z.lnot (Z.shiftl (reg_mask s) (reg_offset s))))
  in
  u16 (Z.lor reg (Z.shiftl v (reg_offset s))).

(** What [SetRegMenuValue] does to the globals. *)
Definition SetRegMenuValue (st : Z) (add : bool) (s : Session) : Session :=
  let spec := registerSpecs !!! Z.to_nat st in
  let s := if reg_num spec =? BK4819_REG_13 then LockAGC s else s in
  set_redrawScreen true s.

(** *** Key handlers

    [RestoreRegisters] and the resume state kept in [gEeprom] are register
    and EEPROM traffic and are not modelled. *)

Definition DeInitSpectrum (a : App) : App :=
  let a := upd_session (SetF (initialFreq a)) a in
  set_isInitialized false a.

Definition in_scan_range (s : Session) : bool :=
  ENABLE_SCAN_RANGES cfg && negb (gScanRangeStart s =? 0).

Definition OnKeyDown (key : KEY_Code_t) (a : App) : Outcome App :=
  let s := session a in
  match key with
  | KEY_3 => Done (set_session (UpdateDBMax true s) a)
  | KEY_9 => Done (set_session (UpdateDBMax false s) a)
  | KEY_1 => Done (set_session (UpdateScanStep true s) a)
  | KEY_7 => Done (set_session (UpdateScanStep false s) a)
  | KEY_2 => Done (set_session (UpdateFreqChangeStep true s) a)
  | KEY_8 => Done (set_session (UpdateFreqChangeStep false s) a)
  | KEY_UP =>
      if in_scan_range s then Done a
      else Done (set_session
                   (UpdateCurrentFreq (negb (ENABLE_NAVIG_LEFT_RIGHT pf)) s)
                   a)
  | KEY_DOWN =>
      if in_scan_range s then Done a
      else Done (set_session
                   (UpdateCurrentFreq (ENABLE_NAVIG_LEFT_RIGHT pf) s) a)
  | KEY_SIDE1 =>
      s ← Blacklist cfg s;
      Done (set_session s a)
  | KEY_STAR => Done (set_session (UpdateRssiTriggerLevel true s) a)
  | KEY_F => Done (set_session (UpdateRssiTriggerLevel false s) a)
  | KEY_5 =>
      if in_scan_range s then Done a
      else Done (set_session (FreqInput s) a)
  | KEY_0 => Done (set_session (ToggleModulation s) a)
  | KEY_6 => Done (set_session (ToggleListeningBW s) a)
  | KEY_4 =>
      if in_scan_range s then Done a
      else Done (set_session (ToggleStepsCount cfg s) a)
  | KEY_SIDE2 => Done (set_session (ToggleBacklight s) a)
  | KEY_PTT => Done (set_session (TuneToPeak (SetState STILL s)) a)
  | KEY_MENU => Done a
  | KEY_EXIT =>
      if negb (menuState s =? 0) then Done (set_session (set_menuState 0 s) a)
      else
        let a :=
          if ENABLE_FEAT_F4HWN_SPECTRUM cfg
          then set_flash_byte3 (SaveSettings s) a
          else a in
        Done (DeInitSpectrum a)
  | KEY_INVALID => Done a
  end.

Definition OnKeyDownStill (key : KEY_Code_t) (s : Session) : Session :=
  match key with
  | KEY_3 => UpdateDBMax true s
  | KEY_9 => UpdateDBMax false s
  | KEY_UP =>
      if negb (menuState s =? 0)
      then SetRegMenuValue (menuState s) (negb (ENABLE_NAVIG_LEFT_RIGHT pf)) s
      else UpdateCurrentFreqStill (negb (ENABLE_NAVIG_LEFT_RIGHT pf)) s
  | KEY_DOWN =>
      if negb (menuState s =? 0)
      then SetRegMenuValue (menuState s) (ENABLE_NAVIG_LEFT_RIGHT pf) s
      else UpdateCurrentFreqStill (ENABLE_NAVIG_LEFT_RIGHT pf) s
  | KEY_STAR => UpdateRssiTriggerLevel true s
  | KEY_F => UpdateRssiTriggerLevel false s
  | KEY_5 => FreqInput s
  | KEY_0 => ToggleModulation s
  | KEY_6 => ToggleListeningBW s
  | KEY_SIDE1 => set_monitorMode (negb (monitorMode s)) s
  | KEY_SIDE2 => ToggleBacklight s
  | KEY_PTT => s
  | KEY_MENU =>
      let s :=
        if menuState s =? Z.of_nat (length registerSpecs) - 1
        then set_menuState 1 s
        else set_menuState (u8 (menuState s + 1)) s in
      set_redrawScreen true s
  | KEY_EXIT =>
      if menuState s =? 0 then
        let s := SetState SPECTRUM s in
        let s := set_lockAGC false s in
        let s := set_monitorMode false s in
        RelaunchScan cfg s
      else set_menuState 0 s
  | _ => s
  end.

(** The first half of [HandleUserInput]: [key] is what [GetKey()] returns;
    the repeat counter is a [uint8_t]. *)
Definition kbd_poll (key : KEY_Code_t) (k : KeyboardState) : KeyboardState :=
  let prev := kbd_current k in
  let counter :=
    if negb (KEY_eqb key KEY_INVALID) && KEY_eqb key prev then
      if kbd_counter k <? 16 then u8 (kbd_counter k + 1)
      else u8 (kbd_counter k - 3)
    else 0 in
  mkKeyboardState key prev counter.

Definition key_fires (k : KeyboardState) : bool :=
  (kbd_counter k =? 3) || (kbd_counter k =? 16).

Definition HandleUserInput (key : KEY_Code_t) (a : App) : Outcome App :=
  let a := upd_session (fun s => set_kbd (kbd_poll key (kbd s)) s) a in
  let s := session a in
  if key_fires (kbd s) then
    match currentState s with
    | SPECTRUM => OnKeyDown (kbd_current (kbd s)) a
    | FREQ_INPUT =>
        Done (set_session (OnKeyDownFreqInput cfg (kbd_current (kbd s)) s) a)
    | STILL => Done (set_session (OnKeyDownStill (kbd_current (kbd s)) s) a)
    end
  else Done a.

(** *** The ruler and the waterfall on the screen *)

(** The inner loop of [DrawWaterfall]: the byte for column [col] of page
    [p], one bit per waterfall row. *)
Definition waterfall_column (rows : list (list Z)) (p col : nat) : Z :=
  for_loop 8 (fun bit b =>
    let row := (p * 8 + bit)%nat in
    if (row <? WATERFALL_ROWS_PIXELS)%nat then
      let byte := (rows !!! row) !!! Z.to_nat (Z.shiftr (Z.of_nat col) 3) in
      let bitv := u8 (Z.land (Z.shiftr byte (Z.land (Z.of_nat col) 7)) 1) in
      u8 (Z.lor b (Z.shiftl bitv (Z.of_nat bit)))
    else b) 0.

Definition DrawWaterfall (s : Session) (fb : list (list Z))
    : list (list Z) :=
  for_loop WATERFALL_PAGES (fun p fb =>
    for_loop 128 (fun col fb =>
      let page := (WATERFALL_PAGE_START + p)%nat in
      <[page := <[col := waterfall_column (waterfall_rows s) p col]>
                  (fb !!! page)]> fb) fb) fb.

(** One turn of the loop of [DrawArrow], for [i = k - 2]. A column [v] with
    bit 7 clear is drawn; the outcome records a column that is not one of
    the 128 of the ruler page. *)
Definition arrow_column (x : Z) (k : nat) (page : list Z)
    : Outcome (list Z) :=
  let i := Z.of_nat k - 2 in
  let v := x + i in
  if Z.land v 128 =? 0 then
    if (0 <=? v) && (v <? 128) then
      Done (<[Z.to_nat v :=
               u8 (Z.lor (page !!! Z.to_nat v)
                         (Z.land (Z.shiftl 120 (my_abs i)) 120))]> page)
    else OutOfBounds v
  else Done page.

Definition DrawArrow (x : Z) (fb : list (list Z))
    : Outcome (list (list Z)) :=
  page ← for_loop 5 (fun k acc => page ← acc; arrow_column x k page)
           (Done (fb !!! RULER_PAGE));
  Done (<[RULER_PAGE := page]> fb).

(** The column that [RenderSpectrum] passes to [DrawArrow]:
    [128u * peak.i / GetStepsCount()], narrowed to the [uint8_t]
    parameter. *)
Definition RenderSpectrum_arrow (s : Session) : Z :=
  u8 (u32 (128 * PeakInfo.i (peak s)) / GetStepsCount cfg s).

End Keypad.

Arguments waterfall_column : simpl never.
Arguments DrawWaterfall : simpl never.
Arguments DrawArrow : simpl never.

(** The remaining constants of the build for the examples: three
    modulations, three filter bandwidths, a ten-entry S-meter table and a
    spectrum that ends at pixel row 40. *)
Definition example_platform : Platform :=
  {| ENABLE_NAVIG_LEFT_RIGHT := false;
     S_STEP_100_0kHz := 14;
     MODULATION_FM := 0;
     MODULATION_UKNOWN := 3;
     BK4819_FILTER_BW_NARROWER := 2;
     U8RssiMap := [121; 115; 109; 103; 97; 91; 85; 79; 73; 63];
     DrawingEndY := 40 |}.


(** ** Notions used in the statements about the keypad *)

(** The scan-step index after the key that raises it ([inc]) or lowers
    it. *)
Definition next_scanStepIndex (pf : Platform) (inc : bool) (idx : Z) : Z :=
  if inc then (if negb (idx =? S_STEP_100_0kHz pf) then idx + 1 else 0)
  else (if negb (idx =? 0) then idx - 1 else S_STEP_100_0kHz pf).

(** The session after the [LoadSettings] call of [APP_RunSpectrum], which
    only a build with [ENABLE_FEAT_F4HWN_SPECTRUM] makes. *)
Definition loaded (cfg : Config) (st : Startup) (s : Session) : Session :=
  if ENABLE_FEAT_F4HWN_SPECTRUM cfg then LoadSettings cfg (flash_data3 st) s
  else s.

(** The three settings that the settings byte holds. *)
Definition stored (x : SpectrumSettings) : Z * Z * Z :=
  (scanStepIndex x, stepsCount x, listenBw x).

(** The first frequency decision of [APP_RunSpectrum]: inside a scan range
    the sweep starts at the range start, with the first scan step that is at
    least the VFO step and the 128-bin selector; outside one it starts half
    a sweep below the VFO frequency. *)
Definition init_retuned (cfg : Config) (st : Startup) (s : Session)
    : Session :=
  if ENABLE_SCAN_RANGES cfg && negb (gScanRangeStart s =? 0) then
    let s := set_currentFreq (gScanRangeStart s) s in
    let s :=
      match first_step_index (scanStepValues cfg) (step_frequency st) 0 with
      | Some i => upd_settings (set_scanStepIndex i) s
      | None => s
      end in
    upd_settings (set_stepsCount STEPS_128) s
  else
    set_currentFreq
      (u32 (rx_frequency st
            - u32 (GetStepsCount cfg s / 2 * GetScanStep cfg s)))
      s.

(** The flags that [APP_RunSpectrum] raises before it mutes the receiver. *)
Definition init_flags (s : Session) : Session :=
  set_newScanStart true
    (set_redrawScreen true (set_redrawStatus true (set_isListening true s))).

(** The buffers that [APP_RunSpectrum] clears before it enters its loop. *)
Definition init_cleared (s : Session) : Session :=
  set_waterfall_scan_count 0
    (set_waterfall_phase 0
       (set_waterfall_rows (replicate WATERFALL_ROWS_PIXELS (replicate 16 0))
          (set_rssiHistory (replicate 128 0) s))).

(** What the radio hands over in the examples: 145.500 MHz, a 25 kHz VFO
    step, and a settings byte that selects 25 kHz steps and 128 bins. *)
Definition example_startup : Startup :=
  {| rx_frequency := 14550000; step_frequency := 2500;
     vfo_modulation := 0; flash_data3 := 192 |}.

(** The keyboard state after [p] consecutive polls that all report [key]. *)
Definition held (key : KEY_Code_t) (p : nat) (k : KeyboardState)
    : KeyboardState :=
  Nat.iter p (kbd_poll key) k.

(** The part of the session that fixes the sweep inside a scan range. *)
Definition sweep_anchor (s : Session) : Z * Z * Z * Z :=
  (currentFreq s, stepsCount (settings s), gScanRangeStart s,
   gScanRangeStop s).

(** The field value after the register-menu step: up by the increment
    unless that would pass the mask, down by it unless that would pass
    zero. *)
Definition stepped_field (mask inc : Z) (add : bool) (v : Z) : Z :=
  if add then (if v <=? mask - inc then v + inc else v)
  else (if v >=? inc then v - inc else v).

(** An all-dark frame buffer of seven pages. *)
Definition dark_screen : list (list Z) := replicate 7 (replicate 128 0).

(** What one turn of the loop of [UpdateSpectrumPeaks] does to the peak and
    the age of its bin, given the current value of the bin. *)
Definition peak_hold_step (cur p a : Z) : Z * Z :=
  let '(p, a) :=
    if negb (cur =? RSSI_MAX_VALUE) && ((p =? RSSI_MAX_VALUE) || (cur >? p))
    then (cur, 0) else (p, a) in
  if a <? SPECTRUM_PEAK_HOLD_TIME then (p, u8 (a + 1))
  else (RSSI_MAX_VALUE, a).

(** The two summation loops of [UpdateFreqInput], over the array [arr] with
    [idx] keys, from the running value [tf0], with the integer part ending
    at [dotIndex]. *)
Definition freq_loops (arr : list KEY_Code_t) (tf0 idx dotIndex : Z) : Z :=
  let '(tf, _) :=
    for_loop (Z.to_nat dotIndex) (fun k '(tf, base) =>
      let i := dotIndex - 1 - Z.of_nat k in
      (u32 (tf + u32 (freq_digit arr i * base)), u32 (base * 10)))
      (tf0, 100000) in
  let '(tf, _) :=
    if dotIndex <? idx then
      for_loop (Z.to_nat (idx - (dotIndex + 1))) (fun k '(tf, base) =>
        let i := dotIndex + 1 + Z.of_nat k in
        (u32 (tf + u32 (freq_digit arr i * base)), base / 10)) (tf, 10000)
    else (tf, 10000) in
  tf.

(** The frequency that [UpdateFreqInput] computes from the keys typed so
    far, with the dot at [dot] (0 for none). *)
Definition freq_value (arr : list KEY_Code_t) (idx dot : Z) : Z :=
  freq_loops arr 0 idx (if dot =? 0 then idx else dot).

(** The number that a list of digit keys spells, and the value of the
    digits after the dot in units of 10 Hz: the first is worth [base], each
    further one a tenth of the one before, in integer division. *)
Fixpoint decimal (ks : list KEY_Code_t) : Z :=
  match ks with
  | [] => 0
  | k :: rest => key_code k * 10 ^ Z.of_nat (length rest) + decimal rest
  end.

Fixpoint fraction (base : Z) (ks : list KEY_Code_t) : Z :=
  match ks with
  | [] => 0
  | k :: rest => key_code k * base + fraction (base / 10) rest
  end.

Definition is_digit (k : KEY_Code_t) : Prop := key_code k <= 9.

(** The fields of the frequency input that the summation reads. *)
Definition entry (s : Session) : list KEY_Code_t * Z * Z * Z :=
  (freqInputArr s, freqInputIndex s, freqInputDotIndex s, tempFreq s).

(** What holds of the frequency entry while keys are typed: the ten slots of
    the key array, the index inside them, the dot either absent or strictly
    below the index, and [tempFreq] the value of the keys typed so far. *)
Definition composing (x : Session) : Prop :=
  length (freqInputArr x) = 10%nat
  /\ 0 <= freqInputIndex x <= 10
  /\ (freqInputDotIndex x = 0
      \/ 0 < freqInputDotIndex x < freqInputIndex x)
  /\ tempFreq x
     = freq_value (freqInputArr x) (freqInputIndex x) (freqInputDotIndex x).

(** Case analysis on a natural number that is bounded in the context: [tac]
    settles each value, [lia] the values beyond the bound. *)
Ltac by_cases n tac :=
  first [lia | destruct n as [|n]; [tac | by_cases n tac]].

(** * Properties *)

(** ** Loops *)

Lemma for_loop_S {S : Type} (n : nat) (body : nat -> S -> S) (s : S) :
  for_loop (Datatypes.S n) body s = body n (for_loop n body s).
Proof. reflexivity. Qed.

Lemma for_loop_inv {S : Type} (I : S -> Prop) (body : nat -> S -> S) :
  (forall k s, I s -> I (body k s)) ->
  forall n s, I s -> I (for_loop n body s).
Proof.
  intros Hstep n. induction n as [|n IH]; intros s Hs.
  - exact Hs.
  - rewrite for_loop_S. apply Hstep, IH, Hs.
Qed.

Lemma for_loop_ext {S : Type} (body body' : nat -> S -> S) :
  (forall k s, body k s = body' k s) ->
  forall n s, for_loop n body s = for_loop n body' s.
Proof.
  intros Heq n. induction n as [|n IH]; intros s.
  - reflexivity.
  - rewrite !for_loop_S, IH. apply Heq.
Qed.

(** A loop that stores [g i] into slot [i] of an array. *)
Lemma fill_loop_length {A : Type} (g : nat -> list A -> A) (n : nat)
    (l : list A) :
  length (for_loop n (fun i l => <[i := g i l]> l) l) = length l.
Proof.
  induction n as [|n IH]; [reflexivity|].
  rewrite for_loop_S, length_insert. exact IH.
Qed.

Lemma fill_loop_lookup `{Inhabited A} (g : nat -> A) (n : nat) (l : list A)
    (j : nat) :
  (n <= length l)%nat ->
  for_loop n (fun i l => <[i := g i]> l) l !!! j
  = if decide (j < n)%nat then g j else l !!! j.
Proof.
  induction n as [|n IH]; intros Hn.
  - destruct (decide (j < 0)%nat); [lia | reflexivity].
  - rewrite for_loop_S. destruct (decide (j = n)) as [->|Hne].
    + rewrite list_lookup_total_insert_eq
        by (rewrite (fill_loop_length (fun i _ => g i)); lia).
      destruct (decide (n < S n)%nat); [reflexivity | lia].
    + rewrite list_lookup_total_insert_ne by congruence.
      rewrite IH by lia.
      destruct (decide (j < n)%nat), (decide (j < S n)%nat);
        try reflexivity; lia.
Qed.

(** Unfolding equations for the functions that carry a loop with a literal
    bound. *)
Lemma Waterfall_AddLine_unfold (cfg : Config) (s : Session) :
  Waterfall_AddLine cfg s
  = for_loop 128 (waterfall_pixel cfg)
      (waterfall_advance
         (for_loop (WATERFALL_ROWS_PIXELS - 1) waterfall_shift_row s)).
Proof. reflexivity. Qed.

Lemma ResetBlacklist_unfold (cfg : Config) (s : Session) :
  ResetBlacklist cfg s
  = if ENABLE_SCAN_RANGES cfg then
      set_blacklistFreqsIdx 0
        (set_blacklistFreqs (replicate 15 0)
           (for_loop 128 reset_blacklist_slot s))
    else for_loop 128 reset_blacklist_slot s.
Proof. reflexivity. Qed.

(** ** Peak detector *)

Lemma peak_refresh_due_bool (s : Session) :
  (PeakInfo.f (peak s) =? 0)
  || (PeakInfo.t (peak s) >=? 1024)
  || (PeakInfo.rssi (peak s) <? ScanInfo.rssiMax (scanInfo s)) = true
  <-> peak_refresh_due s.
Proof.
  unfold peak_refresh_due.
  rewrite !orb_true_iff, Z.eqb_eq, Z.geb_le, Z.ltb_lt. lia.
Qed.

Lemma AutoTriggerLevel_peak (s : Session) :
  peak (AutoTriggerLevel s) = peak s.
Proof.
  unfold AutoTriggerLevel.
  destruct (rssiTriggerLevel (settings s) =? RSSI_MAX_VALUE); reflexivity.
Qed.

Lemma UpdatePeakInfo_due (s : Session) :
  peak_refresh_due s -> UpdatePeakInfo s = UpdatePeakInfoForce s.
Proof.
  intros H. apply peak_refresh_due_bool in H.
  unfold UpdatePeakInfo. rewrite H. reflexivity.
Qed.

Lemma UpdatePeakInfo_not_due (s : Session) :
  ~ peak_refresh_due s -> UpdatePeakInfo s = s.
Proof.
  intros H. unfold UpdatePeakInfo.
  destruct ((PeakInfo.f (peak s) =? 0) || (PeakInfo.t (peak s) >=? 1024)
            || (PeakInfo.rssi (peak s) <? ScanInfo.rssiMax (scanInfo s)))
    eqn:E; [|reflexivity].
  apply peak_refresh_due_bool in E. contradiction.
Qed.

(** C5. At pass completion [UpdatePeakInfo] overwrites the long-lived peak
    with the running maximum of the pass (rssi, frequency and bin taken from
    [scanInfo], age reset to 0) exactly when the peak is unset, or its age
    has reached 1024, or the maximum of the pass exceeds its value; in every
    other case all four fields of the peak stay as they were. *)
Theorem UpdatePeakInfo_refresh_iff (s : Session) :
  (peak_refresh_due s ->
   peak (UpdatePeakInfo s)
   = PeakInfo.mk 0 (ScanInfo.rssiMax (scanInfo s))
       (ScanInfo.fPeak (scanInfo s)) (ScanInfo.iPeak (scanInfo s)))
  /\ (~ peak_refresh_due s -> peak (UpdatePeakInfo s) = peak s).
Proof.
  split; intros H.
  - rewrite UpdatePeakInfo_due by exact H.
    unfold UpdatePeakInfoForce. rewrite AutoTriggerLevel_peak. reflexivity.
  - rewrite UpdatePeakInfo_not_due by exact H. reflexivity.
Qed.

(** ** Auto-squelch at pass completion *)

Lemma clamp_range (v lo hi : Z) : lo <= hi -> lo <= clamp v lo hi <= hi.
Proof.
  intros H. unfold clamp.
  destruct (v <=? lo) eqn:E1; [lia|].
  destruct (v >=? hi) eqn:E2; lia.
Qed.

Lemma ToggleRX_settings (cfg : Config) (on : bool) (s : Session) :
  settings (ToggleRX cfg on s) = settings s.
Proof.
  unfold ToggleRX, ToggleAudio.
  destruct (ENABLE_FEAT_F4HWN_SPECTRUM cfg && Bool.eqb (isListening s) on);
    [reflexivity|].
  destruct on; simpl; destruct (audioState s); reflexivity.
Qed.

Lemma waterfall_pixel_frame (cfg : Config) (k : nat) (s : Session) :
  settings (waterfall_pixel cfg k s) = settings s
  /\ rssiHistory (waterfall_pixel cfg k s) = rssiHistory s.
Proof.
  unfold waterfall_pixel.
  repeat match goal with
         | |- context [if ?c then _ else _] => destruct c
         end; split; reflexivity.
Qed.

Lemma waterfall_advance_frame (s : Session) :
  settings (waterfall_advance s) = settings s
  /\ rssiHistory (waterfall_advance s) = rssiHistory s.
Proof. split; reflexivity. Qed.

Lemma waterfall_shift_frame (n : nat) (s : Session) :
  settings (for_loop n waterfall_shift_row s) = settings s
  /\ rssiHistory (for_loop n waterfall_shift_row s) = rssiHistory s.
Proof.
  apply (for_loop_inv
           (fun x => settings x = settings s
                     /\ rssiHistory x = rssiHistory s));
    [intros k x Hx; exact Hx | split; reflexivity].
Qed.

Lemma waterfall_pixels_frame (cfg : Config) (n : nat) (s : Session) :
  settings (for_loop n (waterfall_pixel cfg) s) = settings s
  /\ rssiHistory (for_loop n (waterfall_pixel cfg) s) = rssiHistory s.
Proof.
  apply (for_loop_inv
           (fun x => settings x = settings s
                     /\ rssiHistory x = rssiHistory s));
    [|split; reflexivity].
  intros k x [H1 H2]. destruct (waterfall_pixel_frame cfg k x) as [E1 E2].
  rewrite E1, E2. split; assumption.
Qed.

Lemma Waterfall_AddLine_settings (cfg : Config) (s : Session) :
  settings (Waterfall_AddLine cfg s) = settings s.
Proof.
  rewrite Waterfall_AddLine_unfold.
  rewrite (proj1 (waterfall_pixels_frame cfg _ _)).
  rewrite (proj1 (waterfall_advance_frame _)).
  apply waterfall_shift_frame.
Qed.

Lemma Waterfall_AddLine_rssiHistory (cfg : Config) (s : Session) :
  rssiHistory (Waterfall_AddLine cfg s) = rssiHistory s.
Proof.
  rewrite Waterfall_AddLine_unfold.
  rewrite (proj2 (waterfall_pixels_frame cfg _ _)).
  rewrite (proj2 (waterfall_advance_frame _)).
  apply waterfall_shift_frame.
Qed.

Lemma UpdatePeakInfo_rssiHistory (s : Session) :
  rssiHistory (UpdatePeakInfo s) = rssiHistory s.
Proof.
  unfold UpdatePeakInfo, UpdatePeakInfoForce, AutoTriggerLevel.
  repeat match goal with
         | |- context [if ?c then _ else _] => destruct c
         end; reflexivity.
Qed.

Lemma ToggleRX_rssiHistory (cfg : Config) (on : bool) (s : Session) :
  rssiHistory (ToggleRX cfg on s) = rssiHistory s.
Proof.
  unfold ToggleRX, ToggleAudio.
  destruct (ENABLE_FEAT_F4HWN_SPECTRUM cfg && Bool.eqb (isListening s) on);
    [reflexivity|].
  destruct on; simpl; destruct (audioState s); reflexivity.
Qed.

(** The trigger level that the completion of a pass leaves behind. *)
Lemma UpdatePeakInfo_trigger (s : Session) :
  rssiTriggerLevel (settings (UpdatePeakInfo s))
  = if (rssiTriggerLevel (settings s) =? RSSI_MAX_VALUE)
       && ((PeakInfo.f (peak s) =? 0)
           || (PeakInfo.t (peak s) >=? 1024)
           || (PeakInfo.rssi (peak s) <? ScanInfo.rssiMax (scanInfo s)))
    then clamp (ScanInfo.rssiMax (scanInfo s) + 8) 0 RSSI_MAX_VALUE
    else rssiTriggerLevel (settings s).
Proof.
  unfold UpdatePeakInfo, UpdatePeakInfoForce, AutoTriggerLevel.
  destruct ((PeakInfo.f (peak s) =? 0) || (PeakInfo.t (peak s) >=? 1024)
            || (PeakInfo.rssi (peak s) <? ScanInfo.rssiMax (scanInfo s)));
    simpl.
  - destruct (rssiTriggerLevel (settings s) =? RSSI_MAX_VALUE); simpl;
      [|reflexivity].
    unfold u16. apply Z.mod_small.
    pose proof (clamp_range (ScanInfo.rssiMax (scanInfo s) + 8) 0
                  RSSI_MAX_VALUE).
    unfold RSSI_MAX_VALUE in *. lia.
  - rewrite andb_false_r. reflexivity.
Qed.

Lemma clear_unused_bins_Done (mc : Z) (h : list Z) :
  0 <= mc <= 128 -> exists h', clear_unused_bins mc h = Done h'.
Proof.
  intros Hmc. unfold clear_unused_bins.
  assert (Hn : u32 (256 - mc * 2) = 256 - mc * 2)
    by (unfold u32; apply Z.mod_small; lia).
  rewrite Hn.
  destruct (256 - mc * 2 =? 0); [eauto|].
  destruct (mc + (256 - mc * 2) / 2 <=? 128) eqn:E; [eauto|].
  apply Z.leb_gt in E.
  replace (256 - mc * 2) with ((128 - mc) * 2) in E by lia.
  rewrite Z.div_mul in E by lia. lia.
Qed.

Lemma set_newScanStart_frame (v : bool) (s : Session) :
  settings (set_newScanStart v s) = settings s
  /\ rssiHistory (set_newScanStart v s) = rssiHistory s.
Proof. split; reflexivity. Qed.

Lemma TuneToPeak_frame (s : Session) :
  settings (TuneToPeak s) = settings s
  /\ rssiHistory (TuneToPeak s) = rssiHistory s.
Proof. split; reflexivity. Qed.

Lemma UpdateScan_complete_trigger (cfg : Config) (s s' : Session) :
  UpdateScan_complete cfg s = Done s' ->
  rssiTriggerLevel (settings s')
  = rssiTriggerLevel (settings (UpdatePeakInfo s)).
Proof.
  unfold UpdateScan_complete.
  destruct (clear_unused_bins _ _) as [h|]; simpl; [|discriminate].
  match goal with
  | |- (if IsPeakOverLevel ?x then _ else _) = _ -> _ => set (s1 := x)
  end.
  assert (H1 : rssiTriggerLevel (settings s1)
               = rssiTriggerLevel (settings (UpdatePeakInfo s))).
  { subst s1. rewrite !UpdatePeakInfo_trigger. reflexivity. }
  clearbody s1.
  destruct (IsPeakOverLevel s1); intros [= <-].
  - rewrite (proj1 (TuneToPeak_frame _)), ToggleRX_settings. exact H1.
  - rewrite (proj1 (set_newScanStart_frame _ _)), Waterfall_AddLine_settings.
    exact H1.
Qed.

(** C4 (as the code has it). When a pass completes with at most 128 bins,
    the completion processing returns, and the trigger level it leaves is:
    [clamp (passMax + 8, 0, RSSI_MAX_VALUE)] if the level was at the auto
    sentinel and the peak was refreshed (peak unset, or aged 1024 ticks, or
    exceeded by the maximum of the pass); the sentinel itself if the level
    was at the sentinel and the peak was not refreshed; and the level it had
    before if that was not the sentinel. *)
Theorem UpdateScan_complete_auto_trigger (cfg : Config) (s : Session) :
  0 <= ScanInfo.measurementsCount (scanInfo s) <= 128 ->
  exists s',
    UpdateScan_complete cfg s = Done s'
    /\ (rssiTriggerLevel (settings s) = RSSI_MAX_VALUE ->
        peak_refresh_due s ->
        rssiTriggerLevel (settings s')
        = clamp (ScanInfo.rssiMax (scanInfo s) + 8) 0 RSSI_MAX_VALUE)
    /\ (rssiTriggerLevel (settings s) = RSSI_MAX_VALUE ->
        ~ peak_refresh_due s ->
        rssiTriggerLevel (settings s') = RSSI_MAX_VALUE)
    /\ (rssiTriggerLevel (settings s) <> RSSI_MAX_VALUE ->
        rssiTriggerLevel (settings s') = rssiTriggerLevel (settings s)).
Proof.
  intros Hmc.
  assert (Hdone : exists s', UpdateScan_complete cfg s = Done s').
  { unfold UpdateScan_complete.
    destruct (clear_unused_bins_Done _ (rssiHistory s) Hmc) as [h ->].
    simpl.
    match goal with
    | |- context [if ?c then _ else _] => destruct c
    end; eauto. }
  destruct Hdone as [s' Hs']. exists s'. split; [exact Hs'|].
  rewrite (UpdateScan_complete_trigger _ _ _ Hs'), UpdatePeakInfo_trigger.
  repeat split.
  - intros Ht Hdue. apply Z.eqb_eq in Ht. apply peak_refresh_due_bool in Hdue.
    rewrite Ht, Hdue. reflexivity.
  - intros Ht Hdue. rewrite <- peak_refresh_due_bool in Hdue.
    apply not_true_is_false in Hdue. rewrite Hdue, andb_false_r. exact Ht.
  - intros Ht. apply Z.eqb_neq in Ht. rewrite Ht. reflexivity.
Qed.

(** ** Scan geometry and the functions that restart a pass *)

Lemma geometry_sweep (cfg : Config) (a b : Session) :
  geometry a = geometry b ->
  GetStepsCount cfg a = GetStepsCount cfg b
  /\ GetScanStep cfg a = GetScanStep cfg b
  /\ GetFStart cfg a = GetFStart cfg b.
Proof.
  unfold geometry. intros [= E1 E2 E3 E4 E5].
  assert (Hstep : GetScanStep cfg a = GetScanStep cfg b)
    by (unfold GetScanStep; rewrite E2; reflexivity).
  assert (Hcnt : GetStepsCount cfg a = GetStepsCount cfg b)
    by (unfold GetStepsCount; rewrite E1, E4, E5, Hstep; reflexivity).
  repeat split; try assumption.
  unfold GetFStart, GetBW, IsCenterMode. rewrite E2, E3, Hcnt, Hstep.
  reflexivity.
Qed.

Lemma set_rssiHistory_same (s : Session) : set_rssiHistory (rssiHistory s) s = s.
Proof. destruct s; reflexivity. Qed.

Lemma reset_blacklist_loop (n : nat) (s : Session) :
  for_loop n reset_blacklist_slot s
  = set_rssiHistory (clear_marks n (rssiHistory s)) s.
Proof.
  unfold clear_marks. induction n as [|n IH].
  - symmetry. apply set_rssiHistory_same.
  - rewrite !for_loop_S, IH. unfold reset_blacklist_slot. simpl.
    destruct (_ =? RSSI_MAX_VALUE); reflexivity.
Qed.

Lemma clear_marks_length (n : nat) (h : list Z) :
  length (clear_marks n h) = length h.
Proof.
  unfold clear_marks. induction n as [|n IH]; [reflexivity|].
  rewrite for_loop_S. destruct (_ =? RSSI_MAX_VALUE); [|exact IH].
  rewrite length_insert. exact IH.
Qed.

Lemma clear_marks_lookup (n : nat) (h : list Z) :
  (n <= length h)%nat ->
  forall j : nat,
    clear_marks n h !!! j
    = if decide (j < n)%nat
      then (if h !!! j =? RSSI_MAX_VALUE then 0 else h !!! j)
      else h !!! j.
Proof.
  induction n as [|n IH]; intros Hn j.
  - destruct (decide (j < 0)%nat); [lia | reflexivity].
  - specialize (IH ltac:(lia)).
    pose proof (clear_marks_length n h) as Hlen.
    assert (Hstep : clear_marks (S n) h
                    = if clear_marks n h !!! n =? RSSI_MAX_VALUE
                      then <[n := 0]> (clear_marks n h)
                      else clear_marks n h) by reflexivity.
    rewrite Hstep. clear Hstep.
    assert (Hn' : clear_marks n h !!! n = h !!! n).
    { rewrite IH. destruct (decide (n < n)%nat); [lia | reflexivity]. }
    rewrite Hn'.
    destruct (decide (j = n)) as [->|Hne].
    + destruct (decide (n < S n)%nat); [|lia].
      destruct (h !!! n =? RSSI_MAX_VALUE).
      * apply list_lookup_total_insert_eq. lia.
      * exact Hn'.
    + assert (Hj : clear_marks n h !!! j
                   = if decide (j < S n)%nat
                     then (if h !!! j =? RSSI_MAX_VALUE then 0 else h !!! j)
                     else h !!! j).
      { rewrite IH.
        destruct (decide (j < n)%nat), (decide (j < S n)%nat);
          try reflexivity; lia. }
      destruct (h !!! n =? RSSI_MAX_VALUE); [|exact Hj].
      rewrite list_lookup_total_insert_ne by congruence. exact Hj.
Qed.

Lemma ResetBlacklist_spec (cfg : Config) (s : Session) :
  ResetBlacklist cfg s
  = let s := set_rssiHistory (clear_marks 128 (rssiHistory s)) s in
    if ENABLE_SCAN_RANGES cfg
    then set_blacklistFreqsIdx 0 (set_blacklistFreqs (replicate 15 0) s)
    else s.
Proof.
  rewrite ResetBlacklist_unfold, reset_blacklist_loop. reflexivity.
Qed.

(** What [ResetBlacklist] leaves alone. *)
Lemma ResetBlacklist_frame (cfg : Config) (s : Session) :
  settings (ResetBlacklist cfg s) = settings s
  /\ scanInfo (ResetBlacklist cfg s) = scanInfo s
  /\ geometry (ResetBlacklist cfg s) = geometry s
  /\ currentState (ResetBlacklist cfg s) = currentState s
  /\ rssiHistory (ResetBlacklist cfg s) = clear_marks 128 (rssiHistory s).
Proof.
  rewrite ResetBlacklist_spec.
  generalize (clear_marks 128 (rssiHistory s)). intros h. cbv zeta.
  destruct (ENABLE_SCAN_RANGES cfg); repeat split; reflexivity.
Qed.

(** [ToggleRX] only touches the listening flag, the audio flag and the
    listen timer. *)
Lemma ToggleRX_spec (cfg : Config) (on : bool) (s : Session) :
  exists l a t,
    ToggleRX cfg on s = set_listenT t (set_audioState a (set_isListening l s)).
Proof.
  unfold ToggleRX, ToggleAudio.
  destruct (ENABLE_FEAT_F4HWN_SPECTRUM cfg && Bool.eqb (isListening s) on).
  - exists (isListening s), (audioState s), (listenT s).
    destruct s; reflexivity.
  - destruct on; cbn [audioState set_isListening Bool.eqb];
      destruct (audioState s) eqn:E.
    + eexists true, true, _. destruct s; simpl in *; subst; reflexivity.
    + eexists true, true, _. destruct s; simpl in *; subst; reflexivity.
    + exists false, false, (listenT s). destruct s; reflexivity.
    + exists false, false, (listenT s).
      destruct s; simpl in *; subst; reflexivity.
Qed.

(** What [RelaunchScan] leaves alone, and the pass it sets up. *)
Lemma RelaunchScan_frame (cfg : Config) (s : Session) :
  geometry (RelaunchScan cfg s) = geometry s
  /\ rssiHistory (RelaunchScan cfg s) = rssiHistory s
  /\ blacklistFreqs (RelaunchScan cfg s) = blacklistFreqs s
  /\ blacklistFreqsIdx (RelaunchScan cfg s) = blacklistFreqsIdx s
  /\ currentState (RelaunchScan cfg s) = currentState s.
Proof.
  unfold RelaunchScan. cbv zeta.
  destruct (ToggleRX_spec cfg false (ResetPeak (InitScan cfg s)))
    as (l & a & t & ->).
  destruct (SPECTRUM_AUTOMATIC_SQUELCH cfg); repeat split; reflexivity.
Qed.

Lemma RelaunchScan_pass (cfg : Config) (s : Session) :
  ScanInfo.i (scanInfo (RelaunchScan cfg s)) = 0
  /\ ScanInfo.f (scanInfo (RelaunchScan cfg s)) = GetFStart cfg s
  /\ ScanInfo.scanStep (scanInfo (RelaunchScan cfg s)) = GetScanStep cfg s
  /\ ScanInfo.measurementsCount (scanInfo (RelaunchScan cfg s))
     = GetStepsCount cfg s
  /\ ScanInfo.rssiMax (scanInfo (RelaunchScan cfg s)) = 0
  /\ ScanInfo.rssiMin (scanInfo (RelaunchScan cfg s)) = RSSI_MAX_VALUE.
Proof.
  unfold RelaunchScan. cbv zeta.
  destruct (ToggleRX_spec cfg false (ResetPeak (InitScan cfg s)))
    as (l & a & t & ->).
  destruct (SPECTRUM_AUTOMATIC_SQUELCH cfg); repeat split; reflexivity.
Qed.

(** ** Frequency entry *)

(** C10. In the frequency-input state, confirming with MENU a typed
    frequency below [F_MIN] or above [F_MAX] is rejected without a trace:
    the session after the key is the session before it, so the mode,
    [currentFreq] and the whole scan state are unchanged. *)
Theorem OnKeyDownFreqInput_out_of_band (cfg : Config) (s : Session) :
  tempFreq s < F_MIN cfg \/ tempFreq s > F_MAX cfg ->
  OnKeyDownFreqInput cfg KEY_MENU s = s.
Proof.
  intros H. unfold OnKeyDownFreqInput.
  assert (E : (tempFreq s <? F_MIN cfg) || (tempFreq s >? F_MAX cfg) = true).
  { apply orb_true_iff. rewrite Z.ltb_lt, Z.gtb_lt. lia. }
  rewrite E. reflexivity.
Qed.

(** ** The bin-count selector *)

Lemma set_redrawScreen_frame (v : bool) (s : Session) :
  geometry (set_redrawScreen v s) = geometry s
  /\ scanInfo (set_redrawScreen v s) = scanInfo s
  /\ rssiHistory (set_redrawScreen v s) = rssiHistory s
  /\ blacklistFreqs (set_redrawScreen v s) = blacklistFreqs s
  /\ blacklistFreqsIdx (set_redrawScreen v s) = blacklistFreqsIdx s.
Proof. repeat split; reflexivity. Qed.

Lemma ToggleStepsCount_unfold (cfg : Config) (s : Session) :
  ToggleStepsCount cfg s
  = set_redrawScreen true
      (ResetBlacklist cfg (RelaunchScan cfg (toggled_settings cfg s))).
Proof. reflexivity. Qed.

Lemma toggled_settings_frame (cfg : Config) (s : Session) :
  geometry (toggled_settings cfg s)
  = (next_stepsCount (stepsCount (settings s)), scanStepIndex (settings s),
     currentFreq s, gScanRangeStart s, gScanRangeStop s)
  /\ rssiHistory (toggled_settings cfg s) = rssiHistory s.
Proof.
  unfold toggled_settings, next_stepsCount.
  destruct (stepsCount (settings s) =? STEPS_128); split; reflexivity.
Qed.

Lemma ToggleStepsCount_geometry (cfg : Config) (s : Session) :
  geometry (ToggleStepsCount cfg s)
  = (next_stepsCount (stepsCount (settings s)), scanStepIndex (settings s),
     currentFreq s, gScanRangeStart s, gScanRangeStop s).
Proof.
  rewrite ToggleStepsCount_unfold.
  rewrite (proj1 (set_redrawScreen_frame _ _)).
  destruct (ResetBlacklist_frame cfg
              (RelaunchScan cfg (toggled_settings cfg s)))
    as (_ & _ & -> & _).
  rewrite (proj1 (RelaunchScan_frame cfg _)).
  apply toggled_settings_frame.
Qed.

(** Outside an extended scan range the bin count is the selector's. *)
Lemma GetStepsCount_selector (cfg : Config) (s : Session) :
  ENABLE_SCAN_RANGES cfg && negb (gScanRangeStart s =? 0) = false ->
  GetStepsCount cfg s = u16 (Z.shiftr 128 (stepsCount (settings s))).
Proof. intros H. unfold GetStepsCount. rewrite H. reflexivity. Qed.

Lemma ResetBlacklist_blacklistFreqs (cfg : Config) (s : Session) :
  ENABLE_SCAN_RANGES cfg = true ->
  blacklistFreqs (ResetBlacklist cfg s) = replicate 15 0
  /\ blacklistFreqsIdx (ResetBlacklist cfg s) = 0.
Proof.
  intros H. rewrite ResetBlacklist_spec, H.
  generalize (clear_marks 128 (rssiHistory s)). intros h.
  split; reflexivity.
Qed.

Lemma ToggleStepsCount_restarted (cfg : Config) (s : Session) :
  length (rssiHistory s) = 128%nat ->
  restarted cfg s (ToggleStepsCount cfg s).
Proof.
  intros Hlen. unfold restarted. rewrite ToggleStepsCount_unfold.
  set (s0 := toggled_settings cfg s).
  set (s1 := RelaunchScan cfg s0).
  set (s2 := ResetBlacklist cfg s1).
  destruct (set_redrawScreen_frame true s2) as (Fg & Fs & Fh & Fb & Fi).
  destruct (ResetBlacklist_frame cfg s1) as (_ & Hsi & Hgeo & _ & Hh).
  destruct (RelaunchScan_frame cfg s0) as (Hgeo1 & Hh1 & _).
  destruct (RelaunchScan_pass cfg s0) as (Hi & Hf & Hst & Hmc & _).
  fold s1 in Hi, Hf, Hst, Hmc, Hgeo1, Hh1. fold s2 in Hsi, Hgeo, Hh.
  assert (Hg : geometry (set_redrawScreen true s2) = geometry s0)
    by (rewrite Fg, Hgeo; exact Hgeo1).
  destruct (geometry_sweep cfg _ _ Hg) as (Gc & Gs & Gf).
  rewrite Fs, Fh, Fb, Fi, Gc, Gs, Gf, Hsi.
  repeat split; try assumption.
  - intros j Hj. rewrite Hh, Hh1.
    subst s0. rewrite (proj2 (toggled_settings_frame cfg s)).
    rewrite clear_marks_lookup by lia.
    destruct (decide (j < 128)%nat); [reflexivity | lia].
  - subst s2. apply ResetBlacklist_blacklistFreqs. assumption.
  - subst s2. apply ResetBlacklist_blacklistFreqs. assumption.
Qed.

(** C7 (as the code has it). Outside an extended scan range and starting
    from a bin count of 64, four successive invocations of
    [ToggleStepsCount] yield the bin counts 128, 16, 32 and 64 in that order;
    and every invocation, from any session, clears the blacklist (the
    sentinel marks in the history and, in a build with scan ranges, the
    blacklist table) and starts a new pass: bin index 0, with start
    frequency, step and bin count recomputed from the new settings. *)
Theorem ToggleStepsCount_cycle (cfg : Config) (s : Session) :
  stepsCount (settings s) = STEPS_64 ->
  ENABLE_SCAN_RANGES cfg && negb (gScanRangeStart s =? 0) = false ->
  let s1 := ToggleStepsCount cfg s in
  let s2 := ToggleStepsCount cfg s1 in
  let s3 := ToggleStepsCount cfg s2 in
  let s4 := ToggleStepsCount cfg s3 in
  (GetStepsCount cfg s = 64
   /\ GetStepsCount cfg s1 = 128
   /\ GetStepsCount cfg s2 = 16
   /\ GetStepsCount cfg s3 = 32
   /\ GetStepsCount cfg s4 = 64)
  /\ (forall x : Session,
        length (rssiHistory x) = 128%nat ->
        restarted cfg x (ToggleStepsCount cfg x)).
Proof.
  intros Hsc Hrange s1 s2 s3 s4.
  split; [|intros x Hx; apply ToggleStepsCount_restarted; exact Hx].
  pose proof (ToggleStepsCount_geometry cfg s) as G1.
  pose proof (ToggleStepsCount_geometry cfg s1) as G2.
  pose proof (ToggleStepsCount_geometry cfg s2) as G3.
  pose proof (ToggleStepsCount_geometry cfg s3) as G4.
  fold s1 in G1. fold s2 in G2. fold s3 in G3. fold s4 in G4.
  clearbody s1 s2 s3 s4.
  unfold geometry in *.
  injection G1 as E1 _ _ R1 _. injection G2 as E2 _ _ R2 _.
  injection G3 as E3 _ _ R3 _. injection G4 as E4 _ _ R4 _.
  rewrite Hsc in E1. rewrite E1 in E2. rewrite E2 in E3. rewrite E3 in E4.
  assert (Hr1 : ENABLE_SCAN_RANGES cfg && negb (gScanRangeStart s1 =? 0)
                = false) by (rewrite R1; exact Hrange).
  assert (Hr2 : ENABLE_SCAN_RANGES cfg && negb (gScanRangeStart s2 =? 0)
                = false) by (rewrite R2; exact Hr1).
  assert (Hr3 : ENABLE_SCAN_RANGES cfg && negb (gScanRangeStart s3 =? 0)
                = false) by (rewrite R3; exact Hr2).
  assert (Hr4 : ENABLE_SCAN_RANGES cfg && negb (gScanRangeStart s4 =? 0)
                = false) by (rewrite R4; exact Hr3).
  rewrite (GetStepsCount_selector cfg s Hrange),
    (GetStepsCount_selector cfg s1 Hr1), (GetStepsCount_selector cfg s2 Hr2),
    (GetStepsCount_selector cfg s3 Hr3), (GetStepsCount_selector cfg s4 Hr4).
  rewrite Hsc, E1, E2, E3, E4. repeat split; reflexivity.
Qed.

(** ** Sweep controller: where the sweep ends *)

Lemma selector_bins (sc : Z) :
  0 <= sc <= 3 ->
  u16 (Z.shiftr 128 sc) = 128 \/ u16 (Z.shiftr 128 sc) = 64
  \/ u16 (Z.shiftr 128 sc) = 32 \/ u16 (Z.shiftr 128 sc) = 16.
Proof.
  intros H.
  assert (C : sc = 0 \/ sc = 1 \/ sc = 2 \/ sc = 3) by lia.
  destruct C as [-> | [-> | [-> | ->]]]; vm_compute; auto.
Qed.

(** In non-centred mode and outside a scan range, the end frequency is the
    start plus the bin count times the step, in 32-bit arithmetic. *)
Lemma GetFEnd_plain (cfg : Config) (s : Session) :
  IsCenterMode cfg s = false ->
  ENABLE_SCAN_RANGES cfg && negb (gScanRangeStart s =? 0) = false ->
  u32 (GetFStart cfg s + GetStepsCount cfg s * GetScanStep cfg s)
  = GetFEnd cfg s.
Proof.
  intros Hc Hr. unfold GetFStart, GetFEnd, GetBW. rewrite Hc, Hr.
  unfold u32. rewrite Zplus_mod_idemp_r. reflexivity.
Qed.

(** Inside a scan range, in non-centred mode with the sweep starting at the
    range start, the sweep ends within one step above the range stop. *)
Lemma GetFEnd_range (cfg : Config) (s : Session) :
  IsCenterMode cfg s = false ->
  ENABLE_SCAN_RANGES cfg && negb (gScanRangeStart s =? 0) = true ->
  currentFreq s = gScanRangeStart s ->
  0 < GetScanStep cfg s ->
  0 <= gScanRangeStart s <= gScanRangeStop s ->
  gScanRangeStop s < 4294967296 ->
  (gScanRangeStop s - gScanRangeStart s) / GetScanStep cfg s + 1 < 65536 ->
  GetFEnd cfg s = gScanRangeStop s
  /\ gScanRangeStop s
     < GetFStart cfg s + GetStepsCount cfg s * GetScanStep cfg s
     <= gScanRangeStop s + GetScanStep cfg s.
Proof.
  intros Hc Hr Hcur Hstep Hrange Hstop Hn.
  unfold GetFStart, GetFEnd, GetStepsCount. rewrite Hc, Hr, Hcur.
  split; [reflexivity|].
  set (st := GetScanStep cfg s) in *.
  set (d := gScanRangeStop s - gScanRangeStart s) in *.
  assert (Hd : u32 d = d) by (unfold u32; apply Z.mod_small; lia).
  rewrite Hd.
  assert (Hq : 0 <= d / st) by (apply Z.div_pos; lia).
  assert (Hu : u16 (d / st + 1) = d / st + 1)
    by (unfold u16; apply Z.mod_small; lia).
  rewrite Hu.
  pose proof (Z.mul_div_le d st Hstep).
  pose proof (Z.mul_succ_div_gt d st Hstep).
  nia.
Qed.

(** C3. In centred mode, outside a scan range, [GetFEnd] lies half the
    bandwidth above the frequency that the sweep reaches after its [N] steps:
    [GetFStart () + N * GetScanStep ()] falls short of [GetFEnd ()] by
    [N * step / 2], which is eight steps or more. *)
Theorem GetFEnd_centred_overshoot (cfg : Config) (s : Session) :
  IsCenterMode cfg s = true ->
  ENABLE_SCAN_RANGES cfg && negb (gScanRangeStart s =? 0) = false ->
  0 <= stepsCount (settings s) <= 3 ->
  0 < GetScanStep cfg s < 65536 ->
  GetStepsCount cfg s * GetScanStep cfg s / 2 <= currentFreq s ->
  currentFreq s + GetStepsCount cfg s * GetScanStep cfg s < 4294967296 ->
  GetFEnd cfg s
  - (GetFStart cfg s + GetStepsCount cfg s * GetScanStep cfg s)
  = GetStepsCount cfg s * GetScanStep cfg s / 2
  /\ GetStepsCount cfg s <= 128
  /\ 8 * GetScanStep cfg s
     <= GetStepsCount cfg s * GetScanStep cfg s / 2.
Proof.
  intros Hc Hr Hsc Hstep Hlo Hhi.
  unfold GetFStart, GetFEnd, GetBW. rewrite Hc, Hr.
  rewrite (GetStepsCount_selector cfg s Hr) in *.
  set (st := GetScanStep cfg s) in *.
  set (n := u16 (Z.shiftr 128 (stepsCount (settings s)))) in *.
  assert (Hn : n = 128 \/ n = 64 \/ n = 32 \/ n = 16)
    by (apply selector_bins; exact Hsc).
  assert (Hbw : u32 (n * st) = n * st)
    by (unfold u32; apply Z.mod_small; nia).
  rewrite Hbw, Z.shiftr_div_pow2 by lia. change (2 ^ 1) with 2.
  assert (Hhalf : 0 <= n * st / 2) by (apply Z.div_pos; nia).
  assert (Hle : n * st / 2 <= n * st) by (apply Z.div_le_upper_bound; nia).
  assert (H1 : u32 (currentFreq s - n * st / 2) = currentFreq s - n * st / 2)
    by (unfold u32; apply Z.mod_small; lia).
  assert (H2 : u32 (currentFreq s + n * st) = currentFreq s + n * st)
    by (unfold u32; apply Z.mod_small; nia).
  rewrite H1, H2.
  repeat split; [lia | lia |].
  apply Z.div_le_lower_bound; nia.
Qed.

(** ** History store *)

Lemma rd_in_range (h : list Z) (i : Z) :
  0 <= i < 128 -> rd h i = Done (h !!! Z.to_nat i).
Proof.
  intros H. unfold rd.
  destruct (0 <=? i) eqn:E1; [|apply Z.leb_gt in E1; lia].
  destruct (i <? 128) eqn:E2; [|apply Z.ltb_ge in E2; lia].
  reflexivity.
Qed.

Lemma wr_in_range (h : list Z) (i v : Z) :
  0 <= i < 128 -> wr h i v = Done (<[Z.to_nat i := v]> h).
Proof.
  intros H. unfold wr.
  destruct (0 <=? i) eqn:E1; [|apply Z.leb_gt in E1; lia].
  destruct (i <? 128) eqn:E2; [|apply Z.ltb_ge in E2; lia].
  reflexivity.
Qed.

Lemma rd_out_of_range (h : list Z) (i : Z) :
  128 <= i -> rd h i = OutOfBounds i.
Proof.
  intros H. unfold rd.
  destruct (i <? 128) eqn:E2; [apply Z.ltb_lt in E2; lia|].
  rewrite andb_false_r. reflexivity.
Qed.

Lemma folded_slot_range (mc idx : Z) :
  128 < mc <= 65535 -> 0 <= idx < mc -> 0 <= folded_slot mc idx < 128.
Proof.
  intros Hmc Hidx. unfold folded_slot.
  assert (Hq1 : 1 <= 128000 / mc) by (apply Z.div_le_lower_bound; lia).
  assert (Hq2 : 128000 / mc * mc <= 128000)
    by (rewrite Z.mul_comm; apply Z.mul_div_le; lia).
  split.
  - apply Z.div_pos; nia.
  - apply Z.div_lt_upper_bound; nia.
Qed.


Lemma folded_slot_machine (mc idx : Z) :
  128 < mc <= 65535 -> 0 <= idx < mc ->
  u8 (u32 (u32 (128 * 1000 / mc) * idx) / 1000) = folded_slot mc idx.
Proof.
  intros Hmc Hidx.
  pose proof (folded_slot_range mc idx Hmc Hidx) as Hr.
  unfold folded_slot in *. change (128 * 1000) with 128000.
  assert (Hq1 : 0 <= 128000 / mc) by (apply Z.div_pos; lia).
  assert (Hq2 : 128000 / mc < 1000)
    by (apply Z.div_lt_upper_bound; lia).
  assert (E1 : u32 (128000 / mc) = 128000 / mc)
    by (unfold u32; apply Z.mod_small; lia).
  assert (E2 : u32 (128000 / mc * idx) = 128000 / mc * idx)
    by (unfold u32; apply Z.mod_small; nia).
  rewrite E1, E2. unfold u8. apply Z.mod_small. lia.
Qed.

(** The folded write, spelled out: slot [i] takes the value if it held less
    or the engine is listening, slot [(i + 1) mod 128] is zeroed, nothing
    else changes. *)
Lemma SetRssiHistory_folded_spec (cfg : Config) (s : Session) (idx v : Z) :
  ENABLE_SCAN_RANGES cfg = true ->
  128 < ScanInfo.measurementsCount (scanInfo s) <= 65535 ->
  0 <= idx < ScanInfo.measurementsCount (scanInfo s) ->
  let i := folded_slot (ScanInfo.measurementsCount (scanInfo s)) idx in
  let old := rssiHistory s !!! Z.to_nat i in
  SetRssiHistory cfg idx v s
  = Done (set_rssiHistory
            (<[Z.to_nat ((i + 1) mod 128) := 0]>
               (if (old <? v) || isListening s
                then <[Z.to_nat i := v]> (rssiHistory s)
                else rssiHistory s)) s).
Proof.
  intros Hcfg Hmc Hidx i old. unfold SetRssiHistory.
  assert (Hgt : (ScanInfo.measurementsCount (scanInfo s) >? 128) = true)
    by (apply Z.gtb_lt; lia).
  rewrite Hcfg, Hgt. cbn [andb].
  rewrite (folded_slot_machine _ _ Hmc Hidx). fold i.
  pose proof (folded_slot_range _ _ Hmc Hidx) as Hi. fold i in Hi.
  rewrite (rd_in_range _ _ Hi). cbn [mbind Outcome_bind]. fold old.
  assert (Hn : 0 <= (i + 1) mod 128 < 128) by (apply Z.mod_pos_bound; lia).
  destruct ((old <? v) || isListening s).
  - rewrite (wr_in_range _ _ _ Hi). cbn [mbind Outcome_bind].
    rewrite (wr_in_range _ _ _ Hn). reflexivity.
  - cbn [mbind Outcome_bind].
    rewrite (wr_in_range _ _ _ Hn). reflexivity.
Qed.

Lemma next_slot_differs (i : Z) :
  0 <= i < 128 -> Z.to_nat ((i + 1) mod 128) <> Z.to_nat i.
Proof.
  intros Hi.
  assert (Hn : 0 <= (i + 1) mod 128 < 128) by (apply Z.mod_pos_bound; lia).
  intros E. apply Z2Nat.inj in E; try lia.
  destruct (Z.eq_dec i 127) as [->|Hne].
  - vm_compute in E. discriminate.
  - rewrite Z.mod_small in E by lia. lia.
Qed.


(** *** Round trip and the clear at pass completion *)

Lemma SetRssiHistory_plain_spec (cfg : Config) (s : Session) (idx v : Z) :
  ENABLE_SCAN_RANGES cfg
  && (ScanInfo.measurementsCount (scanInfo s) >? 128) = false ->
  0 <= idx < 128 ->
  SetRssiHistory cfg idx v s
  = Done (set_rssiHistory (<[Z.to_nat idx := v]> (rssiHistory s)) s).
Proof.
  intros Hm Hidx. unfold SetRssiHistory. rewrite Hm.
  rewrite (wr_in_range _ _ _ Hidx). reflexivity.
Qed.

Lemma zero_range_length (m n : nat) (h : list Z) :
  length (for_loop n (fun k h => <[(m + k)%nat := 0]> h) h) = length h.
Proof.
  induction n as [|n IH]; [reflexivity|].
  rewrite for_loop_S, length_insert. exact IH.
Qed.

Lemma zero_range_lookup (m n : nat) (h : list Z) (j : nat) :
  (m + n <= length h)%nat ->
  for_loop n (fun k h => <[(m + k)%nat := 0]> h) h !!! j
  = if decide (m <= j < m + n)%nat then 0 else h !!! j.
Proof.
  induction n as [|n IH]; intros Hn.
  - destruct (decide (m <= j < m + 0)%nat); [lia | reflexivity].
  - rewrite for_loop_S. destruct (decide (j = m + n)%nat) as [->|Hne].
    + rewrite list_lookup_total_insert_eq by (rewrite zero_range_length; lia).
      destruct (decide (m <= m + n < m + S n)%nat); [reflexivity | lia].
    + rewrite list_lookup_total_insert_ne by congruence.
      rewrite IH by lia.
      destruct (decide (m <= j < m + n)%nat),
        (decide (m <= j < m + S n)%nat); try reflexivity; lia.
Qed.

(** The [memset] at pass completion with at most 128 bins. *)
Lemma clear_unused_bins_spec (mc : Z) (h : list Z) :
  0 <= mc <= 128 -> length h = 128%nat ->
  exists h',
    clear_unused_bins mc h = Done h'
    /\ length h' = 128%nat
    /\ forall j : nat, (j < 128)%nat ->
         h' !!! j = if Z.of_nat j <? mc then h !!! j else 0.
Proof.
  intros Hmc Hlen. unfold clear_unused_bins.
  assert (Hn : u32 (256 - mc * 2) = (128 - mc) * 2)
    by (unfold u32; rewrite Z.mod_small; lia).
  rewrite Hn. destruct ((128 - mc) * 2 =? 0) eqn:E0.
  - apply Z.eqb_eq in E0. exists h. repeat split; [exact Hlen|].
    intros j Hj. destruct (Z.of_nat j <? mc) eqn:E; [reflexivity|].
    apply Z.ltb_ge in E. lia.
  - rewrite Z.div_mul by lia.
    destruct (mc + (128 - mc) <=? 128) eqn:E1; [|apply Z.leb_gt in E1; lia].
    eexists. split; [reflexivity|]. split.
    + rewrite zero_range_length. exact Hlen.
    + intros j Hj. rewrite zero_range_lookup by lia.
      destruct (decide (Z.to_nat mc <= j < Z.to_nat mc + Z.to_nat (128 - mc))%nat),
        (Z.of_nat j <? mc) eqn:E; try reflexivity.
      * apply Z.ltb_lt in E. lia.
      * apply Z.ltb_ge in E. lia.
Qed.

Lemma UpdateScan_complete_rssiHistory (cfg : Config) (s : Session)
    (h : list Z) :
  clear_unused_bins (ScanInfo.measurementsCount (scanInfo s)) (rssiHistory s)
  = Done h ->
  exists s', UpdateScan_complete cfg s = Done s' /\ rssiHistory s' = h.
Proof.
  intros Hc. unfold UpdateScan_complete. rewrite Hc. cbn [mbind Outcome_bind].
  cbv zeta.
  match goal with
  | |- context [if IsPeakOverLevel ?x then _ else _] => set (s1 := x)
  end.
  assert (H1 : rssiHistory s1 = h)
    by (subst s1; rewrite UpdatePeakInfo_rssiHistory; reflexivity).
  clearbody s1.
  destruct (IsPeakOverLevel s1); eexists; (split; [reflexivity|]).
  - rewrite (proj2 (TuneToPeak_frame _)), ToggleRX_rssiHistory. exact H1.
  - rewrite (proj2 (set_newScanStart_frame _ _)),
      Waterfall_AddLine_rssiHistory. exact H1.
Qed.

(** C8 (as the code has it). With at most 128 measurements, writing [v] for
    a bin [idx] of the pass and reading slot [idx] back yields [v]. With
    more than 128 measurements, reading the folded slot for [idx] back
    yields [v] when the slot held less than [v] or the engine is listening,
    and the value the slot held otherwise. The clear at the completion of a
    pass with at most 128 measurements zeroes exactly the entries at indices
    at or above the measurement count and leaves every entry below it
    unchanged. *)
Theorem history_roundtrip_and_clear (cfg : Config) (s : Session) :
  length (rssiHistory s) = 128%nat ->
  let mc := ScanInfo.measurementsCount (scanInfo s) in
  (forall idx v : Z,
     mc <= 128 -> 0 <= idx < mc ->
     exists s',
       SetRssiHistory cfg idx v s = Done s'
       /\ rssiHistory s' !!! Z.to_nat idx = v)
  /\ (forall idx v : Z,
        ENABLE_SCAN_RANGES cfg = true ->
        128 < mc <= 65535 -> 0 <= idx < mc ->
        let slot := Z.to_nat (folded_slot mc idx) in
        exists s',
          SetRssiHistory cfg idx v s = Done s'
          /\ rssiHistory s' !!! slot
             = if (rssiHistory s !!! slot <? v) || isListening s
               then v else rssiHistory s !!! slot)
  /\ (0 <= mc <= 128 ->
      exists s',
        UpdateScan_complete cfg s = Done s'
        /\ forall j : nat, (j < 128)%nat ->
             rssiHistory s' !!! j
             = if Z.of_nat j <? mc then rssiHistory s !!! j else 0).
Proof.
  intros Hlen mc. repeat split.
  - intros idx v Hmc Hidx.
    assert (Hm : ENABLE_SCAN_RANGES cfg && (mc >? 128) = false).
    { destruct (mc >? 128) eqn:E; [apply Z.gtb_lt in E; lia|].
      apply andb_false_r. }
    eexists. split.
    + apply SetRssiHistory_plain_spec; [exact Hm | lia].
    + apply list_lookup_total_insert_eq. lia.
  - intros idx v Hcfg Hmc Hidx slot.
    pose proof (folded_slot_range _ _ Hmc Hidx) as Hi.
    pose proof (next_slot_differs _ Hi) as Hne.
    eexists. split.
    + apply SetRssiHistory_folded_spec; assumption.
    + fold mc. fold slot.
      cbn [rssiHistory set_rssiHistory].
      rewrite list_lookup_total_insert_ne by exact Hne.
      destruct ((rssiHistory s !!! slot <? v) || isListening s);
        [|reflexivity].
      apply list_lookup_total_insert_eq. subst slot. lia.
  - intros Hmc.
    destruct (clear_unused_bins_spec mc (rssiHistory s) Hmc Hlen)
      as (h & Hc & _ & Hh).
    destruct (UpdateScan_complete_rssiHistory cfg s h Hc) as (s' & Hs & E).
    exists s'. split; [exact Hs|]. rewrite E. exact Hh.
Qed.

(** ** Smoothing *)

Section Smoothing.

Variable s : Session.
Variables bars v : Z.
Hypothesis bars_range : 0 <= bars <= 128.
Hypothesis v_valid : 0 < v /\ v <> RSSI_MAX_VALUE /\ v <= 65535.
Hypothesis history_length : length (rssiHistory s) = 128%nat.
Hypothesis smoothed_length : length (spectrum_smoothed s) = 128%nat.
Hypothesis flat :
  forall i : Z, 0 <= i < bars -> rssiHistory s !!! Z.to_nat i = v.

Local Notation copied := (smooth_copied bars s).
Local Notation average := (smooth_average bars copied).
Local Notation temp := (smooth_temp bars copied).

Lemma bars_small : (bars >? 128) = false.
Proof.
  destruct (bars >? 128) eqn:E; [apply Z.gtb_lt in E; lia | reflexivity].
Qed.

Lemma SmoothSpectrum_copy (n : nat) :
  for_loop n
    (fun i x =>
       let src :=
         if bars >? 128
         then Z.to_nat (Z.shiftr (Z.of_nat i) (stepsCount (settings x)))
         else i in
       set_spectrum_smoothed
         (<[i := rssiHistory x !!! src]> (spectrum_smoothed x)) x) s
  = set_spectrum_smoothed
      (for_loop n (fun i l => <[i := rssiHistory s !!! i]> l)
         (spectrum_smoothed s)) s.
Proof.
  rewrite bars_small. induction n as [|n IH].
  - destruct s; reflexivity.
  - rewrite !for_loop_S, IH. reflexivity.
Qed.

Lemma SmoothSpectrum_store (l : list Z) (x : Session) (n : nat) :
  for_loop n
    (fun i x => set_spectrum_smoothed (<[i := l !!! i]> (spectrum_smoothed x))
                  x) x
  = set_spectrum_smoothed
      (for_loop n (fun i m => <[i := l !!! i]> m) (spectrum_smoothed x)) x.
Proof.
  induction n as [|n IH].
  - destruct x; reflexivity.
  - rewrite !for_loop_S, IH. reflexivity.
Qed.

Lemma SmoothSpectrum_temp :
  for_loop (Z.to_nat bars)
    (fun i temp =>
       let '(sum, count) := smooth_window bars copied (Z.of_nat i) in
       if count >? 0
       then <[i := u16 (sum / count)]> temp
       else <[i := RSSI_MAX_VALUE]> temp) (replicate 128 0)
  = temp.
Proof.
  unfold smooth_temp. apply for_loop_ext. intros k l. unfold smooth_average.
  destruct (smooth_window bars copied (Z.of_nat k)) as [sum count].
  destruct (count >? 0); reflexivity.
Qed.

Lemma SmoothSpectrum_lists :
  spectrum_smoothed (SmoothSpectrum bars s)
  = for_loop (Z.to_nat bars) (fun i m => <[i := temp !!! i]> m) copied.
Proof.
  unfold SmoothSpectrum. cbv zeta.
  rewrite SmoothSpectrum_copy. fold (smooth_copied bars s).
  cbn [spectrum_smoothed set_spectrum_smoothed].
  rewrite SmoothSpectrum_temp, SmoothSpectrum_store. reflexivity.
Qed.

Lemma copied_flat (i : Z) : 0 <= i < bars -> copied !!! Z.to_nat i = v.
Proof.
  intros Hi. unfold smooth_copied. rewrite fill_loop_lookup by lia.
  destruct (decide (Z.to_nat i < Z.to_nat bars)%nat); [|lia].
  apply flat. exact Hi.
Qed.

Lemma smooth_tap_flat (i : Z) (k : nat) (sum count : Z) :
  0 <= i + (Z.of_nat k - 3) < bars ->
  smooth_tap bars copied i k (sum, count) = (u32 (sum + v), u8 (count + 1)).
Proof.
  intros Hk. unfold smooth_tap, SPECTRUM_SMOOTH_WINDOW.
  destruct (i + (Z.of_nat k - 3) >=? 0) eqn:E1;
    [|rewrite Z.geb_leb in E1; apply Z.leb_gt in E1; lia].
  destruct (i + (Z.of_nat k - 3) <? bars) eqn:E2;
    [|apply Z.ltb_ge in E2; lia].
  cbn [andb]. rewrite (copied_flat _ Hk).
  destruct v_valid as (Hpos & Hmax & _).
  apply Z.eqb_neq in Hmax. rewrite Hmax.
  destruct (v >? 0) eqn:E3; [reflexivity|].
  rewrite Z.gtb_ltb in E3. apply Z.ltb_ge in E3. lia.
Qed.

Lemma smooth_taps_flat (i : Z) (n : nat) :
  (n <= 7)%nat ->
  (forall k : nat, (k < n)%nat -> 0 <= i + (Z.of_nat k - 3) < bars) ->
  for_loop n (smooth_tap bars copied i) (0, 0)
  = (Z.of_nat n * v, Z.of_nat n).
Proof.
  induction n as [|n IH]; intros Hn Hk; [reflexivity|].
  rewrite for_loop_S, IH by (try lia; intros k Hlt; apply Hk; lia).
  rewrite smooth_tap_flat by (apply Hk; lia).
  destruct v_valid as (Hpos & _ & Hmax).
  unfold u32, u8. rewrite !Z.mod_small by nia.
  f_equal; lia.
Qed.

Lemma average_interior (i : Z) :
  3 <= i -> i + 3 < bars -> average (Z.to_nat i) = v.
Proof.
  intros H1 H2. unfold smooth_average, smooth_window.
  rewrite Z2Nat.id by lia.
  rewrite smooth_taps_flat by (try lia; intros k Hk; lia).
  change (Z.of_nat 7) with 7. cbn [Z.gtb Z.compare].
  destruct v_valid as (Hpos & _ & Hmax).
  rewrite Z.mul_comm, Z.div_mul by lia.
  unfold u16. apply Z.mod_small. lia.
Qed.

Lemma SmoothSpectrum_flat_interior (i : Z) :
  3 <= i -> i + 3 < bars ->
  spectrum_smoothed (SmoothSpectrum bars s) !!! Z.to_nat i = v.
Proof.
  intros H1 H2. rewrite SmoothSpectrum_lists.
  assert (Hc : length copied = 128%nat)
    by (unfold smooth_copied;
        rewrite (fill_loop_length (fun i _ => rssiHistory s !!! i));
        exact smoothed_length).
  rewrite fill_loop_lookup by lia.
  destruct (decide (Z.to_nat i < Z.to_nat bars)%nat); [|lia].
  unfold smooth_temp.
  rewrite fill_loop_lookup by (rewrite length_replicate; lia).
  destruct (decide (Z.to_nat i < Z.to_nat bars)%nat); [|lia].
  apply average_interior; assumption.
Qed.

End Smoothing.

(** C9. For a bar count of at most 128 and a valid value [v] (positive, not
    the sentinel), if every input bin below the bar count holds [v], then
    after [SmoothSpectrum] every interior bin, one with its three neighbours
    on each side inside the range, holds exactly [v]. *)
Theorem SmoothSpectrum_flat (s : Session) (bars v : Z) :
  0 <= bars <= 128 ->
  0 < v /\ v <> RSSI_MAX_VALUE /\ v <= 65535 ->
  length (rssiHistory s) = 128%nat ->
  length (spectrum_smoothed s) = 128%nat ->
  (forall i : Z, 0 <= i < bars -> rssiHistory s !!! Z.to_nat i = v) ->
  forall i : Z,
    3 <= i -> i + 3 < bars ->
    spectrum_smoothed (SmoothSpectrum bars s) !!! Z.to_nat i = v.
Proof.
  intros Hb Hv Hh Hs Hflat i H1 H2.
  apply SmoothSpectrum_flat_interior; assumption.
Qed.

(** ** The tick loop: what a tick can change *)

Lemma view_sweep (cfg : Config) (a b : Session) :
  view a = view b -> GetStepsCount cfg a = GetStepsCount cfg b.
Proof.
  intros H. apply geometry_sweep. exact (f_equal v_geometry H).
Qed.

(** *** Rendering *)

Lemma SmoothSpectrum_view (bars : Z) (s : Session) :
  view (SmoothSpectrum bars s) = view s.
Proof.
  unfold SmoothSpectrum. cbv zeta.
  apply (for_loop_inv (fun x => view x = view s));
    [intros k x Hx; exact Hx|].
  apply (for_loop_inv (fun x => view x = view s));
    [intros k x Hx; exact Hx | reflexivity].
Qed.

Lemma UpdateSpectrumPeaks_view (bars : Z) (s : Session) :
  view (UpdateSpectrumPeaks bars s) = view s.
Proof.
  unfold UpdateSpectrumPeaks.
  apply (for_loop_inv (fun x => view x = view s)); [|reflexivity].
  intros k x Hx. rewrite <- Hx.
  repeat match goal with
         | |- context [if ?c then _ else _] => destruct c
         end; reflexivity.
Qed.

Lemma Render_view (cfg : Config) (s : Session) : view (Render cfg s) = view s.
Proof.
  unfold Render, DrawSpectrum.
  destruct (currentState s); try reflexivity.
  destruct (ENABLE_FEAT_F4HWN cfg);
    rewrite UpdateSpectrumPeaks_view, SmoothSpectrum_view; reflexivity.
Qed.

(** *** Measuring *)

Lemma wr_Done_length (h h' : list Z) (i v : Z) :
  wr h i v = Done h' -> length h' = length h.
Proof.
  unfold wr. destruct ((0 <=? i) && (i <? 128)); [|discriminate].
  intros [= <-]. apply length_insert.
Qed.

Lemma SetRssiHistory_Done (cfg : Config) (idx v : Z) (s s' : Session) :
  SetRssiHistory cfg idx v s = Done s' ->
  exists h, s' = set_rssiHistory h s /\ length h = length (rssiHistory s).
Proof.
  unfold SetRssiHistory.
  destruct (ENABLE_SCAN_RANGES cfg && _).
  - destruct (rd _ _) as [old|]; cbn [mbind Outcome_bind]; [|discriminate].
    destruct ((old <? v) || isListening s).
    + destruct (wr (rssiHistory s) _ v) as [h1|] eqn:E1;
        cbn [mbind Outcome_bind]; [|discriminate].
      destruct (wr h1 _ 0) as [h2|] eqn:E2; cbn [mbind Outcome_bind];
        [|discriminate].
      intros [= <-]. exists h2. split; [reflexivity|].
      rewrite (wr_Done_length _ _ _ _ E2). apply (wr_Done_length _ _ _ _ E1).
    + cbn [mbind Outcome_bind].
      destruct (wr (rssiHistory s) _ 0) as [h2|] eqn:E2;
        cbn [mbind Outcome_bind]; [|discriminate].
      intros [= <-]. exists h2. split; [reflexivity|].
      apply (wr_Done_length _ _ _ _ E2).
  - destruct (wr (rssiHistory s) idx v) as [h1|] eqn:E1;
      cbn [mbind Outcome_bind]; [|discriminate].
    intros [= <-]. exists h1. split; [reflexivity|].
    apply (wr_Done_length _ _ _ _ E1).
Qed.

Lemma Measure_view (cfg : Config) (sample : Z) (s s' : Session) :
  Measure cfg sample s = Done s' -> view s' = view s.
Proof.
  unfold Measure. cbv zeta. intros H.
  apply SetRssiHistory_Done in H. destruct H as (h & -> & Hlen).
  unfold view. cbn. rewrite Hlen. reflexivity.
Qed.

Lemma UpdateScanInfo_view (cfg : Config) (s : Session) :
  view (UpdateScanInfo cfg s) = view s.
Proof.
  unfold UpdateScanInfo.
  repeat match goal with
         | |- context [if ?c then _ else _] => destruct c
         end; reflexivity.
Qed.

Lemma Scan_view (cfg : Config) (sample : Z) (s s' : Session) :
  Scan cfg sample s = Done s' -> view s' = view s.
Proof.
  unfold Scan. destruct (rd _ _) as [v|]; cbn [mbind Outcome_bind];
    [|discriminate].
  destruct (negb (v =? RSSI_MAX_VALUE) && _); [|intros [= <-]; reflexivity].
  cbv zeta.
  destruct (Measure cfg sample _) as [s1|] eqn:E; cbn [mbind Outcome_bind];
    [|discriminate].
  intros [= <-]. rewrite UpdateScanInfo_view.
  rewrite (Measure_view _ _ _ _ E). reflexivity.
Qed.

(** *** The stages of a tick *)

Lemma Tick_redraw_view (cfg : Config) (s : Session) :
  view (Tick_redraw cfg s) = view s.
Proof.
  unfold Tick_redraw. cbv zeta.
  match goal with
  | |- view (if redrawScreen ?x then _ else _) = _ => set (s1 := x)
  end.
  assert (H1 : view s1 = view s).
  { subst s1.
    repeat match goal with
           | |- context [if ?c then _ else _] => destruct c
           end; reflexivity. }
  clearbody s1. destruct (redrawScreen s1); [|exact H1].
  transitivity (view (Render cfg s1)); [reflexivity|].
  rewrite Render_view. exact H1.
Qed.

Lemma NextScanStep_view (s : Session) :
  view (NextScanStep s)
  = {| v_state := currentState s;
       v_listening := isListening s;
       v_newScanStart := newScanStart s;
       v_geometry := geometry s;
       v_rows := waterfall_rows s;
       v_phase := waterfall_phase s;
       v_history_length := length (rssiHistory s);
       v_i := u16 (ScanInfo.i (scanInfo s) + 1);
       v_count := ScanInfo.measurementsCount (scanInfo s) |}.
Proof. reflexivity. Qed.

Lemma InitScan_view (cfg : Config) (s : Session) :
  view (InitScan cfg s)
  = {| v_state := currentState s;
       v_listening := isListening s;
       v_newScanStart := newScanStart s;
       v_geometry := geometry s;
       v_rows := replicate WATERFALL_ROWS_PIXELS (replicate 16 0);
       v_phase := 0;
       v_history_length := length (rssiHistory s);
       v_i := 0;
       v_count := GetStepsCount cfg s |}.
Proof. reflexivity. Qed.

Lemma view_fields (a b : Session) :
  view a = view b ->
  currentState a = currentState b
  /\ isListening a = isListening b
  /\ newScanStart a = newScanStart b
  /\ geometry a = geometry b
  /\ waterfall_rows a = waterfall_rows b
  /\ waterfall_phase a = waterfall_phase b
  /\ length (rssiHistory a) = length (rssiHistory b)
  /\ ScanInfo.i (scanInfo a) = ScanInfo.i (scanInfo b)
  /\ ScanInfo.measurementsCount (scanInfo a)
     = ScanInfo.measurementsCount (scanInfo b).
Proof.
  intros H. repeat split.
  - exact (f_equal v_state H).
  - exact (f_equal v_listening H).
  - exact (f_equal v_newScanStart H).
  - exact (f_equal v_geometry H).
  - exact (f_equal v_rows H).
  - exact (f_equal v_phase H).
  - exact (f_equal v_history_length H).
  - exact (f_equal v_i H).
  - exact (f_equal v_count H).
Qed.

(** *** A pass over 128 bins *)

Lemma scanning_view (cfg : Config) (k : Z) (a b : Session) :
  view a = view b -> scanning cfg k b -> scanning cfg k a.
Proof.
  intros Hv (H1 & H2 & H3 & H4 & H5 & H6 & H7).
  pose proof (view_sweep cfg _ _ Hv) as Hs.
  destruct (view_fields _ _ Hv)
    as (E1 & E2 & E3 & _ & _ & _ & E7 & E8 & E9).
  unfold scanning. rewrite E1, E2, E3, Hs, E7, E8, E9. tauto.
Qed.

Lemma Tick_timeslice_small (cfg : Config) (inp : TickInput) (s : Session) :
  GetStepsCount cfg s <= 128 -> Tick_timeslice cfg inp s = inr s.
Proof.
  intros H. unfold Tick_timeslice.
  assert (E : (GetStepsCount cfg s >? 128) = false).
  { destruct (GetStepsCount cfg s >? 128) eqn:E; [|reflexivity].
    apply Z.gtb_lt in E. lia. }
  rewrite E, andb_false_r. reflexivity.
Qed.

Lemma Tick_prepare_scanning (cfg : Config) (k : Z) (s : Session) :
  scanning cfg k s -> scanning cfg k (Tick_prepare cfg s).
Proof.
  intros Hs. apply (scanning_view cfg k _ s); [|exact Hs].
  destruct Hs as (_ & _ & Hn & _).
  unfold Tick_prepare. cbv zeta.
  destruct (negb (preventKeypress s)).
  - change (newScanStart (HandleUserInput_idle s)) with (newScanStart s).
    rewrite Hn. reflexivity.
  - rewrite Hn. reflexivity.
Qed.

Lemma Tick_prepare_start (cfg : Config) (s : Session) :
  pass_start cfg s -> scanning cfg 0 (Tick_prepare cfg s).
Proof.
  intros (H1 & H2 & H3 & H4 & H5).
  assert (Hv : view (Tick_prepare cfg s)
               = {| v_state := currentState s;
                    v_listening := isListening s;
                    v_newScanStart := false;
                    v_geometry := geometry s;
                    v_rows := replicate WATERFALL_ROWS_PIXELS
                                (replicate 16 0);
                    v_phase := 0;
                    v_history_length := length (rssiHistory s);
                    v_i := 0;
                    v_count := GetStepsCount cfg s |}).
  { unfold Tick_prepare. cbv zeta.
    destruct (negb (preventKeypress s)).
    - change (newScanStart (HandleUserInput_idle s)) with (newScanStart s).
      rewrite H3. reflexivity.
    - rewrite H3. reflexivity. }
  assert (Hg : GetStepsCount cfg (Tick_prepare cfg s) = GetStepsCount cfg s)
    by (apply geometry_sweep; exact (f_equal v_geometry Hv)).
  unfold scanning. rewrite Hg.
  pose proof (f_equal v_state Hv) as E1. pose proof (f_equal v_listening Hv) as E2.
  pose proof (f_equal v_newScanStart Hv) as E3.
  pose proof (f_equal v_history_length Hv) as E4.
  pose proof (f_equal v_i Hv) as E5. pose proof (f_equal v_count Hv) as E6.
  cbn in E1, E2, E3, E4, E5, E6.
  rewrite E1, E2, E3, E4, E5, E6. tauto.
Qed.

Lemma Scan_Done (cfg : Config) (sample k : Z) (s : Session) :
  scanning cfg k s -> 0 <= k < 128 ->
  exists s', Scan cfg sample s = Done s' /\ scanning cfg k s'.
Proof.
  intros Hs Hk.
  assert (Hex : exists s', Scan cfg sample s = Done s').
  { destruct Hs as (_ & _ & _ & _ & _ & Hi & Hmc).
    unfold Scan. rewrite Hi, (rd_in_range _ _ Hk).
    cbn [mbind Outcome_bind].
    destruct (negb _ && _); [|eauto].
    cbv zeta. unfold Measure. cbv zeta.
    rewrite SetRssiHistory_plain_spec.
    - cbn [mbind Outcome_bind]. eauto.
    - cbn. rewrite Hmc. apply andb_false_r.
    - cbn. rewrite Hi. exact Hk. }
  destruct Hex as (s' & Hs'). exists s'. split; [exact Hs'|].
  apply (scanning_view cfg k _ s); [|exact Hs].
  apply (Scan_view _ _ _ _ Hs').
Qed.

Lemma Tick_scanning_step (cfg : Config) (inp : TickInput) (k : Z)
    (s : Session) :
  scanning cfg k (Tick_prepare cfg s) -> 0 <= k < 128 ->
  GetStepsCount cfg s <= 128 ->
  exists s', Tick cfg inp s = Done s' /\ scanning cfg (k + 1) s'.
Proof.
  intros Hs Hk Hn. unfold Tick. rewrite (Tick_timeslice_small _ _ _ Hn).
  set (s1 := Tick_prepare cfg s) in *. clearbody s1.
  destruct (Scan_Done cfg (in_sample inp) k s1 Hs Hk) as (s2 & H2 & Hs2).
  destruct Hs as (H1 & Hl & _).
  unfold Tick_update. rewrite Hl, H1. cbn [andb].
  unfold UpdateScan. rewrite H2. cbn [mbind Outcome_bind].
  destruct Hs2 as (E1 & E2 & E3 & E4 & E5 & E6 & E7).
  assert (Hlt : (ScanInfo.i (scanInfo s2)
                 <? ScanInfo.measurementsCount (scanInfo s2)) = true)
    by (apply Z.ltb_lt; lia).
  rewrite Hlt. cbn [mbind Outcome_bind].
  eexists. split; [reflexivity|].
  apply (scanning_view cfg (k + 1) _ (NextScanStep s2)).
  - apply Tick_redraw_view.
  - unfold scanning.
    assert (Hg : GetStepsCount cfg (NextScanStep s2) = GetStepsCount cfg s2)
      by (apply geometry_sweep; reflexivity).
    rewrite Hg. cbn. rewrite E1, E2, E3, E4, E5, E6, E7.
    unfold u16. rewrite Z.mod_small by lia. tauto.
Qed.

Lemma Tick_scanning_fault (cfg : Config) (inp : TickInput) (s : Session) :
  scanning cfg 128 s -> Tick cfg inp s = OutOfBounds 128.
Proof.
  intros Hs. unfold Tick.
  rewrite Tick_timeslice_small by (destruct Hs as (_ & _ & _ & -> & _); lia).
  pose proof (Tick_prepare_scanning cfg 128 s Hs) as Hp.
  set (s1 := Tick_prepare cfg s) in *. clearbody s1.
  destruct Hp as (H1 & Hl & _ & _ & _ & Hi & _).
  unfold Tick_update. rewrite Hl, H1. cbn [andb].
  unfold UpdateScan, Scan. rewrite Hi, rd_out_of_range by lia.
  reflexivity.
Qed.

(** From the start of a 128-bin pass, [k + 1] ticks bring the bin index to
    [k + 1], whatever is measured. *)
Lemma run_scanning (cfg : Config) (inps : list TickInput) (k : Z)
    (s : Session) :
  scanning cfg k s -> 0 <= k -> k + Z.of_nat (length inps) <= 128 ->
  exists s',
    run cfg inps s = Done s' /\ scanning cfg (k + Z.of_nat (length inps)) s'.
Proof.
  revert k s. induction inps as [|inp inps IH]; intros k s Hs Hk Hlen.
  - exists s. split; [reflexivity|]. cbn. rewrite Z.add_0_r. exact Hs.
  - cbn [length] in Hlen. rewrite Nat2Z.inj_succ in Hlen.
    destruct (Tick_scanning_step cfg inp k s) as (s1 & H1 & Hs1).
    + apply Tick_prepare_scanning. exact Hs.
    + lia.
    + destruct Hs as (_ & _ & _ & -> & _). lia.
    + destruct (IH (k + 1) s1 Hs1) as (s2 & H2 & Hs2); [lia | lia |].
      exists s2. split.
      * cbn [run]. rewrite H1. exact H2.
      * cbn [length]. rewrite Nat2Z.inj_succ.
        replace (k + Z.succ (Z.of_nat (length inps)))
          with (k + 1 + Z.of_nat (length inps)) by lia.
        exact Hs2.
Qed.

Lemma run_app (cfg : Config) (l1 l2 : list TickInput) (s : Session) :
  run cfg (l1 ++ l2) s = (s' ← run cfg l1 s; run cfg l2 s').
Proof.
  revert s. induction l1 as [|inp l1 IH]; intros s; [reflexivity|].
  cbn [app run]. destruct (Tick cfg inp s) as [s1|]; cbn [mbind Outcome_bind].
  - apply IH.
  - reflexivity.
Qed.

(** C1. A pass over 128 bins runs into the end of [rssiHistory]: from any
    session about to start such a pass, and whatever the receiver reports,
    128 ticks bring the bin index to 128, equal to the measurement count,
    and the tick that follows (the one that completes the pass) faults in
    the guard of [Scan] on [rssiHistory[128]]. *)
Theorem pass_of_128_bins_reads_past_history (cfg : Config) (s : Session)
    (inps : list TickInput) (last : TickInput) (rest : list TickInput) :
  pass_start cfg s ->
  length inps = 128%nat ->
  (exists s',
     run cfg inps s = Done s'
     /\ ScanInfo.i (scanInfo s') = 128
     /\ ScanInfo.measurementsCount (scanInfo s') = 128)
  /\ run cfg (inps ++ last :: rest) s = OutOfBounds 128.
Proof.
  intros Hstart Hlen.
  destruct inps as [|inp inps]; [discriminate|].
  cbn [length] in Hlen.
  destruct (Tick_scanning_step cfg inp 0 s) as (s1 & H1 & Hs1).
  { apply Tick_prepare_start. exact Hstart. }
  { lia. }
  { destruct Hstart as (_ & _ & _ & -> & _). lia. }
  destruct (run_scanning cfg inps 1 s1 Hs1) as (s2 & H2 & Hs2); [lia | lia |].
  replace (1 + Z.of_nat (length inps)) with 128 in Hs2 by lia.
  assert (Hrun : run cfg (inp :: inps) s = Done s2)
    by (cbn [run]; rewrite H1; exact H2).
  split.
  - exists s2. split; [exact Hrun|].
    destruct Hs2 as (_ & _ & _ & _ & _ & Hi & Hmc). split; assumption.
  - rewrite run_app, Hrun. cbn [mbind Outcome_bind run].
    rewrite (Tick_scanning_fault cfg last s2 Hs2). reflexivity.
Qed.

(** ** The waterfall in the running loop *)

Lemma view_wview (a b : Session) : view a = view b -> wview a = wview b.
Proof.
  intros H. unfold wview.
  rewrite (f_equal v_rows H : waterfall_rows a = waterfall_rows b).
  rewrite (f_equal v_phase H : waterfall_phase a = waterfall_phase b).
  rewrite (f_equal v_newScanStart H : newScanStart a = newScanStart b).
  reflexivity.
Qed.

Lemma cleared_wview (a b : Session) :
  wview a = wview b -> cleared b -> cleared a.
Proof.
  unfold wview, cleared. intros [= E1 E2 E3]. rewrite E1, E2, E3. tauto.
Qed.

Lemma cleared_fresh (s : Session) : cleared s -> waterfall_fresh s.
Proof. intros (H1 & H2 & _). left. split; assumption. Qed.

Lemma fresh_wview (a b : Session) :
  wview a = wview b -> waterfall_fresh b -> waterfall_fresh a.
Proof.
  unfold wview, waterfall_fresh. intros [= E1 E2 E3].
  rewrite E1, E2, E3. tauto.
Qed.

(** *** [Waterfall_AddLine] on a blank waterfall *)

Lemma blank_rows_lookup (r : nat) :
  (r < 16)%nat -> blank_rows !!! r = blank_row.
Proof. intros H. apply lookup_total_replicate_2. exact H. Qed.

Lemma waterfall_shift_blank (n : nat) (s : Session) :
  waterfall_rows s = blank_rows ->
  waterfall_rows (for_loop n waterfall_shift_row s) = blank_rows
  /\ waterfall_phase (for_loop n waterfall_shift_row s) = waterfall_phase s.
Proof.
  intros Hs.
  apply (for_loop_inv
           (fun x => waterfall_rows x = blank_rows
                     /\ waterfall_phase x = waterfall_phase s));
    [|split; [exact Hs | reflexivity]].
  intros k x [Hr Hp]. split; [|exact Hp].
  unfold waterfall_shift_row. cbn [waterfall_rows set_waterfall_rows].
  rewrite Hr.
  destruct (decide (WATERFALL_ROWS_PIXELS - 1 - k < 16)%nat) as [Hlt|Hge].
  - apply list_insert_id. rewrite blank_rows_lookup.
    + apply lookup_replicate_2. exact Hlt.
    + unfold WATERFALL_ROWS_PIXELS in *. lia.
  - apply list_insert_ge. unfold blank_rows. rewrite length_replicate.
    unfold WATERFALL_ROWS_PIXELS in *. lia.
Qed.

Lemma waterfall_pixel_below (cfg : Config) (k : nat) (s : Session) :
  waterfall_phase (waterfall_pixel cfg k s) = waterfall_phase s
  /\ forall r : nat, (1 <= r)%nat ->
       waterfall_rows (waterfall_pixel cfg k s) !!! r
       = waterfall_rows s !!! r.
Proof.
  unfold waterfall_pixel. cbv zeta.
  destruct (rssiHistory s !!! k =? RSSI_MAX_VALUE);
    [split; [reflexivity | intros; reflexivity]|].
  match goal with
  | |- context [if ?c then _ else _] => destruct c
  end; (split; [reflexivity|]); intros r Hr; [|reflexivity].
  cbn [waterfall_rows set_waterfall_rows].
  apply list_lookup_total_insert_ne. lia.
Qed.

Lemma waterfall_pixels_below (cfg : Config) (n : nat) (s : Session) :
  waterfall_phase (for_loop n (waterfall_pixel cfg) s) = waterfall_phase s
  /\ forall r : nat, (1 <= r)%nat ->
       waterfall_rows (for_loop n (waterfall_pixel cfg) s) !!! r
       = waterfall_rows s !!! r.
Proof.
  apply (for_loop_inv
           (fun x => waterfall_phase x = waterfall_phase s
                     /\ forall r : nat, (1 <= r)%nat ->
                          waterfall_rows x !!! r = waterfall_rows s !!! r));
    [|split; [reflexivity | intros; reflexivity]].
  intros k x [Hp Hr]. destruct (waterfall_pixel_below cfg k x) as [Ep Er].
  split; [rewrite Ep; exact Hp|].
  intros r H. rewrite (Er r H). apply Hr. exact H.
Qed.

Lemma waterfall_advance_effect (s : Session) :
  waterfall_phase (waterfall_advance s) = Z.land (waterfall_phase s + 1) 3
  /\ forall r : nat, (1 <= r)%nat ->
       waterfall_rows (waterfall_advance s) !!! r = waterfall_rows s !!! r.
Proof.
  split; [reflexivity|]. intros r Hr.
  unfold waterfall_advance. cbn [waterfall_rows set_waterfall_rows
    set_waterfall_scan_count set_waterfall_phase].
  apply list_lookup_total_insert_ne. lia.
Qed.

Lemma Waterfall_AddLine_blank (cfg : Config) (s : Session) :
  waterfall_rows s = blank_rows ->
  waterfall_phase s = 0 ->
  waterfall_phase (Waterfall_AddLine cfg s) = 1
  /\ forall r : nat, (1 <= r < 16)%nat ->
       waterfall_rows (Waterfall_AddLine cfg s) !!! r = blank_row.
Proof.
  intros Hr Hp. rewrite Waterfall_AddLine_unfold.
  destruct (waterfall_shift_blank (WATERFALL_ROWS_PIXELS - 1) s Hr)
    as [Sr Sp].
  set (s1 := for_loop (WATERFALL_ROWS_PIXELS - 1) waterfall_shift_row s) in *.
  destruct (waterfall_advance_effect s1) as [Ap Ar].
  destruct (waterfall_pixels_below cfg 128 (waterfall_advance s1))
    as [Pp Pr].
  split.
  - rewrite Pp, Ap, Sp, Hp. reflexivity.
  - intros r H. rewrite Pr, Ar, Sr by lia. apply blank_rows_lookup. lia.
Qed.

Lemma Waterfall_AddLine_newScanStart (cfg : Config) (s : Session) :
  newScanStart (Waterfall_AddLine cfg s) = newScanStart s.
Proof.
  rewrite Waterfall_AddLine_unfold.
  transitivity (newScanStart
    (waterfall_advance
       (for_loop (WATERFALL_ROWS_PIXELS - 1) waterfall_shift_row s))).
  - apply (for_loop_inv (fun x => newScanStart x = newScanStart _));
      [|reflexivity].
    intros k x Hx. rewrite <- Hx. unfold waterfall_pixel. cbv zeta.
    repeat match goal with
           | |- context [if ?c then _ else _] => destruct c
           end; reflexivity.
  - generalize (WATERFALL_ROWS_PIXELS - 1)%nat. intros n.
    transitivity (newScanStart (for_loop n waterfall_shift_row s));
      [reflexivity|].
    apply (for_loop_inv (fun x => newScanStart x = newScanStart s));
      [intros k x Hx; exact Hx | reflexivity].
Qed.

(** Taken alone, [Waterfall_AddLine] is the ring the comments describe: the
    rows move down by one and the phase advances modulo 4. *)
Lemma waterfall_shift_row_rows (k : nat) (s : Session) :
  waterfall_rows (waterfall_shift_row k s)
  = <[(15 - k)%nat := waterfall_rows s !!! (15 - k - 1)%nat]>
      (waterfall_rows s).
Proof. reflexivity. Qed.

Lemma waterfall_shift_rows (n : nat) (s : Session) :
  (n <= 15)%nat ->
  length (waterfall_rows s) = 16%nat ->
  length (waterfall_rows (for_loop n waterfall_shift_row s)) = 16%nat
  /\ forall r : nat, (r < 16)%nat ->
       waterfall_rows (for_loop n waterfall_shift_row s) !!! r
       = if decide (16 - n <= r)%nat
         then waterfall_rows s !!! (r - 1)%nat
         else waterfall_rows s !!! r.
Proof.
  intros Hn Hlen. induction n as [|n IH].
  - split; [exact Hlen|]. intros r Hr.
    destruct (decide (16 - 0 <= r)%nat); [lia | reflexivity].
  - destruct (IH ltac:(lia)) as [IHlen IHrows].
    rewrite for_loop_S, waterfall_shift_row_rows.
    split; [rewrite length_insert; exact IHlen|].
    intros r Hr. destruct (decide (r = 15 - n)%nat) as [->|Hne].
    + rewrite list_lookup_total_insert_eq by lia.
      rewrite IHrows by lia.
      destruct (decide (16 - n <= 15 - n - 1)%nat); [lia|].
      destruct (decide (16 - S n <= 15 - n)%nat); [reflexivity | lia].
    + rewrite list_lookup_total_insert_ne by congruence.
      rewrite IHrows by lia.
      destruct (decide (16 - n <= r)%nat), (decide (16 - S n <= r)%nat);
        try reflexivity; lia.
Qed.

Lemma Waterfall_AddLine_ring (cfg : Config) (s : Session) :
  length (waterfall_rows s) = 16%nat ->
  waterfall_phase (Waterfall_AddLine cfg s)
  = Z.land (waterfall_phase s + 1) 3
  /\ forall r : nat, (1 <= r < 16)%nat ->
       waterfall_rows (Waterfall_AddLine cfg s) !!! r
       = waterfall_rows s !!! (r - 1)%nat.
Proof.
  intros Hlen. rewrite Waterfall_AddLine_unfold.
  destruct (waterfall_shift_rows 15 s ltac:(lia) Hlen) as [_ Sr].
  assert (Sp : waterfall_phase (for_loop 15 waterfall_shift_row s)
               = waterfall_phase s).
  { generalize 15%nat. intros n.
    apply (for_loop_inv (fun x => waterfall_phase x = waterfall_phase s));
      [intros k x Hx; exact Hx | reflexivity]. }
  change (WATERFALL_ROWS_PIXELS - 1)%nat with 15%nat.
  set (s1 := for_loop 15 waterfall_shift_row s) in *.
  destruct (waterfall_advance_effect s1) as [Ap Ar].
  destruct (waterfall_pixels_below cfg 128 (waterfall_advance s1))
    as [Pp Pr].
  split.
  - rewrite Pp, Ap, Sp. reflexivity.
  - intros r H. rewrite Pr, Ar, Sr by lia.
    destruct (decide (16 - 15 <= r)%nat); [reflexivity | lia].
Qed.

(** *** The stages of a tick *)

Lemma ToggleRX_wview (cfg : Config) (on : bool) (s : Session) :
  wview (ToggleRX cfg on s) = wview s.
Proof.
  destruct (ToggleRX_spec cfg on s) as (l & a & t & ->). reflexivity.
Qed.

Lemma UpdatePeakInfo_view (s : Session) : view (UpdatePeakInfo s) = view s.
Proof.
  unfold UpdatePeakInfo, UpdatePeakInfoForce, AutoTriggerLevel.
  repeat match goal with
         | |- context [if ?c then _ else _] => destruct c
         end; reflexivity.
Qed.

Lemma Tick_timeslice_wview (cfg : Config) (inp : TickInput) (s : Session) :
  match Tick_timeslice cfg inp s with
  | inl s' | inr s' => wview s' = wview s
  end.
Proof.
  unfold Tick_timeslice.
  destruct (ENABLE_SCAN_RANGES cfg && in_timeslice_500ms inp
            && (GetStepsCount cfg s >? 128) && negb (isListening s));
    [|reflexivity].
  cbv zeta. pose proof (view_wview _ _ (UpdatePeakInfo_view s)) as H.
  set (s1 := UpdatePeakInfo s) in *. clearbody s1.
  destruct (IsPeakOverLevel s1).
  - transitivity (wview (ToggleRX cfg true s1)); [reflexivity|].
    rewrite ToggleRX_wview. exact H.
  - exact H.
Qed.

Lemma Tick_prepare_cleared (cfg : Config) (s : Session) :
  waterfall_fresh s -> cleared (Tick_prepare cfg s).
Proof.
  intros Hf. unfold Tick_prepare. cbv zeta.
  set (s1 := if negb (preventKeypress s) then HandleUserInput_idle s else s).
  assert (H1 : wview s1 = wview s)
    by (subst s1; destruct (negb (preventKeypress s)); reflexivity).
  apply (fresh_wview _ _ H1) in Hf. clear H1. clearbody s1.
  destruct (newScanStart s1) eqn:E.
  - split; [reflexivity|]. split; reflexivity.
  - destruct Hf as [[Hp Hr] | [Hn _]]; [|congruence].
    split; [exact Hp|]. split; [exact Hr | exact E].
Qed.

Lemma ResetScanStats_cleared (s : Session) :
  newScanStart s = false -> cleared (ResetScanStats s).
Proof.
  intros H. split; [reflexivity|]. split; [reflexivity | exact H].
Qed.

Lemma UpdateListening_cleared (cfg : Config) (sample : Z) (tail : bool)
    (s s' : Session) :
  cleared s -> UpdateListening cfg sample tail s = Done s' -> cleared s'.
Proof.
  intros Hc. unfold UpdateListening. cbv zeta.
  match goal with
  | |- (if negb (listenT ?x =? 0) then _ else _) = _ -> _ => set (s1 := x)
  end.
  assert (H1 : wview s1 = wview s).
  { subst s1.
    repeat match goal with
           | |- context [if ?c then _ else _] => destruct c
           end; reflexivity. }
  apply (cleared_wview _ _ H1) in Hc. clear H1. clearbody s1.
  destruct (negb (listenT s1 =? 0)).
  - intros [= <-]. apply (cleared_wview _ s1); [reflexivity | exact Hc].
  - destruct (Measure cfg sample s1) as [s2|] eqn:E;
      cbn [mbind Outcome_bind]; [|discriminate].
    apply Measure_view, view_wview in E.
    apply (cleared_wview _ _ E) in Hc. clear E.
    match goal with
    | |- (if ?c then _ else _) = _ -> _ => destruct c
    end; intros [= <-].
    + apply (cleared_wview _ s2); [reflexivity | exact Hc].
    + apply ResetScanStats_cleared.
      pose proof (ToggleRX_wview cfg false
        (set_redrawScreen true
           (upd_peak (PeakInfo.set_rssi (ScanInfo.rssi (scanInfo s2))) s2)))
        as HT.
      injection HT as _ _ ->. destruct Hc as (_ & _ & Hn). exact Hn.
Qed.

Lemma UpdateStill_cleared (cfg : Config) (sample : Z) (s s' : Session) :
  cleared s -> UpdateStill cfg sample s = Done s' -> cleared s'.
Proof.
  intros Hc. unfold UpdateStill.
  destruct (Measure cfg sample s) as [s2|] eqn:E;
    cbn [mbind Outcome_bind]; [|discriminate].
  apply Measure_view, view_wview in E.
  apply (cleared_wview _ _ E) in Hc. clear E. cbv zeta.
  match goal with
  | |- (if IsPeakOverLevel ?x || _ then _ else _) = _ -> _ => set (s3 := x)
  end.
  assert (H3 : wview s3 = wview s2).
  { subst s3. unfold AutoTriggerLevel.
    match goal with
    | |- context [if ?c then _ else _] => destruct c
    end; reflexivity. }
  apply (cleared_wview _ _ H3) in Hc. clear H3. clearbody s3.
  destruct (IsPeakOverLevel s3 || monitorMode s3); intros [= <-].
  - apply (cleared_wview _ s3); [apply ToggleRX_wview | exact Hc].
  - exact Hc.
Qed.

Lemma set_newScanStart_waterfall (v : bool) (s : Session) :
  waterfall_phase (set_newScanStart v s) = waterfall_phase s
  /\ waterfall_rows (set_newScanStart v s) = waterfall_rows s
  /\ newScanStart (set_newScanStart v s) = v.
Proof. split; [reflexivity|]. split; reflexivity. Qed.

Lemma UpdateScan_complete_fresh (cfg : Config) (s s' : Session) :
  cleared s -> UpdateScan_complete cfg s = Done s' -> waterfall_fresh s'.
Proof.
  intros Hc. unfold UpdateScan_complete.
  destruct (clear_unused_bins _ _) as [h|]; cbn [mbind Outcome_bind];
    [|discriminate].
  cbv zeta.
  match goal with
  | |- (if IsPeakOverLevel ?x then _ else _) = _ -> _ => set (s1 := x)
  end.
  assert (H1 : wview s1 = wview s).
  { subst s1.
    match goal with
    | |- wview (UpdatePeakInfo ?y) = _ =>
        rewrite (view_wview _ _ (UpdatePeakInfo_view y))
    end. reflexivity. }
  apply (cleared_wview _ _ H1) in Hc. clear H1. clearbody s1.
  destruct (IsPeakOverLevel s1); intros [= <-].
  - apply cleared_fresh. apply (cleared_wview _ (ToggleRX cfg true s1)).
    + reflexivity.
    + apply (cleared_wview _ s1); [apply ToggleRX_wview | exact Hc].
  - destruct Hc as (Hp & Hr & _).
    destruct (Waterfall_AddLine_blank cfg s1 Hr Hp) as [Wp Wr].
    destruct (set_newScanStart_waterfall true (Waterfall_AddLine cfg s1))
      as (Np & Nr & Nn).
    right. rewrite Np, Nr, Nn. split; [reflexivity|].
    split; [exact Wp | exact Wr].
Qed.

Lemma UpdateScan_fresh (cfg : Config) (sample : Z) (s s' : Session) :
  cleared s -> UpdateScan cfg sample s = Done s' -> waterfall_fresh s'.
Proof.
  intros Hc. unfold UpdateScan.
  destruct (Scan cfg sample s) as [s1|] eqn:E; cbn [mbind Outcome_bind];
    [|discriminate].
  apply Scan_view, view_wview in E.
  apply (cleared_wview _ _ E) in Hc. clear E.
  destruct (_ <? _).
  - intros [= <-]. apply cleared_fresh.
    apply (cleared_wview _ s1); [reflexivity | exact Hc].
  - apply UpdateScan_complete_fresh. exact Hc.
Qed.

Lemma Tick_update_fresh (cfg : Config) (inp : TickInput) (s s' : Session) :
  cleared s -> Tick_update cfg inp s = Done s' -> waterfall_fresh s'.
Proof.
  intros Hc. unfold Tick_update.
  destruct (isListening s && negb (State_eqb (currentState s) FREQ_INPUT)).
  - intros H. apply cleared_fresh.
    apply (UpdateListening_cleared _ _ _ _ _ Hc H).
  - destruct (currentState s).
    + apply UpdateScan_fresh. exact Hc.
    + intros [= <-]. apply cleared_fresh. exact Hc.
    + intros H. apply cleared_fresh. apply (UpdateStill_cleared _ _ _ _ Hc H).
Qed.

(** Every tick keeps the waterfall fresh. *)
Lemma Tick_fresh (cfg : Config) (inp : TickInput) (s s' : Session) :
  waterfall_fresh s -> Tick cfg inp s = Done s' -> waterfall_fresh s'.
Proof.
  intros Hf. unfold Tick.
  pose proof (Tick_timeslice_wview cfg inp s) as Ht.
  destruct (Tick_timeslice cfg inp s) as [s1|s1].
  - intros [= <-]. apply (fresh_wview _ _ Ht). exact Hf.
  - apply (fresh_wview _ _ Ht) in Hf.
    pose proof (Tick_prepare_cleared cfg s1 Hf) as Hc.
    destruct (Tick_update cfg inp (Tick_prepare cfg s1)) as [s2|] eqn:E;
      cbn [mbind Outcome_bind]; [|discriminate].
    intros [= <-].
    apply (fresh_wview _ s2).
    + apply view_wview, Tick_redraw_view.
    + apply (Tick_update_fresh _ _ _ _ Hc E).
Qed.

Lemma run_fresh (cfg : Config) (inps : list TickInput) (s s' : Session) :
  waterfall_fresh s -> run cfg inps s = Done s' -> waterfall_fresh s'.
Proof.
  revert s. induction inps as [|inp inps IH]; intros s Hf.
  - intros [= <-]. exact Hf.
  - cbn [run]. destruct (Tick cfg inp s) as [s1|] eqn:E;
      cbn [mbind Outcome_bind]; [|discriminate].
    apply IH. apply (Tick_fresh _ _ _ _ Hf E).
Qed.

(** C2. In the running tick loop the waterfall is not a ring: every pass
    starts with [InitScan], whose [ResetScanStats] blanks the waterfall and
    resets the phase. From a session with a blank waterfall and phase 0 (as
    [APP_RunSpectrum] leaves it), after any number of ticks, whatever the
    receiver reports, the phase is 0 or 1, never 2 or 3, and every row below
    the top row is blank: no row of an earlier pass is retained. *)
Theorem waterfall_never_accumulates (cfg : Config) (inps : list TickInput)
    (s s' : Session) :
  waterfall_phase s = 0 ->
  waterfall_rows s = blank_rows ->
  run cfg inps s = Done s' ->
  (waterfall_phase s' = 0 \/ waterfall_phase s' = 1)
  /\ forall r : nat, (1 <= r < 16)%nat -> waterfall_rows s' !!! r = blank_row.
Proof.
  intros Hp Hr Hrun.
  assert (Hf : waterfall_fresh s) by (left; split; assumption).
  destruct (run_fresh cfg inps s s' Hf Hrun) as [[Hp' Hr'] | (_ & Hp' & Hr')].
  - split; [left; exact Hp'|].
    intros r H. rewrite Hr'. apply blank_rows_lookup. lia.
  - split; [right; exact Hp' | exact Hr'].
Qed.

(** * The properties on concrete sessions *)

(** Sessions reached by the tick loop, in evaluated form. *)

Lemma example_sessions_reached :
  run example_config (replicate 128 (idle_tick 100)) example_start
  = Done bins128_last_tick
  /\ run example_config (replicate 16 (idle_tick 100)) example_start16
     = Done bins16_last_tick
  /\ run example_config (pass16 ++ replicate 16 (idle_tick 100))
       example_start16
     = Done bins16_second_last_tick
  /\ (exists s,
        run example_config pass16 example_start16 = Done s
        /\ run example_config (replicate 32 (idle_tick 0))
             (ToggleStepsCount example_config s)
           = Done quiet_pass_end)
  /\ run example_config [idle_tick 300] example_range_start
     = Done range_after_1
  /\ run example_config (replicate 127 (idle_tick 100)) example_range_start
     = Done range_after_127.
Proof.
  split; [vm_compute; reflexivity|].
  split; [vm_compute; reflexivity|].
  split; [vm_compute; reflexivity|].
  split.
  - exists (session_after example_config pass16 example_start16).
    split; vm_compute; reflexivity.
  - split; vm_compute; reflexivity.
Qed.

(** ** C1: the completion tick reads [rssiHistory[measurementsCount]] *)

(** [UpdateScan] calls [Scan] before it compares the bin index with the
    measurement count, so on the tick that completes a pass the guard of
    [Scan] reads [rssiHistory[measurementsCount]]; with 128 measurements
    that is index 128, one past the array. *)
Lemma UpdateScan_completion_out_of_bounds (cfg : Config) (sample : Z)
    (s : Session) :
  ScanInfo.i (scanInfo s) = ScanInfo.measurementsCount (scanInfo s) ->
  ScanInfo.measurementsCount (scanInfo s) = 128 ->
  UpdateScan cfg sample s = OutOfBounds 128.
Proof.
  intros Hi Hmc. unfold UpdateScan, Scan.
  rewrite Hi, Hmc. rewrite rd_out_of_range by lia. reflexivity.
Qed.

Lemma pass_of_128_bins_reads_past_history_witness :
  pass_start example_config example_start
  /\ (exists s',
        run example_config (replicate 128 (idle_tick 100)) example_start
        = Done s'
        /\ ScanInfo.i (scanInfo s') = 128
        /\ ScanInfo.measurementsCount (scanInfo s') = 128)
  /\ run example_config
       (replicate 128 (idle_tick 100) ++ [idle_tick 100]) example_start
     = OutOfBounds 128.
Proof.
  assert (H : pass_start example_config example_start) by by_evaluation.
  split; [exact H|].
  apply (pass_of_128_bins_reads_past_history example_config example_start
           (replicate 128 (idle_tick 100)) (idle_tick 100) [] H).
  reflexivity.
Defined.

(** The same on the evaluated session: after 128 ticks the bin index is
    128, and both [UpdateScan] and the whole tick fault there. *)
Example completion_tick_of_128_bins :
  ScanInfo.i (scanInfo bins128_last_tick) = 128
  /\ UpdateScan example_config 100 bins128_last_tick = OutOfBounds 128
  /\ Tick example_config (idle_tick 100) bins128_last_tick = OutOfBounds 128.
Proof.
  split; [vm_compute; reflexivity|]. split.
  - apply UpdateScan_completion_out_of_bounds; vm_compute; reflexivity.
  - vm_compute. reflexivity.
Qed.

(** Below 128 bins the same read stays inside the array, and the extra
    measurement shows: a 16-bin pass whose seventeenth sample is the
    strongest reports its peak at bin 16. *)
Example completion_tick_measures_bin_16 :
  let s := session_after example_config
             (replicate 16 (idle_tick 100) ++ [idle_tick 140])
             example_start16 in
  ScanInfo.measurementsCount (scanInfo s) = 16
  /\ PeakInfo.i (peak s) = 16
  /\ PeakInfo.rssi (peak s) = 140.
Proof. vm_compute. repeat split; reflexivity. Qed.

(** ** C2: the waterfall across passes *)

(** Two consecutive 16-bin passes: after the second the phase is 1 again,
    not 2, and the row below the top is blank although the first pass had
    drawn a row. *)
Example waterfall_restarts_each_pass :
  let s1 := session_after example_config pass16 example_start16 in
  let s2 := session_after example_config (pass16 ++ pass16) example_start16 in
  run example_config (pass16 ++ pass16) example_start16 = Done s2
  /\ waterfall_phase s1 = 1
  /\ waterfall_rows s1 !!! 0%nat = 48 :: replicate 15 0
  /\ waterfall_phase s2 = 1
  /\ waterfall_rows s2 !!! 0%nat = 48 :: replicate 15 0
  /\ waterfall_rows s2 !!! 1%nat = replicate 16 0.
Proof. vm_compute. repeat split; reflexivity. Qed.

Lemma waterfall_never_accumulates_witness :
  run example_config (pass16 ++ pass16) example_start16
  = Done bins16_two_passes
  /\ (waterfall_phase bins16_two_passes = 0
      \/ waterfall_phase bins16_two_passes = 1)
  /\ forall r : nat, (1 <= r < 16)%nat ->
       waterfall_rows bins16_two_passes !!! r = blank_row.
Proof.
  assert (Hrun : run example_config (pass16 ++ pass16) example_start16
                 = Done bins16_two_passes) by (vm_compute; reflexivity).
  split; [exact Hrun|].
  apply (waterfall_never_accumulates example_config (pass16 ++ pass16)
           example_start16 bins16_two_passes);
    [vm_compute; reflexivity | vm_compute; reflexivity | exact Hrun].
Defined.

(** ** C3: centred mode at 145.500 MHz *)

Lemma GetFEnd_centred_overshoot_witness :
  IsCenterMode example_config example_start_centred = true
  /\ GetStepsCount example_config example_start_centred = 128
  /\ GetScanStep example_config example_start_centred = 1
  /\ GetFStart example_config example_start_centred = 14549872
  /\ GetFEnd example_config example_start_centred = 14550064
  /\ GetFEnd example_config example_start_centred
     - (GetFStart example_config example_start_centred
        + GetStepsCount example_config example_start_centred
          * GetScanStep example_config example_start_centred)
     = GetStepsCount example_config example_start_centred
       * GetScanStep example_config example_start_centred / 2
  /\ GetStepsCount example_config example_start_centred <= 128
  /\ 8 * GetScanStep example_config example_start_centred
     <= GetStepsCount example_config example_start_centred
        * GetScanStep example_config example_start_centred / 2.
Proof.
  repeat (split; [vm_compute; reflexivity|]).
  apply (GetFEnd_centred_overshoot example_config example_start_centred);
    by_evaluation.
Defined.

(** ** C4: a quiet pass after a relaunch *)

(** C4, as stated, fails: the level is at the sentinel, the peak is set,
    young and not exceeded, so the completion does not refresh it and the
    level stays at the sentinel instead of becoming [clamp (0 + 8)]. *)
Lemma auto_trigger_counterexample :
  rssiTriggerLevel (settings quiet_pass_end) = RSSI_MAX_VALUE
  /\ ScanInfo.i (scanInfo quiet_pass_end)
     = ScanInfo.measurementsCount (scanInfo quiet_pass_end)
  /\ (exists s',
        UpdateScan_complete example_config quiet_pass_end = Done s'
        /\ rssiTriggerLevel (settings s')
           <> clamp (ScanInfo.rssiMax (scanInfo quiet_pass_end) + 8) 0
                RSSI_MAX_VALUE)
  /\ (exists s',
        Tick example_config (idle_tick 0) quiet_pass_end = Done s'
        /\ ScanInfo.rssiMax (scanInfo s') = 0
        /\ rssiTriggerLevel (settings s') = RSSI_MAX_VALUE).
Proof.
  split; [vm_compute; reflexivity|]. split; [vm_compute; reflexivity|].
  split; eexists; (split; [vm_compute; reflexivity|]).
  - vm_compute. discriminate.
  - split; vm_compute; reflexivity.
Qed.

Lemma UpdateScan_complete_auto_trigger_witness :
  let s := bins16_last_tick in
  rssiTriggerLevel (settings s) = RSSI_MAX_VALUE
  /\ peak_refresh_due s
  /\ exists s',
       UpdateScan_complete example_config s = Done s'
       /\ rssiTriggerLevel (settings s') = 108.
Proof.
  intros s.
  assert (Hmc : 0 <= ScanInfo.measurementsCount (scanInfo s) <= 128)
    by by_evaluation.
  assert (Ht : rssiTriggerLevel (settings s) = RSSI_MAX_VALUE)
    by (vm_compute; reflexivity).
  assert (Hdue : peak_refresh_due s) by (left; vm_compute; reflexivity).
  destruct (UpdateScan_complete_auto_trigger example_config s Hmc)
    as (s' & Hs' & Hauto & _).
  repeat split; try assumption.
  exists s'. split; [exact Hs'|].
  rewrite (Hauto Ht Hdue). vm_compute. reflexivity.
Defined.

(** ** C5: a peak that is due and one that is not *)

Lemma UpdatePeakInfo_refresh_iff_witness :
  let due := bins16_last_tick in
  let kept := bins16_second_last_tick in
  (peak_refresh_due due /\ peak (UpdatePeakInfo due)
                           = PeakInfo.mk 0 100 14530000 0)
  /\ (~ peak_refresh_due kept /\ peak (UpdatePeakInfo kept)
                                 = PeakInfo.mk 16 260 14542500 5).
Proof.
  intros due kept.
  assert (Hdue : peak_refresh_due due) by (left; vm_compute; reflexivity).
  assert (Hkept : ~ peak_refresh_due kept).
  { unfold peak_refresh_due. vm_compute.
    intros [H | [H | H]]; try discriminate. apply H. reflexivity. }
  split; split; try assumption.
  - rewrite (proj1 (UpdatePeakInfo_refresh_iff due) Hdue).
    vm_compute. reflexivity.
  - rewrite (proj2 (UpdatePeakInfo_refresh_iff kept) Hkept).
    vm_compute. reflexivity.
Defined.

(** ** C6 and C8: writes in a folded scan range *)



(** C8, as stated, fails: in a folded range bins 0 and 1 share slot 0; after
    300 was stored for bin 0, storing 200 for bin 1 leaves 300 in the slot. *)
Lemma roundtrip_counterexample :
  let s := range_after_1 in
  ScanInfo.measurementsCount (scanInfo s) = 129
  /\ ScanInfo.i (scanInfo s) = 1
  /\ exists s',
       SetRssiHistory example_config 1 200 s = Done s'
       /\ rssiHistory s' !!! Z.to_nat (128 * 1 / 129) <> 200
       /\ rssiHistory s' !!! Z.to_nat (folded_slot 129 1) <> 200.
Proof.
  intros s. repeat (split; [vm_compute; reflexivity|]).
  eexists. split; [vm_compute; reflexivity|].
  split; vm_compute; discriminate.
Qed.

Lemma history_roundtrip_and_clear_witness :
  let s := bins16_last_tick in
  (exists s', SetRssiHistory example_config 5 321 s = Done s'
              /\ rssiHistory s' !!! 5%nat = 321)
  /\ (exists s', UpdateScan_complete example_config s = Done s'
                 /\ rssiHistory s' !!! 15%nat = 100
                 /\ rssiHistory s' !!! 16%nat = 0).
Proof.
  intros s.
  assert (Hlen : length (rssiHistory s) = 128%nat) by (vm_compute; reflexivity).
  destruct (history_roundtrip_and_clear example_config s Hlen)
    as (Hplain & _ & Hclear).
  split.
  - apply (Hplain 5 321); by_evaluation.
  - destruct Hclear as (s' & Hs' & Hh); [by_evaluation|].
    exists s'. split; [exact Hs'|]. split.
    + rewrite (Hh 15%nat) by lia. vm_compute. reflexivity.
    + rewrite (Hh 16%nat) by lia. vm_compute. reflexivity.
Defined.

(** ** C7: the selector from 64 bins *)

(** C7, as stated, fails: the first toggle from 64 bins gives 128, not 32. *)
Lemma ToggleStepsCount_counterexample :
  GetStepsCount example_config example_start64 = 64
  /\ GetStepsCount example_config
       (ToggleStepsCount example_config example_start64) <> 32.
Proof. split; [vm_compute; reflexivity | vm_compute; discriminate]. Qed.

Lemma ToggleStepsCount_cycle_witness :
  let t := ToggleStepsCount example_config in
  GetStepsCount example_config (t example_start64) = 128
  /\ GetStepsCount example_config (t (t example_start64)) = 16
  /\ GetStepsCount example_config (t (t (t example_start64))) = 32
  /\ GetStepsCount example_config (t (t (t (t example_start64)))) = 64
  /\ restarted example_config example_start64 (t example_start64).
Proof.
  intros t. subst t.
  assert (Hsc : stepsCount (settings example_start64) = STEPS_64)
    by (vm_compute; reflexivity).
  assert (Hr : ENABLE_SCAN_RANGES example_config
               && negb (gScanRangeStart example_start64 =? 0) = false)
    by (vm_compute; reflexivity).
  pose proof (ToggleStepsCount_cycle example_config example_start64 Hsc Hr)
    as H.
  cbv zeta in H. destruct H as ((_ & H1 & H2 & H3 & H4) & Hall).
  split; [exact H1|]. split; [exact H2|]. split; [exact H3|].
  split; [exact H4|].
  apply Hall. vm_compute. reflexivity.
Defined.

(** ** C9: a flat 16-bar spectrum *)

Lemma SmoothSpectrum_flat_witness :
  let s := set_rssiHistory (replicate 128 500) example_start16 in
  spectrum_smoothed (SmoothSpectrum 16 s) !!! 5%nat = 500.
Proof.
  intros s. change 5%nat with (Z.to_nat 5).
  apply (SmoothSpectrum_flat s 16 500 ltac:(lia)
           ltac:(unfold RSSI_MAX_VALUE; lia)
           ltac:(vm_compute; reflexivity) ltac:(vm_compute; reflexivity));
    try lia.
  intros i Hi. subst s. cbn [rssiHistory set_rssiHistory].
  apply lookup_total_replicate_2. lia.
Defined.

(** ** C10: 10 MHz typed into the frequency input *)

Lemma OnKeyDownFreqInput_out_of_band_witness :
  let s := typed example_config [KEY_1; KEY_0] (FreqInput example_start) in
  currentState s = FREQ_INPUT
  /\ tempFreq s = 1000000
  /\ OnKeyDownFreqInput example_config KEY_MENU s = s.
Proof.
  intros s. split; [vm_compute; reflexivity|].
  split; [vm_compute; reflexivity|].
  apply (OnKeyDownFreqInput_out_of_band example_config s).
  left. vm_compute. reflexivity.
Defined.

(** A typed frequency inside the band is taken over and the scan restarts
    there. *)
Example OnKeyDownFreqInput_accepts_145_525 :
  let s := typed example_config
             [KEY_1; KEY_4; KEY_5; KEY_STAR; KEY_5; KEY_2; KEY_5; KEY_MENU]
             (FreqInput example_start) in
  currentState s = SPECTRUM
  /\ currentFreq s = 14552500
  /\ ScanInfo.f (scanInfo s) = 14552500.
Proof. vm_compute. repeat split; reflexivity. Qed.

(** * Further properties of the code *)

(** ** Readings: RSSI, dBm, S-units and pixels *)

(** X1. [dbm2rssi] and [Rssi2DBm] are inverse to each other up to the
    half-dB resolution of the RSSI scale: a dBm value whose RSSI fits the
    16-bit register comes back unchanged, and a 16-bit RSSI comes back
    rounded down to the even value below it. *)
Theorem dbm2rssi_round_trip (cfg : Config) (d r : Z) :
  0 <= (d + 160 - dBmCorr cfg) * 2 < 65536 ->
  0 <= r < 65536 ->
  Rssi2DBm cfg (dbm2rssi cfg d) = d
  /\ dbm2rssi cfg (Rssi2DBm cfg r) = r - r mod 2.
Proof.
  intros Hd Hr. unfold Rssi2DBm, dbm2rssi, u16. split.
  - rewrite Z.mod_small by exact Hd.
    rewrite Z.div_mul by lia. lia.
  - replace (r / 2 - 160 + dBmCorr cfg + 160 - dBmCorr cfg) with (r / 2)
      by lia.
    pose proof (Z.div_mod r 2 ltac:(lia)) as E.
    pose proof (Z.mod_pos_bound r 2 ltac:(lia)) as B.
    rewrite Z.mod_small by lia. lia.
Qed.

Lemma dbm2rssi_round_trip_witness :
  Rssi2DBm example_config (dbm2rssi example_config (-100)) = -100
  /\ dbm2rssi example_config (Rssi2DBm example_config 151) = 151 - 151 mod 2.
Proof.
  apply (dbm2rssi_round_trip example_config (-100) 151); vm_compute;
    split; congruence.
Defined.

Lemma DBm2S_from_bounds (table : list Z) (dbm i : Z) :
  i <= DBm2S_from table dbm i <= i + Z.of_nat (length table).
Proof.
  revert i. induction table as [|v rest IH]; intros i; simpl.
  - lia.
  - destruct (dbm >=? v); [lia|]. specialize (IH (i + 1)). lia.
Qed.

Lemma DBm2S_from_mono (table : list Z) (a b i : Z) :
  a <= b -> DBm2S_from table b i <= DBm2S_from table a i.
Proof.
  intros Hab. revert i. induction table as [|v rest IH]; intros i; simpl.
  - lia.
  - destruct (b >=? v) eqn:Eb; destruct (a >=? v) eqn:Ea.
    + lia.
    + pose proof (DBm2S_from_bounds rest a (i + 1)). lia.
    + lia.
    + apply IH.
Qed.

(** X2. The S-meter reading of [DBm2S] is monotone: a stronger signal never
    reads lower, whatever the table holds, and the reading never exceeds the
    number of table entries. *)
Theorem DBm2S_monotone (pf : Platform) (d1 d2 : Z) :
  (length (U8RssiMap pf) < 256)%nat ->
  d1 <= d2 ->
  DBm2S pf d1 <= DBm2S pf d2 <= Z.of_nat (length (U8RssiMap pf)).
Proof.
  intros Hlen Hd. unfold DBm2S, u8.
  pose proof (DBm2S_from_bounds (U8RssiMap pf) (d1 * -1) 0) as B1.
  pose proof (DBm2S_from_bounds (U8RssiMap pf) (d2 * -1) 0) as B2.
  pose proof (DBm2S_from_mono (U8RssiMap pf) (d2 * -1) (d1 * -1) 0
                ltac:(lia)) as M.
  rewrite !Z.mod_small by lia. lia.
Qed.

Lemma DBm2S_monotone_witness :
  DBm2S example_platform (-120) <= DBm2S example_platform (-80)
  <= Z.of_nat (length (U8RssiMap example_platform)).
Proof.
  apply (DBm2S_monotone example_platform (-120) (-80)); vm_compute;
    [lia | congruence].
Defined.

Lemma clamp_cases (v lo hi : Z) :
  (v <= lo /\ clamp v lo hi = lo)
  \/ (lo < v /\ hi <= v /\ clamp v lo hi = hi)
  \/ (lo < v < hi /\ clamp v lo hi = v).
Proof.
  unfold clamp.
  destruct (v <=? lo) eqn:E1; [left; split; [lia | reflexivity]|].
  destruct (v >=? hi) eqn:E2; right; [left | right]; repeat split; lia.
Qed.

Lemma quot_scaled_range (d R P : Z) :
  0 < R -> 0 <= P -> 0 <= d <= R ->
  0 <= Z.quot (d * P + Z.quot R 2) R <= P.
Proof.
  intros HR HP Hd.
  assert (H2 : 0 <= Z.quot R 2 < R).
  { rewrite Z.quot_div_nonneg by lia.
    pose proof (Z.div_mod R 2 ltac:(lia)).
    pose proof (Z.mod_pos_bound R 2 ltac:(lia)). lia. }
  rewrite Z.quot_div_nonneg by nia.
  split.
  - apply Z.div_pos; nia.
  - enough ((d * P + Z.quot R 2) / R < P + 1) by lia.
    apply Z.div_lt_upper_bound; nia.
Qed.

(** X3. [Rssi2PX] maps every reading into the pixel interval it is given
    whenever the two display limits differ, also when the floor lies above
    the ceiling; when they are equal it divides by zero. *)
Theorem Rssi2PX_range (cfg : Config) (rssi pxMin pxMax : Z) (s : Session) :
  0 <= pxMin <= pxMax -> pxMax < 256 ->
  (dbMin (settings s) = dbMax (settings s) ->
   Rssi2PX cfg rssi pxMin pxMax s = None)
  /\ (dbMin (settings s) <> dbMax (settings s) ->
      exists p, Rssi2PX cfg rssi pxMin pxMax s = Some p
                /\ pxMin <= p <= pxMax).
Proof.
  intros Hpx Hmax. unfold Rssi2PX. cbv zeta.
  rewrite !Z.shiftl_mul_pow2 by lia. change (2 ^ 1) with 2.
  set (A := dbMin (settings s) * 2). set (B := dbMax (settings s) * 2).
  set (v := Rssi2DBm cfg rssi * 2).
  assert (HP : u8 (pxMax - pxMin) = pxMax - pxMin)
    by (unfold u8; apply Z.mod_small; lia).
  rewrite HP. split.
  - intros E. replace (B - A =? 0) with true; [reflexivity|].
    symmetry. apply Z.eqb_eq. subst A B. lia.
  - intros NE. destruct (B - A =? 0) eqn:E0; [apply Z.eqb_eq in E0; lia|].
    apply Z.eqb_neq in E0. eexists. split; [reflexivity|].
    assert (Hq : 0 <= Z.quot ((clamp v A B - A) * (pxMax - pxMin)
                              + Z.quot (B - A) 2) (B - A)
                 <= pxMax - pxMin).
    { destruct (Z.lt_total A B) as [Hlt | [Heq | Hgt]]; [|lia|].
      - apply quot_scaled_range; try lia.
        destruct (clamp_cases v A B) as [[? ->] | [(? & ? & ->) | [? ->]]];
          lia.
      - (* the floor above the ceiling: the clamp returns one of the two *)
        set (R := A - B) in *.
        assert (HR : B - A = - R) by (subst R; lia).
        assert (Heven : Z.quot (B - A) 2 = - (R / 2) /\ R = 2 * (R / 2)
                        /\ 0 < R / 2).
        { rewrite HR, Z.quot_opp_l by lia.
          rewrite Z.quot_div_nonneg by lia.
          assert (R = 2 * (dbMin (settings s) - dbMax (settings s)))
            by (subst R A B; lia).
          rewrite H, Z.mul_comm, Z.div_mul by lia.
          subst R A B. lia. }
        destruct Heven as (Eq2 & Ev & Hpos).
        rewrite Eq2, HR.
        destruct (clamp_cases v A B) as [[? ->] | [(? & ? & ->) | [? ->]]];
          [| |lia].
        + replace ((A - A) * (pxMax - pxMin) + - (R / 2)) with (- (R / 2))
            by lia.
          rewrite Z.quot_opp_opp by lia.
          rewrite Z.quot_small by lia. lia.
        + replace ((B - A) * (pxMax - pxMin) + - (R / 2))
            with (- (R * (pxMax - pxMin) + R / 2)) by lia.
          rewrite Z.quot_opp_opp by lia.
          rewrite Z.quot_div_nonneg by nia.
          rewrite Z.mul_comm, Z.div_add_l by lia.
          rewrite (Z.div_small (R / 2) R) by lia. lia. }
    unfold u8. rewrite Z.mod_small by lia. lia.
Qed.

Lemma Rssi2PX_range_witness :
  (dbMin (settings example_start) = dbMax (settings example_start) ->
   Rssi2PX example_config 200 0 40 example_start = None)
  /\ (dbMin (settings example_start) <> dbMax (settings example_start) ->
      exists p, Rssi2PX example_config 200 0 40 example_start = Some p
                /\ 0 <= p <= 40).
Proof.
  apply (Rssi2PX_range example_config 200 0 40 example_start); lia.
Defined.

(** ** The squelch level and the display ceiling *)

Lemma ClampRssiTriggerLevel_settings (cfg : Config) (s : Session) :
  settings (ClampRssiTriggerLevel cfg s)
  = set_rssiTriggerLevel
      (u16 (clamp (rssiTriggerLevel (settings s))
              (dbm2rssi cfg (dbMin (settings s)))
              (dbm2rssi cfg (dbMax (settings s))))) (settings s).
Proof. reflexivity. Qed.

Lemma dbm2rssi_u16 (cfg : Config) (d : Z) : 0 <= dbm2rssi cfg d < 65536.
Proof. unfold dbm2rssi, u16. apply Z.mod_pos_bound. lia. Qed.

Lemma UpdateRssiTriggerLevel_settings (cfg : Config) (inc : bool)
    (s : Session) :
  settings (UpdateRssiTriggerLevel cfg inc s)
  = set_rssiTriggerLevel
      (u16 (clamp (u16 (rssiTriggerLevel (settings s)
                        + (if inc then 2 else -2)))
              (dbm2rssi cfg (dbMin (settings s)))
              (dbm2rssi cfg (dbMax (settings s))))) (settings s).
Proof. destruct inc; reflexivity. Qed.

(** X4. After either squelch-level key the trigger level lies between the
    RSSI of the display floor and the RSSI of the display ceiling (when the
    floor is not above the ceiling), and no other setting has changed. *)
Theorem UpdateRssiTriggerLevel_clamped (cfg : Config) (inc : bool)
    (s : Session) :
  dbm2rssi cfg (dbMin (settings s)) <= dbm2rssi cfg (dbMax (settings s)) ->
  let s' := UpdateRssiTriggerLevel cfg inc s in
  dbm2rssi cfg (dbMin (settings s)) <= rssiTriggerLevel (settings s')
    <= dbm2rssi cfg (dbMax (settings s))
  /\ set_rssiTriggerLevel (rssiTriggerLevel (settings s)) (settings s')
     = settings s.
Proof.
  intros Hle s'. subst s'. rewrite UpdateRssiTriggerLevel_settings.
  pose proof (dbm2rssi_u16 cfg (dbMin (settings s))) as Hlo.
  pose proof (dbm2rssi_u16 cfg (dbMax (settings s))) as Hhi.
  set (lo := dbm2rssi cfg (dbMin (settings s))) in *.
  set (hi := dbm2rssi cfg (dbMax (settings s))) in *.
  set (v := u16 (rssiTriggerLevel (settings s) + (if inc then 2 else -2))).
  split; [|destruct (settings s); reflexivity].
  cbn [rssiTriggerLevel set_rssiTriggerLevel].
  assert (Hc : lo <= clamp v lo hi <= hi).
  { destruct (clamp_cases v lo hi) as [[? ->] | [(? & ? & ->) | [? ->]]];
      lia. }
  unfold u16. rewrite Z.mod_small by lia. exact Hc.
Qed.

Lemma UpdateRssiTriggerLevel_clamped_witness :
  let s' := UpdateRssiTriggerLevel example_config true example_start in
  dbm2rssi example_config (dbMin (settings example_start))
    <= rssiTriggerLevel (settings s')
    <= dbm2rssi example_config (dbMax (settings example_start))
  /\ set_rssiTriggerLevel (rssiTriggerLevel (settings example_start))
       (settings s')
     = settings example_start.
Proof.
  apply (UpdateRssiTriggerLevel_clamped example_config true example_start).
  vm_compute. congruence.
Defined.

(** The RSSI of a dBm value is even, so it is never the sentinel. *)
Lemma dbm2rssi_not_sentinel (cfg : Config) (d : Z) :
  dbm2rssi cfg d <> RSSI_MAX_VALUE.
Proof.
  unfold dbm2rssi, u16, RSSI_MAX_VALUE.
  change 65536 with (32768 * 2).
  rewrite Z.mul_mod_distr_r by lia. lia.
Qed.

(** X5. The squelch-level keys leave the automatic mode at once. With the
    level at the sentinel [RSSI_MAX_VALUE], the key that raises it wraps the
    16-bit level around to 1 and the key that lowers it gives 65533; the
    level becomes that value clamped by [clamp] between the RSSI of the
    display floor and the RSSI of the display ceiling (so the floor when it
    is raised over a floor of at least 1, the ceiling when it is lowered
    under a ceiling of at most 65533 that lies above the floor).  Whatever
    the two limits are, the level is no longer the sentinel, so
    [AutoTriggerLevel] does nothing afterwards. *)
Theorem UpdateRssiTriggerLevel_leaves_auto (cfg : Config) (s : Session) :
  rssiTriggerLevel (settings s) = RSSI_MAX_VALUE ->
  let lo := dbm2rssi cfg (dbMin (settings s)) in
  let hi := dbm2rssi cfg (dbMax (settings s)) in
  rssiTriggerLevel (settings (UpdateRssiTriggerLevel cfg true s))
  = clamp 1 lo hi
  /\ rssiTriggerLevel (settings (UpdateRssiTriggerLevel cfg false s))
     = clamp 65533 lo hi
  /\ (1 <= lo ->
      rssiTriggerLevel (settings (UpdateRssiTriggerLevel cfg true s)) = lo)
  /\ (lo < hi <= 65533 ->
      rssiTriggerLevel (settings (UpdateRssiTriggerLevel cfg false s)) = hi)
  /\ forall inc,
       rssiTriggerLevel (settings (UpdateRssiTriggerLevel cfg inc s))
       <> RSSI_MAX_VALUE
       /\ AutoTriggerLevel (UpdateRssiTriggerLevel cfg inc s)
          = UpdateRssiTriggerLevel cfg inc s.
Proof.
  intros Hauto lo hi.
  pose proof (dbm2rssi_u16 cfg (dbMin (settings s))) as Blo.
  pose proof (dbm2rssi_u16 cfg (dbMax (settings s))) as Bhi.
  pose proof (dbm2rssi_not_sentinel cfg (dbMin (settings s))) as Nlo.
  pose proof (dbm2rssi_not_sentinel cfg (dbMax (settings s))) as Nhi.
  fold lo in Blo, Nlo. fold hi in Bhi, Nhi. unfold RSSI_MAX_VALUE in Nlo, Nhi.
  assert (Hlevel : forall inc,
            rssiTriggerLevel (settings (UpdateRssiTriggerLevel cfg inc s))
            = clamp (if inc then 1 else 65533) lo hi).
  { intros inc. rewrite UpdateRssiTriggerLevel_settings, Hauto.
    cbn [rssiTriggerLevel set_rssiTriggerLevel]. fold lo hi.
    replace (u16 (RSSI_MAX_VALUE + (if inc then 2 else -2)))
      with (if inc then 1 else 65533) by (destruct inc; reflexivity).
    unfold u16. apply Z.mod_small.
    destruct (clamp_cases (if inc then 1 else 65533) lo hi)
      as [[? ->] | [(? & ? & ->) | [? ->]]]; destruct inc; lia. }
  split; [exact (Hlevel true)|]. split; [exact (Hlevel false)|].
  split; [|split].
  - intros H1. rewrite (Hlevel true).
    destruct (clamp_cases 1 lo hi) as [[? ->] | [(? & ? & ->) | [? ->]]];
      lia.
  - intros H2. rewrite (Hlevel false).
    destruct (clamp_cases 65533 lo hi)
      as [[? ->] | [(? & ? & ->) | [? ->]]]; lia.
  - intros inc.
    assert (Hne : rssiTriggerLevel
                    (settings (UpdateRssiTriggerLevel cfg inc s))
                  <> RSSI_MAX_VALUE).
    { rewrite (Hlevel inc). unfold RSSI_MAX_VALUE.
      destruct (clamp_cases (if inc then 1 else 65533) lo hi)
        as [[? ->] | [(? & ? & ->) | [? ->]]]; destruct inc; lia. }
    split; [exact Hne|].
    unfold AutoTriggerLevel.
    replace (rssiTriggerLevel (settings (UpdateRssiTriggerLevel cfg inc s))
             =? RSSI_MAX_VALUE) with false; [reflexivity|].
    symmetry. apply Z.eqb_neq. exact Hne.
Qed.

Lemma UpdateRssiTriggerLevel_leaves_auto_witness :
  let lo := dbm2rssi example_config (dbMin (settings example_start)) in
  let hi := dbm2rssi example_config (dbMax (settings example_start)) in
  rssiTriggerLevel
    (settings (UpdateRssiTriggerLevel example_config true example_start))
  = clamp 1 lo hi
  /\ rssiTriggerLevel
       (settings (UpdateRssiTriggerLevel example_config false example_start))
     = clamp 65533 lo hi
  /\ (1 <= lo ->
      rssiTriggerLevel
        (settings (UpdateRssiTriggerLevel example_config true example_start))
      = lo)
  /\ (lo < hi <= 65533 ->
      rssiTriggerLevel
        (settings (UpdateRssiTriggerLevel example_config false example_start))
      = hi)
  /\ forall inc,
       rssiTriggerLevel
         (settings (UpdateRssiTriggerLevel example_config inc example_start))
       <> RSSI_MAX_VALUE
       /\ AutoTriggerLevel (UpdateRssiTriggerLevel example_config inc
                              example_start)
          = UpdateRssiTriggerLevel example_config inc example_start.
Proof.
  apply (UpdateRssiTriggerLevel_leaves_auto example_config example_start).
  vm_compute. reflexivity.
Defined.

Lemma UpdateDBMax_limits (cfg : Config) (inc : bool) (s : Session) :
  dbMin (settings (UpdateDBMax cfg inc s)) = dbMin (settings s)
  /\ dbMax (settings (UpdateDBMax cfg inc s))
     = if inc && (dbMax (settings s) <? 10) then dbMax (settings s) + 1
       else if negb inc && (dbMax (settings s) >? dbMin (settings s))
       then dbMax (settings s) - 1
       else dbMax (settings s).
Proof.
  unfold UpdateDBMax. cbv zeta.
  destruct (inc && (dbMax (settings s) <? 10)); [split; reflexivity|].
  destruct (negb inc && (dbMax (settings s) >? dbMin (settings s)));
    split; reflexivity.
Qed.

(** X6. The display-ceiling keys keep the ceiling between the floor and
    10 dBm and never move the floor. With the ceiling below 10, raising it
    and lowering it again restores it; with the ceiling at 10 the raise is
    refused, so the same two keys leave it at 9 (or at 10 when the floor is
    10 as well). Lowering a ceiling that lies above the floor and raising
    it again restores it. At the limits (ceiling at 10 when raising,
    ceiling on the floor when lowering) the key changes nothing at all. *)
Theorem UpdateDBMax_bounds (cfg : Config) (inc : bool) (s : Session) :
  dbMin (settings s) <= dbMax (settings s) <= 10 ->
  let s' := UpdateDBMax cfg inc s in
  dbMin (settings s') = dbMin (settings s)
  /\ dbMin (settings s') <= dbMax (settings s') <= 10
  /\ (dbMax (settings s) < 10 ->
      dbMax (settings (UpdateDBMax cfg false (UpdateDBMax cfg true s)))
      = dbMax (settings s))
  /\ (dbMax (settings s) = 10 ->
      dbMax (settings (UpdateDBMax cfg false (UpdateDBMax cfg true s)))
      = if dbMin (settings s) <? 10 then 9 else 10)
  /\ (dbMin (settings s) < dbMax (settings s) ->
      dbMax (settings (UpdateDBMax cfg true (UpdateDBMax cfg false s)))
      = dbMax (settings s))
  /\ (dbMax (settings s) = (if inc then 10 else dbMin (settings s)) ->
      s' = s).
Proof.
  intros Hb s'. subst s'.
  destruct (UpdateDBMax_limits cfg inc s) as [Emin Emax].
  rewrite Emin, Emax. split; [reflexivity|].
  split; [|split; [|split; [|split]]].
  - destruct inc; cbn [andb negb].
    + destruct (dbMax (settings s) <? 10) eqn:E; [apply Z.ltb_lt in E|]; lia.
    + destruct (dbMax (settings s) >? dbMin (settings s)) eqn:E;
        [apply Z.gtb_lt in E|]; lia.
  - intros Hlt.
    destruct (UpdateDBMax_limits cfg true s) as [Emin1 Emax1].
    destruct (UpdateDBMax_limits cfg false (UpdateDBMax cfg true s))
      as [_ Emax2].
    rewrite Emax2, Emin1, Emax1. cbn [andb negb].
    replace (dbMax (settings s) <? 10) with true
      by (symmetry; apply Z.ltb_lt; lia).
    replace (dbMax (settings s) + 1 >? dbMin (settings s)) with true
      by (symmetry; apply Z.gtb_lt; lia).
    lia.
  - intros Hten.
    destruct (UpdateDBMax_limits cfg true s) as [Emin1 Emax1].
    destruct (UpdateDBMax_limits cfg false (UpdateDBMax cfg true s))
      as [_ Emax2].
    rewrite Emax2, Emin1, Emax1, Hten. cbn [andb negb].
    change (10 <? 10) with false. cbv iota. rewrite Z.gtb_ltb.
    destruct (dbMin (settings s) <? 10); reflexivity.
  - intros Hgt.
    destruct (UpdateDBMax_limits cfg false s) as [Emin1 Emax1].
    destruct (UpdateDBMax_limits cfg true (UpdateDBMax cfg false s))
      as [_ Emax2].
    rewrite Emax2, Emax1. cbn [andb negb].
    replace (dbMax (settings s) >? dbMin (settings s)) with true
      by (symmetry; apply Z.gtb_lt; lia).
    replace (dbMax (settings s) - 1 <? 10) with true
      by (symmetry; apply Z.ltb_lt; lia).
    lia.
  - intros Hedge. unfold UpdateDBMax. cbv zeta. destruct inc; cbn [andb negb].
    + replace (dbMax (settings s) <? 10) with false
        by (symmetry; apply Z.ltb_ge; lia).
      reflexivity.
    + replace (dbMax (settings s) >? dbMin (settings s)) with false;
        [reflexivity|].
      symmetry. rewrite Z.gtb_ltb. apply Z.ltb_ge. lia.
Qed.

Lemma UpdateDBMax_bounds_witness :
  let s' := UpdateDBMax example_config true example_start in
  dbMin (settings s') = dbMin (settings example_start)
  /\ dbMin (settings s') <= dbMax (settings s') <= 10
  /\ (dbMax (settings example_start) < 10 ->
      dbMax (settings (UpdateDBMax example_config false
                         (UpdateDBMax example_config true example_start)))
      = dbMax (settings example_start))
  /\ (dbMax (settings example_start) = 10 ->
      dbMax (settings (UpdateDBMax example_config false
                         (UpdateDBMax example_config true example_start)))
      = if dbMin (settings example_start) <? 10 then 9 else 10)
  /\ (dbMin (settings example_start) < dbMax (settings example_start) ->
      dbMax (settings (UpdateDBMax example_config true
                         (UpdateDBMax example_config false example_start)))
      = dbMax (settings example_start))
  /\ (dbMax (settings example_start)
      = (if true then 10 else dbMin (settings example_start)) ->
      s' = example_start).
Proof.
  apply (UpdateDBMax_bounds example_config true example_start).
  vm_compute. split; congruence.
Defined.

(** X7. The key that lowers the display ceiling accepts a ceiling one above
    the floor, and the two limits then coincide: from there on [Rssi2PX],
    and with it every bar of the spectrum, divides by zero. *)
Theorem UpdateDBMax_onto_floor (cfg : Config) (s : Session)
    (rssi pxMin pxMax : Z) :
  dbMax (settings s) = dbMin (settings s) + 1 ->
  let s' := UpdateDBMax cfg false s in
  dbMax (settings s') = dbMin (settings s')
  /\ Rssi2PX cfg rssi pxMin pxMax s' = None.
Proof.
  intros H s'. subst s'.
  destruct (UpdateDBMax_limits cfg false s) as [Emin Emax].
  cbn [andb negb] in Emax.
  replace (dbMax (settings s) >? dbMin (settings s)) with true in Emax
    by (symmetry; apply Z.gtb_lt; lia).
  assert (E : dbMax (settings (UpdateDBMax cfg false s))
              = dbMin (settings (UpdateDBMax cfg false s))) by lia.
  split; [exact E|].
  unfold Rssi2PX. cbv zeta. rewrite E, Z.sub_diag. reflexivity.
Qed.

Lemma UpdateDBMax_onto_floor_witness :
  let s0 := upd_settings (set_dbMax (-129)) example_start in
  let s' := UpdateDBMax example_config false s0 in
  dbMax (settings s') = dbMin (settings s')
  /\ Rssi2PX example_config 200 0 40 s' = None.
Proof.
  apply (UpdateDBMax_onto_floor example_config
           (upd_settings (set_dbMax (-129)) example_start) 200 0 40).
  vm_compute. reflexivity.
Defined.

(** ** The keys that restart the scan *)

(** The settings that [RelaunchScan] leaves alone: all but the trigger
    level, which it puts back to the sentinel in an automatic-squelch
    build. *)
Lemma RelaunchScan_settings (cfg : Config) (s : Session) :
  set_rssiTriggerLevel (rssiTriggerLevel (settings s))
    (settings (RelaunchScan cfg s)) = settings s.
Proof.
  unfold RelaunchScan. cbv zeta.
  destruct (ToggleRX_spec cfg false (ResetPeak (InitScan cfg s)))
    as (l & a & t & ->).
  destruct (SPECTRUM_AUTOMATIC_SQUELCH cfg); destruct s as [[]];
    reflexivity.
Qed.

(** The common tail of the keys that change the sweep: [RelaunchScan],
    [ResetBlacklist] and the redraw flag. *)
Lemma relaunch_reset (cfg : Config) (before s0 : Session) :
  let s' := set_redrawScreen true (ResetBlacklist cfg (RelaunchScan cfg s0))
  in
  geometry s' = geometry s0
  /\ set_rssiTriggerLevel (rssiTriggerLevel (settings s0)) (settings s')
     = settings s0
  /\ (rssiHistory before = rssiHistory s0 ->
      length (rssiHistory s0) = 128%nat ->
      restarted cfg before s').
Proof.
  intros s'. subst s'.
  set (s1 := RelaunchScan cfg s0).
  set (s2 := ResetBlacklist cfg s1).
  destruct (set_redrawScreen_frame true s2) as (Fg & Fs & Fh & Fb & Fi).
  destruct (ResetBlacklist_frame cfg s1) as (Hset & Hsi & Hgeo & _ & Hh).
  destruct (RelaunchScan_frame cfg s0) as (Hgeo1 & Hh1 & _).
  destruct (RelaunchScan_pass cfg s0) as (Hi & Hf & Hst & Hmc & _).
  fold s1 in Hi, Hf, Hst, Hmc, Hgeo1, Hh1. fold s2 in Hset, Hsi, Hgeo, Hh.
  assert (Hg : geometry (set_redrawScreen true s2) = geometry s0)
    by (rewrite Fg, Hgeo; exact Hgeo1).
  split; [exact Hg|]. split.
  - change (settings (set_redrawScreen true s2)) with (settings s2).
    rewrite Hset. subst s1. apply RelaunchScan_settings.
  - intros Hb Hlen. unfold restarted.
    destruct (geometry_sweep cfg _ _ Hg) as (Gc & Gs & Gf).
    rewrite Fs, Fh, Fb, Fi, Gc, Gs, Gf, Hsi.
    repeat split; try assumption.
    + intros j Hj. rewrite Hh, Hh1, Hb.
      rewrite clear_marks_lookup by lia.
      destruct (decide (j < 128)%nat); [reflexivity | lia].
    + subst s2. apply ResetBlacklist_blacklistFreqs. assumption.
    + subst s2. apply ResetBlacklist_blacklistFreqs. assumption.
Qed.

Lemma geometry_parts (a : Session) (x1 x2 x3 x4 x5 : Z) :
  geometry a = (x1, x2, x3, x4, x5) ->
  stepsCount (settings a) = x1 /\ scanStepIndex (settings a) = x2
  /\ currentFreq a = x3 /\ gScanRangeStart a = x4 /\ gScanRangeStop a = x5.
Proof. unfold geometry. intros [= -> -> -> -> ->]. repeat split. Qed.

Lemma geometry_GetBW (cfg : Config) (a b : Session) :
  geometry a = geometry b -> GetBW cfg a = GetBW cfg b.
Proof.
  intros Hg. destruct (geometry_sweep cfg _ _ Hg) as (Gc & Gs & _).
  unfold GetBW. rewrite Gc, Gs. reflexivity.
Qed.

Lemma UpdateScanStep_settings_frame (cfg : Config) (pf : Platform)
    (inc : bool) (s : Session) :
  geometry (UpdateScanStep_settings cfg pf inc s)
  = (stepsCount (settings s),
     next_scanStepIndex pf inc (scanStepIndex (settings s)),
     currentFreq s, gScanRangeStart s, gScanRangeStop s)
  /\ rssiHistory (UpdateScanStep_settings cfg pf inc s) = rssiHistory s
  /\ frequencyChangeStep (settings (UpdateScanStep_settings cfg pf inc s))
     = Z.shiftr (GetBW cfg (UpdateScanStep_settings cfg pf inc s)) 1.
Proof.
  unfold UpdateScanStep_settings, next_scanStepIndex. cbv zeta.
  destruct inc; repeat split; reflexivity.
Qed.

Lemma UpdateScanStep_unfold (cfg : Config) (pf : Platform) (inc : bool)
    (s : Session) :
  UpdateScanStep cfg pf inc s
  = set_redrawScreen true
      (ResetBlacklist cfg
         (RelaunchScan cfg (UpdateScanStep_settings cfg pf inc s))).
Proof. reflexivity. Qed.

Lemma UpdateScanStep_effect (cfg : Config) (pf : Platform) (inc : bool)
    (s : Session) :
  geometry (UpdateScanStep cfg pf inc s)
  = (stepsCount (settings s),
     next_scanStepIndex pf inc (scanStepIndex (settings s)),
     currentFreq s, gScanRangeStart s, gScanRangeStop s)
  /\ frequencyChangeStep (settings (UpdateScanStep cfg pf inc s))
     = Z.shiftr (GetBW cfg (UpdateScanStep cfg pf inc s)) 1
  /\ (length (rssiHistory s) = 128%nat ->
      restarted cfg s (UpdateScanStep cfg pf inc s)).
Proof.
  rewrite UpdateScanStep_unfold.
  destruct (UpdateScanStep_settings_frame cfg pf inc s) as (G0 & H0 & F0).
  destruct (relaunch_reset cfg s (UpdateScanStep_settings cfg pf inc s))
    as (G & S & R).
  cbv zeta in G, S, R.
  set (s0 := UpdateScanStep_settings cfg pf inc s) in *.
  set (s' := set_redrawScreen true _) in *.
  split; [rewrite G; exact G0|]. split.
  - rewrite (geometry_GetBW cfg s' s0 G), <- F0, <- S. reflexivity.
  - intros Hlen. apply R; [symmetry; exact H0 | rewrite H0; exact Hlen].
Qed.

(** X8. The scan-step keys walk the step table cyclically: the index stays
    inside the table, wraps from the last entry to the first and back, and
    the key for the other direction undoes the step. Each press sets the
    tuning step to half the new bandwidth, clears the blacklist and starts a
    new pass with the recomputed start frequency, step and bin count. *)
Theorem UpdateScanStep_cycles (cfg : Config) (pf : Platform) (inc : bool)
    (s : Session) :
  0 <= scanStepIndex (settings s) <= S_STEP_100_0kHz pf ->
  length (rssiHistory s) = 128%nat ->
  let s' := UpdateScanStep cfg pf inc s in
  0 <= scanStepIndex (settings s') <= S_STEP_100_0kHz pf
  /\ scanStepIndex (settings s')
     = next_scanStepIndex pf inc (scanStepIndex (settings s))
  /\ scanStepIndex (settings (UpdateScanStep cfg pf (negb inc) s'))
     = scanStepIndex (settings s)
  /\ frequencyChangeStep (settings s') = Z.shiftr (GetBW cfg s') 1
  /\ restarted cfg s s'.
Proof.
  intros Hidx Hlen s'. subst s'.
  destruct (UpdateScanStep_effect cfg pf inc s) as (G & F & R).
  destruct (UpdateScanStep_effect cfg pf (negb inc)
              (UpdateScanStep cfg pf inc s)) as (G2 & _ & _).
  destruct (geometry_parts _ _ _ _ _ _ G) as (_ & E & _).
  destruct (geometry_parts _ _ _ _ _ _ G2) as (_ & E2 & _).
  rewrite E2, E.
  assert (Hn : 0 <= next_scanStepIndex pf inc (scanStepIndex (settings s))
               <= S_STEP_100_0kHz pf
               /\ next_scanStepIndex pf (negb inc)
                    (next_scanStepIndex pf inc (scanStepIndex (settings s)))
                  = scanStepIndex (settings s)).
  { unfold next_scanStepIndex.
    set (i := scanStepIndex (settings s)) in *.
    set (m := S_STEP_100_0kHz pf) in *.
    destruct inc; cbn [negb].
    - destruct (i =? m) eqn:E1; cbn [negb].
      + apply Z.eqb_eq in E1. rewrite Z.eqb_refl. cbn [negb]. lia.
      + apply Z.eqb_neq in E1.
        replace (i + 1 =? 0) with false by (symmetry; apply Z.eqb_neq; lia).
        cbn [negb]. lia.
    - destruct (i =? 0) eqn:E1; cbn [negb].
      + apply Z.eqb_eq in E1. rewrite Z.eqb_refl. cbn [negb]. lia.
      + apply Z.eqb_neq in E1.
        replace (i - 1 =? m) with false by (symmetry; apply Z.eqb_neq; lia).
        cbn [negb]. lia. }
  destruct Hn as [Hr Hb].
  split; [lia|]. split; [reflexivity|]. split; [exact Hb|].
  split; [exact F|]. exact (R Hlen).
Qed.

Lemma UpdateScanStep_cycles_witness :
  let s' := UpdateScanStep example_config example_platform true example_start
  in
  0 <= scanStepIndex (settings s') <= S_STEP_100_0kHz example_platform
  /\ scanStepIndex (settings s')
     = next_scanStepIndex example_platform true
         (scanStepIndex (settings example_start))
  /\ scanStepIndex
       (settings (UpdateScanStep example_config example_platform (negb true)
                    s'))
     = scanStepIndex (settings example_start)
  /\ frequencyChangeStep (settings s') = Z.shiftr (GetBW example_config s') 1
  /\ restarted example_config example_start s'.
Proof.
  apply (UpdateScanStep_cycles example_config example_platform true
           example_start); vm_compute; [split; congruence | reflexivity].
Defined.

Lemma UpdateCurrentFreq_unfold (cfg : Config) (inc : bool) (s : Session) :
  UpdateCurrentFreq cfg inc s
  = if inc && (currentFreq s <? F_MAX cfg) then
      set_redrawScreen true
        (ResetBlacklist cfg
           (RelaunchScan cfg
              (set_currentFreq
                 (u32 (currentFreq s + frequencyChangeStep (settings s))) s)))
    else if negb inc && (currentFreq s >? F_MIN cfg) then
      set_redrawScreen true
        (ResetBlacklist cfg
           (RelaunchScan cfg
              (set_currentFreq
                 (u32 (currentFreq s - frequencyChangeStep (settings s))) s)))
    else s.
Proof.
  unfold UpdateCurrentFreq. cbv zeta.
  destruct (inc && (currentFreq s <? F_MAX cfg)); [reflexivity|].
  destruct (negb inc && (currentFreq s >? F_MIN cfg)); reflexivity.
Qed.

(** What a tuning key that is accepted does: the frequency moves by [d],
    the tuning step stays, the scan restarts. *)
Lemma retune_effect (cfg : Config) (s : Session) (f : Z) :
  let s' := set_redrawScreen true
              (ResetBlacklist cfg (RelaunchScan cfg (set_currentFreq f s))) in
  currentFreq s' = f
  /\ frequencyChangeStep (settings s') = frequencyChangeStep (settings s)
  /\ (length (rssiHistory s) = 128%nat -> restarted cfg s s').
Proof.
  intros s'. subst s'.
  destruct (relaunch_reset cfg s (set_currentFreq f s)) as (G & S & R).
  cbv zeta in G, S, R.
  set (s' := set_redrawScreen true _) in *.
  assert (G' : geometry s'
               = (stepsCount (settings s), scanStepIndex (settings s), f,
                  gScanRangeStart s, gScanRangeStop s)) by exact G.
  destruct (geometry_parts _ _ _ _ _ _ G') as (_ & _ & E & _).
  split; [exact E|]. split.
  - change (settings (set_currentFreq f s)) with (settings s) in S.
    rewrite <- S. reflexivity.
  - intros Hlen. apply R; [reflexivity | exact Hlen].
Qed.

(** X9. The tuning keys of the spectrum view. At or beyond the band limit
    in its direction a key changes nothing; otherwise the frequency moves by
    the tuning step, the blacklist is cleared and a new pass starts; and
    inside the band the key for the other direction brings the frequency
    back. *)
Theorem UpdateCurrentFreq_steps (cfg : Config) (s : Session) :
  length (rssiHistory s) = 128%nat ->
  0 <= frequencyChangeStep (settings s) ->
  F_MIN cfg < currentFreq s < F_MAX cfg ->
  0 <= currentFreq s - frequencyChangeStep (settings s) ->
  currentFreq s + frequencyChangeStep (settings s) < 4294967296 ->
  let up := UpdateCurrentFreq cfg true s in
  let down := UpdateCurrentFreq cfg false s in
  currentFreq up = currentFreq s + frequencyChangeStep (settings s)
  /\ currentFreq down = currentFreq s - frequencyChangeStep (settings s)
  /\ restarted cfg s up /\ restarted cfg s down
  /\ currentFreq (UpdateCurrentFreq cfg false up) = currentFreq s
  /\ (forall x : Session,
        (F_MAX cfg <= currentFreq x -> UpdateCurrentFreq cfg true x = x)
        /\ (currentFreq x <= F_MIN cfg -> UpdateCurrentFreq cfg false x = x)).
Proof.
  intros Hlen Hstep Hband Hlo Hhi up down.
  assert (Eup : up = set_redrawScreen true
                  (ResetBlacklist cfg
                     (RelaunchScan cfg
                        (set_currentFreq
                           (u32 (currentFreq s
                                 + frequencyChangeStep (settings s))) s)))).
  { subst up. rewrite UpdateCurrentFreq_unfold. cbn [andb].
    replace (currentFreq s <? F_MAX cfg) with true
      by (symmetry; apply Z.ltb_lt; lia).
    reflexivity. }
  assert (Edown : down = set_redrawScreen true
                    (ResetBlacklist cfg
                       (RelaunchScan cfg
                          (set_currentFreq
                             (u32 (currentFreq s
                                   - frequencyChangeStep (settings s))) s)))).
  { subst down. rewrite UpdateCurrentFreq_unfold. cbn [andb negb].
    replace (currentFreq s >? F_MIN cfg) with true
      by (symmetry; apply Z.gtb_lt; lia).
    reflexivity. }
  clearbody up down.
  destruct (retune_effect cfg s
              (u32 (currentFreq s + frequencyChangeStep (settings s))))
    as (Uf & Us & Ur).
  destruct (retune_effect cfg s
              (u32 (currentFreq s - frequencyChangeStep (settings s))))
    as (Df & Ds & Dr).
  cbv zeta in Uf, Us, Ur, Df, Ds, Dr.
  rewrite <- Eup in Uf, Us, Ur. rewrite <- Edown in Df, Ds, Dr.
  unfold u32 in Uf, Df. rewrite Z.mod_small in Uf, Df by lia.
  split; [exact Uf|]. split; [exact Df|].
  split; [exact (Ur Hlen)|]. split; [exact (Dr Hlen)|]. split.
  - rewrite UpdateCurrentFreq_unfold. cbn [andb negb].
    replace (currentFreq up >? F_MIN cfg) with true
      by (symmetry; apply Z.gtb_lt; lia).
    destruct (retune_effect cfg up
                (u32 (currentFreq up - frequencyChangeStep (settings up))))
      as (Bf & _).
    cbv zeta in Bf. rewrite Bf, Uf, Us. unfold u32.
    rewrite Z.mod_small by lia. lia.
  - intros x. split; intros Hx; rewrite UpdateCurrentFreq_unfold;
      cbn [andb negb].
    + replace (currentFreq x <? F_MAX cfg) with false
        by (symmetry; apply Z.ltb_ge; lia).
      reflexivity.
    + replace (currentFreq x >? F_MIN cfg) with false; [reflexivity|].
      symmetry. rewrite Z.gtb_ltb. apply Z.ltb_ge. lia.
Qed.

Lemma UpdateCurrentFreq_steps_witness :
  let up := UpdateCurrentFreq example_config true example_start in
  let down := UpdateCurrentFreq example_config false example_start in
  currentFreq up
  = currentFreq example_start + frequencyChangeStep (settings example_start)
  /\ currentFreq down
     = currentFreq example_start
       - frequencyChangeStep (settings example_start)
  /\ restarted example_config example_start up
  /\ restarted example_config example_start down
  /\ currentFreq (UpdateCurrentFreq example_config false up)
     = currentFreq example_start
  /\ (forall x : Session,
        (F_MAX example_config <= currentFreq x ->
         UpdateCurrentFreq example_config true x = x)
        /\ (currentFreq x <= F_MIN example_config ->
            UpdateCurrentFreq example_config false x = x)).
Proof.
  apply (UpdateCurrentFreq_steps example_config example_start); vm_compute;
    try reflexivity; try split; congruence.
Defined.

(** ** Modulation, listening bandwidth and tuning step *)

Lemma RelaunchScan_keeps (cfg : Config) (s : Session) :
  modulationType (settings (RelaunchScan cfg s)) = modulationType (settings s)
  /\ listenBw (settings (RelaunchScan cfg s)) = listenBw (settings s)
  /\ frequencyChangeStep (settings (RelaunchScan cfg s))
     = frequencyChangeStep (settings s)
  /\ dbMax (settings (RelaunchScan cfg s)) = dbMax (settings s).
Proof.
  pose proof (RelaunchScan_settings cfg s) as E.
  generalize dependent (settings (RelaunchScan cfg s)). intros y E.
  rewrite <- E. repeat split; reflexivity.
Qed.

Lemma ToggleModulation_unfold (cfg : Config) (pf : Platform) (s : Session) :
  ToggleModulation cfg pf s
  = set_redrawScreen true
      (RelaunchScan cfg
         (upd_settings
            (set_modulationType
               (if modulationType (settings s) <? MODULATION_UKNOWN pf - 1
                then modulationType (settings s) + 1
                else MODULATION_FM pf)) s)).
Proof.
  unfold ToggleModulation. cbv zeta.
  destruct (modulationType (settings s) <? MODULATION_UKNOWN pf - 1);
    reflexivity.
Qed.

Lemma ToggleModulation_next (cfg : Config) (pf : Platform) (s : Session) :
  modulationType (settings (ToggleModulation cfg pf s))
  = if modulationType (settings s) <? MODULATION_UKNOWN pf - 1
    then modulationType (settings s) + 1
    else MODULATION_FM pf.
Proof.
  rewrite ToggleModulation_unfold.
  change (settings (set_redrawScreen true ?x)) with (settings x).
  rewrite (proj1 (RelaunchScan_keeps cfg _)). reflexivity.
Qed.

Lemma ToggleModulation_iter (cfg : Config) (pf : Platform) (s : Session)
    (k : nat) :
  modulationType (settings s) + Z.of_nat k <= MODULATION_UKNOWN pf - 1 ->
  modulationType (settings (Nat.iter k (ToggleModulation cfg pf) s))
  = modulationType (settings s) + Z.of_nat k.
Proof.
  induction k as [|k IH]; intros Hk.
  - simpl. lia.
  - rewrite Nat.iter_succ, ToggleModulation_next, IH by lia.
    replace (modulationType (settings s) + Z.of_nat k
             <? MODULATION_UKNOWN pf - 1) with true
      by (symmetry; apply Z.ltb_lt; lia).
    lia.
Qed.

(** X10. The modulation key steps through the modulations from
    [MODULATION_FM] to the last one before [MODULATION_UKNOWN] and wraps:
    with [n] modulations, [k] presses from FM select modulation [FM + k] for
    [k < n], and [n] presses are back at FM. A press restarts the pass but,
    unlike the keys that change the sweep, keeps the history and the
    blacklist. *)
Theorem ToggleModulation_cycle (cfg : Config) (pf : Platform) (s : Session)
    (k n : nat) :
  modulationType (settings s) = MODULATION_FM pf ->
  Z.of_nat n = MODULATION_UKNOWN pf - MODULATION_FM pf ->
  (k < n)%nat ->
  modulationType (settings (Nat.iter k (ToggleModulation cfg pf) s))
  = MODULATION_FM pf + Z.of_nat k
  /\ modulationType (settings (Nat.iter n (ToggleModulation cfg pf) s))
     = MODULATION_FM pf
  /\ forall x : Session,
       rssiHistory (ToggleModulation cfg pf x) = rssiHistory x
       /\ blacklistFreqs (ToggleModulation cfg pf x) = blacklistFreqs x
       /\ blacklistFreqsIdx (ToggleModulation cfg pf x) = blacklistFreqsIdx x
       /\ ScanInfo.i (scanInfo (ToggleModulation cfg pf x)) = 0
       /\ ScanInfo.f (scanInfo (ToggleModulation cfg pf x)) = GetFStart cfg x.
Proof.
  intros Hfm Hn Hk. split; [|split].
  - rewrite ToggleModulation_iter by lia. lia.
  - destruct n as [|m]; [lia|]. rewrite Nat.iter_succ.
    rewrite ToggleModulation_next, ToggleModulation_iter by lia.
    replace (modulationType (settings s) + Z.of_nat m
             <? MODULATION_UKNOWN pf - 1) with false; [reflexivity|].
    symmetry. apply Z.ltb_ge. lia.
  - intros x. rewrite ToggleModulation_unfold.
    set (x0 := upd_settings _ x).
    destruct (RelaunchScan_frame cfg x0) as (_ & Hh & Hb & Hi & _).
    destruct (RelaunchScan_pass cfg x0) as (Pi & Pf & _).
    change (rssiHistory (set_redrawScreen true ?y)) with (rssiHistory y).
    change (blacklistFreqs (set_redrawScreen true ?y))
      with (blacklistFreqs y).
    change (blacklistFreqsIdx (set_redrawScreen true ?y))
      with (blacklistFreqsIdx y).
    change (scanInfo (set_redrawScreen true ?y)) with (scanInfo y).
    rewrite Hh, Hb, Hi, Pi, Pf.
    repeat split.
Qed.

Lemma ToggleModulation_cycle_witness :
  modulationType
    (settings (Nat.iter 2 (ToggleModulation example_config example_platform)
                 example_start))
  = MODULATION_FM example_platform + Z.of_nat 2
  /\ modulationType
       (settings (Nat.iter 3
                    (ToggleModulation example_config example_platform)
                    example_start))
     = MODULATION_FM example_platform
  /\ forall x : Session,
       rssiHistory (ToggleModulation example_config example_platform x)
       = rssiHistory x
       /\ blacklistFreqs (ToggleModulation example_config example_platform x)
          = blacklistFreqs x
       /\ blacklistFreqsIdx
            (ToggleModulation example_config example_platform x)
          = blacklistFreqsIdx x
       /\ ScanInfo.i
            (scanInfo (ToggleModulation example_config example_platform x))
          = 0
       /\ ScanInfo.f
            (scanInfo (ToggleModulation example_config example_platform x))
          = GetFStart example_config x.
Proof.
  apply (ToggleModulation_cycle example_config example_platform example_start
           2 3); vm_compute; try reflexivity; lia.
Defined.

Lemma ToggleListeningBW_next (pf : Platform) (s : Session) :
  listenBw (settings (ToggleListeningBW pf s))
  = if listenBw (settings s) =? BK4819_FILTER_BW_NARROWER pf
    then BK4819_FILTER_BW_WIDE
    else listenBw (settings s) + 1.
Proof.
  unfold ToggleListeningBW. cbv zeta.
  destruct (listenBw (settings s) =? BK4819_FILTER_BW_NARROWER pf);
    reflexivity.
Qed.

(** X11. With the three filter bandwidths of the chip (wide 0, narrow 1,
    narrower 2) the listening-bandwidth key keeps the selector among them,
    so that it stays a valid index into the three-entry table [bwOptions],
    and three presses bring it back to where it was. *)
Theorem ToggleListeningBW_cycle (pf : Platform) (s : Session) :
  BK4819_FILTER_BW_NARROWER pf = 2 ->
  0 <= listenBw (settings s) <= 2 ->
  0 <= listenBw (settings (ToggleListeningBW pf s)) <= 2
  /\ listenBw
       (settings
          (ToggleListeningBW pf
             (ToggleListeningBW pf (ToggleListeningBW pf s))))
     = listenBw (settings s).
Proof.
  intros Hn Hb. rewrite !ToggleListeningBW_next, Hn.
  unfold BK4819_FILTER_BW_WIDE.
  assert (C : listenBw (settings s) = 0 \/ listenBw (settings s) = 1
              \/ listenBw (settings s) = 2) by lia.
  destruct C as [-> | [-> | ->]]; vm_compute; repeat split; congruence.
Qed.

Lemma ToggleListeningBW_cycle_witness :
  0 <= listenBw (settings (ToggleListeningBW example_platform example_start))
    <= 2
  /\ listenBw
       (settings
          (ToggleListeningBW example_platform
             (ToggleListeningBW example_platform
                (ToggleListeningBW example_platform example_start))))
     = listenBw (settings example_start).
Proof.
  apply (ToggleListeningBW_cycle example_platform example_start); vm_compute;
    try reflexivity; split; congruence.
Defined.

(** ** The settings byte in flash *)

Lemma LoadSettings_stored (cfg : Config) (d : Z) (s : Session) :
  stored (settings (LoadSettings cfg d s))
  = (let idx := Z.shiftr (Z.land d 240) 4 in
     if idx >? 14 then S_STEP_25_0kHz cfg else idx,
     let cnt := Z.shiftr (Z.land (Z.land d 15) 12) 2 in
     if cnt >? 3 then STEPS_64 else cnt,
     let lbw := Z.land (Z.land d 15) 3 in
     if lbw >? 2 then BK4819_FILTER_BW_WIDE else lbw).
Proof. reflexivity. Qed.

Lemma LoadSettings_fields (cfg : Config) (d : Z) (s : Session) :
  scanStepIndex (settings (LoadSettings cfg d s))
  = (if Z.shiftr (Z.land d 240) 4 >? 14 then S_STEP_25_0kHz cfg
     else Z.shiftr (Z.land d 240) 4)
  /\ stepsCount (settings (LoadSettings cfg d s))
     = (if Z.shiftr (Z.land (Z.land d 15) 12) 2 >? 3 then STEPS_64
        else Z.shiftr (Z.land (Z.land d 15) 12) 2)
  /\ listenBw (settings (LoadSettings cfg d s))
     = (if Z.land (Z.land d 15) 3 >? 2 then BK4819_FILTER_BW_WIDE
        else Z.land (Z.land d 15) 3).
Proof. repeat split; reflexivity. Qed.

(** [LoadSettings] touches the three stored settings and nothing else. *)
Lemma LoadSettings_frame (cfg : Config) (d : Z) (s : Session) :
  exists a b c,
    LoadSettings cfg d s
    = upd_settings (set_listenBw c)
        (upd_settings (set_stepsCount b)
           (upd_settings (set_scanStepIndex a) s)).
Proof. eexists _, _, _. reflexivity. Qed.

Lemma small_nat (x bound : Z) :
  0 <= x < bound -> exists n : nat, (Z.of_nat n < bound) /\ x = Z.of_nat n.
Proof. intros H. exists (Z.to_nat x). lia. Qed.

(** X12. The settings byte is a faithful store for the three settings it
    holds: with a scan-step index of at most 14, a bin-count selector of at
    most 3 and a listening bandwidth of at most 2, [LoadSettings] applied to
    the byte that [SaveSettings] writes gives back exactly these three
    values, whatever the session they are loaded into. *)
Theorem SaveSettings_LoadSettings (cfg : Config) (s x : Session) :
  0 <= scanStepIndex (settings s) <= 14 ->
  0 <= stepsCount (settings s) <= 3 ->
  0 <= listenBw (settings s) <= 2 ->
  stored (settings (LoadSettings cfg (SaveSettings s) x))
  = stored (settings s).
Proof.
  intros Hi Hc Hl. rewrite LoadSettings_stored. unfold SaveSettings, stored.
  destruct (small_nat (scanStepIndex (settings s)) 15 ltac:(lia))
    as (i & Bi & ->).
  destruct (small_nat (stepsCount (settings s)) 4 ltac:(lia))
    as (c & Bc & ->).
  destruct (small_nat (listenBw (settings s)) 3 ltac:(lia))
    as (l & Bl & ->).
  by_cases i ltac:(by_cases c ltac:(by_cases l ltac:(reflexivity))).
Qed.

Lemma SaveSettings_LoadSettings_witness :
  stored (settings (LoadSettings example_config (SaveSettings example_start)
                      example_start16))
  = stored (settings example_start).
Proof.
  apply (SaveSettings_LoadSettings example_config example_start
           example_start16); vm_compute; split; congruence.
Defined.

Lemma land_ones_bound (a n : Z) :
  0 <= n -> 0 <= Z.land a (Z.ones n) <= Z.ones n.
Proof.
  intros Hn. rewrite Z.land_ones by lia. rewrite Z.ones_equiv.
  pose proof (Z.pow_pos_nonneg 2 n ltac:(lia) Hn).
  pose proof (Z.mod_pos_bound a (2 ^ n) ltac:(lia)). lia.
Qed.

Lemma nibble_fields (d : Z) :
  0 <= Z.shiftr (Z.land d 240) 4 <= 15
  /\ 0 <= Z.shiftr (Z.land (Z.land d 15) 12) 2 <= 3
  /\ 0 <= Z.land (Z.land d 15) 3 <= 3.
Proof.
  split; [|split].
  - rewrite Z.shiftr_land. exact (land_ones_bound (Z.shiftr d 4) 4 ltac:(lia)).
  - rewrite (Z.shiftr_land (Z.land d 15) 12 2).
    exact (land_ones_bound (Z.shiftr (Z.land d 15) 2) 2 ltac:(lia)).
  - exact (land_ones_bound (Z.land d 15) 2 ltac:(lia)).
Qed.

(** X13. [LoadSettings] sanitises whatever the flash holds: for every
    value of the settings byte the bin-count selector ends up among the four
    selectors, the listening bandwidth among the three bandwidths (the
    unused code 3 loads as wide), and the scan-step index is at most 14 or
    the default step of 25 kHz; nothing but these three settings changes. *)
Theorem LoadSettings_sanitises (cfg : Config) (d : Z) (s : Session) :
  let y := settings (LoadSettings cfg d s) in
  (0 <= scanStepIndex y <= 14 \/ scanStepIndex y = S_STEP_25_0kHz cfg)
  /\ 0 <= stepsCount y <= 3
  /\ 0 <= listenBw y <= 2
  /\ LoadSettings cfg d s
     = upd_settings (set_listenBw (listenBw y))
         (upd_settings (set_stepsCount (stepsCount y))
            (upd_settings (set_scanStepIndex (scanStepIndex y)) s)).
Proof.
  intros y.
  destruct (LoadSettings_fields cfg d s) as (E1 & E2 & E3).
  fold y in E1, E2, E3.
  destruct (nibble_fields d) as (B1 & B2 & B3).
  split; [|split; [|split; [|reflexivity]]].
  - rewrite E1. destruct (Z.shiftr (Z.land d 240) 4 >? 14) eqn:G.
    + right. reflexivity.
    + left. rewrite Z.gtb_ltb in G. apply Z.ltb_ge in G. lia.
  - rewrite E2.
    destruct (Z.shiftr (Z.land (Z.land d 15) 12) 2 >? 3);
      [unfold STEPS_64|]; lia.
  - rewrite E3. destruct (Z.land (Z.land d 15) 3 >? 2) eqn:G.
    + unfold BK4819_FILTER_BW_WIDE. lia.
    + rewrite Z.gtb_ltb in G. apply Z.ltb_ge in G. lia.
Qed.

(** ** Session start *)

Lemma APP_RunSpectrum_init_unfold (cfg : Config) (st : Startup)
    (s : Session) :
  APP_RunSpectrum_init cfg st s
  = init_cleared
      (RelaunchScan cfg
         (let s5 :=
            upd_settings (set_modulationType (vfo_modulation st))
              (ToggleRX cfg false
                 (ToggleRX cfg true
                    (init_flags
                       (loaded cfg st
                          (init_retuned cfg st (loaded cfg st s)))))) in
          if ENABLE_FEAT_F4HWN_SPECTRUM cfg then s5
          else upd_settings (set_listenBw BK4819_FILTER_BW_WIDE) s5)).
Proof. reflexivity. Qed.

Lemma ToggleRX_frame (cfg : Config) (on : bool) (s : Session) :
  settings (ToggleRX cfg on s) = settings s
  /\ geometry (ToggleRX cfg on s) = geometry s
  /\ newScanStart (ToggleRX cfg on s) = newScanStart s
  /\ currentState (ToggleRX cfg on s) = currentState s.
Proof.
  destruct (ToggleRX_spec cfg on s) as (l & a & t & ->).
  repeat split; reflexivity.
Qed.

Lemma stored_RelaunchScan (cfg : Config) (s : Session) :
  stored (settings (RelaunchScan cfg s)) = stored (settings s).
Proof.
  pose proof (RelaunchScan_settings cfg s) as E.
  generalize dependent (settings (RelaunchScan cfg s)). intros y E.
  rewrite <- E. reflexivity.
Qed.

Lemma loaded_stored (cfg : Config) (st : Startup) (s x : Session) :
  ENABLE_FEAT_F4HWN_SPECTRUM cfg = true ->
  stored (settings (loaded cfg st x)) = stored (settings (loaded cfg st s)).
Proof.
  intros H. unfold loaded. rewrite H, !LoadSettings_stored. reflexivity.
Qed.

(** X14. In a build with [ENABLE_FEAT_F4HWN_SPECTRUM] the session always
    starts with the scan step, the bin-count selector and the listening
    bandwidth of the settings byte: [APP_RunSpectrum] loads the byte a
    second time after it has chosen a scan step from the VFO step and forced
    the 128-bin selector for a scan range, so that choice never takes
    effect. *)
Theorem APP_RunSpectrum_init_stored (cfg : Config) (st : Startup)
    (s : Session) :
  ENABLE_FEAT_F4HWN_SPECTRUM cfg = true ->
  stored (settings (APP_RunSpectrum_init cfg st s))
  = stored (settings (LoadSettings cfg (flash_data3 st) s)).
Proof.
  intros H. rewrite APP_RunSpectrum_init_unfold. cbv zeta. rewrite H.
  change (settings (init_cleared ?x)) with (settings x).
  rewrite stored_RelaunchScan.
  change (stored (settings (upd_settings (set_modulationType ?m) ?x)))
    with (stored (settings x)).
  rewrite !(proj1 (ToggleRX_frame cfg _ _)).
  change (settings (init_flags ?x)) with (settings x).
  rewrite (loaded_stored cfg st s _ H). unfold loaded. rewrite H.
  reflexivity.
Qed.

Lemma APP_RunSpectrum_init_stored_witness :
  stored (settings (APP_RunSpectrum_init example_config
                      {| rx_frequency := 14550000; step_frequency := 1250;
                         vfo_modulation := 0; flash_data3 := 196 |}
                      (initial_session example_config 14400000 14720000)))
  = stored (settings (LoadSettings example_config 196
                        (initial_session example_config 14400000 14720000))).
Proof.
  apply (APP_RunSpectrum_init_stored example_config
           {| rx_frequency := 14550000; step_frequency := 1250;
              vfo_modulation := 0; flash_data3 := 196 |}
           (initial_session example_config 14400000 14720000)).
  reflexivity.
Defined.

Lemma ToggleRX_isListening (cfg : Config) (on : bool) (s : Session) :
  isListening (ToggleRX cfg on s) = on.
Proof.
  unfold ToggleRX, ToggleAudio.
  destruct (ENABLE_FEAT_F4HWN_SPECTRUM cfg); cbn [andb].
  - destruct (Bool.eqb (isListening s) on) eqn:E.
    + apply Bool.eqb_prop in E. exact E.
    + cbn [audioState set_isListening].
      destruct (Bool.eqb on (audioState s)); destruct on; reflexivity.
  - cbn [audioState set_isListening].
    destruct (Bool.eqb on (audioState s)); destruct on; reflexivity.
Qed.

Lemma RelaunchScan_flags (cfg : Config) (s : Session) :
  isListening (RelaunchScan cfg s) = false
  /\ preventKeypress (RelaunchScan cfg s) = true
  /\ newScanStart (RelaunchScan cfg s) = newScanStart s
  /\ PeakInfo.t (peak (RelaunchScan cfg s)) = 0
  /\ PeakInfo.rssi (peak (RelaunchScan cfg s)) = 0.
Proof.
  unfold RelaunchScan. cbv zeta.
  assert (N : newScanStart (ResetPeak (InitScan cfg s)) = newScanStart s)
    by reflexivity.
  assert (P : PeakInfo.t (peak (ResetPeak (InitScan cfg s))) = 0
              /\ PeakInfo.rssi (peak (ResetPeak (InitScan cfg s))) = 0)
    by (split; reflexivity).
  pose proof (ToggleRX_isListening cfg false (ResetPeak (InitScan cfg s)))
    as L.
  destruct (ToggleRX_spec cfg false (ResetPeak (InitScan cfg s)))
    as (l & a & t & E).
  rewrite E in L |- *. clear E.
  generalize dependent (ResetPeak (InitScan cfg s)). intros x N P L.
  destruct P as [Pt Pr].
  destruct (SPECTRUM_AUTOMATIC_SQUELCH cfg); repeat split;
    solve [exact L | exact N | exact Pt | exact Pr | reflexivity].
Qed.

Lemma loaded_frame (cfg : Config) (st : Startup) (s : Session) :
  currentFreq (loaded cfg st s) = currentFreq s
  /\ gScanRangeStart (loaded cfg st s) = gScanRangeStart s
  /\ gScanRangeStop (loaded cfg st s) = gScanRangeStop s
  /\ currentState (loaded cfg st s) = currentState s.
Proof.
  unfold loaded. destruct (ENABLE_FEAT_F4HWN_SPECTRUM cfg);
    repeat split; reflexivity.
Qed.

(** The session that [RelaunchScan] is called on at the end of
    [APP_RunSpectrum]. *)
Lemma APP_RunSpectrum_init_relaunch (cfg : Config) (st : Startup)
    (s : Session) :
  exists s6,
    APP_RunSpectrum_init cfg st s = init_cleared (RelaunchScan cfg s6)
    /\ newScanStart s6 = true
    /\ currentState s6 = currentState s
    /\ currentFreq s6
       = currentFreq (init_retuned cfg st (loaded cfg st s))
    /\ gScanRangeStart s6 = gScanRangeStart s
    /\ gScanRangeStop s6 = gScanRangeStop s
    /\ (scanStepIndex (settings s6), stepsCount (settings s6))
       = (scanStepIndex
            (settings (loaded cfg st (init_retuned cfg st (loaded cfg st s)))),
          stepsCount
            (settings (loaded cfg st (init_retuned cfg st (loaded cfg st s))))).
Proof.
  eexists. split; [apply APP_RunSpectrum_init_unfold|]. cbv zeta.
  set (s3 := loaded cfg st (init_retuned cfg st (loaded cfg st s))).
  set (s4 := ToggleRX cfg false (ToggleRX cfg true (init_flags s3))).
  assert (F : settings s4 = settings s3
              /\ geometry s4 = geometry s3
              /\ newScanStart s4 = true
              /\ currentState s4 = currentState s3).
  { subst s4.
    destruct (ToggleRX_frame cfg false (ToggleRX cfg true (init_flags s3)))
      as (-> & -> & -> & ->).
    destruct (ToggleRX_frame cfg true (init_flags s3))
      as (-> & -> & -> & ->).
    repeat split; reflexivity. }
  destruct F as (Fs & Fg & Fn & Fc).
  assert (G3 : currentFreq s3
               = currentFreq (init_retuned cfg st (loaded cfg st s))
               /\ gScanRangeStart s3 = gScanRangeStart s
               /\ gScanRangeStop s3 = gScanRangeStop s
               /\ currentState s3 = currentState s).
  { subst s3.
    destruct (loaded_frame cfg st (init_retuned cfg st (loaded cfg st s)))
      as (-> & -> & -> & ->).
    destruct (loaded_frame cfg st s) as (_ & L2 & L3 & L4).
    unfold init_retuned.
    destruct (ENABLE_SCAN_RANGES cfg
              && negb (gScanRangeStart (loaded cfg st s) =? 0)).
    - destruct (first_step_index _ _ _); repeat split; assumption.
    - repeat split; assumption. }
  destruct G3 as (G3f & G3a & G3b & G3c).
  destruct (geometry_parts s4 _ _ _ _ _ Fg) as (_ & _ & Gf & Ga & Gb).
  destruct (ENABLE_FEAT_F4HWN_SPECTRUM cfg);
    cbn [settings upd_settings set_settings newScanStart currentState
         currentFreq gScanRangeStart gScanRangeStop scanStepIndex stepsCount
         set_modulationType set_listenBw];
    rewrite Fs, Fn, Fc, Gf, Ga, Gb; repeat split; assumption.
Qed.

Lemma init_cleared_frame (s : Session) :
  geometry (init_cleared s) = geometry s
  /\ scanInfo (init_cleared s) = scanInfo s
  /\ settings (init_cleared s) = settings s
  /\ isListening (init_cleared s) = isListening s
  /\ newScanStart (init_cleared s) = newScanStart s
  /\ preventKeypress (init_cleared s) = preventKeypress s
  /\ currentState (init_cleared s) = currentState s
  /\ rssiHistory (init_cleared s) = replicate 128 0
  /\ waterfall_rows (init_cleared s) = blank_rows
  /\ waterfall_phase (init_cleared s) = 0.
Proof. repeat split; reflexivity. Qed.

(** X15. Whatever the radio hands over, [APP_RunSpectrum] enters its loop
    with the receiver muted, key input held back, a new pass requested and
    already set up from the start of the sweep, and with an empty history
    and a blank waterfall; the mode is the one the session was left in. *)
Theorem APP_RunSpectrum_init_ready (cfg : Config) (st : Startup)
    (s : Session) :
  let s' := APP_RunSpectrum_init cfg st s in
  isListening s' = false
  /\ preventKeypress s' = true
  /\ newScanStart s' = true
  /\ currentState s' = currentState s
  /\ rssiHistory s' = replicate 128 0
  /\ waterfall_rows s' = blank_rows /\ waterfall_phase s' = 0
  /\ ScanInfo.i (scanInfo s') = 0
  /\ ScanInfo.f (scanInfo s') = GetFStart cfg s'
  /\ ScanInfo.scanStep (scanInfo s') = GetScanStep cfg s'
  /\ ScanInfo.measurementsCount (scanInfo s') = GetStepsCount cfg s'.
Proof.
  intros s'. subst s'.
  destruct (APP_RunSpectrum_init_relaunch cfg st s)
    as (s6 & -> & Hn & Hc & _).
  destruct (init_cleared_frame (RelaunchScan cfg s6))
    as (Cg & Ci & _ & Cl & Cn & Cp & Cc & Ch & Cr & Cph).
  destruct (RelaunchScan_flags cfg s6) as (Fl & Fp & Fn & _).
  destruct (RelaunchScan_frame cfg s6) as (Rg & _ & _ & _ & Rc).
  destruct (RelaunchScan_pass cfg s6) as (Pi & Pf & Ps & Pm & _).
  assert (G : geometry (init_cleared (RelaunchScan cfg s6)) = geometry s6)
    by (rewrite Cg; exact Rg).
  destruct (geometry_sweep cfg _ _ G) as (-> & -> & ->).
  rewrite Cl, Cn, Cp, Cc, Ch, Cr, Cph, Ci, Fl, Fp, Fn, Rc, Pi, Pf, Ps, Pm.
  repeat split; assumption.
Qed.

Lemma loaded_idem (cfg : Config) (st : Startup) (s x : Session) :
  settings x = settings (loaded cfg st s) ->
  scanStepIndex (settings (loaded cfg st x))
  = scanStepIndex (settings (loaded cfg st s))
  /\ stepsCount (settings (loaded cfg st x))
     = stepsCount (settings (loaded cfg st s)).
Proof.
  intros E. destruct (ENABLE_FEAT_F4HWN_SPECTRUM cfg) eqn:F.
  - pose proof (loaded_stored cfg st s x F) as H. unfold stored in H.
    injection H as -> -> _. split; reflexivity.
  - unfold loaded in *. rewrite F in *. rewrite E. split; reflexivity.
Qed.

Lemma sweep_of_geometry (cfg : Config) (a : Session) (sc idx cf : Z) :
  geometry a = (sc, idx, cf, gScanRangeStart a, gScanRangeStop a) ->
  ENABLE_SCAN_RANGES cfg && negb (gScanRangeStart a =? 0) = false ->
  GetStepsCount cfg a = u16 (Z.shiftr 128 sc)
  /\ GetScanStep cfg a = scanStepValues cfg !!! Z.to_nat idx
  /\ IsCenterMode cfg a = (idx <? S_STEP_2_5kHz cfg)
  /\ GetFStart cfg a
     = if idx <? S_STEP_2_5kHz cfg
       then u32 (cf - Z.shiftr
                        (u32 (u16 (Z.shiftr 128 sc)
                              * (scanStepValues cfg !!! Z.to_nat idx))) 1)
       else cf.
Proof.
  intros G R.
  destruct (geometry_parts a _ _ _ _ _ G) as (E1 & E2 & E3 & _).
  unfold GetFStart, GetBW, IsCenterMode, GetStepsCount, GetScanStep.
  rewrite R, E1, E2, E3. repeat split; reflexivity.
Qed.

Lemma selector_even (sc : Z) :
  0 <= sc <= 3 -> exists m, 0 <= m /\ u16 (Z.shiftr 128 sc) = 2 * m.
Proof.
  intros H. destruct (small_nat sc 4 ltac:(lia)) as (c & Bc & ->).
  exists (u16 (Z.shiftr 128 (Z.of_nat c)) / 2).
  by_cases c ltac:(split; vm_compute; [congruence | reflexivity]).
Qed.

Lemma sweep_start_arith (m step rx : Z) (centred : bool) :
  0 <= m -> 0 <= step -> 2 * m * step <= rx < 4294967296 ->
  (if centred
   then u32 (u32 (rx - u32 (2 * m / 2 * step))
             - Z.shiftr (u32 (2 * m * step)) 1)
   else u32 (rx - u32 (2 * m / 2 * step)))
  + (if centred then 2 * m else 2 * m / 2) * step
  = rx.
Proof.
  intros Hm Hs Hrx.
  replace (2 * m / 2) with m by (rewrite Z.mul_comm, Z.div_mul; lia).
  assert (H1 : 0 <= m * step) by nia.
  unfold u32. rewrite Z.shiftr_div_pow2 by lia. change (2 ^ 1) with 2.
  rewrite (Z.mod_small (m * step)) by lia.
  rewrite (Z.mod_small (rx - m * step)) by lia.
  rewrite (Z.mod_small (2 * m * step)) by lia.
  replace (2 * m * step / 2) with (m * step)
    by (replace (2 * m * step) with (m * step * 2) by lia;
        rewrite Z.div_mul; lia).
  destruct centred; [rewrite Z.mod_small by lia|]; lia.
Qed.

(** X16. Where the first sweep lies. Outside a scan range the session
    starts with the VFO frequency [N / 2] steps above the start of the sweep
    when the scan step is not a centred one, that is, in the middle of the
    [N] bins; with a centred scan step (below 2.5 kHz) the sweep starts a
    further half bandwidth lower and the VFO frequency lies [N] steps above
    its start, one step past the last bin. *)
Theorem APP_RunSpectrum_init_sweep (cfg : Config) (st : Startup)
    (s : Session) :
  ENABLE_SCAN_RANGES cfg && negb (gScanRangeStart s =? 0) = false ->
  0 <= stepsCount (settings (loaded cfg st s)) <= 3 ->
  0 <= GetScanStep cfg (loaded cfg st s) ->
  GetStepsCount cfg (loaded cfg st s) * GetScanStep cfg (loaded cfg st s)
    <= rx_frequency st < 4294967296 ->
  let s' := APP_RunSpectrum_init cfg st s in
  let N := GetStepsCount cfg s' in
  let step := GetScanStep cfg s' in
  N = GetStepsCount cfg (loaded cfg st s)
  /\ step = GetScanStep cfg (loaded cfg st s)
  /\ GetFStart cfg s' + (if IsCenterMode cfg s' then N else N / 2) * step
     = rx_frequency st.
Proof.
  intros Hr Hsc Hst Hrx s' N step. subst N step s'.
  destruct (APP_RunSpectrum_init_relaunch cfg st s)
    as (s6 & -> & _ & _ & Hf & Ha & Hb & Hset).
  destruct (init_cleared_frame (RelaunchScan cfg s6)) as (Cg & _).
  destruct (RelaunchScan_frame cfg s6) as (Rg & _).
  destruct (loaded_frame cfg st s) as (_ & La & Lb & _).
  assert (R1 : ENABLE_SCAN_RANGES cfg
               && negb (gScanRangeStart (loaded cfg st s) =? 0) = false)
    by (rewrite La; exact Hr).
  set (s1 := loaded cfg st s) in *.
  set (cf := u32 (rx_frequency st
                  - u32 (GetStepsCount cfg s1 / 2 * GetScanStep cfg s1))).
  assert (Ret : init_retuned cfg st s1 = set_currentFreq cf s1)
    by (unfold init_retuned; rewrite R1; reflexivity).
  rewrite Ret in Hf, Hset.
  destruct (loaded_idem cfg st s (set_currentFreq cf s1) eq_refl)
    as (Ei & Ec).
  fold s1 in Ei, Ec. rewrite Ei, Ec in Hset. injection Hset as Hi Hc.
  change (currentFreq (set_currentFreq cf s1)) with cf in Hf.
  set (s' := init_cleared (RelaunchScan cfg s6)) in *.
  destruct (geometry_parts s' _ _ _ _ _ (eq_trans Cg Rg))
    as (P1 & P2 & P3 & P4 & P5).
  assert (G : geometry s'
              = (stepsCount (settings s1), scanStepIndex (settings s1), cf,
                 gScanRangeStart s', gScanRangeStop s')).
  { unfold geometry. rewrite P1, P2, P3, Hi, Hc, Hf. reflexivity. }
  assert (Ga : gScanRangeStart s' = gScanRangeStart s)
    by (rewrite P4; exact Ha).
  assert (R' : ENABLE_SCAN_RANGES cfg && negb (gScanRangeStart s' =? 0)
               = false) by (rewrite Ga; exact Hr).
  destruct (sweep_of_geometry cfg s' _ _ _ G R') as (-> & -> & -> & ->).
  assert (N1 : GetStepsCount cfg s1
               = u16 (Z.shiftr 128 (stepsCount (settings s1))))
    by (apply GetStepsCount_selector; exact R1).
  assert (S1 : GetScanStep cfg s1
               = scanStepValues cfg !!! Z.to_nat (scanStepIndex (settings s1)))
    by reflexivity.
  rewrite <- N1, <- S1. split; [reflexivity|]. split; [reflexivity|].
  subst cf. rewrite N1 in *. rewrite S1 in *.
  set (step := scanStepValues cfg !!! Z.to_nat (scanStepIndex (settings s1)))
    in *.
  destruct (selector_even (stepsCount (settings s1)) Hsc) as (m & Hm & Em).
  rewrite Em in *.
  apply sweep_start_arith; assumption.
Qed.

Lemma APP_RunSpectrum_init_sweep_witness :
  let s' := APP_RunSpectrum_init example_config example_startup
              (initial_session example_config 0 0) in
  let N := GetStepsCount example_config s' in
  let step := GetScanStep example_config s' in
  N = GetStepsCount example_config
        (loaded example_config example_startup
           (initial_session example_config 0 0))
  /\ step = GetScanStep example_config
              (loaded example_config example_startup
                 (initial_session example_config 0 0))
  /\ GetFStart example_config s'
     + (if IsCenterMode example_config s' then N else N / 2) * step
     = rx_frequency example_startup.
Proof.
  apply (APP_RunSpectrum_init_sweep example_config example_startup
           (initial_session example_config 0 0)); vm_compute;
    try reflexivity; try split; congruence.
Defined.

(** ** The blacklist *)

Lemma ResetScanStats_keeps (y : Session) :
  rssiHistory (ResetScanStats y) = rssiHistory y
  /\ blacklistFreqs (ResetScanStats y) = blacklistFreqs y
  /\ blacklistFreqsIdx (ResetScanStats y) = blacklistFreqsIdx y
  /\ isListening (ResetScanStats y) = isListening y
  /\ peak (ResetScanStats y) = peak y
  /\ ScanInfo.rssiMax (scanInfo (ResetScanStats y)) = 0.
Proof. repeat split; reflexivity. Qed.

Lemma ToggleRX_keeps (cfg : Config) (on : bool) (y : Session) :
  rssiHistory (ToggleRX cfg on y) = rssiHistory y
  /\ blacklistFreqs (ToggleRX cfg on y) = blacklistFreqs y
  /\ blacklistFreqsIdx (ToggleRX cfg on y) = blacklistFreqsIdx y
  /\ peak (ToggleRX cfg on y) = peak y.
Proof.
  destruct (ToggleRX_spec cfg on y) as (l & a & t & ->).
  repeat split; reflexivity.
Qed.

Lemma ResetPeak_keeps (y : Session) :
  rssiHistory (ResetPeak y) = rssiHistory y
  /\ blacklistFreqs (ResetPeak y) = blacklistFreqs y
  /\ blacklistFreqsIdx (ResetPeak y) = blacklistFreqsIdx y
  /\ PeakInfo.rssi (peak (ResetPeak y)) = 0.
Proof. repeat split; reflexivity. Qed.

Lemma listening_off_tail (cfg : Config) (x : Session) :
  let y := ResetScanStats (ToggleRX cfg false (ResetPeak x)) in
  rssiHistory y = rssiHistory x
  /\ blacklistFreqs y = blacklistFreqs x
  /\ blacklistFreqsIdx y = blacklistFreqsIdx x
  /\ isListening y = false
  /\ PeakInfo.rssi (peak y) = 0
  /\ ScanInfo.rssiMax (scanInfo y) = 0.
Proof.
  intros y. subst y.
  destruct (ResetScanStats_keeps (ToggleRX cfg false (ResetPeak x)))
    as (-> & -> & -> & -> & -> & ->).
  destruct (ToggleRX_keeps cfg false (ResetPeak x)) as (-> & -> & -> & ->).
  destruct (ResetPeak_keeps x) as (-> & -> & -> & ->).
  rewrite ToggleRX_isListening. repeat split; reflexivity.
Qed.

(** [Blacklist] with at most 128 measurements. *)
Lemma Blacklist_plain (cfg : Config) (s : Session) :
  ENABLE_SCAN_RANGES cfg
  && (ScanInfo.measurementsCount (scanInfo s) >? 128) = false ->
  0 <= PeakInfo.i (peak s) < 128 ->
  exists s',
    Blacklist cfg s = Done s'
    /\ rssiHistory s'
       = <[Z.to_nat (PeakInfo.i (peak s)) := RSSI_MAX_VALUE]> (rssiHistory s)
    /\ isListening s' = false
    /\ PeakInfo.rssi (peak s') = 0
    /\ (ENABLE_SCAN_RANGES cfg = true ->
        blacklistFreqs s'
        = <[Z.to_nat (blacklistFreqsIdx s mod 15) := PeakInfo.i (peak s)]>
            (blacklistFreqs s)
        /\ blacklistFreqsIdx s' = u8 (blacklistFreqsIdx s + 1)).
Proof.
  intros Hm Hi. unfold Blacklist. cbv zeta.
  set (s1 := if ENABLE_SCAN_RANGES cfg then _ else s).
  assert (F1 : peak s1 = peak s /\ scanInfo s1 = scanInfo s
               /\ rssiHistory s1 = rssiHistory s
               /\ (ENABLE_SCAN_RANGES cfg = true ->
                   blacklistFreqs s1
                   = <[Z.to_nat (blacklistFreqsIdx s mod 15)
                       := PeakInfo.i (peak s)]> (blacklistFreqs s)
                   /\ blacklistFreqsIdx s1 = u8 (blacklistFreqsIdx s + 1))).
  { subst s1. destruct (ENABLE_SCAN_RANGES cfg); repeat split;
      try reflexivity; discriminate. }
  clearbody s1. destruct F1 as (Fp & Fs & Fh & Fb).
  rewrite Fp.
  rewrite (SetRssiHistory_plain_spec cfg s1 _ RSSI_MAX_VALUE)
    by (rewrite ?Fs; assumption).
  cbn [mbind Outcome_bind]. rewrite Fh.
  set (s2 := set_rssiHistory _ s1).
  destruct (listening_off_tail cfg s2) as (Th & Tb & Ti & Tl & Tp & _).
  eexists. split; [reflexivity|].
  rewrite Th, Tb, Ti. subst s2.
  change (rssiHistory (set_rssiHistory ?h s1)) with h.
  change (blacklistFreqs (set_rssiHistory ?h s1)) with (blacklistFreqs s1).
  change (blacklistFreqsIdx (set_rssiHistory ?h s1))
    with (blacklistFreqsIdx s1).
  split; [reflexivity|]. split; [exact Tl|].
  split; [exact Tp|]. exact Fb.
Qed.

(** [Scan] on a bin that carries the blacklist mark. *)
Lemma Scan_marked (cfg : Config) (sample : Z) (x : Session) :
  0 <= ScanInfo.i (scanInfo x) < 128 ->
  rssiHistory x !!! Z.to_nat (ScanInfo.i (scanInfo x)) = RSSI_MAX_VALUE ->
  Scan cfg sample x = Done x.
Proof.
  intros Hi Hm. unfold Scan. rewrite (rd_in_range _ _ Hi).
  cbn [mbind Outcome_bind]. rewrite Hm, Z.eqb_refl. reflexivity.
Qed.

(** X17. Blacklisting the peak. With at most 128 measurements and the peak
    at a bin of the history, [Blacklist] puts the sentinel into the history
    slot of the peak bin and leaves the other slots alone, stops listening
    and forgets the peak level; from then on [Scan] skips that bin: at the
    marked bin it neither tunes nor measures, whatever the sample would have
    been. *)
Theorem Blacklist_marks_bin (cfg : Config) (s : Session) :
  ENABLE_SCAN_RANGES cfg
  && (ScanInfo.measurementsCount (scanInfo s) >? 128) = false ->
  0 <= PeakInfo.i (peak s) < 128 ->
  length (rssiHistory s) = 128%nat ->
  exists s',
    Blacklist cfg s = Done s'
    /\ rssiHistory s' !!! Z.to_nat (PeakInfo.i (peak s)) = RSSI_MAX_VALUE
    /\ (forall j : nat,
          j <> Z.to_nat (PeakInfo.i (peak s)) ->
          rssiHistory s' !!! j = rssiHistory s !!! j)
    /\ isListening s' = false
    /\ PeakInfo.rssi (peak s') = 0
    /\ forall (sample : Z) (x : Session),
         rssiHistory x = rssiHistory s' ->
         ScanInfo.i (scanInfo x) = PeakInfo.i (peak s) ->
         Scan cfg sample x = Done x.
Proof.
  intros Hm Hi Hlen.
  destruct (Blacklist_plain cfg s Hm Hi) as (s' & E & Hh & Hl & Hp & _).
  exists s'. split; [exact E|].
  assert (Hmark : rssiHistory s' !!! Z.to_nat (PeakInfo.i (peak s))
                  = RSSI_MAX_VALUE).
  { rewrite Hh. apply list_lookup_total_insert_eq. lia. }
  split; [exact Hmark|]. split.
  - intros j Hj. rewrite Hh. apply list_lookup_total_insert_ne. congruence.
  - split; [exact Hl|]. split; [exact Hp|].
    intros sample x Hx Hxi. apply Scan_marked.
    + rewrite Hxi. exact Hi.
    + rewrite Hx, Hxi. exact Hmark.
Qed.

Lemma Blacklist_marks_bin_witness :
  exists s',
    Blacklist example_config bins16_two_passes = Done s'
    /\ rssiHistory s' !!! Z.to_nat (PeakInfo.i (peak bins16_two_passes))
       = RSSI_MAX_VALUE
    /\ (forall j : nat,
          j <> Z.to_nat (PeakInfo.i (peak bins16_two_passes)) ->
          rssiHistory s' !!! j = rssiHistory bins16_two_passes !!! j)
    /\ isListening s' = false
    /\ PeakInfo.rssi (peak s') = 0
    /\ forall (sample : Z) (x : Session),
         rssiHistory x = rssiHistory s' ->
         ScanInfo.i (scanInfo x) = PeakInfo.i (peak bins16_two_passes) ->
         Scan example_config sample x = Done x.
Proof.
  apply (Blacklist_marks_bin example_config bins16_two_passes); vm_compute;
    try reflexivity; split; congruence.
Defined.

(** What [Blacklist] has done to the table whenever it completes, in a
    plain and in a folded pass alike. *)
Lemma Blacklist_table (cfg : Config) (s s' : Session) :
  ENABLE_SCAN_RANGES cfg = true ->
  Blacklist cfg s = Done s' ->
  blacklistFreqs s'
  = <[Z.to_nat (blacklistFreqsIdx s mod 15) := PeakInfo.i (peak s)]>
      (blacklistFreqs s)
  /\ blacklistFreqsIdx s' = u8 (blacklistFreqsIdx s + 1).
Proof.
  intros Hcfg. unfold Blacklist. cbv zeta.
  set (s1 := if ENABLE_SCAN_RANGES cfg then _ else s).
  assert (F1 : blacklistFreqs s1
               = <[Z.to_nat (blacklistFreqsIdx s mod 15)
                   := PeakInfo.i (peak s)]> (blacklistFreqs s)
               /\ blacklistFreqsIdx s1 = u8 (blacklistFreqsIdx s + 1)).
  { subst s1. rewrite Hcfg. split; reflexivity. }
  clearbody s1. destruct F1 as [Ff Fi].
  destruct (SetRssiHistory cfg _ RSSI_MAX_VALUE s1) as [x|k] eqn:E;
    cbn [mbind Outcome_bind]; [|discriminate].
  intros [= <-].
  destruct (SetRssiHistory_Done cfg _ _ _ _ E) as (h & -> & _).
  destruct (listening_off_tail cfg (set_rssiHistory h s1))
    as (_ & Tb & Ti & _).
  rewrite Tb, Ti.
  change (blacklistFreqs (set_rssiHistory h s1)) with (blacklistFreqs s1).
  change (blacklistFreqsIdx (set_rssiHistory h s1))
    with (blacklistFreqsIdx s1).
  split; assumption.
Qed.

(** [Blacklist] completes when the peak bin is a bin of the pass: below 128
    in a pass of at most 128 bins, below the bin count in a folded pass. *)
Lemma Blacklist_completes (cfg : Config) (s : Session) :
  ENABLE_SCAN_RANGES cfg = true ->
  (if ScanInfo.measurementsCount (scanInfo s) >? 128
   then 0 <= PeakInfo.i (peak s) < ScanInfo.measurementsCount (scanInfo s)
        /\ ScanInfo.measurementsCount (scanInfo s) <= 65535
   else 0 <= PeakInfo.i (peak s) < 128) ->
  exists s', Blacklist cfg s = Done s'.
Proof.
  intros Hcfg H.
  destruct (ScanInfo.measurementsCount (scanInfo s) >? 128) eqn:E.
  - apply Z.gtb_lt in E. destruct H as [Hi Hmc].
    unfold Blacklist. cbv zeta.
    set (s1 := if ENABLE_SCAN_RANGES cfg then _ else s).
    assert (F1 : peak s1 = peak s /\ scanInfo s1 = scanInfo s).
    { subst s1. destruct (ENABLE_SCAN_RANGES cfg); split; reflexivity. }
    clearbody s1. destruct F1 as [Fp Fs]. rewrite Fp.
    assert (Hmc1 : 128 < ScanInfo.measurementsCount (scanInfo s1) <= 65535)
      by (rewrite Fs; lia).
    assert (Hi1 : 0 <= PeakInfo.i (peak s)
                  < ScanInfo.measurementsCount (scanInfo s1))
      by (rewrite Fs; exact Hi).
    pose proof (SetRssiHistory_folded_spec cfg s1 _ RSSI_MAX_VALUE
                  Hcfg Hmc1 Hi1) as E2.
    cbv zeta in E2. rewrite E2. cbn [mbind Outcome_bind].
    eexists. reflexivity.
  - destruct (Blacklist_plain cfg s) as (s' & E' & _).
    + rewrite E. apply andb_false_r.
    + exact H.
    + exists s'. exact E'.
Qed.

(** X18. The blacklist table counts its entries in a [uint8_t]
    that is also the test for an empty table. With 255 entries counted, one
    more [Blacklist] that completes has put the peak bin into slot 0 and
    wrapped the counter to 0, and [IsBlacklisted] then reports no bin at all
    as blacklisted, although the table still holds the fifteen most recent
    bins; this is so in a plain and in a folded pass alike. [Blacklist]
    completes whenever the peak bin is a bin of the pass: below 128 in a
    pass of at most 128 bins, below the bin count (a [uint16_t]) in a longer
    one. *)
Theorem Blacklist_counter_wraps (cfg : Config) (s : Session) :
  ENABLE_SCAN_RANGES cfg = true ->
  blacklistFreqsIdx s = 255 ->
  (forall s',
     Blacklist cfg s = Done s' ->
     blacklistFreqs s'
     = <[0%nat := PeakInfo.i (peak s)]> (blacklistFreqs s)
     /\ blacklistFreqsIdx s' = 0
     /\ forall idx, IsBlacklisted idx s' = false)
  /\ ((if ScanInfo.measurementsCount (scanInfo s) >? 128
       then 0 <= PeakInfo.i (peak s)
              < ScanInfo.measurementsCount (scanInfo s)
            /\ ScanInfo.measurementsCount (scanInfo s) <= 65535
       else 0 <= PeakInfo.i (peak s) < 128) ->
      exists s', Blacklist cfg s = Done s').
Proof.
  intros Hcfg H255. split; [|apply Blacklist_completes; exact Hcfg].
  intros s' E.
  destruct (Blacklist_table cfg s s' Hcfg E) as (Hf & Hidx).
  rewrite H255 in Hf, Hidx.
  split; [exact Hf|]. split; [exact Hidx|].
  intros idx. unfold IsBlacklisted. rewrite Hidx. reflexivity.
Qed.

Lemma Blacklist_counter_wraps_witness :
  let s := set_blacklistFreqsIdx 255 range_after_127 in
  (forall s',
     Blacklist example_config s = Done s' ->
     blacklistFreqs s'
     = <[0%nat := PeakInfo.i (peak s)]> (blacklistFreqs s)
     /\ blacklistFreqsIdx s' = 0
     /\ forall idx, IsBlacklisted idx s' = false)
  /\ ((if ScanInfo.measurementsCount (scanInfo s) >? 128
       then 0 <= PeakInfo.i (peak s)
              < ScanInfo.measurementsCount (scanInfo s)
            /\ ScanInfo.measurementsCount (scanInfo s) <= 65535
       else 0 <= PeakInfo.i (peak s) < 128) ->
      exists s', Blacklist example_config s = Done s').
Proof.
  apply (Blacklist_counter_wraps example_config
           (set_blacklistFreqsIdx 255 range_after_127));
    vm_compute; reflexivity.
Defined.




(** The two properties on a folded pass of 129 bins: the blacklisting
    completes, with the counter at 255 nothing is reported afterwards, and
    after a reset bin 0 is reported together with the peak bin. *)
Example Blacklist_folded_pass :
  ScanInfo.measurementsCount (scanInfo range_after_127) = 129
  /\ (exists s',
        Blacklist example_config (set_blacklistFreqsIdx 255 range_after_127)
        = Done s'
        /\ blacklistFreqsIdx s' = 0
        /\ IsBlacklisted (PeakInfo.i (peak range_after_127)) s' = false)
  /\ (exists s',
        Blacklist example_config range_after_127 = Done s'
        /\ IsBlacklisted (PeakInfo.i (peak range_after_127)) s' = true
        /\ IsBlacklisted 0 s' = true
        /\ IsBlacklisted 1 s' = false).
Proof.
  split; [reflexivity|]. split.
  - eexists. split; [vm_compute; reflexivity|]. split; reflexivity.
  - eexists. split; [vm_compute; reflexivity|]. repeat split; reflexivity.
Qed.

(** ** The keyboard *)

Lemma KEY_eqb_eq (a b : KEY_Code_t) : KEY_eqb a b = true <-> a = b.
Proof.
  split.
  - destruct a, b; vm_compute; intros E; try reflexivity; discriminate.
  - intros ->. unfold KEY_eqb. apply Z.eqb_refl.
Qed.

Lemma kbd_poll_same (key : KEY_Code_t) (k : KeyboardState) :
  key <> KEY_INVALID -> kbd_current k = key ->
  kbd_poll key k
  = mkKeyboardState key key
      (if kbd_counter k <? 16 then u8 (kbd_counter k + 1)
       else u8 (kbd_counter k - 3)).
Proof.
  intros Hk Hc. unfold kbd_poll. cbv zeta. rewrite Hc.
  replace (KEY_eqb key KEY_INVALID) with false.
  - replace (KEY_eqb key key) with true; [reflexivity|].
    symmetry. apply KEY_eqb_eq. reflexivity.
  - symmetry. apply not_true_is_false. rewrite KEY_eqb_eq. exact Hk.
Qed.

Lemma kbd_poll_new (key : KEY_Code_t) (k : KeyboardState) :
  kbd_current k <> key ->
  kbd_poll key k = mkKeyboardState key (kbd_current k) 0.
Proof.
  intros Hc. unfold kbd_poll. cbv zeta.
  replace (KEY_eqb key (kbd_current k)) with false.
  - rewrite andb_false_r. reflexivity.
  - symmetry. apply not_true_is_false. rewrite KEY_eqb_eq. congruence.
Qed.

(** The repeat counter while a key is held: it counts up to 16 and then
    runs through 13, 14, 15, 16 for ever. *)
Lemma held_counter (key : KEY_Code_t) (k : KeyboardState) (p : nat) :
  key <> KEY_INVALID -> kbd_current k <> key -> (1 <= p)%nat ->
  kbd_current (held key p k) = key
  /\ kbd_counter (held key p k)
     = if (p <=? 17)%nat then Z.of_nat p - 1
       else 13 + Z.of_nat ((p - 18) mod 4).
Proof.
  intros Hk Hc Hp. unfold held.
  induction p as [|p IH]; [lia|].
  rewrite Nat.iter_succ.
  destruct (Nat.eq_dec p 0%nat) as [->|Hne].
  - change (Nat.iter 0 (kbd_poll key) k) with k.
    rewrite (kbd_poll_new key k Hc). split; reflexivity.
  - destruct (IH ltac:(lia)) as [Ecur Ecnt].
    rewrite (kbd_poll_same key _ Hk Ecur).
    cbn [kbd_current kbd_counter]. split; [reflexivity|].
    rewrite Ecnt. clear IH Ecur Ecnt.
    destruct (p <=? 17)%nat eqn:E1.
    + apply Nat.leb_le in E1.
      destruct (S p <=? 17)%nat eqn:E2.
      * apply Nat.leb_le in E2.
        replace (Z.of_nat p - 1 <? 16) with true
          by (symmetry; apply Z.ltb_lt; lia).
        unfold u8. rewrite Z.mod_small by lia. lia.
      * apply Nat.leb_gt in E2. assert (p = 17%nat) by lia. subst p.
        reflexivity.
    + apply Nat.leb_gt in E1.
      replace (S p <=? 17)%nat with false
        by (symmetry; apply Nat.leb_gt; lia).
      pose proof (Nat.mod_upper_bound (p - 18) 4 ltac:(lia)) as B.
      assert (C : ((p - 18) mod 4 = 3 /\ (S p - 18) mod 4 = 0)%nat
                  \/ ((p - 18) mod 4 < 3
                      /\ (S p - 18) mod 4 = S ((p - 18) mod 4))%nat).
      { replace (S p - 18)%nat with (S (p - 18)) by lia.
        generalize (p - 18)%nat. intros q.
        pose proof (Nat.div_mod_eq q 4) as D.
        pose proof (Nat.div_mod_eq (S q) 4) as D'.
        pose proof (Nat.mod_upper_bound q 4 ltac:(lia)).
        pose proof (Nat.mod_upper_bound (S q) 4 ltac:(lia)).
        lia. }
      destruct C as [[C1 C2] | [C1 C2]]; rewrite C2.
      * rewrite C1. reflexivity.
      * replace (13 + Z.of_nat ((p - 18) mod 4) <? 16) with true
          by (symmetry; apply Z.ltb_lt; lia).
        unfold u8. rewrite Z.mod_small by lia. lia.
Qed.

(** X20. Key repeat. While a key is held, [HandleUserInput] calls the key
    handler on the 4th poll and then on the 17th, the 21st, the 25th and so
    on, every fourth poll; on every other poll, and whenever no key is down,
    it only records the key state. *)
Theorem HandleUserInput_repeat (cfg : Config) (pf : Platform)
    (key : KEY_Code_t) (k : KeyboardState) (p : nat) :
  key <> KEY_INVALID -> kbd_current k <> key -> (1 <= p)%nat ->
  (key_fires (held key p k) = true
   <-> p = 4%nat \/ (17 <= p /\ (p - 17) mod 4 = 0)%nat)
  /\ (forall a : App,
        key_fires (kbd_poll key (kbd (session a))) = false ->
        HandleUserInput cfg pf key a
        = Done (upd_session
                  (fun s => set_kbd (kbd_poll key (kbd s)) s) a))
  /\ (forall k' : KeyboardState,
        key_fires (kbd_poll KEY_INVALID k') = false).
Proof.
  intros Hk Hc Hp. split; [|split].
  - destruct (held_counter key k p Hk Hc Hp) as [_ Ecnt].
    unfold key_fires. rewrite Ecnt. clear Ecnt.
    rewrite orb_true_iff, !Z.eqb_eq.
    destruct (p <=? 17)%nat eqn:E1.
    + apply Nat.leb_le in E1. split.
      * intros [H|H]; [left; lia|]. right. split; [lia|].
        assert (p = 17%nat) by lia. subst p. reflexivity.
      * intros [H|[H1 H2]]; [left; lia|]. right. lia.
    + apply Nat.leb_gt in E1.
      pose proof (Nat.mod_upper_bound (p - 18) 4 ltac:(lia)) as B.
      pose proof (Nat.div_mod_eq (p - 18) 4) as D.
      pose proof (Nat.div_mod_eq (p - 17) 4) as D'.
      pose proof (Nat.mod_upper_bound (p - 17) 4 ltac:(lia)) as B'.
      split.
      * intros [H|H]; [lia|]. right. split; lia.
      * intros [H|[H1 H2]]; [lia|]. right. lia.
  - intros a Hno. unfold HandleUserInput. cbv zeta.
    cbn [session upd_session set_session kbd set_kbd].
    rewrite Hno. reflexivity.
  - intros k'. reflexivity.
Qed.

Lemma HandleUserInput_repeat_witness :
  (key_fires (held KEY_1 21 (mkKeyboardState KEY_INVALID KEY_INVALID 0))
   = true
   <-> 21%nat = 4%nat \/ (17 <= 21 /\ (21 - 17) mod 4 = 0)%nat)
  /\ (forall a : App,
        key_fires (kbd_poll KEY_1 (kbd (session a))) = false ->
        HandleUserInput example_config example_platform KEY_1 a
        = Done (upd_session
                  (fun s => set_kbd (kbd_poll KEY_1 (kbd s)) s) a))
  /\ (forall k' : KeyboardState,
        key_fires (kbd_poll KEY_INVALID k') = false).
Proof.
  apply (HandleUserInput_repeat example_config example_platform KEY_1
           (mkKeyboardState KEY_INVALID KEY_INVALID 0) 21);
    [discriminate | discriminate | lia].
Defined.

(** *** The keys of the spectrum view inside a scan range *)

Lemma anchor_of_parts (a b : Session) :
  stepsCount (settings a) = stepsCount (settings b) ->
  currentFreq a = currentFreq b ->
  gScanRangeStart a = gScanRangeStart b ->
  gScanRangeStop a = gScanRangeStop b ->
  sweep_anchor a = sweep_anchor b.
Proof. unfold sweep_anchor. intros -> -> -> ->. reflexivity. Qed.

Lemma anchor_of_geometry (a b : Session) :
  geometry a = geometry b -> sweep_anchor a = sweep_anchor b.
Proof.
  intros G. symmetry in G.
  destruct (geometry_parts b _ _ _ _ _ G) as (E1 & _ & E3 & E4 & E5).
  apply anchor_of_parts; congruence.
Qed.

Lemma ClampRssiTriggerLevel_anchor (cfg : Config) (s : Session) :
  sweep_anchor (ClampRssiTriggerLevel cfg s) = sweep_anchor s.
Proof. reflexivity. Qed.

Lemma UpdateDBMax_anchor (cfg : Config) (inc : bool) (s : Session) :
  sweep_anchor (UpdateDBMax cfg inc s) = sweep_anchor s.
Proof.
  unfold UpdateDBMax. cbv zeta.
  destruct (inc && (dbMax (settings s) <? 10)); [reflexivity|].
  destruct (negb inc && (dbMax (settings s) >? dbMin (settings s)));
    reflexivity.
Qed.

Lemma UpdateScanStep_anchor (cfg : Config) (pf : Platform) (inc : bool)
    (s : Session) :
  sweep_anchor (UpdateScanStep cfg pf inc s) = sweep_anchor s.
Proof.
  destruct (UpdateScanStep_effect cfg pf inc s) as (G & _).
  destruct (geometry_parts _ _ _ _ _ _ G) as (E1 & _ & E3 & E4 & E5).
  apply anchor_of_parts; assumption.
Qed.

Lemma UpdateFreqChangeStep_anchor (cfg : Config) (inc : bool) (s : Session) :
  sweep_anchor (UpdateFreqChangeStep cfg inc s) = sweep_anchor s.
Proof.
  unfold UpdateFreqChangeStep. cbv zeta.
  destruct (inc && (frequencyChangeStep (settings s) <? 200000));
    [reflexivity|].
  destruct (negb inc && (frequencyChangeStep (settings s) >? 10000));
    reflexivity.
Qed.

Lemma UpdateRssiTriggerLevel_anchor (cfg : Config) (inc : bool)
    (s : Session) :
  sweep_anchor (UpdateRssiTriggerLevel cfg inc s) = sweep_anchor s.
Proof. destruct inc; reflexivity. Qed.

Lemma ToggleModulation_anchor (cfg : Config) (pf : Platform) (s : Session) :
  sweep_anchor (ToggleModulation cfg pf s) = sweep_anchor s.
Proof.
  rewrite ToggleModulation_unfold.
  set (x0 := upd_settings _ s).
  change (sweep_anchor (set_redrawScreen true ?y)) with (sweep_anchor y).
  rewrite (anchor_of_geometry _ _ (proj1 (RelaunchScan_frame cfg x0))).
  reflexivity.
Qed.

Lemma ToggleListeningBW_anchor (pf : Platform) (s : Session) :
  sweep_anchor (ToggleListeningBW pf s) = sweep_anchor s.
Proof.
  unfold ToggleListeningBW. cbv zeta.
  destruct (listenBw (settings s) =? BK4819_FILTER_BW_NARROWER pf);
    reflexivity.
Qed.

Lemma Blacklist_anchor (cfg : Config) (s s' : Session) :
  Blacklist cfg s = Done s' -> sweep_anchor s' = sweep_anchor s.
Proof.
  unfold Blacklist. cbv zeta.
  set (s1 := if ENABLE_SCAN_RANGES cfg then _ else s).
  assert (A1 : sweep_anchor s1 = sweep_anchor s)
    by (subst s1; destruct (ENABLE_SCAN_RANGES cfg); reflexivity).
  clearbody s1.
  destruct (SetRssiHistory cfg _ _ s1) as [s2|] eqn:E;
    cbn [mbind Outcome_bind]; [|discriminate].
  apply SetRssiHistory_Done in E. destruct E as (h & -> & _).
  intros [= <-]. rewrite <- A1.
  destruct (ToggleRX_spec cfg false (ResetPeak (set_rssiHistory h s1)))
    as (l & a & t & ->).
  generalize dependent s1. intros s1 _. reflexivity.
Qed.

(** X21. Inside a scan range the spectrum view is pinned to the range: no
    key moves the centre frequency, the bin-count selector or the limits of
    the range. The tuning keys, the frequency-input key and the bin-count
    key do nothing at all there, and every key except the blacklist key
    completes without an access outside the history. *)
Theorem OnKeyDown_in_scan_range (cfg : Config) (pf : Platform)
    (key : KEY_Code_t) (a : App) :
  in_scan_range cfg (session a) = true ->
  (In key [KEY_UP; KEY_DOWN; KEY_5; KEY_4; KEY_MENU] ->
   OnKeyDown cfg pf key a = Done a)
  /\ (key <> KEY_SIDE1 -> exists a', OnKeyDown cfg pf key a = Done a')
  /\ (forall a',
        OnKeyDown cfg pf key a = Done a' ->
        sweep_anchor (session a') = sweep_anchor (session a)).
Proof.
  intros Hr. split; [|split].
  - intros Hin. cbn [In] in Hin.
    destruct Hin as [<-|[<-|[<-|[<-|[<-|[]]]]]]; unfold OnKeyDown;
      cbv zeta; rewrite ?Hr; reflexivity.
  - intros Hk. destruct key; try congruence; unfold OnKeyDown; cbv zeta;
      rewrite ?Hr; try (eexists; reflexivity).
    destruct (negb (menuState (session a) =? 0)); eexists; reflexivity.
  - intros a'. destruct key; unfold OnKeyDown; cbv zeta; rewrite ?Hr;
      first
        [ intros [= <-]; cbn [session set_session];
          first
            [ apply ToggleModulation_anchor
            | apply UpdateScanStep_anchor
            | apply UpdateFreqChangeStep_anchor
            | apply UpdateDBMax_anchor
            | apply ToggleListeningBW_anchor
            | apply UpdateRssiTriggerLevel_anchor
            | reflexivity ]
        | destruct (negb (menuState (session a) =? 0)); intros [= <-];
          [ reflexivity
          | unfold DeInitSpectrum;
            destruct (ENABLE_FEAT_F4HWN_SPECTRUM cfg); reflexivity ]
        | destruct (Blacklist cfg (session a)) as [s2|] eqn:E;
          cbn [mbind Outcome_bind]; [|discriminate];
          intros [= <-]; cbn [session set_session];
          apply (Blacklist_anchor cfg _ _ E) ].
Qed.

Lemma OnKeyDown_in_scan_range_witness :
  (In KEY_4 [KEY_UP; KEY_DOWN; KEY_5; KEY_4; KEY_MENU] ->
   OnKeyDown example_config example_platform KEY_4
     (mkApp example_range_start 14400000 true 192)
   = Done (mkApp example_range_start 14400000 true 192))
  /\ (KEY_4 <> KEY_SIDE1 ->
      exists a',
        OnKeyDown example_config example_platform KEY_4
          (mkApp example_range_start 14400000 true 192) = Done a')
  /\ (forall a',
        OnKeyDown example_config example_platform KEY_4
          (mkApp example_range_start 14400000 true 192) = Done a' ->
        sweep_anchor (session a')
        = sweep_anchor (session (mkApp example_range_start 14400000 true
                                   192))).
Proof.
  apply (OnKeyDown_in_scan_range example_config example_platform KEY_4
           (mkApp example_range_start 14400000 true 192)).
  vm_compute. reflexivity.
Defined.

(** *** The register menu of the still view *)

Lemma RelaunchScan_modes (cfg : Config) (s : Session) :
  monitorMode (RelaunchScan cfg s) = monitorMode s
  /\ lockAGC (RelaunchScan cfg s) = lockAGC s
  /\ previousState (RelaunchScan cfg s) = previousState s
  /\ menuState (RelaunchScan cfg s) = menuState s.
Proof.
  unfold RelaunchScan. cbv zeta.
  assert (N : monitorMode (ResetPeak (InitScan cfg s)) = monitorMode s
              /\ lockAGC (ResetPeak (InitScan cfg s)) = lockAGC s
              /\ previousState (ResetPeak (InitScan cfg s)) = previousState s
              /\ menuState (ResetPeak (InitScan cfg s)) = menuState s)
    by (repeat split; reflexivity).
  destruct (ToggleRX_spec cfg false (ResetPeak (InitScan cfg s)))
    as (l & a & t & ->).
  generalize dependent (ResetPeak (InitScan cfg s)). intros x N.
  destruct N as (N1 & N2 & N3 & N4).
  destruct (SPECTRUM_AUTOMATIC_SQUELCH cfg); repeat split;
    solve [exact N1 | exact N2 | exact N3 | exact N4].
Qed.

Lemma OnKeyDownStill_MENU (cfg : Config) (pf : Platform) (s : Session) :
  menuState (OnKeyDownStill cfg pf KEY_MENU s)
  = if menuState s =? 4 then 1 else u8 (menuState s + 1).
Proof.
  unfold OnKeyDownStill. cbv zeta.
  change (Z.of_nat (length registerSpecs) - 1) with 4.
  destruct (menuState s =? 4); reflexivity.
Qed.

Lemma menu_cycle (cfg : Config) (pf : Platform) (s : Session) (k : nat) :
  menuState s = 0 -> (1 <= k)%nat ->
  menuState (Nat.iter k (OnKeyDownStill cfg pf KEY_MENU) s)
  = 1 + (Z.of_nat k - 1) mod 4.
Proof.
  intros H0 Hk. induction k as [|k IH]; [lia|].
  rewrite Nat.iter_succ, OnKeyDownStill_MENU.
  destruct (Nat.eq_dec k 0%nat) as [->|Hne].
  - change (Nat.iter 0 (OnKeyDownStill cfg pf KEY_MENU) s) with s.
    rewrite H0. reflexivity.
  - rewrite (IH ltac:(lia)). clear IH.
    pose proof (Z.mod_pos_bound (Z.of_nat k - 1) 4 ltac:(lia)) as B.
    pose proof (Z.div_mod (Z.of_nat k - 1) 4 ltac:(lia)) as D.
    pose proof (Z.mod_pos_bound (Z.of_nat (S k) - 1) 4 ltac:(lia)) as B'.
    pose proof (Z.div_mod (Z.of_nat (S k) - 1) 4 ltac:(lia)) as D'.
    destruct (1 + (Z.of_nat k - 1) mod 4 =? 4) eqn:E.
    + apply Z.eqb_eq in E. lia.
    + apply Z.eqb_neq in E. unfold u8. rewrite Z.mod_small by lia. lia.
Qed.

(** X22. The register menu of the still view. The MENU key opens the menu
    on its first entry and then cycles through the four entries, so the menu
    index stays a valid index into [registerSpecs] and never returns to 0 by
    itself. While the menu is open, the up and down keys edit the register
    and leave the tuned frequency alone, and EXIT only closes the menu; with
    the menu closed, EXIT returns to the spectrum view with the monitor
    switched off, the AGC unlocked and a new pass set up. *)
Theorem OnKeyDownStill_menu (cfg : Config) (pf : Platform) (s : Session)
    (k : nat) :
  menuState s = 0 -> (1 <= k)%nat ->
  let open := Nat.iter k (OnKeyDownStill cfg pf KEY_MENU) s in
  menuState open = 1 + (Z.of_nat k - 1) mod 4
  /\ (1 <= menuState open < Z.of_nat (length registerSpecs))
  /\ fMeasure (OnKeyDownStill cfg pf KEY_UP open) = fMeasure open
  /\ fMeasure (OnKeyDownStill cfg pf KEY_DOWN open) = fMeasure open
  /\ OnKeyDownStill cfg pf KEY_EXIT open = set_menuState 0 open
  /\ (let back := OnKeyDownStill cfg pf KEY_EXIT s in
      currentState back = SPECTRUM
      /\ previousState back = currentState s
      /\ monitorMode back = false /\ lockAGC back = false
      /\ isListening back = false
      /\ ScanInfo.i (scanInfo back) = 0).
Proof.
  intros H0 Hk open.
  pose proof (menu_cycle cfg pf s k H0 Hk) as E. fold open in E.
  clearbody open.
  pose proof (Z.mod_pos_bound (Z.of_nat k - 1) 4 ltac:(lia)) as B.
  assert (Hopen : negb (menuState open =? 0) = true).
  { apply negb_true_iff, Z.eqb_neq. lia. }
  split; [exact E|]. split; [change (Z.of_nat (length registerSpecs)) with 5;
                             lia|].
  split; [|split; [|split]].
  - unfold OnKeyDownStill. rewrite Hopen. unfold SetRegMenuValue. cbv zeta.
    destruct (reg_num _ =? BK4819_REG_13); reflexivity.
  - unfold OnKeyDownStill. rewrite Hopen. unfold SetRegMenuValue. cbv zeta.
    destruct (reg_num _ =? BK4819_REG_13); reflexivity.
  - unfold OnKeyDownStill. apply negb_true_iff in Hopen. rewrite Hopen.
    reflexivity.
  - cbv zeta. unfold OnKeyDownStill. rewrite H0. cbn [Z.eqb]. cbv zeta.
    set (x := set_monitorMode false _).
    destruct (RelaunchScan_frame cfg x) as (_ & _ & _ & _ & ->).
    destruct (RelaunchScan_modes cfg x) as (-> & -> & -> & _).
    destruct (RelaunchScan_flags cfg x) as (-> & _).
    destruct (RelaunchScan_pass cfg x) as (-> & _).
    repeat split; reflexivity.
Qed.

Lemma OnKeyDownStill_menu_witness :
  let open :=
    Nat.iter 6 (OnKeyDownStill example_config example_platform KEY_MENU)
      example_start in
  menuState open = 1 + (Z.of_nat 6 - 1) mod 4
  /\ (1 <= menuState open < Z.of_nat (length registerSpecs))
  /\ fMeasure (OnKeyDownStill example_config example_platform KEY_UP open)
     = fMeasure open
  /\ fMeasure (OnKeyDownStill example_config example_platform KEY_DOWN open)
     = fMeasure open
  /\ OnKeyDownStill example_config example_platform KEY_EXIT open
     = set_menuState 0 open
  /\ (let back :=
        OnKeyDownStill example_config example_platform KEY_EXIT
          example_start in
      currentState back = SPECTRUM
      /\ previousState back = currentState example_start
      /\ monitorMode back = false /\ lockAGC back = false
      /\ isListening back = false
      /\ ScanInfo.i (scanInfo back) = 0).
Proof.
  apply (OnKeyDownStill_menu example_config example_platform example_start
           6); [reflexivity | lia].
Defined.

(** ** The register menu: the value written back *)

Lemma u16_land (x : Z) : u16 x = Z.land x (Z.ones 16).
Proof. unfold u16. rewrite Z.land_ones by lia. reflexivity. Qed.

Lemma small_bits (v w m : Z) :
  0 <= v < 2 ^ w -> w <= m -> Z.testbit v m = false.
Proof.
  intros Hv Hm. destruct (Z.eq_dec v 0) as [->|Hne].
  - apply Z.bits_0.
  - apply Z.bits_above_log2; [lia|].
    assert (Z.log2 v < w); [|lia].
    apply Z.log2_lt_pow2; lia.
Qed.

(** A field of [w] bits at offset [off] of a 16-bit register, replaced by
    [v]: the field reads back as [v] and the other bits are those of the
    register. *)
Lemma field_insert (R v off w : Z) :
  0 <= off -> 0 <= w -> off + w <= 16 -> 0 <= R < 65536 -> 0 <= v < 2 ^ w ->
  let M := Z.shiftl (Z.ones w) off in
  let W := u16 (Z.lor (u16 (Z.land R (Z.lnot M))) (Z.shiftl v off)) in
  Z.land (Z.shiftr W off) (Z.ones w) = v
  /\ Z.land W (Z.lnot M) = Z.land R (Z.lnot M).
Proof.
  intros Hoff Hw Hsum HR Hv M W. subst M W. rewrite !u16_land. split.
  - apply Z.bits_inj'. intros n Hn.
    rewrite Z.land_spec, Z.shiftr_spec, Z.land_spec, Z.lor_spec,
      !Z.land_spec, Z.lnot_spec, !Z.shiftl_spec,
      !Z.testbit_ones_nonneg by lia.
    replace (n + off - off) with n by lia.
    destruct (n <? w) eqn:E.
    + apply Z.ltb_lt in E.
      replace (n + off <? 16) with true by (symmetry; apply Z.ltb_lt; lia).
      rewrite !andb_true_r. cbn [negb]. rewrite andb_false_r. reflexivity.
    + apply Z.ltb_ge in E. rewrite andb_false_r.
      symmetry. apply (small_bits v w n); assumption.
  - apply Z.bits_inj'. intros n Hn.
    rewrite !Z.land_spec, Z.lor_spec, !Z.land_spec, !Z.lnot_spec,
      !Z.shiftl_spec, !(Z.testbit_ones_nonneg 16 n) by lia.
    destruct (n <? 16) eqn:E16.
    + rewrite !andb_true_r.
      destruct (Z.ltb_spec (n - off) 0) as [Hlo|Hlo].
      * rewrite (Z.testbit_neg_r v (n - off)) by lia.
        rewrite (Z.testbit_neg_r (Z.ones w) (n - off)) by lia.
        cbn [negb]. rewrite orb_false_r, !andb_true_r. reflexivity.
      * rewrite Z.testbit_ones_nonneg by lia.
        destruct (n - off <? w) eqn:Ew; cbn [negb].
        -- rewrite !andb_false_r. reflexivity.
        -- apply Z.ltb_ge in Ew.
           rewrite (small_bits v w (n - off)) by lia.
           rewrite orb_false_r, !andb_true_r. reflexivity.
    + apply Z.ltb_ge in E16.
      rewrite (small_bits R 16 n) by (change (2 ^ 16) with 65536; lia).
      rewrite !andb_false_r. reflexivity.
Qed.

Lemma field_value_range (x w : Z) :
  0 <= w <= 16 -> 0 <= u16 (Z.land x (Z.ones w)) <= Z.ones w
  /\ u16 (Z.land x (Z.ones w)) = Z.land x (Z.ones w).
Proof.
  intros Hw. pose proof (land_ones_bound x w ltac:(lia)) as B.
  assert (Z.ones w < 65536).
  { rewrite Z.ones_equiv. change 65536 with (2 ^ 16).
    pose proof (Z.pow_le_mono_r 2 w 16 ltac:(lia) ltac:(lia)). lia. }
  unfold u16. rewrite Z.mod_small by lia. split; [exact B | reflexivity].
Qed.

Lemma write_field (off w mask inc : Z) (add : bool) (r1 r2 : Z) :
  0 <= off -> 0 <= w -> off + w <= 16 -> 0 <= inc -> mask = Z.ones w ->
  0 <= r2 < 65536 ->
  let v := u16 (Z.land (Z.shiftr r1 off) mask) in
  let v' :=
    if add && (v <=? mask - inc) then u16 (v + inc)
    else if negb add && (v >=? 0 + inc) then u16 (v - inc)
    else v in
  let W :=
    u16 (Z.lor (u16 (Z.land r2 (Z.lnot (Z.shiftl mask off))))
               (Z.shiftl v' off)) in
  0 <= W < 65536
  /\ u16 (Z.land (Z.shiftr W off) mask) = stepped_field mask inc add v
  /\ 0 <= u16 (Z.land (Z.shiftr W off) mask) <= mask
  /\ Z.land W (Z.lnot (Z.shiftl mask off))
     = Z.land r2 (Z.lnot (Z.shiftl mask off)).
Proof.
  intros Hoff Hw Hsum Hinc -> Hr2 v v' W.
  set (mask := Z.ones w) in *.
  destruct (field_value_range (Z.shiftr r1 off) w ltac:(lia)) as [Bv _].
  fold mask v in Bv.
  assert (Hm : mask < 65536 /\ mask = 2 ^ w - 1).
  { subst mask. rewrite Z.ones_equiv. change 65536 with (2 ^ 16).
    pose proof (Z.pow_le_mono_r 2 w 16 ltac:(lia) ltac:(lia)). lia. }
  assert (Ev : v' = stepped_field mask inc add v /\ 0 <= v' <= mask).
  { subst v'. unfold stepped_field.
    change (0 + inc) with inc. unfold u16.
    destruct add; cbn [andb negb].
    - destruct (v <=? mask - inc) eqn:E.
      + apply Z.leb_le in E. rewrite Z.mod_small by lia. lia.
      + lia.
    - destruct (v >=? inc) eqn:E.
      + rewrite Z.geb_leb in E. apply Z.leb_le in E.
        rewrite Z.mod_small by lia. lia.
      + lia. }
  destruct Ev as [Ev Bv']. rewrite <- Ev.
  destruct (field_insert r2 v' off w Hoff Hw Hsum Hr2 ltac:(lia))
    as [F1 F2].
  cbv zeta in F1, F2. fold mask in F1, F2. fold W in F1, F2.
  assert (E16 : u16 (Z.land (Z.shiftr W off) mask) = v').
  { rewrite F1. unfold u16. apply Z.mod_small. lia. }
  rewrite E16. split.
  - subst W. unfold u16 at 1. apply Z.mod_pos_bound. lia.
  - split; [reflexivity|]. split; [exact Bv' | exact F2].
Qed.

(** X23. A step in the register menu edits only its own field. For each of
    the four menu entries and any contents of the chip register, the value
    that [SetRegMenuValue] writes back is a 16-bit value whose field (at the
    entry's offset, under its mask) holds the old field value moved by the
    entry's increment, or the old value when the step would leave the range
    from 0 to the mask; every bit outside the field is written back as it
    was read. *)
Theorem SetRegMenuValue_write_field (st : Z) (add : bool) (read1 read2 : Z) :
  1 <= st <= 4 -> 0 <= read2 < 65536 ->
  let spec := registerSpecs !!! Z.to_nat st in
  let W := SetRegMenuValue_write st add read1 read2 in
  let outside := Z.lnot (Z.shiftl (reg_mask spec) (reg_offset spec)) in
  0 <= W < 65536
  /\ GetRegMenuValue st W
     = stepped_field (reg_mask spec) (reg_inc spec) add
         (GetRegMenuValue st read1)
  /\ 0 <= GetRegMenuValue st W <= reg_mask spec
  /\ Z.land W outside = Z.land read2 outside.
Proof.
  intros Hst Hr2.
  assert (C : st = 1 \/ st = 2 \/ st = 3 \/ st = 4) by lia.
  destruct C as [-> | [-> | [-> | ->]]]; cbv zeta;
    unfold SetRegMenuValue_write, GetRegMenuValue; cbv zeta.
  - change (registerSpecs !!! Z.to_nat 1)
      with (mkRegisterSpec BK4819_REG_13 8 3 1).
    cbn [reg_offset reg_mask reg_inc].
    apply (write_field 8 2 3 1 add read1 read2); try lia. reflexivity.
  - change (registerSpecs !!! Z.to_nat 2)
      with (mkRegisterSpec BK4819_REG_13 5 7 1).
    cbn [reg_offset reg_mask reg_inc].
    apply (write_field 5 3 7 1 add read1 read2); try lia. reflexivity.
  - change (registerSpecs !!! Z.to_nat 3)
      with (mkRegisterSpec BK4819_REG_13 0 7 1).
    cbn [reg_offset reg_mask reg_inc].
    apply (write_field 0 3 7 1 add read1 read2); try lia. reflexivity.
  - change (registerSpecs !!! Z.to_nat 4)
      with (mkRegisterSpec BK4819_REG_3D 0 65535 10922).
    cbn [reg_offset reg_mask reg_inc].
    apply (write_field 0 16 65535 10922 add read1 read2); try lia.
    reflexivity.
Qed.

Lemma SetRegMenuValue_write_field_witness :
  let spec := registerSpecs !!! Z.to_nat 2 in
  let W := SetRegMenuValue_write 2 true 991 991 in
  let outside := Z.lnot (Z.shiftl (reg_mask spec) (reg_offset spec)) in
  0 <= W < 65536
  /\ GetRegMenuValue 2 W
     = stepped_field (reg_mask spec) (reg_inc spec) true
         (GetRegMenuValue 2 991)
  /\ 0 <= GetRegMenuValue 2 W <= reg_mask spec
  /\ Z.land W outside = Z.land 991 outside.
Proof.
  apply (SetRegMenuValue_write_field 2 true 991 991); lia.
Defined.

(** ** The waterfall and the ruler on the screen *)

Lemma u8_land (x : Z) : u8 x = Z.land x (Z.ones 8).
Proof. unfold u8. rewrite Z.land_ones by lia. reflexivity. Qed.

(** The low bit that [DrawWaterfall] extracts from a row byte. *)
Lemma waterfall_bit (byte sh : Z) (n : Z) :
  0 <= sh -> 0 <= n ->
  Z.testbit (u8 (Z.land (Z.shiftr byte sh) 1)) n
  = (n =? 0) && Z.testbit byte sh.
Proof.
  intros Hsh Hn. rewrite u8_land, !Z.land_spec, Z.shiftr_spec by lia.
  change 1 with (Z.ones 1). rewrite !Z.testbit_ones_nonneg by lia.
  destruct (Z.eqb_spec n 0) as [->|Hne].
  - rewrite Z.add_0_l. change (0 <? 1) with true. change (0 <? 8) with true.
    rewrite !andb_true_r. reflexivity.
  - replace (n <? 1) with false by (symmetry; apply Z.ltb_ge; lia).
    rewrite andb_false_r. reflexivity.
Qed.

Lemma waterfall_column_bits (rows : list (list Z)) (p col : nat) (n : nat)
    (j : Z) :
  (p < 2)%nat -> (n <= 8)%nat -> 0 <= j ->
  Z.testbit
    (for_loop n (fun bit b =>
       if (p * 8 + bit <? WATERFALL_ROWS_PIXELS)%nat then
         u8 (Z.lor b
               (Z.shiftl
                  (u8 (Z.land
                         (Z.shiftr
                            ((rows !!! (p * 8 + bit)%nat)
                               !!! Z.to_nat (Z.shiftr (Z.of_nat col) 3))
                            (Z.land (Z.of_nat col) 7)) 1))
                  (Z.of_nat bit)))
       else b) 0) j
  = (j <? Z.of_nat n)
    && Z.testbit
         ((rows !!! (p * 8 + Z.to_nat j)%nat)
            !!! Z.to_nat (Z.shiftr (Z.of_nat col) 3))
         (Z.land (Z.of_nat col) 7).
Proof.
  intros Hp Hn Hj. induction n as [|n IH].
  - change (for_loop 0 _ 0) with 0. rewrite Z.bits_0.
    replace (j <? Z.of_nat 0) with false; [reflexivity|].
    symmetry. apply Z.ltb_ge. lia.
  - rewrite for_loop_S.
    replace (p * 8 + n <? WATERFALL_ROWS_PIXELS)%nat with true
      by (symmetry; apply Nat.ltb_lt; unfold WATERFALL_ROWS_PIXELS; lia).
    assert (Hc : 0 <= Z.land (Z.of_nat col) 7)
      by (apply Z.land_nonneg; lia).
    rewrite u8_land, Z.land_spec, Z.lor_spec, IH by lia.
    rewrite Z.testbit_ones_nonneg by lia.
    destruct (Z.ltb_spec j (Z.of_nat n)) as [Hlt|Hge].
    + replace (j <? Z.of_nat (S n)) with true
        by (symmetry; apply Z.ltb_lt; lia).
      replace (j <? 8) with true by (symmetry; apply Z.ltb_lt; lia).
      rewrite Z.shiftl_spec_low by lia.
      cbn [andb]. rewrite orb_false_r, andb_true_r. reflexivity.
    + cbn [andb orb]. rewrite Z.shiftl_spec by lia.
      destruct (Z.eq_dec j (Z.of_nat n)) as [->|Hne].
      * rewrite Z.sub_diag, waterfall_bit by lia.
        rewrite Nat2Z.id.
        replace (Z.of_nat n <? Z.of_nat (S n)) with true
          by (symmetry; apply Z.ltb_lt; lia).
        replace (Z.of_nat n <? 8) with true
          by (symmetry; apply Z.ltb_lt; lia).
        cbn [Z.eqb andb]. rewrite andb_true_r. reflexivity.
      * rewrite waterfall_bit by lia.
        replace (j - Z.of_nat n =? 0) with false
          by (symmetry; apply Z.eqb_neq; lia).
        replace (j <? Z.of_nat (S n)) with false
          by (symmetry; apply Z.ltb_ge; lia).
        reflexivity.
Qed.

Lemma waterfall_column_unfold (rows : list (list Z)) (p col : nat) :
  waterfall_column rows p col
  = for_loop 8 (fun bit b =>
      if (p * 8 + bit <? WATERFALL_ROWS_PIXELS)%nat then
        u8 (Z.lor b
              (Z.shiftl
                 (u8 (Z.land
                        (Z.shiftr
                           ((rows !!! (p * 8 + bit)%nat)
                              !!! Z.to_nat (Z.shiftr (Z.of_nat col) 3))
                           (Z.land (Z.of_nat col) 7)) 1))
                 (Z.of_nat bit)))
      else b) 0.
Proof. reflexivity. Qed.

(** A loop that stores [g col] into column [col] of one page. *)
Lemma page_loop (page : nat) (g : nat -> Z) (n : nat)
    (fb : list (list Z)) :
  (page < length fb)%nat ->
  for_loop n (fun col fb => <[page := <[col := g col]> (fb !!! page)]> fb) fb
  = <[page := for_loop n (fun col l => <[col := g col]> l) (fb !!! page)]>
      fb.
Proof.
  intros Hp. induction n as [|n IH].
  - change (for_loop 0 ?f ?x) with x. symmetry.
    apply list_insert_id. apply list_lookup_lookup_total_lt. exact Hp.
  - rewrite !for_loop_S. cbv beta. rewrite IH.
    rewrite list_lookup_total_insert_eq by exact Hp.
    apply list_insert_insert_eq.
Qed.

Lemma DrawWaterfall_unfold (s : Session) (fb : list (list Z)) :
  DrawWaterfall s fb
  = for_loop 2 (fun p fb =>
      for_loop 128 (fun col fb =>
        <[(WATERFALL_PAGE_START + p)%nat
          := <[col := waterfall_column (waterfall_rows s) p col]>
               (fb !!! (WATERFALL_PAGE_START + p)%nat)]> fb) fb) fb.
Proof. reflexivity. Qed.

Lemma DrawWaterfall_pages (s : Session) (fb : list (list Z)) :
  (6 <= length fb)%nat ->
  DrawWaterfall s fb
  = <[5%nat := for_loop 128
                 (fun col l =>
                    <[col := waterfall_column (waterfall_rows s) 1 col]> l)
                 (fb !!! 5%nat)]>
      (<[4%nat := for_loop 128
                    (fun col l =>
                       <[col := waterfall_column (waterfall_rows s) 0 col]> l)
                    (fb !!! 4%nat)]> fb).
Proof.
  intros Hlen. rewrite DrawWaterfall_unfold.
  rewrite (for_loop_S 1), (for_loop_S 0).
  change (for_loop 0 ?f ?x) with x. cbv beta.
  change (WATERFALL_PAGE_START + 0)%nat with 4%nat.
  change (WATERFALL_PAGE_START + 1)%nat with 5%nat.
  rewrite (page_loop 4 (waterfall_column (waterfall_rows s) 0) 128 fb)
    by lia.
  rewrite (page_loop 5 (waterfall_column (waterfall_rows s) 1) 128)
    by (rewrite length_insert; lia).
  rewrite list_lookup_total_insert_ne by lia. reflexivity.
Qed.

(** X24. [DrawWaterfall] transposes the waterfall buffer into the frame
    buffer without losing or moving a pixel: the pixel of waterfall row [r]
    and column [c] (bit [c mod 8] of byte [c / 8] of the row) becomes bit
    [r mod 8] of the byte in column [c] of frame-buffer page [4 + r / 8].
    The other pages of the frame buffer are left as they were. *)
Theorem DrawWaterfall_transposes (s : Session) (fb : list (list Z))
    (r c : nat) :
  (6 <= length fb)%nat ->
  length (fb !!! 4%nat) = 128%nat -> length (fb !!! 5%nat) = 128%nat ->
  (r < 16)%nat -> (c < 128)%nat ->
  Z.testbit ((DrawWaterfall s fb !!! (4 + r / 8)%nat) !!! c)
    (Z.of_nat (r mod 8))
  = Z.testbit ((waterfall_rows s !!! r) !!! (c / 8)%nat)
      (Z.of_nat (c mod 8))
  /\ (forall page : nat,
        page <> 4%nat -> page <> 5%nat ->
        DrawWaterfall s fb !!! page = fb !!! page).
Proof.
  intros Hlen H4 H5 Hr Hc. rewrite (DrawWaterfall_pages s fb Hlen). split.
  - assert (Hcol : Z.to_nat (Z.shiftr (Z.of_nat c) 3) = (c / 8)%nat
                   /\ Z.land (Z.of_nat c) 7 = Z.of_nat (c mod 8)).
    { rewrite Z.shiftr_div_pow2 by lia.
      change 7 with (Z.ones 3). rewrite Z.land_ones by lia.
      change (2 ^ 3) with (Z.of_nat 8).
      rewrite <- (Nat2Z.inj_mod c 8), <- (Nat2Z.inj_div c 8), Nat2Z.id.
      split; reflexivity. }
    destruct Hcol as [Hc1 Hc2].
    pose proof (Nat.div_mod_eq r 8) as Dr.
    pose proof (Nat.mod_upper_bound r 8 ltac:(lia)) as Br.
    assert (Cr : (r / 8 = 0 \/ r / 8 = 1)%nat) by lia.
    destruct Cr as [Cr|Cr]; rewrite Cr.
    + change (4 + 0)%nat with 4%nat.
      rewrite list_lookup_total_insert_ne by lia.
      rewrite list_lookup_total_insert_eq by lia.
      rewrite (fill_loop_lookup
                 (waterfall_column (waterfall_rows s) 0) 128 _ c) by lia.
      destruct (decide (c < 128)%nat); [|lia].
      rewrite waterfall_column_unfold.
      rewrite (waterfall_column_bits (waterfall_rows s) 0 c 8) by lia.
      replace (Z.of_nat (r mod 8) <? Z.of_nat 8) with true
        by (symmetry; apply Z.ltb_lt; lia).
      rewrite Nat2Z.id, Hc1, Hc2. cbn [andb].
      replace (0 * 8 + r mod 8)%nat with r by lia. reflexivity.
    + change (4 + 1)%nat with 5%nat.
      rewrite list_lookup_total_insert_eq by (rewrite length_insert; lia).
      rewrite (fill_loop_lookup
                 (waterfall_column (waterfall_rows s) 1) 128 _ c) by lia.
      destruct (decide (c < 128)%nat); [|lia].
      rewrite waterfall_column_unfold.
      rewrite (waterfall_column_bits (waterfall_rows s) 1 c 8) by lia.
      replace (Z.of_nat (r mod 8) <? Z.of_nat 8) with true
        by (symmetry; apply Z.ltb_lt; lia).
      rewrite Nat2Z.id, Hc1, Hc2. cbn [andb].
      replace (1 * 8 + r mod 8)%nat with r by lia. reflexivity.
  - intros page N4 N5.
    rewrite !list_lookup_total_insert_ne by congruence. reflexivity.
Qed.

Lemma DrawWaterfall_transposes_witness :
  Z.testbit
    ((DrawWaterfall bins16_two_passes dark_screen !!! (4 + 0 / 8)%nat)
       !!! 5%nat)
    (Z.of_nat (0 mod 8))
  = Z.testbit ((waterfall_rows bins16_two_passes !!! 0%nat) !!! (5 / 8)%nat)
      (Z.of_nat (5 mod 8))
  /\ (forall page : nat,
        page <> 4%nat -> page <> 5%nat ->
        DrawWaterfall bins16_two_passes dark_screen !!! page
        = dark_screen !!! page).
Proof.
  apply (DrawWaterfall_transposes bins16_two_passes dark_screen 0 5);
    vm_compute; try reflexivity; lia.
Defined.

(** *** The arrow under the peak *)

Lemma land_128_low (v : Z) : 0 <= v < 128 -> Z.land v 128 = 0.
Proof.
  intros H. apply Z.bits_inj'. intros n Hn.
  rewrite Z.land_spec, Z.bits_0.
  destruct (Z.ltb_spec n 7) as [Hlt|Hge].
  - change 128 with (2 ^ 7). rewrite (Z.pow2_bits_false 7 n) by lia.
    apply andb_false_r.
  - rewrite (small_bits v 7 n) by (change (2 ^ 7) with 128; lia).
    reflexivity.
Qed.

Lemma land_128_high (v : Z) : 128 <= v < 256 -> Z.land v 128 <> 0.
Proof.
  intros H E.
  assert (B : Z.testbit (Z.land v 128) 7 = true).
  { rewrite Z.land_spec. change 128 with (2 ^ 7).
    rewrite Z.pow2_bits_true by lia. rewrite andb_true_r.
    apply Z.testbit_true; [lia|]. change (2 ^ 7) with 128.
    replace (v / 128) with 1; [reflexivity|].
    apply Z.div_unique with (r := v - 128); lia. }
  rewrite E, Z.bits_0 in B. discriminate.
Qed.

(** One column of the arrow, for a column number between -2 and 255: it is
    drawn inside the page or skipped. *)
Lemma arrow_column_in_bounds (x : Z) (k : nat) (page : list Z) :
  -2 <= x + (Z.of_nat k - 2) <= 255 ->
  exists page',
    arrow_column x k page = Done page'
    /\ length page' = length page
    /\ forall c : nat,
         Z.of_nat c <> x + (Z.of_nat k - 2) -> page' !!! c = page !!! c.
Proof.
  intros Hv. unfold arrow_column. cbv zeta.
  set (v := x + (Z.of_nat k - 2)) in *.
  destruct (Z.land v 128 =? 0) eqn:E.
  - apply Z.eqb_eq in E.
    assert (Hin : 0 <= v < 128).
    { destruct (Z.lt_ge_cases v 0) as [Hneg|Hpos].
      - assert (C : v = -2 \/ v = -1) by lia.
        destruct C as [C|C]; rewrite C in E; vm_compute in E; discriminate.
      - destruct (Z.lt_ge_cases v 128) as [Hlt|Hge]; [lia|].
        exfalso. apply (land_128_high v); [lia | exact E]. }
    replace ((0 <=? v) && (v <? 128)) with true.
    + eexists. split; [reflexivity|]. split; [apply length_insert|].
      intros c Hc. apply list_lookup_total_insert_ne. lia.
    + symmetry. apply andb_true_iff. rewrite Z.leb_le, Z.ltb_lt. exact Hin.
  - exists page. repeat split; reflexivity.
Qed.

Lemma DrawArrow_unfold (x : Z) (fb : list (list Z)) :
  DrawArrow x fb
  = (page ← for_loop 5 (fun k acc => page ← acc; arrow_column x k page)
              (Done (fb !!! RULER_PAGE));
     Done (<[RULER_PAGE := page]> fb)).
Proof. reflexivity. Qed.

Lemma arrow_loop (x : Z) (n : nat) (page : list Z) :
  (n <= 5)%nat -> 0 <= x -> x + Z.of_nat n <= 258 ->
  exists page',
    for_loop n (fun k acc => page ← acc; arrow_column x k page) (Done page)
    = Done page'
    /\ length page' = length page
    /\ forall c : nat,
         (Z.of_nat c < x - 2 \/ x + 2 < Z.of_nat c) ->
         page' !!! c = page !!! c.
Proof.
  intros H5 Hx Hn. induction n as [|n IH].
  - exists page. repeat split; reflexivity.
  - destruct (IH ltac:(lia) ltac:(lia)) as (p1 & E1 & L1 & K1).
    rewrite for_loop_S. cbv beta. rewrite E1. cbn [mbind Outcome_bind].
    destruct (arrow_column_in_bounds x n p1 ltac:(lia))
      as (p2 & E2 & L2 & K2).
    exists p2. split; [exact E2|]. split; [congruence|].
    intros c Hc. rewrite K2 by lia. apply K1. exact Hc.
Qed.

(** X25. The arrow that marks the peak stays on the ruler. For a peak bin
    inside the pass, the column that [RenderSpectrum] computes is at most
    128, and for every column up to 253 [DrawArrow] finishes without leaving
    the 128 columns of the ruler page: it changes at most the five columns
    around its argument and no other page. For the columns 254 and 255 its
    bit-7 test lets column 256 through, which is outside the page. *)
Theorem DrawArrow_stays_on_ruler (cfg : Config) (s : Session) (x : Z)
    (fb : list (list Z)) :
  0 <= x <= 253 ->
  (RULER_PAGE < length fb)%nat ->
  (0 < GetStepsCount cfg s ->
   0 <= PeakInfo.i (peak s) <= GetStepsCount cfg s ->
   GetStepsCount cfg s < 65536 ->
   0 <= RenderSpectrum_arrow cfg s <= 128)
  /\ (exists fb',
        DrawArrow x fb = Done fb'
        /\ length (fb' !!! RULER_PAGE) = length (fb !!! RULER_PAGE)
        /\ (forall page : nat,
              page <> RULER_PAGE -> fb' !!! page = fb !!! page)
        /\ forall c : nat,
             (Z.of_nat c < x - 2 \/ x + 2 < Z.of_nat c) ->
             (fb' !!! RULER_PAGE) !!! c = (fb !!! RULER_PAGE) !!! c)
  /\ DrawArrow 254 fb = OutOfBounds 256
  /\ DrawArrow 255 fb = OutOfBounds 256.
Proof.
  intros Hx Hlen. split; [|split; [|split]].
  - intros Hpos Hi Hmax. unfold RenderSpectrum_arrow.
    set (N := GetStepsCount cfg s) in *. set (i := PeakInfo.i (peak s)) in *.
    assert (E32 : u32 (128 * i) = 128 * i)
      by (unfold u32; apply Z.mod_small; lia).
    rewrite E32.
    assert (B : 0 <= 128 * i / N <= 128).
    { split; [apply Z.div_pos; lia|].
      apply Z.div_le_upper_bound; [lia|]. nia. }
    unfold u8. rewrite Z.mod_small by lia. exact B.
  - rewrite DrawArrow_unfold.
    destruct (arrow_loop x 5 (fb !!! RULER_PAGE) ltac:(lia) ltac:(lia)
                ltac:(lia))
      as (page' & E & L & K).
    rewrite E. cbn [mbind Outcome_bind].
    eexists. split; [reflexivity|].
    rewrite list_lookup_total_insert_eq by exact Hlen.
    split; [exact L|]. split; [|exact K].
    intros page Hp. apply list_lookup_total_insert_ne. congruence.
  - rewrite DrawArrow_unfold. rewrite (for_loop_S 4).
    destruct (arrow_loop 254 4 (fb !!! RULER_PAGE) ltac:(lia) ltac:(lia)
                ltac:(lia))
      as (p1 & E1 & _).
    cbv beta. rewrite E1. reflexivity.
  - rewrite DrawArrow_unfold.
    rewrite (for_loop_S 4), (for_loop_S 3).
    destruct (arrow_loop 255 3 (fb !!! RULER_PAGE) ltac:(lia) ltac:(lia)
                ltac:(lia))
      as (p1 & E1 & _).
    cbv beta. rewrite E1. reflexivity.
Qed.

Lemma DrawArrow_stays_on_ruler_witness :
  (0 < GetStepsCount example_config bins16_two_passes ->
   0 <= PeakInfo.i (peak bins16_two_passes)
     <= GetStepsCount example_config bins16_two_passes ->
   GetStepsCount example_config bins16_two_passes < 65536 ->
   0 <= RenderSpectrum_arrow example_config bins16_two_passes <= 128)
  /\ (exists fb',
        DrawArrow 40 dark_screen = Done fb'
        /\ length (fb' !!! RULER_PAGE) = length (dark_screen !!! RULER_PAGE)
        /\ (forall page : nat,
              page <> RULER_PAGE -> fb' !!! page = dark_screen !!! page)
        /\ forall c : nat,
             (Z.of_nat c < 40 - 2 \/ 40 + 2 < Z.of_nat c) ->
             (fb' !!! RULER_PAGE) !!! c = (dark_screen !!! RULER_PAGE) !!! c)
  /\ DrawArrow 254 dark_screen = OutOfBounds 256
  /\ DrawArrow 255 dark_screen = OutOfBounds 256.
Proof.
  apply (DrawArrow_stays_on_ruler example_config bins16_two_passes 40
           dark_screen); [lia | vm_compute; lia].
Defined.

(** ** Peak hold *)

(** One turn of the loop of [UpdateSpectrumPeaks], read off the three
    arrays. *)
Lemma peaks_turn (i : nat) (x : Session) :
  (i < length (spectrum_peaks x))%nat ->
  (i < length (spectrum_peak_age x))%nat ->
  let cur := spectrum_smoothed x !!! i in
  let x' :=
    (let current := spectrum_smoothed x !!! i in
     let s :=
       if negb (current =? RSSI_MAX_VALUE)
          && ((spectrum_peaks x !!! i =? RSSI_MAX_VALUE)
              || (current >? spectrum_peaks x !!! i))
       then
         let s := set_spectrum_peaks
                    (<[i := current]> (spectrum_peaks x)) x in
         set_spectrum_peak_age (<[i := 0]> (spectrum_peak_age s)) s
       else x in
     if spectrum_peak_age s !!! i <? SPECTRUM_PEAK_HOLD_TIME
     then set_spectrum_peak_age
            (<[i := u8 (spectrum_peak_age s !!! i + 1)]>
               (spectrum_peak_age s)) s
     else set_spectrum_peaks
            (<[i := RSSI_MAX_VALUE]> (spectrum_peaks s)) s) in
  spectrum_smoothed x' = spectrum_smoothed x
  /\ spectrum_peaks x'
     = <[i := fst (peak_hold_step cur (spectrum_peaks x !!! i)
                     (spectrum_peak_age x !!! i))]> (spectrum_peaks x)
  /\ spectrum_peak_age x'
     = <[i := snd (peak_hold_step cur (spectrum_peaks x !!! i)
                     (spectrum_peak_age x !!! i))]> (spectrum_peak_age x).
Proof.
  intros Hp Ha cur x'. subst x'. cbv zeta. unfold peak_hold_step. fold cur.
  destruct (negb (cur =? RSSI_MAX_VALUE)
            && ((spectrum_peaks x !!! i =? RSSI_MAX_VALUE)
                || (cur >? spectrum_peaks x !!! i))).
  - cbn [spectrum_peak_age set_spectrum_peak_age set_spectrum_peaks
         spectrum_peaks spectrum_smoothed].
    rewrite list_lookup_total_insert_eq by exact Ha.
    change (0 <? SPECTRUM_PEAK_HOLD_TIME) with true. cbv iota.
    cbn [spectrum_peak_age set_spectrum_peak_age set_spectrum_peaks
         spectrum_peaks spectrum_smoothed fst snd].
    rewrite list_insert_insert_eq. repeat split; reflexivity.
  - destruct (spectrum_peak_age x !!! i <? SPECTRUM_PEAK_HOLD_TIME);
      cbn [spectrum_peak_age set_spectrum_peak_age set_spectrum_peaks
           spectrum_peaks spectrum_smoothed fst snd].
    + repeat split; try reflexivity.
      symmetry. apply list_insert_id.
      apply list_lookup_lookup_total_lt. exact Hp.
    + repeat split; try reflexivity.
      symmetry. apply list_insert_id.
      apply list_lookup_lookup_total_lt. exact Ha.
Qed.

(** The loop of [UpdateSpectrumPeaks] treats every bin on its own. *)
Lemma UpdateSpectrumPeaks_bins (n : nat) (s : Session) :
  (n <= length (spectrum_peaks s))%nat ->
  (n <= length (spectrum_peak_age s))%nat ->
  let s' := UpdateSpectrumPeaks (Z.of_nat n) s in
  spectrum_smoothed s' = spectrum_smoothed s
  /\ length (spectrum_peaks s') = length (spectrum_peaks s)
  /\ length (spectrum_peak_age s') = length (spectrum_peak_age s)
  /\ forall j : nat,
       (spectrum_peaks s' !!! j, spectrum_peak_age s' !!! j)
       = if decide (j < n)%nat
         then peak_hold_step (spectrum_smoothed s !!! j)
                (spectrum_peaks s !!! j) (spectrum_peak_age s !!! j)
         else (spectrum_peaks s !!! j, spectrum_peak_age s !!! j).
Proof.
  intros Hp Ha s'. subst s'. unfold UpdateSpectrumPeaks.
  rewrite Nat2Z.id. induction n as [|n IH].
  - change (for_loop 0 ?f ?x) with x. repeat split; try reflexivity.
  - destruct (IH ltac:(lia) ltac:(lia)) as (Es & Lp & La & Hj). clear IH.
    rewrite for_loop_S.
    set (x := for_loop n _ s) in *. clearbody x.
    destruct (peaks_turn n x ltac:(lia) ltac:(lia)) as (Ts & Tp & Ta).
    cbv zeta in Ts, Tp, Ta. cbv beta zeta.
    rewrite Ts, Tp, Ta, !length_insert.
    split; [exact Es|]. split; [exact Lp|]. split; [exact La|].
    intros j. destruct (decide (j = n)) as [->|Hne].
    + rewrite !list_lookup_total_insert_eq by lia.
      destruct (decide (n < S n)%nat); [|lia].
      specialize (Hj n). destruct (decide (n < n)%nat); [lia|].
      injection Hj as -> ->. rewrite Es.
      symmetry. apply surjective_pairing.
    + rewrite !list_lookup_total_insert_ne by congruence.
      rewrite Hj.
      destruct (decide (j < n)%nat), (decide (j < S n)%nat);
        try reflexivity; lia.
Qed.

(** X26. Peak hold keeps its promise bin by bin. After
    [UpdateSpectrumPeaks], for a bin with a valid current value and an age
    of at most 5, the held peak is either expired (the sentinel) or not
    below the current value, the age lies between 1 and 5, and a peak that
    has reached age 5 without being exceeded expires; the smoothed values
    are not touched, and the bins from [bars] on keep their peak and
    age. *)
Theorem UpdateSpectrumPeaks_hold (bars : Z) (s : Session) (i : nat) :
  0 <= bars <= 128 ->
  length (spectrum_peaks s) = 128%nat ->
  length (spectrum_peak_age s) = 128%nat ->
  Z.of_nat i < bars ->
  0 <= spectrum_peak_age s !!! i <= SPECTRUM_PEAK_HOLD_TIME ->
  spectrum_smoothed s !!! i <> RSSI_MAX_VALUE ->
  let s' := UpdateSpectrumPeaks bars s in
  let cur := spectrum_smoothed s !!! i in
  spectrum_smoothed s' = spectrum_smoothed s
  /\ 1 <= spectrum_peak_age s' !!! i <= SPECTRUM_PEAK_HOLD_TIME
  /\ (spectrum_peaks s' !!! i = RSSI_MAX_VALUE
      \/ cur <= spectrum_peaks s' !!! i)
  /\ (spectrum_peak_age s !!! i = SPECTRUM_PEAK_HOLD_TIME ->
      spectrum_peaks s !!! i <> RSSI_MAX_VALUE ->
      cur <= spectrum_peaks s !!! i ->
      spectrum_peaks s' !!! i = RSSI_MAX_VALUE)
  /\ (forall j : nat,
        bars <= Z.of_nat j ->
        spectrum_peaks s' !!! j = spectrum_peaks s !!! j
        /\ spectrum_peak_age s' !!! j = spectrum_peak_age s !!! j).
Proof.
  intros Hb Lp La Hi Hage Hcur s' cur. subst s'.
  rewrite <- (Z2Nat.id bars) by lia.
  destruct (UpdateSpectrumPeaks_bins (Z.to_nat bars) s ltac:(lia) ltac:(lia))
    as (Es & _ & _ & Hj).
  cbv zeta in Es, Hj. split; [exact Es|].
  pose proof (Hj i) as Hi'.
  destruct (decide (i < Z.to_nat bars)%nat); [|lia].
  pose proof (f_equal fst Hi') as Ep. pose proof (f_equal snd Hi') as Ea.
  cbn [fst snd] in Ep, Ea. rewrite Ep, Ea. fold cur. clear Ep Ea Hi'.
  unfold SPECTRUM_PEAK_HOLD_TIME in *.
  set (p := spectrum_peaks s !!! i) in *.
  set (a := spectrum_peak_age s !!! i) in *.
  assert (Hstep : peak_hold_step cur p a
                  = if (p =? RSSI_MAX_VALUE) || (cur >? p) then (cur, 1)
                    else if a <? 5 then (p, a + 1)
                    else (RSSI_MAX_VALUE, a)).
  { unfold peak_hold_step, SPECTRUM_PEAK_HOLD_TIME.
    replace (cur =? RSSI_MAX_VALUE) with false
      by (symmetry; apply Z.eqb_neq; exact Hcur).
    cbn [negb andb].
    destruct ((p =? RSSI_MAX_VALUE) || (cur >? p)); [reflexivity|].
    destruct (a <? 5) eqn:E; [|reflexivity].
    apply Z.ltb_lt in E. unfold u8. rewrite Z.mod_small by lia.
    reflexivity. }
  rewrite Hstep. clear Hstep.
  split; [|split; [|split]].
  - destruct ((p =? RSSI_MAX_VALUE) || (cur >? p)); cbn [snd]; [lia|].
    destruct (a <? 5) eqn:E; cbn [snd].
    + apply Z.ltb_lt in E. lia.
    + apply Z.ltb_ge in E. lia.
  - destruct ((p =? RSSI_MAX_VALUE) || (cur >? p)) eqn:R; cbn [fst].
    + right. lia.
    + apply orb_false_iff in R. destruct R as [_ R].
      rewrite Z.gtb_ltb in R. apply Z.ltb_ge in R.
      destruct (a <? 5); cbn [fst]; [right; exact R | left; reflexivity].
  - intros H5 Hp Hle.
    replace ((p =? RSSI_MAX_VALUE) || (cur >? p)) with false.
    + replace (a <? 5) with false by (symmetry; apply Z.ltb_ge; lia).
      reflexivity.
    + symmetry. apply orb_false_iff. split; [apply Z.eqb_neq; exact Hp|].
      rewrite Z.gtb_ltb. apply Z.ltb_ge. exact Hle.
  - intros j Hjb. specialize (Hj j).
    destruct (decide (j < Z.to_nat bars)%nat); [lia|].
    injection Hj as -> ->. split; reflexivity.
Qed.

Lemma UpdateSpectrumPeaks_hold_witness :
  let s' := UpdateSpectrumPeaks 16 bins16_two_passes in
  let cur := spectrum_smoothed bins16_two_passes !!! 5%nat in
  spectrum_smoothed s' = spectrum_smoothed bins16_two_passes
  /\ 1 <= spectrum_peak_age s' !!! 5%nat <= SPECTRUM_PEAK_HOLD_TIME
  /\ (spectrum_peaks s' !!! 5%nat = RSSI_MAX_VALUE
      \/ cur <= spectrum_peaks s' !!! 5%nat)
  /\ (spectrum_peak_age bins16_two_passes !!! 5%nat
      = SPECTRUM_PEAK_HOLD_TIME ->
      spectrum_peaks bins16_two_passes !!! 5%nat <> RSSI_MAX_VALUE ->
      cur <= spectrum_peaks bins16_two_passes !!! 5%nat ->
      spectrum_peaks s' !!! 5%nat = RSSI_MAX_VALUE)
  /\ (forall j : nat,
        16 <= Z.of_nat j ->
        spectrum_peaks s' !!! j = spectrum_peaks bins16_two_passes !!! j
        /\ spectrum_peak_age s' !!! j
           = spectrum_peak_age bins16_two_passes !!! j).
Proof.
  apply (UpdateSpectrumPeaks_hold 16 bins16_two_passes 5); vm_compute;
    try reflexivity; try split; congruence.
Defined.

(** ** Frequency entry: what the typed keys are worth *)

Lemma string_loop_entry (n : nat) (f : nat -> Session -> list ascii)
    (s : Session) :
  entry (for_loop n (fun i s => set_freqInputString (f i s) s) s) = entry s.
Proof.
  apply (for_loop_inv (fun x => entry x = entry s)); [|reflexivity].
  intros k x Hx. exact Hx.
Qed.

Lemma ResetFreqInput_entry (s : Session) :
  entry (ResetFreqInput s)
  = (freqInputArr s, freqInputIndex s, freqInputDotIndex s, 0).
Proof.
  unfold ResetFreqInput. cbv zeta.
  rewrite (string_loop_entry 10 (fun i s => <[i := "-"%char]>
                                              (freqInputString s))).
  reflexivity.
Qed.

Lemma entry_parts (x : Session) (arr : list KEY_Code_t) (idx dot tf : Z) :
  entry x = (arr, idx, dot, tf) ->
  freqInputArr x = arr /\ freqInputIndex x = idx
  /\ freqInputDotIndex x = dot /\ tempFreq x = tf.
Proof. unfold entry. intros [= -> -> -> ->]. repeat split. Qed.

(** An accepted key other than EXIT: the key is stored and counted, the dot
    position is noted, and the frequency is summed afresh from the keys. *)
Lemma UpdateFreqInput_accepted (key : KEY_Code_t) (s : Session) :
  key <> KEY_EXIT ->
  0 <= freqInputIndex s < 10 ->
  (key = KEY_STAR -> freqInputIndex s <> 0 /\ freqInputDotIndex s = 0) ->
  let arr' := <[Z.to_nat (freqInputIndex s) := key]> (freqInputArr s) in
  let idx' := freqInputIndex s + 1 in
  let dot' :=
    if KEY_eqb key KEY_STAR then freqInputIndex s else freqInputDotIndex s in
  entry (UpdateFreqInput key s)
  = (arr', idx', dot', freq_value arr' idx' dot').
Proof.
  intros Hexit Hidx Hstar arr' idx' dot'. unfold UpdateFreqInput.
  assert (G0 : KEY_eqb key KEY_EXIT = false)
    by (apply not_true_is_false; rewrite KEY_eqb_eq; exact Hexit).
  assert (G1 : (freqInputIndex s >=? 10) = false)
    by (rewrite Z.geb_leb; apply Z.leb_gt; lia).
  assert (G2 : KEY_eqb key KEY_STAR
               && ((freqInputIndex s =? 0)
                   || negb (freqInputDotIndex s =? 0)) = false).
  { destruct (KEY_eqb key KEY_STAR) eqn:E; [|reflexivity].
    apply KEY_eqb_eq in E. destruct (Hstar E) as [H1 H2].
    rewrite H2. cbn [andb].
    replace (freqInputIndex s =? 0) with false
      by (symmetry; apply Z.eqb_neq; exact H1).
    reflexivity. }
  rewrite G0, G1, G2. cbn [negb andb]. cbv zeta.
  set (s1 := if KEY_eqb key KEY_STAR
             then set_freqInputDotIndex (freqInputIndex s) s else s).
  set (s2 := set_freqInputIndex _ (set_freqInputArr _ s1)).
  set (s3 := ResetFreqInput s2).
  set (s4 := for_loop 10 _ s3).
  assert (E2 : entry s2 = (arr', idx', dot', tempFreq s)).
  { subst s2 s1 arr' idx' dot'. unfold entry, u8.
    destruct (KEY_eqb key KEY_STAR);
      cbn [freqInputArr freqInputIndex freqInputDotIndex tempFreq
           set_freqInputIndex set_freqInputArr set_freqInputDotIndex];
      rewrite Z.mod_small by lia; reflexivity. }
  assert (E3 : entry s3 = (arr', idx', dot', 0)).
  { subst s3. rewrite ResetFreqInput_entry.
    destruct (entry_parts _ _ _ _ _ E2) as (-> & -> & -> & _).
    reflexivity. }
  assert (E4 : entry s4 = (arr', idx', dot', 0)).
  { rewrite <- E3. subst s4.
    apply (for_loop_inv (fun x => entry x = entry s3)); [|reflexivity].
    intros k x Hx. destruct (Z.of_nat k <? freqInputIndex x); exact Hx. }
  clearbody s4 s3. clear E2 s2 s1.
  destruct (entry_parts _ _ _ _ _ E3) as (_ & I3 & D3 & _).
  destruct (entry_parts _ _ _ _ _ E4) as (A4 & I4 & D4 & T4).
  rewrite I3, D3, A4, I4, T4.
  unfold freq_value, freq_loops.
  destruct (for_loop _ _ (0, 100000)) as [tf1 b1].
  destruct (if _ <? idx' then _ else _) as [tf2 b2].
  unfold entry.
  cbn [freqInputArr freqInputIndex freqInputDotIndex tempFreq
       set_redrawScreen set_tempFreq].
  rewrite A4, I4, D4. reflexivity.
Qed.

(** *** The two sums *)

Lemma u32_add (a b : Z) : u32 (u32 a + u32 b) = u32 (a + b).
Proof. unfold u32. symmetry. apply Z.add_mod. lia. Qed.

Lemma u32_mul_r (d b : Z) : u32 (d * u32 b) = u32 (d * b).
Proof. unfold u32. apply Z.mul_mod_idemp_r. lia. Qed.

Lemma u32_mul_l (b c : Z) : u32 (u32 b * c) = u32 (b * c).
Proof. unfold u32. apply Z.mul_mod_idemp_l. lia. Qed.

Lemma u32_idem (a : Z) : u32 (u32 a) = u32 a.
Proof. unfold u32. apply Z.mod_mod. lia. Qed.

Lemma decimal_drop (ip : list KEY_Code_t) (m : nat) :
  (m < length ip)%nat ->
  decimal (drop m ip)
  = key_code (ip !!! m) * 10 ^ Z.of_nat (length ip - S m)
    + decimal (drop (S m) ip).
Proof.
  intros Hm.
  destruct (lookup_lt_is_Some_2 ip m Hm) as [k Hk].
  rewrite (drop_S ip k m Hk). cbn [decimal].
  rewrite (list_lookup_total_correct ip m k Hk), length_drop. reflexivity.
Qed.

(** The first loop: after [n] turns the last [n] digits of the integer part
    are summed, in units of 1 MHz. *)
Lemma int_loop (arr ip : list KEY_Code_t) (n : nat) :
  (forall i : nat, (i < length ip)%nat -> arr !!! i = ip !!! i) ->
  (n <= length ip)%nat ->
  for_loop n (fun k '(tf, base) =>
    let i := Z.of_nat (length ip) - 1 - Z.of_nat k in
    (u32 (tf + u32 (freq_digit arr i * base)), u32 (base * 10)))
    (0, 100000)
  = (u32 (100000 * decimal (drop (length ip - n) ip)),
     u32 (100000 * 10 ^ Z.of_nat n)).
Proof.
  intros Harr Hn. induction n as [|n IH].
  - change (for_loop 0 ?f ?x) with x.
    rewrite Nat.sub_0_r, drop_all. reflexivity.
  - rewrite for_loop_S, (IH ltac:(lia)). cbv beta iota zeta.
    f_equal.
    + unfold freq_digit.
      replace (Z.to_nat (Z.of_nat (length ip) - 1 - Z.of_nat n))
        with (length ip - S n)%nat by lia.
      rewrite (Harr (length ip - S n)%nat) by lia.
      change (key_code KEY_0) with 0. rewrite Z.sub_0_r.
      rewrite (decimal_drop ip (length ip - S n)) by lia.
      assert (E2 : (length ip - S (length ip - S n) = n)%nat) by lia.
      assert (E1 : S (length ip - S n) = (length ip - n)%nat) by lia.
      rewrite E2, E1, u32_mul_r, u32_add.
      f_equal. ring.
    + rewrite u32_mul_l. f_equal. rewrite Nat2Z.inj_succ, Z.pow_succ_r by lia.
      ring.
Qed.

Lemma fraction_take (fp : list KEY_Code_t) (n : nat) (base : Z) :
  (n < length fp)%nat ->
  fraction base (take (S n) fp)
  = fraction base (take n fp)
    + key_code (fp !!! n) * (base / 10 ^ Z.of_nat n).
Proof.
  revert n base. induction fp as [|k rest IH]; intros n base Hn.
  - cbn in Hn. lia.
  - destruct n as [|n].
    + change ((k :: rest) !!! 0%nat) with k.
      change (take 1 (k :: rest)) with [k].
      change (take 0 (k :: rest)) with (@nil KEY_Code_t).
      cbn [fraction]. change (10 ^ Z.of_nat 0) with 1.
      rewrite Z.div_1_r. lia.
    + change (take (S (S n)) (k :: rest)) with (k :: take (S n) rest).
      change (take (S n) (k :: rest)) with (k :: take n rest).
      cbn [fraction]. rewrite (IH n (base / 10)) by (cbn in Hn; lia).
      change ((k :: rest) !!! S n) with (rest !!! n).
      rewrite Z.div_div by lia.
      replace (10 * 10 ^ Z.of_nat n) with (10 ^ Z.of_nat (S n))
        by (rewrite Nat2Z.inj_succ, Z.pow_succ_r by lia; reflexivity).
      lia.
Qed.

(** The second loop: after [n] turns the first [n] digits behind the dot are
    added, the first worth 100 kHz and each further one a tenth of that. *)
Lemma frac_loop (arr fp : list KEY_Code_t) (d : Z) (t0 : Z) (n : nat) :
  0 <= d ->
  (forall j : nat, (j < length fp)%nat ->
     arr !!! (Z.to_nat d + 1 + j)%nat = fp !!! j) ->
  (n <= length fp)%nat ->
  for_loop n (fun k '(tf, base) =>
    let i := d + 1 + Z.of_nat k in
    (u32 (tf + u32 (freq_digit arr i * base)), base / 10)) (u32 t0, 10000)
  = (u32 (t0 + fraction 10000 (take n fp)), 10000 / 10 ^ Z.of_nat n).
Proof.
  intros Hd Harr Hn. induction n as [|n IH].
  - change (for_loop 0 ?f ?x) with x. cbn [take fraction].
    rewrite Z.add_0_r. reflexivity.
  - rewrite for_loop_S, (IH ltac:(lia)). cbv beta iota zeta.
    f_equal.
    + unfold freq_digit.
      replace (Z.to_nat (d + 1 + Z.of_nat n))
        with (Z.to_nat d + 1 + n)%nat by lia.
      rewrite (Harr n) by lia.
      change (key_code KEY_0) with 0. rewrite Z.sub_0_r.
      rewrite (fraction_take fp n 10000) by lia.
      rewrite u32_add. f_equal. ring.
    + rewrite Z.div_div by lia. f_equal.
      rewrite Nat2Z.inj_succ, Z.pow_succ_r by lia. ring.
Qed.

Lemma freq_value_plain (arr ip : list KEY_Code_t) :
  (forall i : nat, (i < length ip)%nat -> arr !!! i = ip !!! i) ->
  freq_value arr (Z.of_nat (length ip)) 0 = u32 (100000 * decimal ip).
Proof.
  intros Harr. unfold freq_value. change (0 =? 0) with true. cbv iota.
  unfold freq_loops. rewrite Nat2Z.id.
  pose proof (int_loop arr ip (length ip) Harr ltac:(lia)) as E.
  cbv zeta in E. rewrite E.
  rewrite Nat.sub_diag, drop_0, Z.ltb_irrefl. reflexivity.
Qed.

Lemma freq_value_dotted (arr ip fp : list KEY_Code_t) :
  (1 <= length ip)%nat ->
  (forall i : nat, (i < length ip)%nat -> arr !!! i = ip !!! i) ->
  (forall j : nat, (j < length fp)%nat ->
     arr !!! (length ip + 1 + j)%nat = fp !!! j) ->
  freq_value arr (Z.of_nat (length ip) + 1 + Z.of_nat (length fp))
    (Z.of_nat (length ip))
  = u32 (100000 * decimal ip + fraction 10000 fp).
Proof.
  intros Hip Harr Hfp. unfold freq_value.
  replace (Z.of_nat (length ip) =? 0) with false
    by (symmetry; apply Z.eqb_neq; lia).
  unfold freq_loops. rewrite Nat2Z.id.
  pose proof (int_loop arr ip (length ip) Harr ltac:(lia)) as E.
  cbv zeta in E. rewrite E. clear E.
  rewrite Nat.sub_diag, drop_0.
  replace (Z.of_nat (length ip)
           <? Z.of_nat (length ip) + 1 + Z.of_nat (length fp)) with true
    by (symmetry; apply Z.ltb_lt; lia).
  replace (Z.to_nat (Z.of_nat (length ip) + 1 + Z.of_nat (length fp)
                     - (Z.of_nat (length ip) + 1)))
    with (length fp) by lia.
  assert (E : for_loop (length fp) _ (u32 (100000 * decimal ip), 10000)
              = _)
    by (apply (frac_loop arr fp (Z.of_nat (length ip))
                 (100000 * decimal ip) (length fp));
        [lia | intros j Hj; rewrite Nat2Z.id; apply Hfp; exact Hj | lia]).
  cbv zeta in E. rewrite E. rewrite firstn_all. reflexivity.
Qed.

(** *** The keys as they are typed *)

Lemma OnKeyDownFreqInput_digit (cfg : Config) (k : KEY_Code_t)
    (s : Session) :
  is_digit k \/ k = KEY_STAR ->
  OnKeyDownFreqInput cfg k s = UpdateFreqInput k s
  /\ k <> KEY_EXIT.
Proof.
  unfold is_digit. intros [H | ->]; [|split; [reflexivity | discriminate]].
  destruct k; try (split; [reflexivity | discriminate]);
    vm_compute in H; exfalso; apply H; reflexivity.
Qed.

Lemma typed_cons (cfg : Config) (k : KEY_Code_t) (ks : list KEY_Code_t)
    (s : Session) :
  typed cfg (k :: ks) s = typed cfg ks (OnKeyDownFreqInput cfg k s).
Proof. reflexivity. Qed.

Lemma typed_app (cfg : Config) (ks ls : list KEY_Code_t) (s : Session) :
  typed cfg (ks ++ ls) s = typed cfg ls (typed cfg ks s).
Proof. unfold typed. apply fold_left_app. Qed.

(** One accepted key, in terms of the array. *)
Lemma key_accepted (cfg : Config) (k : KEY_Code_t) (x : Session) :
  is_digit k \/ (k = KEY_STAR /\ freqInputIndex x <> 0
                 /\ freqInputDotIndex x = 0) ->
  0 <= freqInputIndex x < 10 ->
  length (freqInputArr x) = 10%nat ->
  let y := OnKeyDownFreqInput cfg k x in
  freqInputIndex y = freqInputIndex x + 1
  /\ freqInputDotIndex y
     = (if KEY_eqb k KEY_STAR then freqInputIndex x
        else freqInputDotIndex x)
  /\ length (freqInputArr y) = 10%nat
  /\ (forall i : nat,
        Z.of_nat i < freqInputIndex x ->
        freqInputArr y !!! i = freqInputArr x !!! i)
  /\ freqInputArr y !!! Z.to_nat (freqInputIndex x) = k
  /\ tempFreq y
     = freq_value (freqInputArr y) (freqInputIndex y) (freqInputDotIndex y).
Proof.
  intros Hk Hidx Hlen y. subst y.
  destruct (OnKeyDownFreqInput_digit cfg k x) as [-> Hne]; [tauto|].
  assert (Hstar : k = KEY_STAR ->
                  freqInputIndex x <> 0 /\ freqInputDotIndex x = 0).
  { intros ->. destruct Hk as [Hd | Hs]; [|tauto].
    unfold is_digit in Hd. vm_compute in Hd. exfalso. apply Hd.
    reflexivity. }
  pose proof (UpdateFreqInput_accepted k x Hne Hidx Hstar) as E.
  cbv zeta in E.
  destruct (entry_parts _ _ _ _ _ E) as (EA & EI & ED & ET).
  rewrite ET, EA, EI, ED.
  split; [reflexivity|]. split; [reflexivity|].
  split; [rewrite length_insert; exact Hlen|]. split; [|split].
  - intros i Hi. apply list_lookup_total_insert_ne. lia.
  - apply list_lookup_total_insert_eq. lia.
  - reflexivity.
Qed.

(** A run of digit keys. *)
Lemma typed_digits (cfg : Config) (ks : list KEY_Code_t) :
  forall x : Session,
    Forall is_digit ks ->
    0 <= freqInputIndex x ->
    freqInputIndex x + Z.of_nat (length ks) <= 10 ->
    length (freqInputArr x) = 10%nat ->
    let y := typed cfg ks x in
    freqInputIndex y = freqInputIndex x + Z.of_nat (length ks)
    /\ freqInputDotIndex y = freqInputDotIndex x
    /\ length (freqInputArr y) = 10%nat
    /\ (forall i : nat,
          Z.of_nat i < freqInputIndex x ->
          freqInputArr y !!! i = freqInputArr x !!! i)
    /\ (forall j : nat,
          (j < length ks)%nat ->
          freqInputArr y !!! (Z.to_nat (freqInputIndex x) + j)%nat
          = ks !!! j)
    /\ (ks <> [] ->
        tempFreq y
        = freq_value (freqInputArr y) (freqInputIndex y)
            (freqInputDotIndex y)).
Proof.
  induction ks as [|k ks IH]; intros x Hd H0 Hmax Hlen y; subst y.
  - change (typed cfg [] x) with x. cbn [length Z.of_nat].
    repeat split; try lia; try congruence;
      try (intros j Hj; cbn in Hj; lia).
  - rewrite typed_cons. cbn [length] in Hmax |- *.
    apply Forall_cons in Hd. destruct Hd as [Hk Hks].
    destruct (key_accepted cfg k x (or_introl Hk) ltac:(lia) Hlen)
      as (KI & KD & KL & KA & KK & KT).
    cbv zeta in KI, KD, KL, KA, KK, KT.
    set (x1 := OnKeyDownFreqInput cfg k x) in *. clearbody x1.
    assert (Hns : KEY_eqb k KEY_STAR = false).
    { apply not_true_is_false. rewrite KEY_eqb_eq. intros ->.
      unfold is_digit in Hk. vm_compute in Hk. apply Hk. reflexivity. }
    rewrite Hns in KD.
    destruct (IH x1 Hks ltac:(lia) ltac:(lia) KL)
      as (I & D & L & A & K & T).
    cbv zeta in I, D, L, A, K, T.
    split; [lia|]. split; [congruence|]. split; [exact L|].
    split; [|split].
    + intros i Hi. rewrite A by lia. apply KA. exact Hi.
    + intros j Hj. destruct j as [|j].
      * rewrite Nat.add_0_r, A by lia. exact KK.
      * change ((k :: ks) !!! S j) with (ks !!! j).
        rewrite <- (K j) by lia. f_equal. lia.
    + intros _. destruct ks as [|k' ks'].
      * change (typed cfg [] x1) with x1. exact KT.
      * apply T. discriminate.
Qed.

Lemma SetState_entry (st : State) (x : Session) :
  entry (SetState st x) = entry x.
Proof. reflexivity. Qed.

Lemma FreqInput_entry (s : Session) :
  entry (FreqInput s) = (freqInputArr s, 0, 0, 0).
Proof.
  unfold FreqInput. cbv zeta.
  rewrite SetState_entry, ResetFreqInput_entry. reflexivity.
Qed.

(** A key that [UpdateFreqInput] refuses leaves everything as it is. *)
Lemma UpdateFreqInput_refused (key : KEY_Code_t) (s : Session) :
  key <> KEY_EXIT ->
  10 <= freqInputIndex s
  \/ (key = KEY_STAR
      /\ (freqInputIndex s = 0 \/ freqInputDotIndex s <> 0)) ->
  UpdateFreqInput key s = s.
Proof.
  intros Hexit H. unfold UpdateFreqInput.
  assert (G0 : KEY_eqb key KEY_EXIT = false)
    by (apply not_true_is_false; rewrite KEY_eqb_eq; exact Hexit).
  rewrite G0. cbn [negb andb].
  destruct (freqInputIndex s >=? 10) eqn:G1; [reflexivity|].
  rewrite Z.geb_leb in G1. apply Z.leb_gt in G1.
  destruct H as [H | (-> & H)]; [lia|].
  change (KEY_eqb KEY_STAR KEY_STAR) with true. cbn [andb].
  destruct H as [H | H].
  - rewrite H. reflexivity.
  - replace (freqInputDotIndex s =? 0) with false
      by (symmetry; apply Z.eqb_neq; exact H).
    rewrite orb_true_r. reflexivity.
Qed.

(** Once the ten slots are used, further digits and dots are ignored. *)
Lemma typed_full (cfg : Config) (ks : list KEY_Code_t) :
  forall x : Session,
    10 <= freqInputIndex x ->
    Forall (fun k => is_digit k \/ k = KEY_STAR) ks ->
    typed cfg ks x = x.
Proof.
  induction ks as [|k ks IH]; intros x Hfull Hks.
  - reflexivity.
  - apply Forall_cons in Hks. destruct Hks as [Hk Hks].
    rewrite typed_cons.
    destruct (OnKeyDownFreqInput_digit cfg k x Hk) as [E Hne].
    rewrite E, UpdateFreqInput_refused by (exact Hne || (left; exact Hfull)).
    apply IH; assumption.
Qed.

Lemma digits_or_star (ks : list KEY_Code_t) :
  Forall is_digit ks -> Forall (fun k => is_digit k \/ k = KEY_STAR) ks.
Proof.
  intros H. induction H as [|k ks Hk _ IH]; constructor.
  - left. exact Hk.
  - exact IH.
Qed.

(** Up to ten digits, no dot. *)
Lemma typed_plain (cfg : Config) (s : Session) (ip : list KEY_Code_t) :
  length (freqInputArr s) = 10%nat ->
  Forall is_digit ip ->
  (length ip <= 10)%nat ->
  tempFreq (typed cfg ip (FreqInput s)) = u32 (100000 * decimal ip)
  /\ freqInputIndex (typed cfg ip (FreqInput s)) = Z.of_nat (length ip).
Proof.
  intros Hlen Hip Hmax.
  destruct (entry_parts _ _ _ _ _ (FreqInput_entry s)) as (A0 & I0 & D0 & T0).
  set (x0 := FreqInput s) in *. clearbody x0.
  assert (L0 : length (freqInputArr x0) = 10%nat) by (rewrite A0; exact Hlen).
  assert (H0 : 0 <= freqInputIndex x0) by lia.
  assert (H1 : freqInputIndex x0 + Z.of_nat (length ip) <= 10) by lia.
  destruct (typed_digits cfg ip x0 Hip H0 H1 L0)
    as (I1 & D1 & L1 & _ & K1 & T1).
  cbv zeta in I1, D1, L1, K1, T1. rewrite I0 in I1, K1. rewrite D0 in D1.
  split; [|lia].
  destruct ip as [|k ip'].
  - change (typed cfg [] x0) with x0. rewrite T0. reflexivity.
  - rewrite T1 by discriminate. rewrite I1, D1. apply freq_value_plain.
    intros i Hi. exact (K1 i Hi).
Qed.

(** At least one digit, the dot, and digits that still fit in the ten
    slots. *)
Lemma typed_dotted (cfg : Config) (s : Session) (ip fp : list KEY_Code_t) :
  length (freqInputArr s) = 10%nat ->
  Forall is_digit ip -> Forall is_digit fp ->
  ip <> [] ->
  (length ip + 1 + length fp <= 10)%nat ->
  let y := typed cfg (ip ++ KEY_STAR :: fp) (FreqInput s) in
  tempFreq y = u32 (100000 * decimal ip + fraction 10000 fp)
  /\ freqInputIndex y = Z.of_nat (length ip + 1 + length fp)
  /\ freqInputDotIndex y = Z.of_nat (length ip).
Proof.
  intros Hlen Hip Hfp Hne Hmax.
  destruct (entry_parts _ _ _ _ _ (FreqInput_entry s)) as (A0 & I0 & D0 & _).
  set (x0 := FreqInput s) in *. clearbody x0.
  assert (L0 : length (freqInputArr x0) = 10%nat) by (rewrite A0; exact Hlen).
  assert (Hpos : (1 <= length ip)%nat)
    by (destruct ip; [congruence | cbn; lia]).
  assert (H0 : 0 <= freqInputIndex x0) by lia.
  assert (H1 : freqInputIndex x0 + Z.of_nat (length ip) <= 10) by lia.
  destruct (typed_digits cfg ip x0 Hip H0 H1 L0)
    as (I1 & D1 & L1 & _ & K1 & T1).
  cbv zeta in I1, D1, L1, K1, T1. rewrite I0 in I1, K1. rewrite D0 in D1.
  cbv zeta. rewrite typed_app, typed_cons.
  set (x1 := typed cfg ip x0) in *. clearbody x1.
  assert (Hn0 : freqInputIndex x1 <> 0) by lia.
  assert (Hin : 0 <= freqInputIndex x1 < 10) by lia.
  destruct (key_accepted cfg KEY_STAR x1
              (or_intror (conj eq_refl (conj Hn0 D1))) Hin L1)
    as (I2 & D2 & L2 & A2 & _ & T2).
  cbv zeta in I2, D2, L2, A2, T2.
  change (KEY_eqb KEY_STAR KEY_STAR) with true in D2. cbv iota in D2.
  set (x2 := OnKeyDownFreqInput cfg KEY_STAR x1) in *. clearbody x2.
  assert (H2 : 0 <= freqInputIndex x2) by lia.
  assert (H3 : freqInputIndex x2 + Z.of_nat (length fp) <= 10) by lia.
  destruct (typed_digits cfg fp x2 Hfp H2 H3 L2)
    as (I3 & D3 & L3 & A3 & K3 & T3).
  cbv zeta in I3, D3, L3, A3, K3, T3.
  assert (T : tempFreq (typed cfg fp x2)
              = freq_value (freqInputArr (typed cfg fp x2))
                  (freqInputIndex (typed cfg fp x2))
                  (freqInputDotIndex (typed cfg fp x2))).
  { destruct fp as [|k fp']; [exact T2 | apply T3; discriminate]. }
  set (x3 := typed cfg fp x2) in *. clearbody x3.
  split; [|split; lia].
  rewrite T, I3, D3, I2, D2, I1.
  apply freq_value_dotted.
  - exact Hpos.
  - intros i Hi. rewrite A3 by lia. rewrite A2 by lia. exact (K1 i Hi).
  - intros j Hj. rewrite <- (K3 j Hj). f_equal. lia.
Qed.

(** X27. Frequency entry reads the keys as a decimal number of MHz.  After
    the frequency-input state was entered, typing any digits [ip] leaves
    [tempFreq] at the number that the first ten of them spell, in MHz (in
    units of 10 Hz, so [100000] per MHz) and modulo [2^32], as the 32-bit
    variable does; digits after the tenth are ignored.  When [ip] has one
    to nine digits, typing then the star key and the digits [fp] adds as
    decimal places the digits of [fp] that still fit in the ten slots: the
    first is worth 100 kHz, each further one a tenth of the one before, and
    a sixth or later decimal place counts for nothing. *)
Theorem UpdateFreqInput_decimal (cfg : Config) (s : Session)
    (ip fp : list KEY_Code_t) :
  length (freqInputArr s) = 10%nat ->
  Forall is_digit ip -> Forall is_digit fp ->
  tempFreq (typed cfg ip (FreqInput s))
  = u32 (100000 * decimal (take 10 ip))
  /\ ((1 <= length ip <= 9)%nat ->
      let fp' := take (9 - length ip) fp in
      let y := typed cfg (ip ++ KEY_STAR :: fp) (FreqInput s) in
      tempFreq y = u32 (100000 * decimal ip + fraction 10000 fp')
      /\ freqInputIndex y = Z.of_nat (length ip + 1 + length fp')
      /\ freqInputDotIndex y = Z.of_nat (length ip)).
Proof.
  intros Hlen Hip Hfp. split.
  - rewrite <- (take_drop 10 ip) at 1. rewrite typed_app.
    assert (Ht : Forall is_digit (take 10 ip)) by (apply Forall_take; exact Hip).
    assert (Hl : (length (take 10 ip) <= 10)%nat)
      by (rewrite length_take; lia).
    destruct (typed_plain cfg s (take 10 ip) Hlen Ht Hl) as [T I].
    destruct (Nat.le_gt_cases (length ip) 10) as [Hle | Hgt].
    + rewrite drop_ge by exact Hle.
      change (typed cfg [] ?x) with x. exact T.
    + rewrite typed_full; [exact T | |].
      * rewrite I, length_take. lia.
      * apply digits_or_star, Forall_drop. exact Hip.
  - intros Hn fp' y. subst y.
    assert (Hne : ip <> []) by (destruct ip; [cbn in Hn; lia | discriminate]).
    assert (Hf' : Forall is_digit fp') by (apply Forall_take; exact Hfp).
    assert (Hl' : (length ip + 1 + length fp' <= 10)%nat)
      by (subst fp'; rewrite length_take; lia).
    destruct (typed_dotted cfg s ip fp' Hlen Hip Hf' Hne Hl') as (T & I & D).
    cbv zeta in T, I, D.
    replace (ip ++ KEY_STAR :: fp)
      with ((ip ++ KEY_STAR :: fp') ++ drop (9 - length ip) fp).
    2:{ rewrite <- app_assoc. cbn [app]. subst fp'.
        rewrite take_drop. reflexivity. }
    rewrite typed_app.
    destruct (Nat.le_gt_cases (length fp) (9 - length ip)) as [Hle | Hgt].
    + rewrite (drop_ge fp) by exact Hle.
      change (typed cfg [] ?x) with x. split; [exact T|]. split; assumption.
    + rewrite typed_full; [split; [exact T|]; split; assumption | |].
      * rewrite I. subst fp'. rewrite length_take. lia.
      * apply digits_or_star, Forall_drop. exact Hfp.
Qed.

Lemma UpdateFreqInput_decimal_witness :
  tempFreq (typed example_config [KEY_1; KEY_4; KEY_5]
              (FreqInput example_start))
  = u32 (100000 * decimal (take 10 [KEY_1; KEY_4; KEY_5]))
  /\ ((1 <= length [KEY_1; KEY_4; KEY_5] <= 9)%nat ->
      let fp' :=
        take (9 - length [KEY_1; KEY_4; KEY_5]) [KEY_5; KEY_2; KEY_5] in
      let y :=
        typed example_config
          ([KEY_1; KEY_4; KEY_5] ++ KEY_STAR :: [KEY_5; KEY_2; KEY_5])
          (FreqInput example_start) in
      tempFreq y
      = u32 (100000 * decimal [KEY_1; KEY_4; KEY_5] + fraction 10000 fp')
      /\ freqInputIndex y
         = Z.of_nat (length [KEY_1; KEY_4; KEY_5] + 1 + length fp')
      /\ freqInputDotIndex y = Z.of_nat (length [KEY_1; KEY_4; KEY_5])).
Proof.
  apply (UpdateFreqInput_decimal example_config example_start
           [KEY_1; KEY_4; KEY_5] [KEY_5; KEY_2; KEY_5]).
  - reflexivity.
  - repeat constructor; vm_compute; discriminate.
  - repeat constructor; vm_compute; discriminate.
Defined.

(** Twelve digits: the eleventh and the twelfth are ignored, and the ten
    that count wrap around [2^32]. Eight digits, the dot and two more: the
    second decimal place finds no slot. *)
Example UpdateFreqInput_decimal_overlong :
  tempFreq
    (typed example_config
       [KEY_1; KEY_2; KEY_3; KEY_4; KEY_5; KEY_6; KEY_7; KEY_8; KEY_9;
        KEY_0; KEY_1; KEY_2] (FreqInput example_start))
  = (1234567890 * 100000) mod 2 ^ 32
  /\ tempFreq
       (typed example_config
          [KEY_0; KEY_0; KEY_0; KEY_0; KEY_0; KEY_1; KEY_4; KEY_5;
           KEY_STAR; KEY_5; KEY_2] (FreqInput example_start))
     = 14550000.
Proof. split; vm_compute; reflexivity. Qed.

(** *** The invariant of the frequency entry, and the backspace *)

Lemma for_loop_ext_below {S : Type} (body body' : nat -> S -> S) (n : nat)
    (s : S) :
  (forall k x, (k < n)%nat -> body k x = body' k x) ->
  for_loop n body s = for_loop n body' s.
Proof.
  induction n as [|n IH]; intros Heq.
  - reflexivity.
  - rewrite !for_loop_S, IH by (intros k x Hk; apply Heq; lia).
    apply Heq. lia.
Qed.

Lemma freq_digit_ext (arr arr' : list KEY_Code_t) (idx i : Z) :
  (forall j : nat, Z.of_nat j < idx -> arr !!! j = arr' !!! j) ->
  0 <= i < idx ->
  freq_digit arr i = freq_digit arr' i.
Proof.
  intros H Hi. unfold freq_digit. rewrite (H (Z.to_nat i)) by lia.
  reflexivity.
Qed.

(** The value depends on the keys below the index only. *)
Lemma freq_value_ext (arr arr' : list KEY_Code_t) (idx dot : Z) :
  0 <= dot <= idx ->
  (forall j : nat, Z.of_nat j < idx -> arr !!! j = arr' !!! j) ->
  freq_value arr idx dot = freq_value arr' idx dot.
Proof.
  intros Hdot H. unfold freq_value.
  set (d := if dot =? 0 then idx else dot).
  assert (Hd : 0 <= d <= idx) by (subst d; destruct (dot =? 0); lia).
  clearbody d. unfold freq_loops.
  set (L := for_loop (Z.to_nat d) _ (0, 100000)).
  set (L' := for_loop (Z.to_nat d) _ (0, 100000)).
  assert (E : L = L').
  { subst L L'. apply for_loop_ext_below. intros k [tf base] Hk.
    rewrite (freq_digit_ext arr arr' idx) by (exact H || lia).
    reflexivity. }
  clearbody L L'. subst L'. destruct L as [tf base].
  destruct (d <? idx); [|reflexivity].
  set (M := for_loop _ _ (tf, 10000)).
  set (M' := for_loop _ _ (tf, 10000)).
  assert (E : M = M').
  { subst M M'. apply for_loop_ext_below. intros k [tf' base'] Hk.
    rewrite (freq_digit_ext arr arr' idx) by (exact H || lia).
    reflexivity. }
  rewrite E. reflexivity.
Qed.

Lemma UpdateFreqInput_exit (s : Session) :
  1 <= freqInputIndex s <= 10 ->
  let idx' := freqInputIndex s - 1 in
  let dot' := if freqInputDotIndex s =? idx' then 0
              else freqInputDotIndex s in
  entry (UpdateFreqInput KEY_EXIT s)
  = (freqInputArr s, idx', dot', freq_value (freqInputArr s) idx' dot').
Proof.
  intros Hidx idx' dot'. unfold UpdateFreqInput.
  change (KEY_eqb KEY_EXIT KEY_EXIT) with true.
  change (KEY_eqb KEY_EXIT KEY_STAR) with false.
  cbn [negb andb]. cbv zeta.
  set (s3 := ResetFreqInput _).
  set (s4 := for_loop 10 _ s3).
  assert (E3 : entry s3 = (freqInputArr s, idx', dot', 0)).
  { subst s3. rewrite ResetFreqInput_entry. subst idx' dot'. unfold u8.
    cbn [freqInputArr freqInputIndex freqInputDotIndex tempFreq
         set_freqInputIndex set_freqInputArr set_freqInputDotIndex].
    rewrite Z.mod_small by lia.
    destruct (freqInputDotIndex s =? freqInputIndex s - 1); reflexivity. }
  assert (E4 : entry s4 = (freqInputArr s, idx', dot', 0)).
  { rewrite <- E3. subst s4.
    apply (for_loop_inv (fun x => entry x = entry s3)); [|reflexivity].
    intros k x Hx. destruct (Z.of_nat k <? freqInputIndex x); exact Hx. }
  clearbody s4 s3.
  destruct (entry_parts _ _ _ _ _ E3) as (_ & I3 & D3 & _).
  destruct (entry_parts _ _ _ _ _ E4) as (A4 & I4 & D4 & T4).
  rewrite I3, D3, A4, I4, T4.
  unfold freq_value, freq_loops.
  destruct (for_loop _ _ (0, 100000)) as [tf1 b1].
  destruct (if _ <? idx' then _ else _) as [tf2 b2].
  unfold entry.
  cbn [freqInputArr freqInputIndex freqInputDotIndex tempFreq
       set_redrawScreen set_tempFreq].
  rewrite A4, I4, D4. reflexivity.
Qed.

Lemma composing_of_entry (x : Session) (arr : list KEY_Code_t)
    (idx dot tf : Z) :
  entry x = (arr, idx, dot, tf) ->
  length arr = 10%nat -> 0 <= idx <= 10 ->
  dot = 0 \/ 0 < dot < idx ->
  tf = freq_value arr idx dot ->
  composing x.
Proof.
  intros E L I D T.
  destruct (entry_parts _ _ _ _ _ E) as (EA & EI & ED & ET).
  unfold composing. rewrite EA, EI, ED, ET. tauto.
Qed.

Lemma freq_value_empty (arr : list KEY_Code_t) : freq_value arr 0 0 = 0.
Proof. reflexivity. Qed.

Lemma FreqInput_composing (s : Session) :
  length (freqInputArr s) = 10%nat -> composing (FreqInput s).
Proof.
  intros L.
  apply (composing_of_entry _ _ _ _ _ (FreqInput_entry s));
    [exact L | lia | left; reflexivity | reflexivity].
Qed.

Lemma key_kinds (k : KEY_Code_t) :
  is_digit k \/ k = KEY_STAR \/ k = KEY_EXIT \/ k = KEY_MENU
  \/ (forall (cfg : Config) (s : Session), OnKeyDownFreqInput cfg k s = s).
Proof.
  destruct k;
    first [ left; vm_compute; discriminate
          | right; left; reflexivity
          | right; right; left; reflexivity
          | right; right; right; left; reflexivity
          | right; right; right; right; intros cfg s; reflexivity ].
Qed.

Lemma OnKeyDownFreqInput_EXIT (cfg : Config) (s : Session) :
  OnKeyDownFreqInput cfg KEY_EXIT s
  = if freqInputIndex s =? 0 then SetState (previousState s) s
    else UpdateFreqInput KEY_EXIT s.
Proof. reflexivity. Qed.

Lemma composing_step (cfg : Config) (k : KEY_Code_t) (x : Session) :
  k <> KEY_MENU -> composing x -> composing (OnKeyDownFreqInput cfg k x).
Proof.
  intros Hk C. pose proof C as (L & I & D & T).
  assert (Typed : is_digit k \/ k = KEY_STAR ->
                  composing (OnKeyDownFreqInput cfg k x)).
  { intros Hd.
    destruct (OnKeyDownFreqInput_digit cfg k x Hd) as [E Hne].
    destruct (Z_le_gt_dec 10 (freqInputIndex x)) as [Hfull | Hroom].
    { rewrite E, UpdateFreqInput_refused by (exact Hne || (left; exact Hfull)).
      exact C. }
    assert (Hin : 0 <= freqInputIndex x < 10) by lia.
    assert (Acc : is_digit k
                  \/ (k = KEY_STAR /\ freqInputIndex x <> 0
                      /\ freqInputDotIndex x = 0) ->
                  composing (OnKeyDownFreqInput cfg k x)).
    { intros Ha.
      destruct (key_accepted cfg k x Ha Hin L)
        as (KI & KD & KL & _ & _ & KT).
      cbv zeta in KI, KD, KL, KT.
      unfold composing. rewrite KT, KI, KD, KL.
      split; [reflexivity|]. split; [lia|]. split; [|reflexivity].
      destruct (KEY_eqb k KEY_STAR) eqn:Es.
      - apply KEY_eqb_eq in Es. destruct Ha as [Ha | Ha].
        + subst k. unfold is_digit in Ha. vm_compute in Ha.
          exfalso. apply Ha. reflexivity.
        + right. lia.
      - destruct D as [D | D]; [left; exact D | right; lia]. }
    destruct Hd as [Hd | ->]; [apply Acc; left; exact Hd|].
    destruct (Z.eq_dec (freqInputIndex x) 0) as [Z0 | N0].
    { rewrite E, UpdateFreqInput_refused
        by (exact Hne || (right; split; [reflexivity | left; exact Z0])).
      exact C. }
    destruct (Z.eq_dec (freqInputDotIndex x) 0) as [D0 | ND].
    { apply Acc. right. tauto. }
    rewrite E, UpdateFreqInput_refused
      by (exact Hne || (right; split; [reflexivity | right; exact ND])).
    exact C. }
  destruct (key_kinds k) as [Hd | [Hs | [-> | [Hm | Hother]]]].
  - apply Typed. left. exact Hd.
  - apply Typed. right. exact Hs.
  - rewrite OnKeyDownFreqInput_EXIT.
    destruct (freqInputIndex x =? 0) eqn:E0.
    + apply (composing_of_entry _ _ _ _ _ (SetState_entry _ x)); assumption.
    + apply Z.eqb_neq in E0.
      assert (Hidx : 1 <= freqInputIndex x <= 10) by lia.
      pose proof (UpdateFreqInput_exit x Hidx) as E. cbv zeta in E.
      apply (composing_of_entry _ _ _ _ _ E).
      * exact L.
      * lia.
      * destruct (freqInputDotIndex x =? freqInputIndex x - 1) eqn:Ed;
          [left; reflexivity|].
        apply Z.eqb_neq in Ed. destruct D as [D | D]; [left; exact D|].
        right. lia.
      * reflexivity.
  - contradiction.
  - rewrite Hother. exact C.
Qed.

(** X28. The frequency entry never leaves its ten slots: from the moment the
    state is entered, whatever keys other than MENU are pressed and in
    whatever order, the index stays within 0..10, the dot is absent or lies
    strictly before the index, and [tempFreq] is the value of the keys
    entered so far. *)
Theorem FreqInput_invariant (cfg : Config) (s : Session)
    (ks : list KEY_Code_t) :
  length (freqInputArr s) = 10%nat ->
  Forall (fun k => k <> KEY_MENU) ks ->
  composing (typed cfg ks (FreqInput s)).
Proof.
  intros L Hks. pose proof (FreqInput_composing s L) as C.
  generalize dependent (FreqInput s). clear L s.
  induction Hks as [|k ks Hk Hks IH]; intros x C.
  - exact C.
  - rewrite typed_cons. apply IH. apply composing_step; assumption.
Qed.

Lemma FreqInput_invariant_witness :
  composing
    (typed example_config
       [KEY_1; KEY_STAR; KEY_STAR; KEY_EXIT; KEY_4; KEY_UP; KEY_EXIT;
        KEY_EXIT; KEY_EXIT]
       (FreqInput example_start)).
Proof.
  apply (FreqInput_invariant example_config example_start).
  - reflexivity.
  - repeat constructor; discriminate.
Defined.

(** X29. The EXIT key is a backspace: after a digit or a dot was accepted,
    EXIT puts the index, the dot, the keys before the index and [tempFreq]
    back to what they were. *)
Theorem OnKeyDownFreqInput_backspace (cfg : Config) (k : KEY_Code_t)
    (x : Session) :
  composing x ->
  freqInputIndex x < 10 ->
  is_digit k
  \/ (k = KEY_STAR /\ freqInputIndex x <> 0 /\ freqInputDotIndex x = 0) ->
  let y := OnKeyDownFreqInput cfg KEY_EXIT (OnKeyDownFreqInput cfg k x) in
  freqInputIndex y = freqInputIndex x
  /\ freqInputDotIndex y = freqInputDotIndex x
  /\ tempFreq y = tempFreq x
  /\ (forall i : nat,
        Z.of_nat i < freqInputIndex x ->
        freqInputArr y !!! i = freqInputArr x !!! i).
Proof.
  intros (L & I & D & T) Hroom Ha y. subst y.
  assert (Hin : 0 <= freqInputIndex x < 10) by lia.
  destruct (key_accepted cfg k x Ha Hin L) as (KI & KD & KL & KA & _ & _).
  cbv zeta in KI, KD, KL, KA.
  assert (KD' : freqInputDotIndex (OnKeyDownFreqInput cfg k x)
                = freqInputIndex x /\ freqInputDotIndex x = 0
                \/ freqInputDotIndex (OnKeyDownFreqInput cfg k x)
                   = freqInputDotIndex x).
  { destruct (KEY_eqb k KEY_STAR) eqn:Es; [|right; exact KD].
    apply KEY_eqb_eq in Es. destruct Ha as [Ha | Ha].
    - subst k. unfold is_digit in Ha. vm_compute in Ha.
      exfalso. apply Ha. reflexivity.
    - left. tauto. }
  clear KD.
  set (x1 := OnKeyDownFreqInput cfg k x) in *. clearbody x1.
  rewrite OnKeyDownFreqInput_EXIT.
  replace (freqInputIndex x1 =? 0) with false
    by (symmetry; apply Z.eqb_neq; lia).
  assert (Hidx : 1 <= freqInputIndex x1 <= 10) by lia.
  pose proof (UpdateFreqInput_exit x1 Hidx) as E. cbv zeta in E.
  destruct (entry_parts _ _ _ _ _ E) as (EA & EI & ED & ET).
  assert (Edot : (if freqInputDotIndex x1 =? freqInputIndex x1 - 1
                  then 0 else freqInputDotIndex x1)
                 = freqInputDotIndex x).
  { destruct (freqInputDotIndex x1 =? freqInputIndex x1 - 1) eqn:Ed.
    - apply Z.eqb_eq in Ed. lia.
    - apply Z.eqb_neq in Ed. lia. }
  rewrite Edot in ED, ET.
  replace (freqInputIndex x1 - 1) with (freqInputIndex x) in EI, ET by lia.
  split; [exact EI|]. split; [exact ED|]. split.
  - rewrite ET, T. apply freq_value_ext; [lia|]. exact KA.
  - intros i Hi. rewrite EA. apply KA. exact Hi.
Qed.

Lemma OnKeyDownFreqInput_backspace_witness :
  let x := typed example_config [KEY_1; KEY_4] (FreqInput example_start) in
  let y :=
    OnKeyDownFreqInput example_config KEY_EXIT
      (OnKeyDownFreqInput example_config KEY_STAR x) in
  freqInputIndex y = freqInputIndex x
  /\ freqInputDotIndex y = freqInputDotIndex x
  /\ tempFreq y = tempFreq x
  /\ (forall i : nat,
        Z.of_nat i < freqInputIndex x ->
        freqInputArr y !!! i = freqInputArr x !!! i).
Proof.
  apply (OnKeyDownFreqInput_backspace example_config KEY_STAR
           (typed example_config [KEY_1; KEY_4] (FreqInput example_start))).
  - unfold composing. vm_compute. repeat split; try discriminate.
    left. reflexivity.
  - vm_compute. reflexivity.
  - right. vm_compute. repeat split. discriminate.
Defined.
